(** * PC-ALE: a shallow embedding of the ALE / FS-1052 core and its properties

    The development follows the layout of the C++ sources:

    - [Golay]            src/fec/golay.cpp
    - [F32]              the arithmetic of [float]
    - [SymbolDecoder]    src/fsk/symbol_decoder.cpp
    - [WordParser]       src/protocol/ale_word.cpp
    - [LQADatabase]      src/lqa_database.cpp
    - [ALEStateMachine]  src/link/ale_state_machine.cpp
    - [FrameFormat]      src/fs1052/frame_format.cpp (data frames)
    - [VariableARQ]      src/fs1052/fs1052_arq.cpp (transmit side)

    Unsigned machine integers are values of [Z] with the wrap-around of the
    C++ type written out; [float] is IEEE-754 binary32, modelled by
    [spec_float] with precision 24 and maximal exponent 128. *)

From Stdlib Require Import ZArith List Lia Bool String Ascii.
From Stdlib Require Import Floats.SpecFloat.
From stdpp Require Import gmap strings list fin_maps.

Local Open Scope Z_scope.

(* ===================================================================== *)
(** * Machine integers *)
(* ===================================================================== *)

Definition u8 (z : Z) : Z := z mod 256.
Definition u16 (z : Z) : Z := z mod 65536.
Definition u32 (z : Z) : Z := z mod 4294967296.

(** [while (temp) { bits_set += (temp & 1); temp >>= 1; }] on the binary
    representation of the operand. *)
Fixpoint count_bits_pos (p : positive) : Z :=
  match p with
  | xH => 1
  | xO q => count_bits_pos q
  | xI q => 1 + count_bits_pos q
  end.

Definition count_bits (z : Z) : Z :=
  match z with
  | Zpos p => count_bits_pos p
  | _ => 0
  end.

(* ===================================================================== *)
(** * Extended Golay (24,12): src/fec/golay.cpp *)
(* ===================================================================== *)

Module Golay.

(** The initialisers that the source gives for [GOLAY_ENCODE_TABLE]: eight
    rows, a comment, and four more rows, 96 values in all. *)
Definition GOLAY_ENCODE_TABLE_initializers : list Z :=
  [ 0x000; 0x5C7; 0xB8D; 0xE4A; 0x2DE; 0x719; 0x953; 0xC94;
    0x5BC; 0x07B; 0xE31; 0xBF6; 0x762; 0x2A5; 0xCEF; 0x928;
    0xB78; 0xEBF; 0x0F5; 0x532; 0x9A6; 0xC61; 0x22B; 0x7EC;
    0xEC4; 0xB03; 0x549; 0x08E; 0xC1A; 0x9DD; 0x797; 0x250;
    0x337; 0x6F0; 0x8BA; 0xD7D; 0x1E9; 0x42E; 0xA64; 0xFA3;
    0x68B; 0x34C; 0xD06; 0x8C1; 0x455; 0x192; 0xFD8; 0xA1F;
    0x84F; 0xD88; 0x3C2; 0x605; 0xA91; 0xF56; 0x11C; 0x4DB;
    0xDF3; 0x834; 0x67E; 0x3B9; 0xF2D; 0xAEA; 0x4A0; 0x167;
    0x66D; 0x3AA; 0xDE0; 0x827; 0x4B3; 0x174; 0xF3E; 0xAF9;
    0x3D1; 0x616; 0x85C; 0xD9B; 0x10F; 0x4C8; 0xA82; 0xF45;
    0xD15; 0x8D2; 0x698; 0x35F; 0xFCB; 0xA0C; 0x446; 0x181;
    0x8A9; 0xD6E; 0x324; 0x6E3; 0xA77; 0xFB0; 0x1FA; 0x43D ].

(** [static constexpr std::array<uint16_t, 4096> GOLAY_ENCODE_TABLE = {...}]:
    aggregate initialisation zero-fills the elements that have no
    initialiser. *)
Definition GOLAY_ENCODE_TABLE : list Z :=
  GOLAY_ENCODE_TABLE_initializers ++ repeat 0 (4096 - 96)%nat.

Definition table_at (tbl : list Z) (i : Z) : Z := nth (Z.to_nat i) tbl 0.

(** [uint32_t Golay::encode(uint16_t info)] *)
Definition encode (info : Z) : Z :=
  let parity := table_at GOLAY_ENCODE_TABLE (Z.land info 0xFFF) in
  let codeword := Z.lor (u32 (Z.shiftl info 12)) parity in
  codeword.

(** [uint8_t Golay::compute_parity(uint32_t value)] *)
Definition compute_parity (value : Z) : Z := (count_bits value) mod 2.

(** [uint16_t Golay::compute_syndrome(uint32_t codeword)] *)
Definition compute_syndrome (codeword : Z) : Z :=
  let info := Z.land (Z.shiftr codeword 12) 0xFFF in
  let received_parity := Z.land codeword 0xFFF in
  let expected_parity := table_at GOLAY_ENCODE_TABLE info in
  let syndrome := Z.lxor received_parity expected_parity in
  syndrome.

(** [uint16_t Golay::extract_info(uint32_t codeword)] *)
Definition extract_info (codeword : Z) : Z := Z.land (Z.shiftr codeword 12) 0xFFF.

(** [uint16_t Golay::extract_parity(uint32_t codeword)] *)
Definition extract_parity (codeword : Z) : Z := Z.land codeword 0xFFF.

(** The static members of the class. *)
Record statics := {
  syndrome_table : list Z;               (* std::array<uint32_t, 4096> *)
  syndrome_table_initialized : bool
}.

(** [Golay::syndrome_table = {}], [syndrome_table_initialized = false] *)
Definition statics_at_load : statics :=
  {| syndrome_table := repeat 0 4096%nat; syndrome_table_initialized := false |}.

(** The body shared by the three enumeration loops:
    [if (syndrome_table[syndrome] == 0xFFFFFFFFU) syndrome_table[syndrome] = error_pattern;] *)
Definition record_pattern (tbl : list Z) (error_pattern : Z) : list Z :=
  let syndrome := compute_syndrome error_pattern in
  if table_at tbl syndrome =? 0xFFFFFFFF
  then <[Z.to_nat syndrome := error_pattern]> tbl
  else tbl.

(** [for (uint32_t b = lo; b < 24; ++b)] *)
Definition bits_from (lo : nat) : list nat := seq lo (24 - lo).

Definition bit (b : nat) : Z := Z.shiftl 1 (Z.of_nat b).

(** [bool Golay::init_syndrome_table()] *)
Definition init_syndrome_table (st : statics) : statics :=
  let tbl := repeat 0xFFFFFFFF (length (syndrome_table st)) in
  let tbl := <[0%nat := 0]> tbl in
  let tbl :=
    fold_left (fun tbl b => record_pattern tbl (bit b)) (bits_from 0) tbl in
  let tbl :=
    fold_left (fun tbl bit1 =>
      fold_left (fun tbl bit2 =>
        record_pattern tbl (Z.lor (bit bit1) (bit bit2)))
        (bits_from (bit1 + 1)) tbl)
      (bits_from 0) tbl in
  let tbl :=
    fold_left (fun tbl bit1 =>
      fold_left (fun tbl bit2 =>
        fold_left (fun tbl bit3 =>
          record_pattern tbl (Z.lor (Z.lor (bit bit1) (bit bit2)) (bit bit3)))
          (bits_from (bit2 + 1)) tbl)
        (bits_from (bit1 + 1)) tbl)
      (bits_from 0) tbl in
  {| syndrome_table := tbl; syndrome_table_initialized := true |}.

(** [uint8_t Golay::decode(uint32_t codeword, uint16_t& output)]:
    the result is [(return value, output, statics afterwards)].  The local
    [error_count = compute_parity(error_pattern)] of the source is never
    read. *)
Definition decode (st : statics) (codeword : Z) : Z * Z * statics :=
  let st := if syndrome_table_initialized st then st else init_syndrome_table st in
  let syndrome := compute_syndrome codeword in
  if syndrome =? 0 then
    (0, Z.land (Z.shiftr codeword 12) 0xFFF, st)
  else
    let error_pattern := table_at (syndrome_table st) syndrome in
    if error_pattern =? 0xFFFFFFFF then
      (0xFF, Z.land (Z.shiftr codeword 12) 0xFFF, st)
    else
      let corrected := Z.lxor codeword error_pattern in
      let output := Z.land (Z.shiftr corrected 12) 0xFFF in
      let bits_set := count_bits error_pattern in
      (u8 bits_set, output, st).

(** The only two values the static members ever take. *)
Definition statics_ready : statics := init_syndrome_table statics_at_load.

End Golay.

(* ===================================================================== *)
(** * IEEE-754 binary32: the C++ [float] *)
(* ===================================================================== *)

Module F32.

Definition prec : Z := 24.
Definition emax : Z := 128.

(** Conversion of an integer ([static_cast<float>], the usual arithmetic
    conversions and integer-valued literals), round to nearest even. *)
Definition of_Z (z : Z) : spec_float := binary_normalize prec emax z 0 false.

Definition add : spec_float -> spec_float -> spec_float := SFadd prec emax.
Definition sub : spec_float -> spec_float -> spec_float := SFsub prec emax.
Definition mul : spec_float -> spec_float -> spec_float := SFmul prec emax.
Definition div : spec_float -> spec_float -> spec_float := SFdiv prec emax.

(** A decimal literal [n/d] such as [0.3f]: the binary32 value nearest to the
    quotient of two exactly representable integers. *)
Definition literal (n d : Z) : spec_float := div (of_Z n) (of_Z d).

(** [std::max(a, b)] is [(a < b) ? b : a]; [std::min(a, b)] is
    [(b < a) ? b : a]. *)
Definition max (a b : spec_float) : spec_float := if SFltb a b then b else a.
Definition min (a b : spec_float) : spec_float := if SFltb b a then b else a.

Definition zero : spec_float := S754_zero false.

End F32.

(* ===================================================================== *)
(** * Symbol detection and voting: src/fsk/symbol_decoder.cpp *)
(* ===================================================================== *)

Module SymbolDecoder.

Definition FFT_SIZE : Z := 64.
Definition SYMBOLS_PER_WORD : Z := 49.
Definition BITS_PER_SYMBOL : Z := 3.
Definition WORD_BITS : Z := 24.
Definition SYMBOL_REPETITION : Z := 3.

(** [magnitudes[bin]] of a [std::array<float, FFT_SIZE>]. *)
Definition mag_at (magnitudes : list spec_float) (bin : Z) : spec_float :=
  nth (Z.to_nat bin) magnitudes F32.zero.

(** One iteration of [for (uint32_t bin = 6; bin <= 13; ++bin)], on the
    loop-carried pair [(peak_mag, peak_bin)]. *)
Definition detect_step (magnitudes : list spec_float)
    (acc : spec_float * Z) (bin : Z) : spec_float * Z :=
  let '(peak_mag, peak_bin) := acc in
  if (bin <? FFT_SIZE) && SFltb peak_mag (mag_at magnitudes bin)
  then (mag_at magnitudes bin, bin)
  else (peak_mag, peak_bin).

Definition tone_bins : list Z := [6; 7; 8; 9; 10; 11; 12; 13].

(** [float peak_mag = -1e6f] *)
Definition peak_mag_init : spec_float := F32.of_Z (-1000000).

(** [uint8_t SymbolDecoder::detect_symbol(const std::array<float, FFT_SIZE>&)] *)
Definition detect_symbol (magnitudes : list spec_float) : Z :=
  let '(peak_mag, peak_bin) :=
    fold_left (detect_step magnitudes) tone_bins (peak_mag_init, 0xFF) in
  if peak_bin =? 0xFF then 0xFF
  else
    let symbol := u8 (peak_bin - 6) in
    symbol.

(** [uint8_t SymbolDecoder::bin_to_symbol(uint32_t bin_index)] *)
Definition bin_to_symbol (bin_index : Z) : Z :=
  if (bin_index <? 6) || (13 <? bin_index) then 0xFF
  else u8 (bin_index - 6).

(** [uint8_t SymbolDecoder::majority_vote(const uint8_t bits[3])] *)
Definition majority_vote (bits : Z * Z * Z) : Z :=
  let '(b0, b1, b2) := bits in
  let sum := u8 (b0 + b1 + b2) in
  if 2 <=? sum then 1 else 0.

Definition symbol_at (symbols : list Z) (i : Z) : Z := nth (Z.to_nat i) symbols 0.

(** The body of the [rep] loop: the copy of bit [bit_idx] carried by the
    symbol at [bit_idx + rep * SYMBOLS_PER_WORD].  The guard
    [sym_idx >= SYMBOLS_PER_WORD * SYMBOL_REPETITION] never fires for
    [bit_idx < 24], [rep < 3]. *)
Definition bit_copy (symbols : list Z) (bit_idx rep : Z) : Z :=
  let sym_idx := bit_idx + rep * SYMBOLS_PER_WORD in
  let symbol := symbol_at symbols sym_idx in
  if 8 <=? symbol then 0xFF
  else
    let bit_in_symbol := bit_idx mod BITS_PER_SYMBOL in
    Z.land (Z.shiftr symbol bit_in_symbol) 1.

(** One iteration of the [bit_idx] loop on [(word, errors_corrected)]. *)
Definition vote_step (symbols : list Z) (acc : Z * Z) (bit_idx : Z) : Z * Z :=
  let '(word, errors_corrected) := acc in
  let c0 := bit_copy symbols bit_idx 0 in
  let c1 := bit_copy symbols bit_idx 1 in
  let c2 := bit_copy symbols bit_idx 2 in
  let final_bit := majority_vote (c0, c1, c2) in
  let errors_corrected :=
    if negb (c0 =? c1) || negb (c1 =? c2) || negb (c0 =? c2)
    then u32 (errors_corrected + 1) else errors_corrected in
  (Z.lor word (u32 (Z.shiftl final_bit bit_idx)), errors_corrected).

(** [uint32_t SymbolDecoder::decode_word_with_voting(symbols, output_word)]:
    the result is [(return value, output_word)]. *)
Definition decode_word_with_voting (symbols : list Z) : Z * Z :=
  let '(word, errors_corrected) :=
    fold_left (vote_step symbols) (map Z.of_nat (seq 0 24)) (0, 0) in
  (errors_corrected, word).

End SymbolDecoder.

(* ===================================================================== *)
(** * ALE word parser: src/protocol/ale_word.cpp *)
(* ===================================================================== *)

Module WordParser.

Inductive WordType :=
  | DATA | THRU | TO | TWS | FROM | TIS | CMD | REP | UNKNOWN.

(** [static_cast<WordType>(preamble)] for a [uint8_t] in 0..7; 0xFF is
    [UNKNOWN]. *)
Definition WordType_of_Z (z : Z) : WordType :=
  match z with
  | 0 => DATA | 1 => THRU | 2 => TO | 3 => TWS
  | 4 => FROM | 5 => TIS | 6 => CMD | 7 => REP
  | _ => UNKNOWN
  end.

(** [struct ALEWord]; [address] is the C string held in [char address[4]]. *)
Record ALEWord := {
  type : WordType;
  address : string;
  raw_payload : Z;
  fec_errors : Z;
  valid : bool;
  timestamp_ms : Z
}.

(** [ALEWord::ALEWord()] *)
Definition ALEWord_ctor : ALEWord :=
  {| type := UNKNOWN; address := EmptyString; raw_payload := 0;
     fec_errors := 0; valid := false; timestamp_ms := 0 |}.

Definition char_of (c : Z) : ascii := ascii_of_nat (Z.to_nat c).

(** [bool WordParser::is_valid_ale_char(char ch)] *)
Definition is_valid_ale_char (ch : Z) : bool :=
  if (65 <=? ch) && (ch <=? 90) then true          (* 'A' .. 'Z' *)
  else if (48 <=? ch) && (ch <=? 57) then true     (* '0' .. '9' *)
  else if (ch =? 32) || (ch =? 64) || (ch =? 63) || (ch =? 46)
          || (ch =? 45) || (ch =? 47) then true    (* ' ' '@' '?' '.' '-' '/' *)
  else false.

(** [WordType WordParser::extract_preamble(uint32_t word_bits)] *)
Definition extract_preamble (word_bits : Z) : WordType :=
  let preamble := u8 (Z.land word_bits 0x07) in
  if 7 <? preamble then UNKNOWN else WordType_of_Z preamble.

(** [uint32_t WordParser::extract_payload(uint32_t word_bits)] *)
Definition extract_payload (word_bits : Z) : Z :=
  Z.land (Z.shiftr word_bits 3) 0x1FFFFF.

(** [bool WordParser::decode_ascii(uint32_t payload, char output[4])]:
    the result is [(return value, output)]. *)
Definition decode_ascii (payload : Z) : bool * string :=
  let char0 := Z.land (Z.shiftr payload 0) 0x7F in
  let char1 := Z.land (Z.shiftr payload 7) 0x7F in
  let char2 := Z.land (Z.shiftr payload 14) 0x7F in
  if negb (is_valid_ale_char char0) || negb (is_valid_ale_char char1)
     || negb (is_valid_ale_char char2)
  then (false, "???"%string)
  else (true,
        String (char_of char0) (String (char_of char1)
          (String (char_of char2) EmptyString))).

(** [bool WordParser::parse_from_bits(uint32_t word_bits, ALEWord& output)] *)
Definition parse_from_bits (word_bits : Z) (output : ALEWord) : bool * ALEWord :=
  let '(ascii_valid, addr) := decode_ascii (extract_payload word_bits) in
  (ascii_valid,
   {| type := extract_preamble word_bits;
      address := addr;
      raw_payload := extract_payload word_bits;
      fec_errors := fec_errors output;
      valid := ascii_valid;
      timestamp_ms := timestamp_ms output |}).

Definition set_valid (v : bool) (w : ALEWord) : ALEWord :=
  {| type := type w; address := address w; raw_payload := raw_payload w;
     fec_errors := fec_errors w; valid := v; timestamp_ms := timestamp_ms w |}.

Definition set_fec_errors (n : Z) (w : ALEWord) : ALEWord :=
  {| type := type w; address := address w; raw_payload := raw_payload w;
     fec_errors := n; valid := valid w; timestamp_ms := timestamp_ms w |}.

(** [bool WordParser::parse_word(const uint8_t symbols[], ALEWord& output)]:
    the result is [(return value, output, Golay statics afterwards)]. *)
Definition parse_word (g : Golay.statics) (symbols : list Z) (output : ALEWord)
    : bool * ALEWord * Golay.statics :=
  let '(errors, raw_word) := SymbolDecoder.decode_word_with_voting symbols in
  let '(fec_errors, decoded_info, g) := Golay.decode g raw_word in
  if fec_errors =? 0xFF then
    (false, set_valid false output, g)
  else
    let output := set_fec_errors fec_errors output in
    let '(r, output) := parse_from_bits (Z.land raw_word 0xFFFFFF) output in
    (r, output, g).

(** [uint32_t WordParser::encode_ascii(const char chars[3])].  The three
    [char]s are given by their values; [is_valid_ale_char] accepts no
    negative one, so the signedness of [char] plays no role. *)
Definition encode_ascii (chars : Z * Z * Z) : Z :=
  let '(c0, c1, c2) := chars in
  if negb (is_valid_ale_char c0) || negb (is_valid_ale_char c1)
     || negb (is_valid_ale_char c2)
  then 0xFFFFFFFF
  else
    let payload := 0 in
    let payload := Z.lor payload (Z.shiftl (Z.land c0 0x7F) 0) in
    let payload := Z.lor payload (Z.shiftl (Z.land c1 0x7F) 7) in
    let payload := Z.lor payload (Z.shiftl (Z.land c2 0x7F) 14) in
    Z.land payload 0x1FFFFF.

End WordParser.

(* ===================================================================== *)
(** * Address book: src/protocol/ale_word.cpp *)
(* ===================================================================== *)

Module AddressBook.

(** The value of a [char] of a [std::string], read as unsigned; the tests
    made on it ([is_valid_ale_char], comparison with ['@'] and [' ']) give
    the same result for a signed [char]. *)
Definition char_code (c : ascii) : Z := Z.of_nat (nat_of_ascii c).

(** [class AddressBook]: [stations] and [nets] are vectors of
    (address, name) pairs in insertion order. *)
Record book := {
  self_address : string;
  stations : list (string * string);
  nets : list (string * string)
}.

(** [AddressBook::AddressBook()] *)
Definition ctor : book :=
  {| self_address := EmptyString; stations := []; nets := [] |}.

(** [bool AddressBook::set_self_address(const std::string& address)]:
    the result is [(return value, book afterwards)]. *)
Definition set_self_address (address : string) (b : book) : bool * book :=
  let len := Z.of_nat (String.length address) in
  if (len <? 3) || (15 <? len) then (false, b)
  else if negb (forallb (fun ch => WordParser.is_valid_ale_char (char_code ch))
                  (list_ascii_of_string address))
  then (false, b)
  else (true, {| self_address := address; stations := stations b; nets := nets b |}).

(** [std::string get_self_address() const] *)
Definition get_self_address (b : book) : string := self_address b.

(** The search loop shared by [add_station], [add_net], [is_known_station]
    and [is_known_net]: whether some pair's first component is [address]. *)
Definition listed (address : string) (l : list (string * string)) : bool :=
  existsb (fun p => String.eqb (fst p) address) l.

(** [void AddressBook::add_station(const std::string& address, const std::string& name)] *)
Definition add_station (address name : string) (b : book) : book :=
  if listed address (stations b) then b
  else {| self_address := self_address b;
          stations := stations b ++ [(address, name)];
          nets := nets b |}.

(** [void AddressBook::add_net(const std::string& net_address, const std::string& description)] *)
Definition add_net (net_address description : string) (b : book) : book :=
  if listed net_address (nets b) then b
  else {| self_address := self_address b;
          stations := stations b;
          nets := nets b ++ [(net_address, description)] |}.

(** [bool AddressBook::is_self(const std::string& address) const] *)
Definition is_self (address : string) (b : book) : bool :=
  String.eqb address (self_address b).

(** [bool AddressBook::is_known_station(const std::string& address) const] *)
Definition is_known_station (address : string) (b : book) : bool :=
  listed address (stations b).

(** [bool AddressBook::is_known_net(const std::string& address) const] *)
Definition is_known_net (address : string) (b : book) : bool :=
  listed address (nets b).

(** The [for] loop of [match_wildcard] over two strings of equal length. *)
Fixpoint match_wildcard_loop (pattern address : string) : bool :=
  match pattern, address with
  | String p pattern, String a address =>
      if Ascii.eqb p "@" then match_wildcard_loop pattern address
      else if negb (Ascii.eqb p a) then false
      else match_wildcard_loop pattern address
  | _, _ => true
  end.

(** [bool AddressBook::match_wildcard(const std::string& pattern, const std::string& address)] *)
Definition match_wildcard (pattern address : string) : bool :=
  if negb (Nat.eqb (String.length pattern) (String.length address)) then false
  else match_wildcard_loop pattern address.

End AddressBook.

(* ===================================================================== *)
(** * Message assembly: src/protocol/ale_message.cpp *)
(* ===================================================================== *)

Module MessageAssembler.

Import WordParser.

(** [enum class CallType] *)
Inductive CallType :=
  | INDIVIDUAL | NET | GROUP | ALL_CALL | SOUNDING | AMD
  | INDIVIDUAL_ACK | NET_ACK | UNKNOWN_CALL.          (* [CallType::UNKNOWN] *)

(** [struct ALEMessage] *)
Record ALEMessage := {
  call_type : CallType;
  to_addresses : list string;
  from_address : string;
  data_content : list string;
  words : list ALEWord;
  start_time_ms : Z;
  duration_ms : Z;
  complete : bool
}.

(** [ALEMessage::ALEMessage()] *)
Definition ALEMessage_ctor : ALEMessage :=
  {| call_type := UNKNOWN_CALL; to_addresses := []; from_address := EmptyString;
     data_content := []; words := []; start_time_ms := 0; duration_ms := 0;
     complete := false |}.

(** [class MessageAssembler] *)
Record assembler := {
  current_words : list ALEWord;
  current_message : ALEMessage;
  active : bool;
  last_word_time_ms : Z;
  word_timeout_ms : Z
}.

(** [MessageAssembler::MessageAssembler()] *)
Definition ctor : assembler :=
  {| current_words := []; current_message := ALEMessage_ctor; active := false;
     last_word_time_ms := 0; word_timeout_ms := 5000 |}.

(** [void set_timeout(uint32_t timeout_ms)] *)
Definition set_timeout (timeout_ms : Z) (s : assembler) : assembler :=
  {| current_words := current_words s; current_message := current_message s;
     active := active s; last_word_time_ms := last_word_time_ms s;
     word_timeout_ms := timeout_ms |}.

(** [bool is_active() const] *)
Definition is_active (s : assembler) : bool := active s.

(** [void MessageAssembler::reset()] *)
Definition reset (s : assembler) : assembler :=
  {| current_words := []; current_message := ALEMessage_ctor; active := false;
     last_word_time_ms := 0; word_timeout_ms := word_timeout_ms s |}.

(** [bool MessageAssembler::check_timeout(uint32_t current_time_ms)] *)
Definition check_timeout (current_time_ms : Z) (s : assembler) : bool :=
  if current_time_ms <? last_word_time_ms s then false
  else word_timeout_ms s <? u32 (current_time_ms - last_word_time_ms s).

(** Whether some word of the sequence has the given type: the flag a loop
    of the form [for (word : words) if (word.type == T) flag = true;]
    leaves. *)
Definition has_type (t : WordType -> bool) (ws : list ALEWord) : bool :=
  existsb (fun w => t (type w)) ws.

Definition is_TO (t : WordType) : bool := match t with TO => true | _ => false end.
Definition is_TWS (t : WordType) : bool := match t with TWS => true | _ => false end.
Definition is_FROM (t : WordType) : bool := match t with FROM => true | _ => false end.
Definition is_TIS (t : WordType) : bool := match t with TIS => true | _ => false end.
Definition is_DATA (t : WordType) : bool := match t with DATA => true | _ => false end.

(** [bool CallTypeDetector::is_individual_call(const std::vector<ALEWord>&)] *)
Definition is_individual_call (ws : list ALEWord) : bool :=
  has_type is_TO ws && has_type is_FROM ws.

(** [bool CallTypeDetector::is_net_call(const std::vector<ALEWord>&)] *)
Definition is_net_call (ws : list ALEWord) : bool :=
  has_type is_TWS ws && has_type is_FROM ws.

(** [bool CallTypeDetector::is_sounding(const std::vector<ALEWord>&)] *)
Definition is_sounding (ws : list ALEWord) : bool := has_type is_TIS ws.

(** [bool CallTypeDetector::is_amd(const std::vector<ALEWord>&)] *)
Definition is_amd (ws : list ALEWord) : bool :=
  has_type is_TO ws && has_type is_FROM ws && has_type is_DATA ws.

(** [CallType CallTypeDetector::detect(const std::vector<ALEWord>& words)] *)
Definition detect (ws : list ALEWord) : CallType :=
  match ws with
  | [] => UNKNOWN_CALL
  | _ :: _ =>
      if is_sounding ws then SOUNDING
      else if is_amd ws then AMD
      else if is_individual_call ws then INDIVIDUAL
      else if is_net_call ws then NET
      else UNKNOWN_CALL
  end.

(** [CallType MessageAssembler::determine_call_type(const std::vector<ALEWord>&)] *)
Definition determine_call_type (ws : list ALEWord) : CallType := detect ws.

(** [bool MessageAssembler::is_sequence_complete(const std::vector<ALEWord>&)] *)
Definition is_sequence_complete (ws : list ALEWord) : bool :=
  match ws with
  | [] => false
  | _ :: _ =>
      let has_to := has_type (fun t => is_TO t || is_TWS t) ws in
      let has_from := has_type is_FROM ws in
      let has_tis := has_type is_TIS ws in
      if has_tis then true
      else if has_to && has_from then true
      else false
  end.

(** [std::string addr(word.address, 3)]: the first three elements of
    [char address[4]], which holds the C string [address] followed by NUL
    characters (as [ALEWord()], [decode_ascii] and [strncpy] leave it). *)
Definition address_chars (w : ALEWord) : string :=
  substring 0 3 (address w ++ String zero (String zero (String zero EmptyString))).

(** [s.erase(s.find_last_not_of(' ') + 1)]: [s] without its trailing
    spaces. *)
Fixpoint erase_trailing_spaces (s : string) : string :=
  match s with
  | EmptyString => EmptyString
  | String c rest =>
      match erase_trailing_spaces rest with
      | EmptyString => if Ascii.eqb c " " then EmptyString else String c EmptyString
      | t => String c t
      end
  end.

Definition push_to (addr : string) (msg : ALEMessage) : ALEMessage :=
  {| call_type := call_type msg; to_addresses := to_addresses msg ++ [addr];
     from_address := from_address msg; data_content := data_content msg;
     words := words msg; start_time_ms := start_time_ms msg;
     duration_ms := duration_ms msg; complete := complete msg |}.

Definition set_from (addr : string) (msg : ALEMessage) : ALEMessage :=
  {| call_type := call_type msg; to_addresses := to_addresses msg;
     from_address := addr; data_content := data_content msg;
     words := words msg; start_time_ms := start_time_ms msg;
     duration_ms := duration_ms msg; complete := complete msg |}.

Definition push_data (d : string) (msg : ALEMessage) : ALEMessage :=
  {| call_type := call_type msg; to_addresses := to_addresses msg;
     from_address := from_address msg; data_content := data_content msg ++ [d];
     words := words msg; start_time_ms := start_time_ms msg;
     duration_ms := duration_ms msg; complete := complete msg |}.

(** [void MessageAssembler::extract_addresses(const std::vector<ALEWord>&, ALEMessage&)] *)
Definition extract_addresses (ws : list ALEWord) (msg : ALEMessage) : ALEMessage :=
  fold_left
    (fun msg word =>
       if is_TO (type word) || is_TWS (type word) then
         let addr := erase_trailing_spaces (address_chars word) in
         match addr with
         | EmptyString => msg
         | _ => push_to addr msg
         end
       else if is_FROM (type word) || is_TIS (type word) then
         let addr := erase_trailing_spaces (address_chars word) in
         match addr with
         | EmptyString => msg
         | _ => set_from addr msg
         end
       else msg)
    ws msg.

(** [void MessageAssembler::extract_data(const std::vector<ALEWord>&, ALEMessage&)] *)
Definition extract_data (ws : list ALEWord) (msg : ALEMessage) : ALEMessage :=
  fold_left
    (fun msg word =>
       if is_DATA (type word) then
         let d := erase_trailing_spaces (address_chars word) in
         match d with
         | EmptyString => msg
         | _ => push_data d msg
         end
       else msg)
    ws msg.

(** [bool MessageAssembler::add_word(const ALEWord& word)]: the result is
    [(return value, assembler afterwards)]. *)
Definition add_word (word : ALEWord) (s : assembler) : bool * assembler :=
  if negb (valid word) then (false, s)
  else
    let current_time := timestamp_ms word in
    let s := if active s && check_timeout current_time s then reset s else s in
    let msg := current_message s in
    let msg :=
      if negb (active s)
      then {| call_type := call_type msg; to_addresses := to_addresses msg;
              from_address := from_address msg; data_content := data_content msg;
              words := words msg; start_time_ms := current_time;
              duration_ms := duration_ms msg; complete := complete msg |}
      else msg in
    let ws := current_words s ++ [word] in
    if is_sequence_complete ws then
      let msg :=
        {| call_type := determine_call_type ws;
           to_addresses := to_addresses msg; from_address := from_address msg;
           data_content := data_content msg; words := ws;
           start_time_ms := start_time_ms msg;
           duration_ms := u32 (current_time - start_time_ms msg);
           complete := true |} in
      let msg := extract_addresses ws msg in
      let msg := extract_data ws msg in
      (true,
       {| current_words := ws; current_message := msg; active := true;
          last_word_time_ms := current_time; word_timeout_ms := word_timeout_ms s |})
    else
      (false,
       {| current_words := ws; current_message := msg; active := true;
          last_word_time_ms := current_time; word_timeout_ms := word_timeout_ms s |}).

(** [bool MessageAssembler::get_message(ALEMessage& output)]: the result is
    [(return value, output afterwards, assembler afterwards)]. *)
Definition get_message (output : ALEMessage) (s : assembler)
    : bool * ALEMessage * assembler :=
  if negb (complete (current_message s)) then (false, output, s)
  else (true, current_message s, reset s).

End MessageAssembler.

(* ===================================================================== *)
(** * AQC-ALE data elements, CRCs and slots: src/protocol/aqc_parser.cpp *)
(* ===================================================================== *)

Module AQC.

(** [struct DataElements]; [de3] and [de9] are enumerations over
    [uint8_t], held by their value. *)
Record DataElements := {
  de1 : Z; de2 : Z; de3 : Z; de4 : Z; de5 : Z;
  de6 : Z; de7 : Z; de8 : Z; de9 : Z
}.

(** [bool AQCParser::extract_data_elements(uint32_t payload, DataElements& de)]:
    the result is [(return value, de afterwards)]. *)
Definition extract_data_elements (payload : Z) (de : DataElements)
    : bool * DataElements :=
  (true,
   {| de2 := Z.land (Z.shiftr payload 0) 0x07;
      de3 := Z.land (Z.shiftr payload 3) 0x0F;
      de4 := Z.land (Z.shiftr payload 7) 0x1F;
      de9 := Z.land (Z.shiftr payload 12) 0x07;
      de1 := Z.land (Z.shiftr payload 15) 0x07;
      de8 := Z.land (Z.shiftr payload 18) 0x07;
      de5 := 0; de6 := 0; de7 := 0 |}).

(** One round of the [for (int bit = 0; bit < 8; bit++)] loop of
    [calculate_crc8], on the [uint8_t] register. *)
Definition crc8_bit (crc : Z) : Z :=
  if negb (Z.land crc 0x80 =? 0)
  then u8 (Z.lxor (Z.shiftl crc 1) 0x07)
  else u8 (Z.shiftl crc 1).

(** One iteration of the byte loop of [calculate_crc8]. *)
Definition crc8_byte (crc data : Z) : Z :=
  Nat.iter 8 crc8_bit (Z.lxor crc data).

(** [uint8_t AQCCRC::calculate_crc8(const uint8_t* data, size_t length)] *)
Definition calculate_crc8 (data : list Z) : Z :=
  fold_left crc8_byte data 0x00.

(** One round of the bit loop of [calculate_crc16], on the [uint16_t]
    register. *)
Definition crc16_bit (crc : Z) : Z :=
  if negb (Z.land crc 0x8000 =? 0)
  then u16 (Z.lxor (Z.shiftl crc 1) 0x1021)
  else u16 (Z.shiftl crc 1).

(** One iteration of the byte loop of [calculate_crc16]. *)
Definition crc16_byte (crc data : Z) : Z :=
  Nat.iter 8 crc16_bit (u16 (Z.lxor crc (Z.shiftl (u16 data) 8))).

(** [uint16_t AQCCRC::calculate_crc16(const uint8_t* data, size_t length)] *)
Definition calculate_crc16 (data : list Z) : Z :=
  fold_left crc16_byte data 0xFFFF.

Definition byte_at (data : list Z) (i : Z) : Z := nth (Z.to_nat i) data 0.

Definition size (data : list Z) : Z := Z.of_nat (length data).

(** [bool AQCCRC::validate_crc8(const uint8_t* data, size_t length)] *)
Definition validate_crc8 (data : list Z) : bool :=
  let length := size data in
  if length <? 1 then false
  else
    let received_crc := byte_at data (length - 1) in
    let calculated_crc := calculate_crc8 (firstn (Z.to_nat (length - 1)) data) in
    received_crc =? calculated_crc.

(** [bool AQCCRC::validate_crc16(const uint8_t* data, size_t length)] *)
Definition validate_crc16 (data : list Z) : bool :=
  let length := size data in
  if length <? 2 then false
  else
    let received_crc :=
      u16 (Z.lor (Z.shiftl (u16 (byte_at data (length - 2))) 8)
                 (byte_at data (length - 1))) in
    let calculated_crc := calculate_crc16 (firstn (Z.to_nat (length - 2)) data) in
    received_crc =? calculated_crc.

Definition SLOT_DURATION_MS : Z := 200.
Definition NUM_SLOTS : Z := 8.

(** [uint32_t SlotManager::calculate_slot_time(uint8_t slot_number, uint32_t base_time_ms)] *)
Definition calculate_slot_time (slot_number base_time_ms : Z) : Z :=
  let slot_number := if NUM_SLOTS <=? slot_number then u8 (NUM_SLOTS - 1) else slot_number in
  u32 (base_time_ms + u32 (slot_number * SLOT_DURATION_MS)).

(** [static_cast<uint32_t>(ch)] for a [char] of code [c]: with a signed
    [char] the codes from 128 on are negative values, converted modulo
    2^32. *)
Definition char_to_u32 (char_signed : bool) (c : ascii) : Z :=
  let code := AddressBook.char_code c in
  if char_signed && (128 <=? code) then u32 (code - 256) else code.

(** [uint8_t SlotManager::assign_slot(const std::string& address)], for
    either signedness of [char]. *)
Definition assign_slot (char_signed : bool) (address : string) : Z :=
  let hash :=
    fold_left (fun hash ch => u32 (hash + char_to_u32 char_signed ch))
      (list_ascii_of_string address) 0 in
  u8 (hash mod NUM_SLOTS).

(** [uint32_t SlotManager::get_slot_duration_ms()] *)
Definition get_slot_duration_ms : Z := SLOT_DURATION_MS.

End AQC.

(* ===================================================================== *)
(** * LQA database: src/lqa_database.cpp *)
(* ===================================================================== *)

Module LQADatabase.

(** Two's-complement wrap of [int]. *)
Definition s32 (z : Z) : Z := (z + 2147483648) mod 4294967296 - 2147483648.

(** [struct LQAEntry] *)
Record LQAEntry := {
  frequency_hz : Z;
  remote_station : string;
  snr_db : spec_float;
  ber : spec_float;
  sinad_db : spec_float;
  fec_errors : Z;
  total_words : Z;
  multipath_score : spec_float;
  noise_floor_dbm : spec_float;
  last_sounding_ms : Z;
  last_contact_ms : Z;
  score : spec_float;
  sample_count : Z
}.

(** [LQAEntry::LQAEntry()] *)
Definition LQAEntry_ctor : LQAEntry :=
  {| frequency_hz := 0; remote_station := EmptyString;
     snr_db := F32.zero; ber := F32.zero; sinad_db := F32.zero;
     fec_errors := 0; total_words := 0;
     multipath_score := F32.zero; noise_floor_dbm := F32.of_Z (-120);
     last_sounding_ms := 0; last_contact_ms := 0;
     score := F32.zero; sample_count := 0 |}.

(** [struct LQAConfig] *)
Record LQAConfig := {
  snr_weight : spec_float;
  success_weight : spec_float;
  recency_weight : spec_float;
  max_age_ms : Z;
  history_depth : Z;
  time_decay_factor : spec_float;
  good_snr_db : spec_float;
  poor_snr_db : spec_float;
  good_ber : spec_float;
  poor_ber : spec_float
}.

(** The default member initialisers of [LQAConfig]. *)
Definition LQAConfig_default : LQAConfig :=
  {| snr_weight := F32.literal 5 10;
     success_weight := F32.literal 3 10;
     recency_weight := F32.literal 2 10;
     max_age_ms := 3600000;
     history_depth := 100;
     time_decay_factor := F32.literal 9 10;
     good_snr_db := F32.of_Z 20;
     poor_snr_db := F32.of_Z 6;
     good_ber := F32.literal 1 1000;
     poor_ber := F32.literal 1 10 |}.

(** [class LQADatabase]: [config_] and the [std::map<EntryKey, LQAEntry>]
    keyed by [(frequency_hz, remote_station)]. *)
Record database := {
  config_ : LQAConfig;
  entries_ : gmap (Z * string) LQAEntry
}.

(** [LQADatabase::LQADatabase()] *)
Definition ctor : database :=
  {| config_ := LQAConfig_default; entries_ := ∅ |}.

(** [void LQADatabase::set_config(const LQAConfig&)] *)
Definition set_config (config : LQAConfig) (db : database) : database :=
  {| config_ := config; entries_ := entries_ db |}.

(** [uint32_t LQADatabase::get_current_time_ms() const]: the reading
    [clock] of the system clock in milliseconds, narrowed to 32 bits. *)
Definition get_current_time_ms (clock : Z) : Z := u32 clock.

(** [float LQADatabase::time_weighted_average(old_value, new_value, old_samples)] *)
Definition time_weighted_average (cfg : LQAConfig)
    (old_value new_value : spec_float) (old_samples : Z) : spec_float :=
  let decay := time_decay_factor cfg in
  let weighted_old := F32.mul (F32.mul old_value decay) (F32.of_Z old_samples) in
  let total_weight := F32.add (F32.mul (F32.of_Z old_samples) decay) (F32.of_Z 1) in
  F32.div (F32.add weighted_old new_value) total_weight.

(** [float LQADatabase::compute_score(const LQAEntry&) const] *)
Definition compute_score (cfg : LQAConfig) (clock : Z) (entry : LQAEntry) : spec_float :=
  let score := F32.zero in
  let snr_component := F32.min (F32.of_Z 31) (F32.max F32.zero (snr_db entry)) in
  let score := F32.add score (F32.mul snr_component (snr_weight cfg)) in
  let success_rate :=
    if 0 <? total_words entry
    then F32.mul (F32.sub (F32.of_Z 1) (F32.min (F32.of_Z 1) (ber entry))) (F32.of_Z 31)
    else F32.zero in
  let score := F32.add score (F32.mul success_rate (success_weight cfg)) in
  let now := get_current_time_ms clock in
  let last_activity := Z.max (last_contact_ms entry) (last_sounding_ms entry) in
  let score :=
    if 0 <? last_activity then
      let age_ms := u32 (now - last_activity) in
      let age_factor :=
        F32.sub (F32.of_Z 1) (F32.div (F32.of_Z age_ms) (F32.of_Z (max_age_ms cfg))) in
      let age_factor := F32.max F32.zero (F32.min (F32.of_Z 1) age_factor) in
      let recency := F32.mul age_factor (F32.of_Z 31) in
      F32.add score (F32.mul recency (recency_weight cfg))
    else score in
  F32.min (F32.of_Z 31) (F32.max F32.zero score).

Definition set_score (s : spec_float) (e : LQAEntry) : LQAEntry :=
  {| frequency_hz := frequency_hz e; remote_station := remote_station e;
     snr_db := snr_db e; ber := ber e; sinad_db := sinad_db e;
     fec_errors := fec_errors e; total_words := total_words e;
     multipath_score := multipath_score e; noise_floor_dbm := noise_floor_dbm e;
     last_sounding_ms := last_sounding_ms e; last_contact_ms := last_contact_ms e;
     score := s; sample_count := sample_count e |}.

(** [if (!remote_station.empty()) entry.last_contact_ms = now;
     else entry.last_sounding_ms = now;] *)
Definition stamp (station : string) (now : Z) (e : LQAEntry) : LQAEntry :=
  {| frequency_hz := frequency_hz e; remote_station := remote_station e;
     snr_db := snr_db e; ber := ber e; sinad_db := sinad_db e;
     fec_errors := fec_errors e; total_words := total_words e;
     multipath_score := multipath_score e; noise_floor_dbm := noise_floor_dbm e;
     last_sounding_ms :=
       if String.eqb station EmptyString then now else last_sounding_ms e;
     last_contact_ms :=
       if String.eqb station EmptyString then last_contact_ms e else now;
     score := score e; sample_count := sample_count e |}.

(** [void LQADatabase::update_entry(...)].  [clock_now] is the clock reading
    taken when [timestamp_ms == 0], [clock_score] the one taken inside
    [compute_score]. *)
Definition update_entry (clock_now clock_score : Z)
    (frequency : Z) (station : string) (snr ber_ : spec_float)
    (fec_errors_ total_words_ timestamp_ms : Z) (db : database) : database :=
  let key := (frequency, station) in
  let now := if timestamp_ms =? 0 then get_current_time_ms clock_now else timestamp_ms in
  match entries_ db !! key with
  | Some entry =>
      let old_samples := sample_count entry in
      let entry :=
        {| frequency_hz := frequency_hz entry; remote_station := remote_station entry;
           snr_db := time_weighted_average (config_ db) (snr_db entry) snr old_samples;
           ber := time_weighted_average (config_ db) (ber entry) ber_ old_samples;
           sinad_db := sinad_db entry;
           fec_errors := s32 (fec_errors entry + fec_errors_);
           total_words := s32 (total_words entry + total_words_);
           multipath_score := multipath_score entry;
           noise_floor_dbm := noise_floor_dbm entry;
           last_sounding_ms := last_sounding_ms entry;
           last_contact_ms := last_contact_ms entry;
           score := score entry;
           sample_count := u32 (sample_count entry + 1) |} in
      let entry := stamp station now entry in
      let entry := set_score (compute_score (config_ db) clock_score entry) entry in
      {| config_ := config_ db; entries_ := <[key := entry]> (entries_ db) |}
  | None =>
      let entry :=
        {| frequency_hz := frequency; remote_station := station;
           snr_db := snr; ber := ber_; sinad_db := sinad_db LQAEntry_ctor;
           fec_errors := fec_errors_; total_words := total_words_;
           multipath_score := multipath_score LQAEntry_ctor;
           noise_floor_dbm := noise_floor_dbm LQAEntry_ctor;
           last_sounding_ms := 0; last_contact_ms := 0;
           score := score LQAEntry_ctor; sample_count := 1 |} in
      let entry := stamp station now entry in
      let entry := set_score (compute_score (config_ db) clock_score entry) entry in
      {| config_ := config_ db; entries_ := <[key := entry]> (entries_ db) |}
  end.

(** [void LQADatabase::update_entry_extended(...)] *)
Definition update_entry_extended (clock_now clock_score : Z)
    (frequency : Z) (station : string)
    (snr ber_ sinad multipath noise_floor : spec_float)
    (fec_errors_ total_words_ timestamp_ms : Z) (db : database) : database :=
  let key := (frequency, station) in
  let now := if timestamp_ms =? 0 then get_current_time_ms clock_now else timestamp_ms in
  match entries_ db !! key with
  | Some entry =>
      let old_samples := sample_count entry in
      let twa := time_weighted_average (config_ db) in
      let entry :=
        {| frequency_hz := frequency_hz entry; remote_station := remote_station entry;
           snr_db := twa (snr_db entry) snr old_samples;
           ber := twa (ber entry) ber_ old_samples;
           sinad_db := twa (sinad_db entry) sinad old_samples;
           fec_errors := s32 (fec_errors entry + fec_errors_);
           total_words := s32 (total_words entry + total_words_);
           multipath_score := twa (multipath_score entry) multipath old_samples;
           noise_floor_dbm := twa (noise_floor_dbm entry) noise_floor old_samples;
           last_sounding_ms := last_sounding_ms entry;
           last_contact_ms := last_contact_ms entry;
           score := score entry;
           sample_count := u32 (sample_count entry + 1) |} in
      let entry := stamp station now entry in
      let entry := set_score (compute_score (config_ db) clock_score entry) entry in
      {| config_ := config_ db; entries_ := <[key := entry]> (entries_ db) |}
  | None =>
      let entry :=
        {| frequency_hz := frequency; remote_station := station;
           snr_db := snr; ber := ber_; sinad_db := sinad;
           fec_errors := fec_errors_; total_words := total_words_;
           multipath_score := multipath;
           noise_floor_dbm := noise_floor;
           last_sounding_ms := 0; last_contact_ms := 0;
           score := score LQAEntry_ctor; sample_count := 1 |} in
      let entry := stamp station now entry in
      let entry := set_score (compute_score (config_ db) clock_score entry) entry in
      {| config_ := config_ db; entries_ := <[key := entry]> (entries_ db) |}
  end.

(** [void LQADatabase::clear()] *)
Definition clear (db : database) : database :=
  {| config_ := config_ db; entries_ := ∅ |}.

(** The entries [prune_stale_entries] keeps. *)
Definition fresh (cfg : LQAConfig) (now : Z) (e : LQAEntry) : bool :=
  let last_activity := Z.max (last_contact_ms e) (last_sounding_ms e) in
  negb (max_age_ms cfg <? u32 (now - last_activity)).

(** [int LQADatabase::prune_stale_entries()] (the database afterwards). *)
Definition prune_stale_entries (clock : Z) (db : database) : database :=
  let now := get_current_time_ms clock in
  {| config_ := config_ db;
     entries_ := filter (fun kv => fresh (config_ db) now (snd kv) = true) (entries_ db) |}.

(** [std::shared_ptr<LQAEntry> LQADatabase::get_entry(frequency_hz, remote_station) const]:
    the copy the pointer refers to, [None] for [nullptr]. *)
Definition get_entry (frequency : Z) (station : string) (db : database)
    : option LQAEntry :=
  entries_ db !! (frequency, station).

(** [size_t LQADatabase::get_entry_count() const] *)
Definition get_entry_count (db : database) : Z :=
  Z.of_nat (size (entries_ db)).

(** [LQAConfig LQADatabase::get_config() const] *)
Definition get_config (db : database) : LQAConfig := config_ db.

(** The return value of [prune_stale_entries]: the counter [removed],
    an [int] incremented once per erased entry. *)
Definition prune_stale_entries_removed (clock : Z) (db : database) : Z :=
  let now := get_current_time_ms clock in
  s32 (Z.of_nat
         (size (filter (fun kv => fresh (config_ db) now (snd kv) = false)
                  (entries_ db)))).

(** ** Persistence: [load_from_file]

    A file is the sequence of its bytes; [None] stands for a path that cannot
    be opened.  [save_to_file] and [load_from_file] copy the object
    representation of each value: a [uint32_t] and an [int] are four bytes,
    least significant first, an [int] in two's complement; a [float] is the
    four bytes of its binary32 encoding, least significant first;
    [LQAConfig] is its ten four-byte members in declaration order,
    [sizeof(config_) == 40].  Memory allocation ([std::string::resize], the
    map insertion) is taken to succeed. *)

(** The value of a little-endian byte sequence. *)
Definition le (bytes : list Byte.byte) : Z :=
  fold_right (fun b acc => Z.of_N (Byte.to_N b) + 256 * acc) 0 bytes.

(** The [float] with the binary32 encoding [w]: sign bit 31, biased exponent
    in bits 30..23, fraction in bits 22..0. *)
Definition float_of_bits (w : Z) : spec_float :=
  let sign := Z.testbit w 31 in
  let exponent := Z.land (Z.shiftr w 23) 0xFF in
  let fraction := Z.land w 0x7FFFFF in
  if exponent =? 0 then
    if fraction =? 0 then S754_zero sign
    else S754_finite sign (Z.to_pos fraction) (-149)
  else if exponent =? 0xFF then
    if fraction =? 0 then S754_infinity sign else S754_nan
  else S754_finite sign (Z.to_pos (fraction + 0x800000)) (exponent - 150).

Definition uint32_of_bytes (bytes : list Byte.byte) : Z := le bytes.
Definition int_of_bytes (bytes : list Byte.byte) : Z := s32 (le bytes).
Definition float_of_bytes (bytes : list Byte.byte) : spec_float :=
  float_of_bits (le bytes).

(** [std::ifstream]: the bytes not yet extracted and [failbit]. *)
Record ifstream := {
  unread : list Byte.byte;
  failbit : bool
}.

(** [file.read(s, n)]: nothing is extracted once [failbit] is set; otherwise
    up to [n] bytes are extracted and stored at the front of [s], and
    [failbit] is set if the file ends before [n] bytes are found.  The result
    is the bytes stored and the stream afterwards. *)
Definition read (n : Z) (file : ifstream) : list Byte.byte * ifstream :=
  if failbit file then ([], file)
  else
    let got := take (Z.to_nat n) (unread file) in
    (got, {| unread := drop (Z.to_nat n) (unread file);
             failbit := (length got <? Z.to_nat n)%nat |}).

(** [file.read(reinterpret_cast<char*>(&x), sizeof(x))] for an object [x]
    that holds the bytes [old]: the bytes of [x] afterwards.  Bytes that the
    file does not supply keep their old value. *)
Definition read_into (old : list Byte.byte) (file : ifstream)
    : list Byte.byte * ifstream :=
  let '(got, file) := read (Z.of_nat (length old)) file in
  (got ++ drop (length got) old, file).

(** The string that the [std::string] constructor builds from an array that
    holds [bytes]: the characters before the first NUL.  [None] if there is
    no NUL among them: the constructor then reads on, past the bytes that
    were stored. *)
Fixpoint c_str (bytes : list Byte.byte) : option (list Byte.byte) :=
  match bytes with
  | [] => None
  | b :: bytes =>
      if Byte.eqb b Byte.x00 then Some []
      else match c_str bytes with
           | Some s => Some (b :: s)
           | None => None
           end
  end.

(** The object representation of the members that [LQAEntry::LQAEntry()]
    sets to [0], [0.0f] and [-120.0f]. *)
Definition zero_bytes : list Byte.byte :=
  [Byte.x00; Byte.x00; Byte.x00; Byte.x00].
Definition noise_floor_dbm_bytes : list Byte.byte :=
  [Byte.x00; Byte.x00; Byte.xf0; Byte.xc2].

(** Member [i] of an object made of four-byte members. *)
Definition member (i : nat) (bytes : list Byte.byte) : list Byte.byte :=
  take 4 (drop (4 * i) bytes).

(** The [LQAConfig] with the object representation [bytes]. *)
Definition LQAConfig_of_bytes (bytes : list Byte.byte) : LQAConfig :=
  {| snr_weight := float_of_bytes (member 0 bytes);
     success_weight := float_of_bytes (member 1 bytes);
     recency_weight := float_of_bytes (member 2 bytes);
     max_age_ms := uint32_of_bytes (member 3 bytes);
     history_depth := uint32_of_bytes (member 4 bytes);
     time_decay_factor := float_of_bytes (member 5 bytes);
     good_snr_db := float_of_bytes (member 6 bytes);
     poor_snr_db := float_of_bytes (member 7 bytes);
     good_ber := float_of_bytes (member 8 bytes);
     poor_ber := float_of_bytes (member 9 bytes) |}.

(** The body of the loop of [load_from_file] up to [entries_[key] = entry]:
    the entry read and the stream afterwards.  [entry] starts out as
    [LQAEntry()], so a member that the file does not supply keeps its
    default.  [None] if the read of [name_len] falls short: [name_len] is
    then passed to [resize] without having been given a value. *)
Definition read_entry (file : ifstream) : option (LQAEntry * ifstream) :=
  let '(frequency_hz_, file) := read_into zero_bytes file in
  let '(name_len, file) := read 4 file in
  if (length name_len <? 4)%nat then None
  else
    let name_len := uint32_of_bytes name_len in
    let '(remote_station_, file) :=
      read_into (repeat Byte.x00 (Z.to_nat name_len)) file in
    let '(snr_db_, file) := read_into zero_bytes file in
    let '(ber_, file) := read_into zero_bytes file in
    let '(sinad_db_, file) := read_into zero_bytes file in
    let '(fec_errors_, file) := read_into zero_bytes file in
    let '(total_words_, file) := read_into zero_bytes file in
    let '(multipath_score_, file) := read_into zero_bytes file in
    let '(noise_floor_dbm_, file) := read_into noise_floor_dbm_bytes file in
    let '(last_sounding_ms_, file) := read_into zero_bytes file in
    let '(last_contact_ms_, file) := read_into zero_bytes file in
    let '(score_, file) := read_into zero_bytes file in
    let '(sample_count_, file) := read_into zero_bytes file in
    Some ({| frequency_hz := uint32_of_bytes frequency_hz_;
             remote_station := string_of_list_byte remote_station_;
             snr_db := float_of_bytes snr_db_;
             ber := float_of_bytes ber_;
             sinad_db := float_of_bytes sinad_db_;
             fec_errors := int_of_bytes fec_errors_;
             total_words := int_of_bytes total_words_;
             multipath_score := float_of_bytes multipath_score_;
             noise_floor_dbm := float_of_bytes noise_floor_dbm_;
             last_sounding_ms := uint32_of_bytes last_sounding_ms_;
             last_contact_ms := uint32_of_bytes last_contact_ms_;
             score := float_of_bytes score_;
             sample_count := uint32_of_bytes sample_count_ |}, file).

(** [for (uint32_t i = 0; i < count; i++) { ...; entries_[key] = entry; }] *)
Fixpoint read_entries (count : nat) (file : ifstream)
    (entries : gmap (Z * string) LQAEntry)
    : option (gmap (Z * string) LQAEntry) :=
  match count with
  | O => Some entries
  | S count =>
      match read_entry file with
      | None => None
      | Some (entry, file) =>
          let key := (frequency_hz entry, remote_station entry) in
          read_entries count file (<[key := entry]> entries)
      end
  end.

(** [bool LQADatabase::load_from_file(const std::string& filepath)] on the
    content of the file at [filepath]: the value returned and the database
    afterwards, which is the database as it was when [false] is returned.
    The result is [None] where the code reads an object that no read has
    filled: [magic] without a NUL among the bytes read, or [version],
    [count] or a [name_len] cut short by the end of the file.  When the read
    of [config_] falls short, so does the read of [count] that follows it. *)
Definition load_from_file (content : option (list Byte.byte)) (db : database)
    : option (bool * database) :=
  match content with
  | None => Some (false, db)
  | Some bytes =>
      let file := {| unread := bytes; failbit := false |} in
      let '(magic, file) := read 10 file in
      match c_str magic with
      | None => None
      | Some magic =>
          if negb (String.eqb (string_of_list_byte magic) "PCALE_LQA")
          then Some (false, db)
          else
            let '(version, file) := read 4 file in
            if (length version <? 4)%nat then None
            else if negb (uint32_of_bytes version =? 1) then Some (false, db)
            else
              let '(config, file) := read 40 file in
              let '(count, file) := read 4 file in
              if (length count <? 4)%nat then None
              else
                match read_entries (Z.to_nat (uint32_of_bytes count)) file ∅ with
                | None => None
                | Some entries =>
                    Some (true, {| config_ := LQAConfig_of_bytes config;
                                   entries_ := entries |})
                end
      end
  end.

End LQADatabase.

(* ===================================================================== *)
(** * Link state machine: src/link/ale_state_machine.cpp *)
(* ===================================================================== *)

Module ALEStateMachine.

Import WordParser.

Inductive ALEState :=
  | IDLE | SCANNING | CALLING | HANDSHAKE | LINKED | SOUNDING | ERROR.

Inductive ALEEvent :=
  | START_SCAN | STOP_SCAN | CALL_REQUEST | CALL_DETECTED
  | HANDSHAKE_COMPLETE | LINK_TIMEOUT | LINK_TERMINATED
  | SOUNDING_REQUEST | SOUNDING_COMPLETE | ERROR_OCCURRED.

#[global] Instance ALEState_eq_dec : EqDecision ALEState.
Proof. solve_decision. Defined.

#[global] Instance ALEEvent_eq_dec : EqDecision ALEEvent.
Proof. solve_decision. Defined.

(** [class ALETimingConstants] *)
Definition WORD_DURATION_MS : Z := 392.
Definition CALL_TIMEOUT_MS : Z := 30000.
Definition LINK_TIMEOUT_MS : Z := 120000.

(** [struct Channel] *)
Record Channel := {
  frequency_hz : Z;
  mode : string;
  lqa_score : spec_float;
  last_scan_time_ms : Z;
  call_count : Z
}.

(** [struct ScanConfig] *)
Record ScanConfig := {
  scan_list : list Channel;
  dwell_time_ms : Z;
  channel_index : Z;
  enabled : bool
}.

(** What the machine hands to its three callbacks. *)
Inductive Output :=
  | StateChange (old_state new_state : ALEState)
  | TransmitWord (word : ALEWord)
  | ChannelChange (channel : Channel).

(** [class ALEStateMachine].  The three [std::function] members are
    represented by whether they are set; [outputs] logs their invocations,
    oldest first.  [message_assembler] and [channel_quality] are neither read
    nor written by the member functions embedded here. *)
Record machine := {
  current_state : ALEState;
  previous_state : ALEState;
  scan_config : ScanConfig;
  self_address : string;               (* address_book.get_self_address() *)
  active_call_to : string;
  active_call_from : string;
  link_start_time_ms : Z;
  last_word_time_ms : Z;
  state_entry_time_ms : Z;
  last_scan_hop_time_ms : Z;
  current_time_ms : Z;
  state_callback : bool;
  transmit_callback : bool;
  channel_callback : bool;
  outputs : list Output
}.

(** [ScanConfig::ScanConfig()] *)
Definition ScanConfig_ctor : ScanConfig :=
  {| scan_list := []; dwell_time_ms := 200; channel_index := 0; enabled := false |}.

(** [ALEStateMachine::ALEStateMachine()] *)
Definition ctor : machine :=
  {| current_state := IDLE; previous_state := IDLE;
     scan_config := ScanConfig_ctor; self_address := EmptyString;
     active_call_to := EmptyString; active_call_from := EmptyString;
     link_start_time_ms := 0; last_word_time_ms := 0;
     state_entry_time_ms := 0; last_scan_hop_time_ms := 0;
     current_time_ms := 0;
     state_callback := false; transmit_callback := false;
     channel_callback := false; outputs := [] |}.

(** Field assignments. *)
Definition with_states (cur prev : ALEState) (entry : Z) (m : machine) : machine :=
  {| current_state := cur; previous_state := prev;
     scan_config := scan_config m; self_address := self_address m;
     active_call_to := active_call_to m; active_call_from := active_call_from m;
     link_start_time_ms := link_start_time_ms m;
     last_word_time_ms := last_word_time_ms m;
     state_entry_time_ms := entry;
     last_scan_hop_time_ms := last_scan_hop_time_ms m;
     current_time_ms := current_time_ms m;
     state_callback := state_callback m; transmit_callback := transmit_callback m;
     channel_callback := channel_callback m; outputs := outputs m |}.

Definition with_scan (sc : ScanConfig) (hop : Z) (m : machine) : machine :=
  {| current_state := current_state m; previous_state := previous_state m;
     scan_config := sc; self_address := self_address m;
     active_call_to := active_call_to m; active_call_from := active_call_from m;
     link_start_time_ms := link_start_time_ms m;
     last_word_time_ms := last_word_time_ms m;
     state_entry_time_ms := state_entry_time_ms m;
     last_scan_hop_time_ms := hop;
     current_time_ms := current_time_ms m;
     state_callback := state_callback m; transmit_callback := transmit_callback m;
     channel_callback := channel_callback m; outputs := outputs m |}.

Definition with_calls (call_to call_from : string) (m : machine) : machine :=
  {| current_state := current_state m; previous_state := previous_state m;
     scan_config := scan_config m; self_address := self_address m;
     active_call_to := call_to; active_call_from := call_from;
     link_start_time_ms := link_start_time_ms m;
     last_word_time_ms := last_word_time_ms m;
     state_entry_time_ms := state_entry_time_ms m;
     last_scan_hop_time_ms := last_scan_hop_time_ms m;
     current_time_ms := current_time_ms m;
     state_callback := state_callback m; transmit_callback := transmit_callback m;
     channel_callback := channel_callback m; outputs := outputs m |}.

Definition with_link_times (link_start last_word : Z) (m : machine) : machine :=
  {| current_state := current_state m; previous_state := previous_state m;
     scan_config := scan_config m; self_address := self_address m;
     active_call_to := active_call_to m; active_call_from := active_call_from m;
     link_start_time_ms := link_start;
     last_word_time_ms := last_word;
     state_entry_time_ms := state_entry_time_ms m;
     last_scan_hop_time_ms := last_scan_hop_time_ms m;
     current_time_ms := current_time_ms m;
     state_callback := state_callback m; transmit_callback := transmit_callback m;
     channel_callback := channel_callback m; outputs := outputs m |}.

Definition with_current_time (now : Z) (m : machine) : machine :=
  {| current_state := current_state m; previous_state := previous_state m;
     scan_config := scan_config m; self_address := self_address m;
     active_call_to := active_call_to m; active_call_from := active_call_from m;
     link_start_time_ms := link_start_time_ms m;
     last_word_time_ms := last_word_time_ms m;
     state_entry_time_ms := state_entry_time_ms m;
     last_scan_hop_time_ms := last_scan_hop_time_ms m;
     current_time_ms := now;
     state_callback := state_callback m; transmit_callback := transmit_callback m;
     channel_callback := channel_callback m; outputs := outputs m |}.

Definition emit (o : Output) (m : machine) : machine :=
  {| current_state := current_state m; previous_state := previous_state m;
     scan_config := scan_config m; self_address := self_address m;
     active_call_to := active_call_to m; active_call_from := active_call_from m;
     link_start_time_ms := link_start_time_ms m;
     last_word_time_ms := last_word_time_ms m;
     state_entry_time_ms := state_entry_time_ms m;
     last_scan_hop_time_ms := last_scan_hop_time_ms m;
     current_time_ms := current_time_ms m;
     state_callback := state_callback m; transmit_callback := transmit_callback m;
     channel_callback := channel_callback m; outputs := outputs m ++ [o] |}.

Definition set_channel_index (i : Z) (sc : ScanConfig) : ScanConfig :=
  {| scan_list := scan_list sc; dwell_time_ms := dwell_time_ms sc;
     channel_index := i; enabled := enabled sc |}.

Definition set_scan_list (l : list Channel) (sc : ScanConfig) : ScanConfig :=
  {| scan_list := l; dwell_time_ms := dwell_time_ms sc;
     channel_index := channel_index sc; enabled := enabled sc |}.

Definition set_last_scan_time (t : Z) (c : Channel) : Channel :=
  {| frequency_hz := frequency_hz c; mode := mode c; lqa_score := lqa_score c;
     last_scan_time_ms := t; call_count := call_count c |}.

Definition size (l : list Channel) : Z := Z.of_nat (length l).

(** [void ALEStateMachine::transmit_word(const ALEWord&)] *)
Definition transmit_word (word : ALEWord) (m : machine) : machine :=
  if transmit_callback m then emit (TransmitWord word) m else m.

(** [void ALEStateMachine::set_channel(uint32_t index)] *)
Definition set_channel (index : Z) (m : machine) : machine :=
  match scan_list (scan_config m) !! Z.to_nat index with
  | None => m                                  (* index >= scan_list.size() *)
  | Some ch =>
      let ch := set_last_scan_time (current_time_ms m) ch in
      let sc := set_channel_index index (scan_config m) in
      let sc := set_scan_list (<[Z.to_nat index := ch]> (scan_list sc)) sc in
      let m := with_scan sc (last_scan_hop_time_ms m) m in
      if channel_callback m then emit (ChannelChange ch) m else m
  end.

(** [void ALEStateMachine::enter_state(ALEState new_state)] *)
Definition enter_state (new_state : ALEState) (m : machine) : machine :=
  match new_state with
  | SCANNING =>
      let m := with_scan (set_channel_index 0 (scan_config m)) (current_time_ms m) m in
      match scan_list (scan_config m) with
      | [] => m
      | _ :: _ => set_channel 0 m
      end
  | CALLING | HANDSHAKE =>
      with_link_times (current_time_ms m) (last_word_time_ms m) m
  | LINKED =>
      with_link_times (current_time_ms m) (current_time_ms m) m
  | SOUNDING =>
      match self_address m with
      | EmptyString => m
      | self =>
          let tis_word :=
            {| type := TIS;
               address := substring 0 3 self;      (* strncpy(.., self.c_str(), 3) *)
               raw_payload := 0; fec_errors := 0;
               valid := true; timestamp_ms := current_time_ms m |} in
          transmit_word tis_word m
      end
  | _ => m
  end.

(** [void ALEStateMachine::exit_state(ALEState old_state)] *)
Definition exit_state (old_state : ALEState) (m : machine) : machine :=
  match old_state with
  | LINKED => with_calls EmptyString EmptyString m
  | _ => m
  end.

(** [bool ALEStateMachine::transition_to(ALEState new_state)] *)
Definition transition_to (new_state : ALEState) (m : machine) : bool * machine :=
  if decide (current_state m = new_state) then (false, m)
  else
    let m := exit_state (current_state m) m in
    let m := with_states new_state (current_state m) (current_time_ms m) m in
    let m := enter_state new_state m in
    let m :=
      if state_callback m
      then emit (StateChange (previous_state m) (current_state m)) m else m in
    (true, m).

(** The [switch] of [process_event]: [Some] is a [return] taken inside a
    case, [None] a [break]. *)
Definition dispatch (event : ALEEvent) (m : machine) : option (bool * machine) :=
  match current_state m with
  | IDLE =>
      match event with
      | START_SCAN => Some (transition_to SCANNING m)
      | CALL_REQUEST => Some (transition_to CALLING m)
      | SOUNDING_REQUEST => Some (transition_to SOUNDING m)
      | _ => None
      end
  | SCANNING =>
      match event with
      | STOP_SCAN => Some (transition_to IDLE m)
      | CALL_DETECTED => Some (transition_to HANDSHAKE m)
      | CALL_REQUEST => Some (transition_to CALLING m)
      | _ => None
      end
  | CALLING =>
      match event with
      | HANDSHAKE_COMPLETE => Some (transition_to LINKED m)
      | LINK_TIMEOUT => Some (transition_to IDLE m)
      | _ => None
      end
  | HANDSHAKE =>
      match event with
      | HANDSHAKE_COMPLETE => Some (transition_to LINKED m)
      | LINK_TIMEOUT => Some (transition_to SCANNING m)
      | _ => None
      end
  | LINKED =>
      match event with
      | LINK_TERMINATED | LINK_TIMEOUT => Some (transition_to IDLE m)
      | _ => None
      end
  | SOUNDING =>
      match event with
      | SOUNDING_COMPLETE => Some (transition_to SCANNING m)
      | _ => None
      end
  | ERROR =>
      match event with
      | START_SCAN => Some (transition_to SCANNING m)
      | _ => Some (transition_to IDLE m)
      end
  end.

(** [bool ALEStateMachine::process_event(ALEEvent event)] *)
Definition process_event (event : ALEEvent) (m : machine) : bool * machine :=
  match dispatch event m with
  | Some r => r
  | None =>
      if decide (event = ERROR_OCCURRED) then transition_to ERROR m
      else (false, m)
  end.

(** [bool ALEStateMachine::check_link_timeout()] *)
Definition check_link_timeout (m : machine) : bool :=
  match
    match current_state m with
    | CALLING | HANDSHAKE => Some CALL_TIMEOUT_MS
    | LINKED => Some LINK_TIMEOUT_MS
    | _ => None
    end
  with
  | None => false
  | Some timeout_ms =>
      let elapsed := u32 (current_time_ms m - state_entry_time_ms m) in
      timeout_ms <? elapsed
  end.

(** [bool ALEStateMachine::check_scan_dwell_timeout()] *)
Definition check_scan_dwell_timeout (m : machine) : bool :=
  if decide (current_state m = SCANNING) then
    let elapsed := u32 (current_time_ms m - last_scan_hop_time_ms m) in
    dwell_time_ms (scan_config m) <=? elapsed
  else false.

(** [void ALEStateMachine::hop_to_next_channel()] *)
Definition hop_to_next_channel (m : machine) : machine :=
  match scan_list (scan_config m) with
  | [] => m
  | _ :: _ =>
      let sc := scan_config m in
      let next := u32 (channel_index sc + 1) mod size (scan_list sc) in
      let m := with_scan (set_channel_index next sc) (last_scan_hop_time_ms m) m in
      let m := set_channel (channel_index (scan_config m)) m in
      with_scan (scan_config m) (current_time_ms m) m
  end.

(** [void ALEStateMachine::handle_scanning()] *)
Definition handle_scanning (m : machine) : machine :=
  if check_scan_dwell_timeout m then hop_to_next_channel m else m.

(** [void ALEStateMachine::handle_sounding()] *)
Definition handle_sounding (m : machine) : machine :=
  let elapsed := u32 (current_time_ms m - state_entry_time_ms m) in
  if WORD_DURATION_MS <? elapsed
  then snd (process_event SOUNDING_COMPLETE m) else m.

(** [void ALEStateMachine::update(uint32_t current_time_ms)] *)
Definition update (now : Z) (m : machine) : machine :=
  let m := with_current_time now m in
  let m := if check_link_timeout m then snd (process_event LINK_TIMEOUT m) else m in
  match current_state m with
  | SCANNING => handle_scanning m
  | SOUNDING => handle_sounding m
  | _ => m        (* handle_calling, handle_handshake, handle_linked: empty *)
  end.

(** [ALEState get_state() const] *)
Definition get_state (m : machine) : ALEState := current_state m.

Definition with_self_address (address : string) (m : machine) : machine :=
  {| current_state := current_state m; previous_state := previous_state m;
     scan_config := scan_config m; self_address := address;
     active_call_to := active_call_to m; active_call_from := active_call_from m;
     link_start_time_ms := link_start_time_ms m;
     last_word_time_ms := last_word_time_ms m;
     state_entry_time_ms := state_entry_time_ms m;
     last_scan_hop_time_ms := last_scan_hop_time_ms m;
     current_time_ms := current_time_ms m;
     state_callback := state_callback m; transmit_callback := transmit_callback m;
     channel_callback := channel_callback m; outputs := outputs m |}.

(** [void ALEStateMachine::configure_scan(const ScanConfig& config)] *)
Definition configure_scan (config : ScanConfig) (m : machine) : machine :=
  with_scan config (last_scan_hop_time_ms m) m.


(** The member [address_book]; no member function of the machine adds a
    station or a net to it. *)
Definition address_book (m : machine) : AddressBook.book :=
  {| AddressBook.self_address := self_address m;
     AddressBook.stations := []; AddressBook.nets := [] |}.

(** [void ALEStateMachine::set_self_address(const std::string& address)] *)
Definition set_self_address (address : string) (m : machine) : machine :=
  with_self_address
    (AddressBook.get_self_address
       (snd (AddressBook.set_self_address address (address_book m)))) m.


(** [s.c_str()] read as a C string: the characters before the first NUL. *)
Fixpoint c_str (s : string) : string :=
  match s with
  | EmptyString => EmptyString
  | String c rest => if Ascii.eqb c zero then EmptyString else String c (c_str rest)
  end.

(** The C string in [word.address] after
    [strncpy(word.address, s.c_str(), 3); word.address[3] = 0]. *)
Definition strncpy3 (s : string) : string := substring 0 3 (c_str s).

(** [void ALEStateMachine::build_call_words(const std::string& to_addr, bool is_net)] *)
Definition build_call_words (to_addr : string) (is_net : bool) (m : machine) : machine :=
  let to_word :=
    {| type := if is_net then TWS else TO;
       address := strncpy3 to_addr;
       raw_payload := 0; fec_errors := 0;
       valid := true; timestamp_ms := current_time_ms m |} in
  let m := transmit_word to_word m in
  let from_word :=
    {| type := FROM;
       address := strncpy3 (self_address m);
       raw_payload := 0; fec_errors := 0;
       valid := true;
       timestamp_ms := u32 (current_time_ms m + WORD_DURATION_MS) |} in
  transmit_word from_word m.

(** [bool ALEStateMachine::initiate_call(const std::string& to_address)]:
    the result is [(return value, machine afterwards)]. *)
Definition initiate_call (to_address : string) (m : machine) : bool * machine :=
  if negb (bool_decide (current_state m = IDLE))
     && negb (bool_decide (current_state m = SCANNING))
  then (false, m)
  else
    let m := with_calls to_address (self_address m) m in
    let '(transitioned, m) := process_event CALL_REQUEST m in
    if transitioned then (transitioned, build_call_words to_address false m)
    else (transitioned, m).

(** [bool ALEStateMachine::initiate_net_call(const std::string& net_address)] *)
Definition initiate_net_call (net_address : string) (m : machine) : bool * machine :=
  if negb (bool_decide (current_state m = IDLE))
     && negb (bool_decide (current_state m = SCANNING))
  then (false, m)
  else
    let m := with_calls net_address (self_address m) m in
    let '(transitioned, m) := process_event CALL_REQUEST m in
    if transitioned then (transitioned, build_call_words net_address true m)
    else (transitioned, m).

(** [bool ALEStateMachine::respond_to_call()] *)
Definition respond_to_call (m : machine) : bool * machine :=
  if negb (bool_decide (current_state m = HANDSHAKE)) then (false, m)
  else (true, snd (process_event HANDSHAKE_COMPLETE m)).

(** [bool ALEStateMachine::send_sounding()] *)
Definition send_sounding (m : machine) : bool * machine :=
  if negb (bool_decide (current_state m = IDLE))
     && negb (bool_decide (current_state m = SCANNING))
  then (false, m)
  else process_event SOUNDING_REQUEST m.

(** One iteration of the loop of [select_best_channel], on
    [(position of best, *best, position of channel)]. *)
Definition best_step (acc : nat * Channel * nat) (channel : Channel)
    : nat * Channel * nat :=
  let '(best_i, best, i) := acc in
  if SFltb (lqa_score best) (lqa_score channel)     (* channel.lqa_score > best->lqa_score *)
  then (i, channel, S i)
  else (best_i, best, S i).

(** [const Channel* ALEStateMachine::select_best_channel() const]: the
    position in [scan_list] the returned pointer refers to and the channel
    there, [None] for [nullptr]. *)
Definition select_best_channel (m : machine) : option (nat * Channel) :=
  match scan_list (scan_config m) with
  | [] => None
  | first :: _ =>
      let '(best_i, best, _) :=
        fold_left best_step (scan_list (scan_config m)) (0%nat, first, 0%nat) in
      Some (best_i, best)
  end.

End ALEStateMachine.

(* ===================================================================== *)
(** * FS-1052 data frames: src/fs1052/frame_format.cpp *)
(* ===================================================================== *)

Module FrameFormat.

Definition MAX_DATA_BLOCK_LENGTH : Z := 1023.

(** [enum class DataRateFormat : uint8_t] and
    [enum class InterleaverLength : uint8_t], by their underlying value: the
    parser [static_cast]s received bytes into them. *)
Definition ABSOLUTE : Z := 0.
Definition RELATIVE : Z := 1.
Definition SHORT : Z := 0.
Definition LONG : Z := 1.
(** [DataRate::BPS_2400] *)
Definition BPS_2400 : Z := 5.

Definition CRC32_POLYNOMIAL : Z := 0x04C11DB7.

(** One round of the [for (int i = 0; i < 8; i++)] loop of [crc32_byte]. *)
Definition crc32_bit (crc : Z) : Z :=
  if Z.land crc 0x80000000 =? 0
  then u32 (Z.shiftl crc 1)
  else Z.lxor (u32 (Z.shiftl crc 1)) CRC32_POLYNOMIAL.

(** [static uint32_t crc32_byte(uint8_t data, uint32_t crc)] *)
Definition crc32_byte (data crc : Z) : Z :=
  let crc := Z.lxor crc (u32 (Z.shiftl data 24)) in
  Nat.iter 8 crc32_bit crc.

(** [uint32_t FrameFormatter::calculate_crc32(const uint8_t* data, size_t length)] *)
Definition calculate_crc32 (data : list Z) : Z :=
  let crc := fold_left (fun crc d => crc32_byte d crc) data 0xFFFFFFFF in
  u32 (Z.lnot crc).

(** [size_t FrameFormatter::append_crc32(uint8_t* buffer, size_t length)]:
    the first [length + 4] bytes of the buffer afterwards. *)
Definition append_crc32 (buffer : list Z) : list Z :=
  let crc := calculate_crc32 buffer in
  buffer ++ [ Z.land (Z.shiftr crc 24) 0xFF;
              Z.land (Z.shiftr crc 16) 0xFF;
              Z.land (Z.shiftr crc 8) 0xFF;
              Z.land crc 0xFF ].

(** [struct DataFrame]; [data] is the whole [uint8_t data[1023]]. *)
Record DataFrame := {
  data_rate_format : Z;
  data_rate : Z;
  interleaver_length : Z;
  sequence_number : Z;
  msg_byte_offset : Z;
  data_length : Z;
  data : list Z;
  crc32 : Z
}.

(** [DataFrame::DataFrame()] *)
Definition DataFrame_ctor : DataFrame :=
  {| data_rate_format := ABSOLUTE; data_rate := BPS_2400;
     interleaver_length := LONG; sequence_number := 0; msg_byte_offset := 0;
     data_length := 0; data := repeat 0 1023%nat; crc32 := 0 |}.

(** [int FrameFormatter::format_data_frame(const DataFrame&, uint8_t* buffer,
    size_t buffer_size)]: [None] is the return value -1, [Some bytes] the
    bytes written, whose number is the return value. *)
Definition format_data_frame (frame : DataFrame) (buffer_size : Z) : option (list Z) :=
  if buffer_size <? data_length frame + 20 then None
  else
    let b0 := 0x01 in
    let b0 := u8 (Z.lor b0 (Z.shiftl (data_rate_format frame) 7)) in
    let b0 := u8 (Z.lor b0 (Z.shiftl (Z.land (data_rate frame) 0x07) 4)) in
    let header :=
      [ b0;
        u8 (interleaver_length frame);
        sequence_number frame;
        Z.land (Z.shiftr (msg_byte_offset frame) 24) 0xFF;
        Z.land (Z.shiftr (msg_byte_offset frame) 16) 0xFF;
        Z.land (Z.shiftr (msg_byte_offset frame) 8) 0xFF;
        Z.land (msg_byte_offset frame) 0xFF;
        Z.land (Z.shiftr (data_length frame) 8) 0xFF;
        Z.land (data_length frame) 0xFF ] in
    let payload := firstn (Z.to_nat (data_length frame)) (data frame) in
    Some (append_crc32 (header ++ payload)).

(** [buffer[i]] *)
Definition byte_at (buffer : list Z) (i : Z) : Z := nth (Z.to_nat i) buffer 0.

Definition size (buffer : list Z) : Z := Z.of_nat (length buffer).

(** [bool FrameParser::validate_crc32(const uint8_t* buffer, size_t length)] *)
Definition validate_crc32 (buffer : list Z) : bool :=
  let length := size buffer in
  if length <? 4 then false
  else
    let calculated_crc := calculate_crc32 (firstn (Z.to_nat (length - 4)) buffer) in
    let received_crc :=
      Z.lor (Z.lor (Z.lor (Z.shiftl (byte_at buffer (length - 4)) 24)
                          (Z.shiftl (byte_at buffer (length - 3)) 16))
                   (Z.shiftl (byte_at buffer (length - 2)) 8))
            (byte_at buffer (length - 1)) in
    calculated_crc =? received_crc.

(** [memcpy(frame.data, src, n)] into the 1023-byte member. *)
Definition memcpy_into (dst src : list Z) (n : Z) : list Z :=
  firstn (Z.to_nat n) src ++ skipn (Z.to_nat n) dst.

(** [bool FrameParser::parse_data_frame(const uint8_t* buffer, size_t length,
    DataFrame& frame)]: the result is [(return value, frame afterwards)]. *)
Definition parse_data_frame (buffer : list Z) (frame : DataFrame) : bool * DataFrame :=
  let length := size buffer in
  if length <? 13 then (false, frame)
  else if negb (validate_crc32 buffer) then (false, frame)
  else
    let index := 0 in
    let drf := Z.land (Z.shiftr (byte_at buffer index) 7) 0x01 in
    let rate := Z.land (Z.shiftr (byte_at buffer index) 4) 0x07 in
    let index := index + 1 in
    let il := byte_at buffer index in
    let index := index + 1 in
    let seq := byte_at buffer index in
    let index := index + 1 in
    let off :=
      Z.lor (Z.lor (Z.lor (Z.shiftl (byte_at buffer index) 24)
                          (Z.shiftl (byte_at buffer (index + 1)) 16))
                   (Z.shiftl (byte_at buffer (index + 2)) 8))
            (byte_at buffer (index + 3)) in
    let index := index + 4 in
    let dlen := u16 (Z.lor (Z.shiftl (byte_at buffer index) 8) (byte_at buffer (index + 1))) in
    let index := index + 2 in
    let frame :=
      {| data_rate_format := drf; data_rate := rate; interleaver_length := il;
         sequence_number := seq; msg_byte_offset := off; data_length := dlen;
         data := data frame; crc32 := crc32 frame |} in
    if (MAX_DATA_BLOCK_LENGTH <? dlen) || negb (index + dlen + 4 =? length)
    then (false, frame)
    else
      (true,
       {| data_rate_format := drf; data_rate := rate; interleaver_length := il;
          sequence_number := seq; msg_byte_offset := off; data_length := dlen;
          data := memcpy_into (data frame) (skipn (Z.to_nat index) buffer) dlen;
          crc32 := crc32 frame |}).

(** [FrameType FrameParser::detect_frame_type(const uint8_t* buffer)], by
    the value of the enumerator: [T1_CONTROL] is 1, [DATA] is 5. *)
Definition NO_FRAME : Z := 0.
Definition T1_CONTROL : Z := 1.
Definition T2_CONTROL : Z := 2.
Definition T3_CONTROL : Z := 3.
Definition T4_CONTROL : Z := 4.
Definition DATA : Z := 5.

Definition detect_frame_type (buffer : list Z) : Z :=
  if negb (Z.land (byte_at buffer 0) 0x02 =? 0) then T1_CONTROL else DATA.

(** [uint16_t data_rate_to_bps(DataRate rate)], on the value of the
    enumerator ([BPS_75] is 0, ..., [BPS_4800] is 6, [SAME] is 7). *)
Definition data_rate_to_bps (rate : Z) : Z :=
  match rate with
  | 0 => 75 | 1 => 150 | 2 => 300 | 3 => 600
  | 4 => 1200 | 5 => 2400 | 6 => 4800
  | _ => 0
  end.

(** [DataRate bps_to_data_rate(uint16_t bps)] *)
Definition bps_to_data_rate (bps : Z) : Z :=
  if bps <=? 75 then 0
  else if bps <=? 150 then 1
  else if bps <=? 300 then 2
  else if bps <=? 600 then 3
  else if bps <=? 1200 then 4
  else if bps <=? 2400 then 5
  else 6.

End FrameFormat.

(* ===================================================================== *)
(** * FS-1052 control frames: src/fs1052/frame_format.cpp *)
(* ===================================================================== *)

Module ControlFrame.

Import FrameFormat.

Definition PROTOCOL_VERSION : Z := 0.
Definition ACK_MAP_SIZE : Z := 32.

(** [enum class AddressMode : uint8_t], [enum class AckNakType : uint8_t],
    [enum class ARQMode : uint8_t], [enum class LinkState : uint8_t] and
    [enum class NegotiationMode : uint8_t], by their underlying value. *)
Definition SHORT_2_BYTE : Z := 0.
Definition LONG_18_BYTE : Z := 1.
Definition NULL_ACK : Z := 0.
Definition DATA_ACK : Z := 1.
Definition DATA_ACK_REQ : Z := 2.
Definition HERALD_ACK : Z := 3.
Definition VARIABLE_ARQ : Z := 0.
Definition CALLING : Z := 0.
Definition CHANGES_ONLY : Z := 0.

(** [struct ControlFrame]; [src_address] and [des_address] are the whole
    18-byte arrays, [bit_map] the whole 32-byte array. *)
Record ControlFrame := {
  protocol_version : Z;
  arq_mode : Z;
  neg_mode : Z;
  address_mode : Z;
  frame_type : Z;
  src_address_length : Z;
  src_address : list Z;
  des_address_length : Z;
  des_address : list Z;
  link_state : Z;
  link_timeout : Z;
  ack_nak_type : Z;
  bit_map : list Z;
  flow_control : bool;
  herald_present : bool;
  data_rate_format : Z;
  data_rate : Z;
  interleaver_length : Z;
  bytes_in_data_frames : Z;
  frames_in_next_series : Z;
  message_present : bool;
  tx_msg_size : Z;
  tx_msg_id : Z;
  tx_con_id : Z;
  tx_msg_priority : Z;
  tx_msg_next_byte_pos : Z;
  rx_msg_next_byte_pos : Z;
  extension_function_present : bool;
  function_bits : Z * Z;
  crc32 : Z
}.

(** [ControlFrame::ControlFrame()] *)
Definition ControlFrame_ctor : ControlFrame :=
  {| protocol_version := PROTOCOL_VERSION; arq_mode := VARIABLE_ARQ;
     neg_mode := CHANGES_ONLY; address_mode := SHORT_2_BYTE;
     frame_type := NO_FRAME;
     src_address_length := 0; src_address := repeat 0 18%nat;
     des_address_length := 0; des_address := repeat 0 18%nat;
     link_state := CALLING; link_timeout := 0;
     ack_nak_type := NULL_ACK; bit_map := repeat 0 32%nat; flow_control := false;
     herald_present := false; data_rate_format := ABSOLUTE;
     data_rate := BPS_2400; interleaver_length := LONG;
     bytes_in_data_frames := 0; frames_in_next_series := 0;
     message_present := false; tx_msg_size := 0; tx_msg_id := 0; tx_con_id := 0;
     tx_msg_priority := 0; tx_msg_next_byte_pos := 0; rx_msg_next_byte_pos := 0;
     extension_function_present := false; function_bits := (0, 0);
     crc32 := 0 |}.

(** [a[i]] of one of the arrays of the struct.  An index past the array
    (which [src_address_length] or [des_address_length] above 18 produces in
    [format_control_frame]) has no defined value in the source; the model
    reads 0 there. *)
Definition elem (a : list Z) (i : Z) : Z := nth (Z.to_nat i) a 0.

(** The four bytes [(v >> 24) & 0xFF], ..., [v & 0xFF]. *)
Definition bytes32 (v : Z) : list Z :=
  [ Z.land (Z.shiftr v 24) 0xFF; Z.land (Z.shiftr v 16) 0xFF;
    Z.land (Z.shiftr v 8) 0xFF; Z.land v 0xFF ].

(** The two bytes [(v >> 8) & 0xFF], [v & 0xFF]. *)
Definition bytes16 (v : Z) : list Z :=
  [ Z.land (Z.shiftr v 8) 0xFF; Z.land v 0xFF ].

(** [int FrameFormatter::format_control_frame(const ControlFrame&,
    uint8_t* buffer, size_t buffer_size)]: [None] is the return value -1,
    [Some bytes] the bytes written, whose number is the return value. *)
Definition format_control_frame (frame : ControlFrame) (buffer_size : Z)
    : option (list Z) :=
  if buffer_size <? 256 then None
  else
    let b0 := 0x01 in
    let b0 := u8 (Z.lor b0 0x02) in
    let b0 := u8 (Z.lor b0 (Z.shiftl (Z.land (protocol_version frame) 0x03) 2)) in
    let b0 := u8 (Z.lor b0 (Z.shiftl (Z.land (u8 (arq_mode frame)) 0x03) 4)) in
    let b0 := u8 (Z.lor b0 (Z.shiftl (Z.land (u8 (neg_mode frame)) 0x01) 6)) in
    let b0 := u8 (Z.lor b0 (Z.shiftl (Z.land (u8 (address_mode frame)) 0x01) 7)) in
    let addresses :=
      if address_mode frame =? SHORT_2_BYTE then
        [ if 1 <=? src_address_length frame
          then elem (src_address frame) (src_address_length frame - 1) else 0;
          if 2 <=? src_address_length frame
          then elem (src_address frame) (src_address_length frame - 2) else 0;
          if 1 <=? des_address_length frame
          then elem (des_address frame) (des_address_length frame - 1) else 0;
          if 2 <=? des_address_length frame
          then elem (des_address frame) (des_address_length frame - 2) else 0 ]
      else firstn 18 (src_address frame) ++ firstn 18 (des_address frame) in
    let link :=
      u8 (link_state frame) :: bytes16 (link_timeout frame) in
    let ack := [ Z.land (u8 (ack_nak_type frame)) 0x03 ] in
    let bitmap :=
      if ((frame_type frame =? T2_CONTROL) || (frame_type frame =? T3_CONTROL)
          || (frame_type frame =? T4_CONTROL))
         && (ack_nak_type frame =? DATA_ACK)
      then
        if address_mode frame =? SHORT_2_BYTE then
          let copied := firstn 32 (bit_map frame) in
          if flow_control frame
          then <[31%nat := Z.lor (elem copied 31) 0x80]> copied
          else copied
        else []
      else [] in
    let herald :=
      if herald_present frame then
        [ u8 (Z.lor (Z.shiftl (u8 (data_rate_format frame)) 7)
                    (Z.land (data_rate frame) 0x07));
          u8 (interleaver_length frame) ]
        ++ bytes16 (bytes_in_data_frames frame)
        ++ [ frames_in_next_series frame ]
      else [] in
    let message :=
      if message_present frame then
        bytes32 (tx_msg_size frame)
        ++ bytes16 (tx_msg_id frame)
        ++ bytes16 (tx_con_id frame)
        ++ [ tx_msg_priority frame ]
        ++ bytes32 (tx_msg_next_byte_pos frame)
        ++ bytes32 (rx_msg_next_byte_pos frame)
      else [] in
    let extension :=
      if extension_function_present frame then
        bytes32 (fst (function_bits frame)) ++ bytes32 (snd (function_bits frame))
      else [] in
    Some (append_crc32
            (b0 :: addresses ++ link ++ ack ++ bitmap ++ herald ++ message
                ++ extension)).

(** Field assignments of [parse_control_frame]. *)
Definition with_header (version arq neg addr : Z) (f : ControlFrame) : ControlFrame :=
  {| protocol_version := version; arq_mode := arq; neg_mode := neg;
     address_mode := addr; frame_type := frame_type f;
     src_address_length := src_address_length f; src_address := src_address f;
     des_address_length := des_address_length f; des_address := des_address f;
     link_state := link_state f; link_timeout := link_timeout f;
     ack_nak_type := ack_nak_type f; bit_map := bit_map f;
     flow_control := flow_control f;
     herald_present := herald_present f; data_rate_format := data_rate_format f;
     data_rate := data_rate f; interleaver_length := interleaver_length f;
     bytes_in_data_frames := bytes_in_data_frames f;
     frames_in_next_series := frames_in_next_series f;
     message_present := message_present f; tx_msg_size := tx_msg_size f;
     tx_msg_id := tx_msg_id f; tx_con_id := tx_con_id f;
     tx_msg_priority := tx_msg_priority f;
     tx_msg_next_byte_pos := tx_msg_next_byte_pos f;
     rx_msg_next_byte_pos := rx_msg_next_byte_pos f;
     extension_function_present := extension_function_present f;
     function_bits := function_bits f; crc32 := crc32 f |}.

Definition with_addresses (src_len : Z) (src : list Z) (des_len : Z) (des : list Z)
    (f : ControlFrame) : ControlFrame :=
  {| protocol_version := protocol_version f; arq_mode := arq_mode f;
     neg_mode := neg_mode f; address_mode := address_mode f;
     frame_type := frame_type f;
     src_address_length := src_len; src_address := src;
     des_address_length := des_len; des_address := des;
     link_state := link_state f; link_timeout := link_timeout f;
     ack_nak_type := ack_nak_type f; bit_map := bit_map f;
     flow_control := flow_control f;
     herald_present := herald_present f; data_rate_format := data_rate_format f;
     data_rate := data_rate f; interleaver_length := interleaver_length f;
     bytes_in_data_frames := bytes_in_data_frames f;
     frames_in_next_series := frames_in_next_series f;
     message_present := message_present f; tx_msg_size := tx_msg_size f;
     tx_msg_id := tx_msg_id f; tx_con_id := tx_con_id f;
     tx_msg_priority := tx_msg_priority f;
     tx_msg_next_byte_pos := tx_msg_next_byte_pos f;
     rx_msg_next_byte_pos := rx_msg_next_byte_pos f;
     extension_function_present := extension_function_present f;
     function_bits := function_bits f; crc32 := crc32 f |}.

Definition with_link (state timeout : Z) (f : ControlFrame) : ControlFrame :=
  {| protocol_version := protocol_version f; arq_mode := arq_mode f;
     neg_mode := neg_mode f; address_mode := address_mode f;
     frame_type := frame_type f;
     src_address_length := src_address_length f; src_address := src_address f;
     des_address_length := des_address_length f; des_address := des_address f;
     link_state := state; link_timeout := timeout;
     ack_nak_type := ack_nak_type f; bit_map := bit_map f;
     flow_control := flow_control f;
     herald_present := herald_present f; data_rate_format := data_rate_format f;
     data_rate := data_rate f; interleaver_length := interleaver_length f;
     bytes_in_data_frames := bytes_in_data_frames f;
     frames_in_next_series := frames_in_next_series f;
     message_present := message_present f; tx_msg_size := tx_msg_size f;
     tx_msg_id := tx_msg_id f; tx_con_id := tx_con_id f;
     tx_msg_priority := tx_msg_priority f;
     tx_msg_next_byte_pos := tx_msg_next_byte_pos f;
     rx_msg_next_byte_pos := rx_msg_next_byte_pos f;
     extension_function_present := extension_function_present f;
     function_bits := function_bits f; crc32 := crc32 f |}.

Definition with_ack (ack : Z) (map : list Z) (flow : bool) (f : ControlFrame)
    : ControlFrame :=
  {| protocol_version := protocol_version f; arq_mode := arq_mode f;
     neg_mode := neg_mode f; address_mode := address_mode f;
     frame_type := frame_type f;
     src_address_length := src_address_length f; src_address := src_address f;
     des_address_length := des_address_length f; des_address := des_address f;
     link_state := link_state f; link_timeout := link_timeout f;
     ack_nak_type := ack; bit_map := map; flow_control := flow;
     herald_present := herald_present f; data_rate_format := data_rate_format f;
     data_rate := data_rate f; interleaver_length := interleaver_length f;
     bytes_in_data_frames := bytes_in_data_frames f;
     frames_in_next_series := frames_in_next_series f;
     message_present := message_present f; tx_msg_size := tx_msg_size f;
     tx_msg_id := tx_msg_id f; tx_con_id := tx_con_id f;
     tx_msg_priority := tx_msg_priority f;
     tx_msg_next_byte_pos := tx_msg_next_byte_pos f;
     rx_msg_next_byte_pos := rx_msg_next_byte_pos f;
     extension_function_present := extension_function_present f;
     function_bits := function_bits f; crc32 := crc32 f |}.

Definition with_presence (herald message extension : bool) (f : ControlFrame)
    : ControlFrame :=
  {| protocol_version := protocol_version f; arq_mode := arq_mode f;
     neg_mode := neg_mode f; address_mode := address_mode f;
     frame_type := frame_type f;
     src_address_length := src_address_length f; src_address := src_address f;
     des_address_length := des_address_length f; des_address := des_address f;
     link_state := link_state f; link_timeout := link_timeout f;
     ack_nak_type := ack_nak_type f; bit_map := bit_map f;
     flow_control := flow_control f;
     herald_present := herald; data_rate_format := data_rate_format f;
     data_rate := data_rate f; interleaver_length := interleaver_length f;
     bytes_in_data_frames := bytes_in_data_frames f;
     frames_in_next_series := frames_in_next_series f;
     message_present := message; tx_msg_size := tx_msg_size f;
     tx_msg_id := tx_msg_id f; tx_con_id := tx_con_id f;
     tx_msg_priority := tx_msg_priority f;
     tx_msg_next_byte_pos := tx_msg_next_byte_pos f;
     rx_msg_next_byte_pos := rx_msg_next_byte_pos f;
     extension_function_present := extension;
     function_bits := function_bits f; crc32 := crc32 f |}.

(** The [n] bytes [memcpy(dst, &buffer[index], n)] reads; [None] when they
    do not all lie among the [length] bytes of the buffer. *)
Definition read_bytes (buffer : list Z) (index n : Z) : option (list Z) :=
  if index + n <=? size buffer
  then Some (firstn (Z.to_nat n) (skipn (Z.to_nat index) buffer))
  else None.

(** The part of [parse_control_frame] that follows the addresses; every
    [buffer[..]] it reads is guarded by a comparison with [length - 4]. *)
Definition parse_after_addresses (buffer : list Z) (index : Z) (frame : ControlFrame)
    : bool * ControlFrame :=
  let length := size buffer in
  if length - 4 <? index + 3 then (false, frame)
  else
    let frame :=
      with_link (byte_at buffer index)
        (u16 (Z.lor (Z.shiftl (byte_at buffer (index + 1)) 8)
                    (byte_at buffer (index + 2)))) frame in
    let index := index + 3 in
    if length - 4 <=? index then (false, frame)
    else
      let frame :=
        with_ack (Z.land (byte_at buffer index) 0x03) (bit_map frame)
          (flow_control frame) frame in
      let index := index + 1 in
      let frame :=
        if index + ACK_MAP_SIZE <=? length - 4 then
          if address_mode frame =? SHORT_2_BYTE then
            with_ack (ack_nak_type frame)
              (firstn 32 (skipn (Z.to_nat index) buffer))
              (negb (Z.land (byte_at buffer (index + ACK_MAP_SIZE - 1)) 0x80 =? 0))
              frame
          else frame
        else frame in
      (true, with_presence false false false frame).

(** [bool FrameParser::parse_control_frame(const uint8_t* buffer,
    size_t length, ControlFrame& frame)]: the result is
    [(return value, frame afterwards)], and [None] when the function reads
    [buffer[i]] for some [i >= length]. *)
Definition parse_control_frame (buffer : list Z) (frame : ControlFrame)
    : option (bool * ControlFrame) :=
  let length := size buffer in
  if length <? 10 then Some (false, frame)
  else if negb (validate_crc32 buffer) then Some (false, frame)
  else
    let b0 := byte_at buffer 0 in
    let frame :=
      with_header (Z.land (Z.shiftr b0 2) 0x03) (Z.land (Z.shiftr b0 4) 0x03)
        (Z.land (Z.shiftr b0 6) 0x01) (Z.land (Z.shiftr b0 7) 0x01) frame in
    if address_mode frame =? SHORT_2_BYTE then
      let src := <[0%nat := byte_at buffer 2]> (<[1%nat := byte_at buffer 1]> (src_address frame)) in
      let des := <[0%nat := byte_at buffer 4]> (<[1%nat := byte_at buffer 3]> (des_address frame)) in
      Some (parse_after_addresses buffer 5 (with_addresses 2 src 2 des frame))
    else
      match read_bytes buffer 1 18 with
      | None => None
      | Some src =>
          match read_bytes buffer 19 18 with
          | None => None
          | Some des =>
              Some (parse_after_addresses buffer 37
                      (with_addresses 18 (src ++ skipn 18 (src_address frame))
                         18 (des ++ skipn 18 (des_address frame)) frame))
          end
      end.

End ControlFrame.

(* ===================================================================== *)
(** * Variable ARQ: src/fs1052/fs1052_arq.cpp *)
(* ===================================================================== *)

Module VariableARQ.

Import FrameFormat.

Inductive ARQState :=
  | IDLE | TX_DATA | WAIT_ACK | RX_DATA | SEND_ACK | RETRANSMIT | ERROR.

Inductive ARQEvent :=
  | START_TX | DATA_READY | FRAME_SENT | ACK_RECEIVED | NAK_RECEIVED
  | TIMEOUT | START_RX | FRAME_RECEIVED | TRANSFER_COMPLETE | ERROR_EVENT
  | RESET.

#[global] Instance ARQState_eq_dec : EqDecision ARQState.
Proof. solve_decision. Defined.

Definition DEFAULT_ACK_TIMEOUT : Z := 5000.
Definition DEFAULT_MAX_RETRANSMITS : Z := 3.
Definition DEFAULT_WINDOW_SIZE : Z := 16.

(** [struct DataBlock]; [data] holds the [length] bytes that [create_blocks]
    copies into [uint8_t data[1023]], the rest of the array is never
    initialised or read. *)
Record DataBlock := {
  sequence : Z;
  offset : Z;
  length_ : Z;                      (* the member [length] *)
  data : list Z;
  acknowledged : bool;
  retransmit_count : Z;
  timestamp : Z
}.

(** [struct ARQStats] *)
Record ARQStats := {
  blocks_sent : Z;
  blocks_received : Z;
  blocks_retransmitted : Z;
  acks_sent : Z;
  acks_received : Z;
  naks_received : Z;
  timeouts : Z;
  crc_errors : Z;
  sequence_errors : Z
}.

(** [memset(&m_stats, 0, sizeof(m_stats))] *)
Definition ARQStats_zero : ARQStats :=
  {| blocks_sent := 0; blocks_received := 0; blocks_retransmitted := 0;
     acks_sent := 0; acks_received := 0; naks_received := 0;
     timeouts := 0; crc_errors := 0; sequence_errors := 0 |}.

(** What the machine hands to its three callbacks. *)
Inductive Output :=
  | TxFrame (frame : list Z)
  | StateChange (old_state new_state : ARQState)
  | ErrorMessage (msg : string).

(** [class VariableARQ].  The three [std::function] members are represented
    by whether they are set; [outputs] logs their invocations, oldest
    first. *)
Record arq := {
  m_state : ARQState;
  m_prev_state : ARQState;
  m_tx_callback : bool;
  m_state_callback : bool;
  m_error_callback : bool;
  m_tx_blocks : list DataBlock;
  m_retransmit_queue : list Z;
  m_next_tx_sequence : Z;
  m_window_base : Z;
  m_window_size : Z;
  m_rx_buffer : list Z;
  m_rx_bitmap : list bool;
  m_expected_sequence : Z;
  m_rx_msg_length : Z;
  m_last_tx_time : Z;
  m_ack_timeout : Z;
  m_wait_start_time : Z;
  m_data_rate : Z;
  m_max_retransmits : Z;
  m_stats : ARQStats;
  outputs : list Output
}.

(** [VariableARQ::VariableARQ()] *)
Definition ctor : arq :=
  {| m_state := IDLE; m_prev_state := IDLE;
     m_tx_callback := false; m_state_callback := false; m_error_callback := false;
     m_tx_blocks := []; m_retransmit_queue := [];
     m_next_tx_sequence := 0; m_window_base := 0;
     m_window_size := DEFAULT_WINDOW_SIZE;
     m_rx_buffer := []; m_rx_bitmap := repeat false 256%nat;
     m_expected_sequence := 0; m_rx_msg_length := 0;
     m_last_tx_time := 0; m_ack_timeout := DEFAULT_ACK_TIMEOUT;
     m_wait_start_time := 0; m_data_rate := BPS_2400;
     m_max_retransmits := DEFAULT_MAX_RETRANSMITS;
     m_stats := ARQStats_zero; outputs := [] |}.

(** [void VariableARQ::init(FrameCallback, StateCallback, ErrorCallback)];
    an argument is [true] for a callable and [false] for [nullptr]. *)
Definition init (tx_callback state_callback error_callback : bool) (a : arq) : arq :=
  {| m_state := m_state a; m_prev_state := m_prev_state a;
     m_tx_callback := tx_callback; m_state_callback := state_callback;
     m_error_callback := error_callback;
     m_tx_blocks := m_tx_blocks a; m_retransmit_queue := m_retransmit_queue a;
     m_next_tx_sequence := m_next_tx_sequence a; m_window_base := m_window_base a;
     m_window_size := m_window_size a;
     m_rx_buffer := m_rx_buffer a; m_rx_bitmap := m_rx_bitmap a;
     m_expected_sequence := m_expected_sequence a;
     m_rx_msg_length := m_rx_msg_length a;
     m_last_tx_time := m_last_tx_time a; m_ack_timeout := m_ack_timeout a;
     m_wait_start_time := m_wait_start_time a; m_data_rate := m_data_rate a;
     m_max_retransmits := m_max_retransmits a;
     m_stats := m_stats a; outputs := outputs a |}.

(** Field assignments. *)
Definition with_state (s prev : ARQState) (a : arq) : arq :=
  {| m_state := s; m_prev_state := prev;
     m_tx_callback := m_tx_callback a; m_state_callback := m_state_callback a;
     m_error_callback := m_error_callback a;
     m_tx_blocks := m_tx_blocks a; m_retransmit_queue := m_retransmit_queue a;
     m_next_tx_sequence := m_next_tx_sequence a; m_window_base := m_window_base a;
     m_window_size := m_window_size a;
     m_rx_buffer := m_rx_buffer a; m_rx_bitmap := m_rx_bitmap a;
     m_expected_sequence := m_expected_sequence a;
     m_rx_msg_length := m_rx_msg_length a;
     m_last_tx_time := m_last_tx_time a; m_ack_timeout := m_ack_timeout a;
     m_wait_start_time := m_wait_start_time a; m_data_rate := m_data_rate a;
     m_max_retransmits := m_max_retransmits a;
     m_stats := m_stats a; outputs := outputs a |}.

Definition with_tx (blocks : list DataBlock) (queue : list Z)
    (next_seq base : Z) (a : arq) : arq :=
  {| m_state := m_state a; m_prev_state := m_prev_state a;
     m_tx_callback := m_tx_callback a; m_state_callback := m_state_callback a;
     m_error_callback := m_error_callback a;
     m_tx_blocks := blocks; m_retransmit_queue := queue;
     m_next_tx_sequence := next_seq; m_window_base := base;
     m_window_size := m_window_size a;
     m_rx_buffer := m_rx_buffer a; m_rx_bitmap := m_rx_bitmap a;
     m_expected_sequence := m_expected_sequence a;
     m_rx_msg_length := m_rx_msg_length a;
     m_last_tx_time := m_last_tx_time a; m_ack_timeout := m_ack_timeout a;
     m_wait_start_time := m_wait_start_time a; m_data_rate := m_data_rate a;
     m_max_retransmits := m_max_retransmits a;
     m_stats := m_stats a; outputs := outputs a |}.

Definition with_rx (buffer : list Z) (bitmap : list bool) (expected : Z)
    (a : arq) : arq :=
  {| m_state := m_state a; m_prev_state := m_prev_state a;
     m_tx_callback := m_tx_callback a; m_state_callback := m_state_callback a;
     m_error_callback := m_error_callback a;
     m_tx_blocks := m_tx_blocks a; m_retransmit_queue := m_retransmit_queue a;
     m_next_tx_sequence := m_next_tx_sequence a; m_window_base := m_window_base a;
     m_window_size := m_window_size a;
     m_rx_buffer := buffer; m_rx_bitmap := bitmap;
     m_expected_sequence := expected;
     m_rx_msg_length := m_rx_msg_length a;
     m_last_tx_time := m_last_tx_time a; m_ack_timeout := m_ack_timeout a;
     m_wait_start_time := m_wait_start_time a; m_data_rate := m_data_rate a;
     m_max_retransmits := m_max_retransmits a;
     m_stats := m_stats a; outputs := outputs a |}.

Definition with_times (last_tx wait_start : Z) (a : arq) : arq :=
  {| m_state := m_state a; m_prev_state := m_prev_state a;
     m_tx_callback := m_tx_callback a; m_state_callback := m_state_callback a;
     m_error_callback := m_error_callback a;
     m_tx_blocks := m_tx_blocks a; m_retransmit_queue := m_retransmit_queue a;
     m_next_tx_sequence := m_next_tx_sequence a; m_window_base := m_window_base a;
     m_window_size := m_window_size a;
     m_rx_buffer := m_rx_buffer a; m_rx_bitmap := m_rx_bitmap a;
     m_expected_sequence := m_expected_sequence a;
     m_rx_msg_length := m_rx_msg_length a;
     m_last_tx_time := last_tx; m_ack_timeout := m_ack_timeout a;
     m_wait_start_time := wait_start; m_data_rate := m_data_rate a;
     m_max_retransmits := m_max_retransmits a;
     m_stats := m_stats a; outputs := outputs a |}.

Definition with_stats (stats : ARQStats) (a : arq) : arq :=
  {| m_state := m_state a; m_prev_state := m_prev_state a;
     m_tx_callback := m_tx_callback a; m_state_callback := m_state_callback a;
     m_error_callback := m_error_callback a;
     m_tx_blocks := m_tx_blocks a; m_retransmit_queue := m_retransmit_queue a;
     m_next_tx_sequence := m_next_tx_sequence a; m_window_base := m_window_base a;
     m_window_size := m_window_size a;
     m_rx_buffer := m_rx_buffer a; m_rx_bitmap := m_rx_bitmap a;
     m_expected_sequence := m_expected_sequence a;
     m_rx_msg_length := m_rx_msg_length a;
     m_last_tx_time := m_last_tx_time a; m_ack_timeout := m_ack_timeout a;
     m_wait_start_time := m_wait_start_time a; m_data_rate := m_data_rate a;
     m_max_retransmits := m_max_retransmits a;
     m_stats := stats; outputs := outputs a |}.

Definition with_outputs (outs : list Output) (a : arq) : arq :=
  {| m_state := m_state a; m_prev_state := m_prev_state a;
     m_tx_callback := m_tx_callback a; m_state_callback := m_state_callback a;
     m_error_callback := m_error_callback a;
     m_tx_blocks := m_tx_blocks a; m_retransmit_queue := m_retransmit_queue a;
     m_next_tx_sequence := m_next_tx_sequence a; m_window_base := m_window_base a;
     m_window_size := m_window_size a;
     m_rx_buffer := m_rx_buffer a; m_rx_bitmap := m_rx_bitmap a;
     m_expected_sequence := m_expected_sequence a;
     m_rx_msg_length := m_rx_msg_length a;
     m_last_tx_time := m_last_tx_time a; m_ack_timeout := m_ack_timeout a;
     m_wait_start_time := m_wait_start_time a; m_data_rate := m_data_rate a;
     m_max_retransmits := m_max_retransmits a;
     m_stats := m_stats a; outputs := outs |}.

Definition emit (o : Output) (a : arq) : arq := with_outputs (outputs a ++ [o]) a.

Definition set_tx_blocks (blocks : list DataBlock) (a : arq) : arq :=
  with_tx blocks (m_retransmit_queue a) (m_next_tx_sequence a) (m_window_base a) a.

Definition set_retransmit_queue (queue : list Z) (a : arq) : arq :=
  with_tx (m_tx_blocks a) queue (m_next_tx_sequence a) (m_window_base a) a.

Definition set_next_tx_sequence (n : Z) (a : arq) : arq :=
  with_tx (m_tx_blocks a) (m_retransmit_queue a) n (m_window_base a) a.

Definition set_wait_start_time (t : Z) (a : arq) : arq :=
  with_times (m_last_tx_time a) t a.

Definition set_timestamp (t : Z) (b : DataBlock) : DataBlock :=
  {| sequence := sequence b; offset := offset b; length_ := length_ b;
     data := data b; acknowledged := acknowledged b;
     retransmit_count := retransmit_count b; timestamp := t |}.

Definition set_retransmit_count (n : Z) (b : DataBlock) : DataBlock :=
  {| sequence := sequence b; offset := offset b; length_ := length_ b;
     data := data b; acknowledged := acknowledged b;
     retransmit_count := n; timestamp := timestamp b |}.

Definition bump_blocks_sent (s : ARQStats) : ARQStats :=
  {| blocks_sent := u32 (blocks_sent s + 1); blocks_received := blocks_received s;
     blocks_retransmitted := blocks_retransmitted s;
     acks_sent := acks_sent s; acks_received := acks_received s;
     naks_received := naks_received s; timeouts := timeouts s;
     crc_errors := crc_errors s; sequence_errors := sequence_errors s |}.

Definition bump_blocks_retransmitted (s : ARQStats) : ARQStats :=
  {| blocks_sent := blocks_sent s; blocks_received := blocks_received s;
     blocks_retransmitted := u32 (blocks_retransmitted s + 1);
     acks_sent := acks_sent s; acks_received := acks_received s;
     naks_received := naks_received s; timeouts := timeouts s;
     crc_errors := crc_errors s; sequence_errors := sequence_errors s |}.

Definition bump_naks_received (s : ARQStats) : ARQStats :=
  {| blocks_sent := blocks_sent s; blocks_received := blocks_received s;
     blocks_retransmitted := blocks_retransmitted s;
     acks_sent := acks_sent s; acks_received := acks_received s;
     naks_received := u32 (naks_received s + 1); timeouts := timeouts s;
     crc_errors := crc_errors s; sequence_errors := sequence_errors s |}.

Definition bump_timeouts (s : ARQStats) : ARQStats :=
  {| blocks_sent := blocks_sent s; blocks_received := blocks_received s;
     blocks_retransmitted := blocks_retransmitted s;
     acks_sent := acks_sent s; acks_received := acks_received s;
     naks_received := naks_received s; timeouts := u32 (timeouts s + 1);
     crc_errors := crc_errors s; sequence_errors := sequence_errors s |}.

(** [void VariableARQ::report_error(const char* msg)] *)
Definition report_error (msg : string) (a : arq) : arq :=
  if m_error_callback a then emit (ErrorMessage msg) a else a.

(** [void VariableARQ::transition_to(ARQState new_state)] *)
Definition transition_to (new_state : ARQState) (a : arq) : arq :=
  if decide (new_state = m_state a) then a
  else
    let old := m_state a in
    let a := with_state new_state old a in
    if m_state_callback a then emit (StateChange old new_state) a else a.

Fixpoint find_block_from (blocks : list DataBlock) (sequence_ : Z) (i : nat)
    : option nat :=
  match blocks with
  | [] => None
  | b :: rest =>
      if sequence b =? sequence_ then Some i
      else find_block_from rest sequence_ (S i)
  end.

(** [DataBlock* VariableARQ::find_block(uint8_t sequence)]: the position in
    [m_tx_blocks] the returned pointer refers to, [None] for [nullptr]. *)
Definition find_block (sequence_ : Z) (a : arq) : option nat :=
  find_block_from (m_tx_blocks a) sequence_ 0.

(** The block a pointer obtained from [find_block] refers to. *)
Definition block_at (sequence_ : Z) (a : arq) : option (nat * DataBlock) :=
  match find_block sequence_ a with
  | None => None
  | Some i =>
      match m_tx_blocks a !! i with
      | Some block => Some (i, block)
      | None => None
      end
  end.

(** [bool VariableARQ::all_blocks_acked() const] *)
Definition all_blocks_acked (a : arq) : bool :=
  forallb acknowledged (m_tx_blocks a).

(** [void VariableARQ::send_block(uint8_t sequence)] *)
Definition send_block (sequence_ : Z) (a : arq) : arq :=
  match block_at sequence_ a with
  | None => a
  | Some (i, block) =>
      if negb (m_tx_callback a) then a
      else
        let frame :=
          {| data_rate_format := ABSOLUTE;
             data_rate := u8 (m_data_rate a);
             interleaver_length := SHORT;
             sequence_number := sequence block;
             msg_byte_offset := offset block;
             data_length := length_ block;
             FrameFormat.data :=
               memcpy_into (FrameFormat.data DataFrame_ctor) (data block) (length_ block);
             crc32 := 0 |} in
        match format_data_frame frame 1200 with
        | Some buffer =>
            let a := emit (TxFrame buffer) a in
            let a :=
              set_tx_blocks
                (<[i := set_timestamp (m_last_tx_time a) block]> (m_tx_blocks a)) a in
            with_stats (bump_blocks_sent (m_stats a)) a
        | None => a
        end
  end.

(** The [while] loop of [send_next_blocks], one unit of fuel per
    iteration; the result is [(sent, machine)]. *)
Fixpoint send_next_blocks_loop (fuel : nat) (sent : Z) (a : arq) : option (Z * arq) :=
  if (sent <? m_window_size a)
     && (m_next_tx_sequence a <? Z.of_nat (length (m_tx_blocks a)))
  then
    match fuel with
    | O => None
    | S fuel =>
        let seq := m_next_tx_sequence a in
        let '(sent, a) :=
          match block_at seq a with
          | Some (_, block) =>
              if negb (acknowledged block)
              then (sent + 1, send_block seq a)
              else (sent, a)
          | None => (sent, a)
          end in
        (* [m_next_tx_sequence++] on a [uint8_t]; the test [>= 256] that
           follows it never holds *)
        let a := set_next_tx_sequence (u8 (m_next_tx_sequence a + 1)) a in
        send_next_blocks_loop fuel sent a
    end
  else Some (sent, a).

Section Handlers.

(** The nested calls of [process_event], with the fuel that is left. *)
Variable process_event : ARQEvent -> arq -> option arq.
Variable fuel : nat.

(** [void VariableARQ::send_next_blocks()] *)
Definition send_next_blocks (a : arq) : option arq :=
  match send_next_blocks_loop fuel 0 a with
  | None => None
  | Some (sent, a) =>
      if 0 <? sent then process_event FRAME_SENT a else Some a
  end.

(** [void VariableARQ::handle_idle(ARQEvent event)] *)
Definition handle_idle (event : ARQEvent) (a : arq) : option arq :=
  match event with
  | START_TX =>
      match m_tx_blocks a with
      | [] => Some a
      | _ :: _ => send_next_blocks (transition_to TX_DATA a)
      end
  | START_RX => Some (transition_to RX_DATA a)
  | _ => Some a
  end.

(** [void VariableARQ::handle_tx_data(ARQEvent event)] *)
Definition handle_tx_data (event : ARQEvent) (a : arq) : option arq :=
  match event with
  | FRAME_SENT =>
      if all_blocks_acked a then process_event TRANSFER_COMPLETE a
      else
        let a := transition_to WAIT_ACK a in
        Some (set_wait_start_time (m_last_tx_time a) a)
  | TRANSFER_COMPLETE => Some (transition_to IDLE a)
  | ERROR_EVENT => Some (transition_to ERROR a)
  | _ => Some a
  end.

(** [void VariableARQ::handle_wait_ack(ARQEvent event)] *)
Definition handle_wait_ack (event : ARQEvent) (a : arq) : option arq :=
  match event with
  | ACK_RECEIVED =>
      if all_blocks_acked a then Some (transition_to IDLE a)
      else
        match m_retransmit_queue a with
        | _ :: _ => Some (transition_to RETRANSMIT a)
        | [] => send_next_blocks (transition_to TX_DATA a)
        end
  | NAK_RECEIVED =>
      Some (transition_to RETRANSMIT (with_stats (bump_naks_received (m_stats a)) a))
  | TIMEOUT =>
      Some (transition_to RETRANSMIT (with_stats (bump_timeouts (m_stats a)) a))
  | ERROR_EVENT => Some (transition_to ERROR a)
  | _ => Some a
  end.

End Handlers.

(** [void VariableARQ::handle_rx_data(ARQEvent event)] *)
Definition handle_rx_data (event : ARQEvent) (a : arq) : arq :=
  match event with
  | FRAME_RECEIVED => transition_to SEND_ACK a
  | TRANSFER_COMPLETE => transition_to IDLE a     (* reassemble_data() is empty *)
  | ERROR_EVENT => transition_to ERROR a
  | _ => a
  end.

(** [void VariableARQ::handle_send_ack(ARQEvent event)] *)
Definition handle_send_ack (event : ARQEvent) (a : arq) : arq :=
  match event with
  | FRAME_SENT => transition_to RX_DATA a
  | _ => a
  end.

(** The [while (!m_retransmit_queue.empty())] loop of [handle_retransmit],
    over the queue it pops; [true] is the early [return]. *)
Fixpoint retransmit_loop (queue : list Z) (a : arq) : bool * arq :=
  match queue with
  | [] => (false, a)
  | seq :: rest =>
      let a := set_retransmit_queue rest a in
      match block_at seq a with
      | Some (i, block) =>
          if negb (acknowledged block) then
            if m_max_retransmits a <=? retransmit_count block then
              (true, transition_to ERROR (report_error "Max retransmissions exceeded" a))
            else
              let a := send_block seq a in
              let a :=
                match m_tx_blocks a !! i with
                | Some b =>
                    set_tx_blocks
                      (<[i := set_retransmit_count (u8 (retransmit_count b + 1)) b]>
                         (m_tx_blocks a)) a
                | None => a
                end in
              let a := with_stats (bump_blocks_retransmitted (m_stats a)) a in
              retransmit_loop rest a
          else retransmit_loop rest a
      | None => retransmit_loop rest a
      end
  end.

(** [void VariableARQ::handle_retransmit(ARQEvent event)] *)
Definition handle_retransmit (event : ARQEvent) (a : arq) : arq :=
  match event with
  | DATA_READY =>
      let '(returned, a) := retransmit_loop (m_retransmit_queue a) a in
      if returned then a
      else
        let a := transition_to WAIT_ACK a in
        set_wait_start_time (m_last_tx_time a) a
  | _ => a
  end.

(** [void VariableARQ::reset()] *)
Definition reset (a : arq) : arq :=
  let a := transition_to IDLE a in
  let a := with_tx [] [] 0 0 a in
  let a := with_rx [] (repeat false 256%nat) 0 a in
  with_stats ARQStats_zero a.

(** [void VariableARQ::process_event(ARQEvent event)]; [None] when the
    fuel does not cover the nested calls and loop iterations. *)
Fixpoint process_event (fuel : nat) (event : ARQEvent) (a : arq) : option arq :=
  match fuel with
  | O => None
  | S fuel =>
      match m_state a with
      | IDLE => handle_idle (process_event fuel) fuel event a
      | TX_DATA => handle_tx_data (process_event fuel) event a
      | WAIT_ACK => handle_wait_ack (process_event fuel) fuel event a
      | RX_DATA => Some (handle_rx_data event a)
      | SEND_ACK => Some (handle_send_ack event a)
      | RETRANSMIT => Some (handle_retransmit event a)
      | ERROR =>
          match event with
          | RESET => Some (reset a)
          | _ => Some a
          end
      end
  end.

(** The [while (offset < length)] loop of [create_blocks], one unit of fuel
    per iteration. *)
Fixpoint create_blocks_loop (fuel : nat) (data_ : list Z) (length : Z)
    (offset_ seq : Z) (blocks : list DataBlock) : option (list DataBlock) :=
  if offset_ <? length then
    match fuel with
    | O => None
    | S fuel =>
        let len := Z.min MAX_DATA_BLOCK_LENGTH (u32 (length - offset_)) in
        let block :=
          {| sequence := seq; offset := offset_; length_ := u16 len;
             data := firstn (Z.to_nat len) (skipn (Z.to_nat offset_) data_);
             acknowledged := false; retransmit_count := 0; timestamp := 0 |} in
        (* [seq++] on a [uint8_t]; the test [>= 256] that follows it never
           holds *)
        create_blocks_loop fuel data_ length
          (u32 (offset_ + length_ block)) (u8 (seq + 1)) (blocks ++ [block])
    end
  else Some blocks.

(** [void VariableARQ::create_blocks(const uint8_t* data, uint32_t length)];
    every iteration consumes at least one byte, so [length + 1] units of
    fuel cover the loop. *)
Definition create_blocks (data_ : list Z) (a : arq) : option arq :=
  let length := Z.of_nat (List.length data_) in
  match create_blocks_loop (S (List.length data_)) data_ length 0 0 [] with
  | None => None
  | Some blocks => Some (with_tx blocks (m_retransmit_queue a) 0 0 a)
  end.

(** [bool VariableARQ::start_transmission(const uint8_t* data, uint32_t length)]:
    the result is [(return value, machine afterwards)]. *)
Definition start_transmission (fuel : nat) (data_ : list Z) (a : arq)
    : option (bool * arq) :=
  if negb (bool_decide (m_state a = IDLE)) then
    Some (false, report_error "Cannot start transmission: not in IDLE state" a)
  else if negb (m_tx_callback a) then
    Some (false, report_error "No TX callback configured" a)
  else
    match create_blocks data_ a with
    | None => None
    | Some a =>
        match process_event fuel START_TX a with
        | None => None
        | Some a => Some (true, a)
        end
    end.

(** [ARQState get_state() const] *)
Definition get_state (a : arq) : ARQState := m_state a.

(** [const ARQStats& get_stats() const] *)
Definition get_stats (a : arq) : ARQStats := m_stats a.

(** [const std::vector<uint8_t>& get_received_data() const] *)
Definition get_received_data (a : arq) : list Z := m_rx_buffer a.

(** [void set_ack_timeout(uint32_t)], [void set_max_retransmissions(uint8_t)],
    [void set_window_size(uint8_t)], [void set_data_rate(DataRate)] *)
Definition set_ack_timeout (timeout_ms : Z) (a : arq) : arq :=
  {| m_state := m_state a; m_prev_state := m_prev_state a;
     m_tx_callback := m_tx_callback a;
     m_state_callback := m_state_callback a;
     m_error_callback := m_error_callback a; m_tx_blocks := m_tx_blocks a;
     m_retransmit_queue := m_retransmit_queue a;
     m_next_tx_sequence := m_next_tx_sequence a;
     m_window_base := m_window_base a; m_window_size := m_window_size a;
     m_rx_buffer := m_rx_buffer a; m_rx_bitmap := m_rx_bitmap a;
     m_expected_sequence := m_expected_sequence a;
     m_rx_msg_length := m_rx_msg_length a;
     m_last_tx_time := m_last_tx_time a; m_ack_timeout := timeout_ms;
     m_wait_start_time := m_wait_start_time a; m_data_rate := m_data_rate a;
     m_max_retransmits := m_max_retransmits a; m_stats := m_stats a;
     outputs := outputs a |}.

Definition set_max_retransmissions (max : Z) (a : arq) : arq :=
  {| m_state := m_state a; m_prev_state := m_prev_state a;
     m_tx_callback := m_tx_callback a;
     m_state_callback := m_state_callback a;
     m_error_callback := m_error_callback a; m_tx_blocks := m_tx_blocks a;
     m_retransmit_queue := m_retransmit_queue a;
     m_next_tx_sequence := m_next_tx_sequence a;
     m_window_base := m_window_base a; m_window_size := m_window_size a;
     m_rx_buffer := m_rx_buffer a; m_rx_bitmap := m_rx_bitmap a;
     m_expected_sequence := m_expected_sequence a;
     m_rx_msg_length := m_rx_msg_length a;
     m_last_tx_time := m_last_tx_time a; m_ack_timeout := m_ack_timeout a;
     m_wait_start_time := m_wait_start_time a; m_data_rate := m_data_rate a;
     m_max_retransmits := max; m_stats := m_stats a; outputs := outputs a |}.

Definition set_window_size (size : Z) (a : arq) : arq :=
  {| m_state := m_state a; m_prev_state := m_prev_state a;
     m_tx_callback := m_tx_callback a;
     m_state_callback := m_state_callback a;
     m_error_callback := m_error_callback a; m_tx_blocks := m_tx_blocks a;
     m_retransmit_queue := m_retransmit_queue a;
     m_next_tx_sequence := m_next_tx_sequence a;
     m_window_base := m_window_base a; m_window_size := size;
     m_rx_buffer := m_rx_buffer a; m_rx_bitmap := m_rx_bitmap a;
     m_expected_sequence := m_expected_sequence a;
     m_rx_msg_length := m_rx_msg_length a;
     m_last_tx_time := m_last_tx_time a; m_ack_timeout := m_ack_timeout a;
     m_wait_start_time := m_wait_start_time a; m_data_rate := m_data_rate a;
     m_max_retransmits := m_max_retransmits a; m_stats := m_stats a;
     outputs := outputs a |}.

Definition set_data_rate (rate : Z) (a : arq) : arq :=
  {| m_state := m_state a; m_prev_state := m_prev_state a;
     m_tx_callback := m_tx_callback a;
     m_state_callback := m_state_callback a;
     m_error_callback := m_error_callback a; m_tx_blocks := m_tx_blocks a;
     m_retransmit_queue := m_retransmit_queue a;
     m_next_tx_sequence := m_next_tx_sequence a;
     m_window_base := m_window_base a; m_window_size := m_window_size a;
     m_rx_buffer := m_rx_buffer a; m_rx_bitmap := m_rx_bitmap a;
     m_expected_sequence := m_expected_sequence a;
     m_rx_msg_length := m_rx_msg_length a;
     m_last_tx_time := m_last_tx_time a; m_ack_timeout := m_ack_timeout a;
     m_wait_start_time := m_wait_start_time a; m_data_rate := rate;
     m_max_retransmits := m_max_retransmits a; m_stats := m_stats a;
     outputs := outputs a |}.

(** [DataRate get_data_rate() const] *)
Definition get_data_rate (a : arq) : Z := m_data_rate a.

(** [bool VariableARQ::is_transfer_complete() const] *)
Definition is_transfer_complete (a : arq) : bool :=
  if bool_decide (m_state a = IDLE) && negb (bool_decide (m_tx_blocks a = []))
  then all_blocks_acked a
  else bool_decide (m_state a = IDLE).

Definition bump_blocks_received (s : ARQStats) : ARQStats :=
  {| blocks_sent := blocks_sent s;
     blocks_received := u32 (blocks_received s + 1);
     blocks_retransmitted := blocks_retransmitted s;
     acks_sent := acks_sent s; acks_received := acks_received s;
     naks_received := naks_received s; timeouts := timeouts s;
     crc_errors := crc_errors s; sequence_errors := sequence_errors s |}.

Definition bump_acks_sent (s : ARQStats) : ARQStats :=
  {| blocks_sent := blocks_sent s; blocks_received := blocks_received s;
     blocks_retransmitted := blocks_retransmitted s;
     acks_sent := u32 (acks_sent s + 1); acks_received := acks_received s;
     naks_received := naks_received s; timeouts := timeouts s;
     crc_errors := crc_errors s; sequence_errors := sequence_errors s |}.

Definition bump_acks_received (s : ARQStats) : ARQStats :=
  {| blocks_sent := blocks_sent s; blocks_received := blocks_received s;
     blocks_retransmitted := blocks_retransmitted s;
     acks_sent := acks_sent s; acks_received := u32 (acks_received s + 1);
     naks_received := naks_received s; timeouts := timeouts s;
     crc_errors := crc_errors s; sequence_errors := sequence_errors s |}.

Definition bump_crc_errors (s : ARQStats) : ARQStats :=
  {| blocks_sent := blocks_sent s; blocks_received := blocks_received s;
     blocks_retransmitted := blocks_retransmitted s;
     acks_sent := acks_sent s; acks_received := acks_received s;
     naks_received := naks_received s; timeouts := timeouts s;
     crc_errors := u32 (crc_errors s + 1);
     sequence_errors := sequence_errors s |}.

Definition set_acknowledged (v : bool) (b : DataBlock) : DataBlock :=
  {| sequence := sequence b; offset := offset b; length_ := length_ b;
     data := data b; acknowledged := v;
     retransmit_count := retransmit_count b; timestamp := timestamp b |}.

(** [void VariableARQ::mark_block_acked(uint8_t sequence)] *)
Definition mark_block_acked (sequence_ : Z) (a : arq) : arq :=
  match block_at sequence_ a with
  | Some (i, block) =>
      set_tx_blocks (<[i := set_acknowledged true block]> (m_tx_blocks a)) a
  | None => a
  end.

(** The values of [i] in [for (int i = 0; i < 256; i++)]. *)
Definition sequence_numbers : list Z := map Z.of_nat (seq 0 256).

(** [void VariableARQ::process_ack(const ControlFrame& frame)] *)
Definition process_ack (frame : ControlFrame.ControlFrame) (a : arq) : arq :=
  if negb (ControlFrame.ack_nak_type frame =? ControlFrame.DATA_ACK) then a
  else
    fold_left
      (fun a i =>
         let byte_idx := i / 8 in
         let bit_idx := i mod 8 in
         let acked :=
           negb (Z.land (ControlFrame.elem (ControlFrame.bit_map frame) byte_idx)
                        (Z.shiftl 1 bit_idx) =? 0) in
         if acked then mark_block_acked i a else a)
      sequence_numbers a.

(** [void VariableARQ::send_nak(uint8_t sequence)] *)
Definition send_nak (sequence_ : Z) (a : arq) : arq :=
  set_retransmit_queue (m_retransmit_queue a ++ [sequence_]) a.

(** What a call may end in besides returning: the model running out of the
    fuel it was given, or the source reading or writing outside the bytes of
    the container it indexes. *)
Inductive outcome :=
  | Returns (a : arq)
  | OutOfFuel
  | OutOfBounds.

Definition of_option (r : option arq) : outcome :=
  match r with
  | Some a => Returns a
  | None => OutOfFuel
  end.

(** [m_rx_buffer.resize(n)] for [n] above the size: zero-filled growth. *)
Definition resize (buffer : list Z) (n : Z) : list Z :=
  buffer ++ repeat 0 (Z.to_nat n - List.length buffer).

(** [memcpy(&m_rx_buffer[offset], src, n)] for [offset + n] within the
    buffer. *)
Definition store (buffer : list Z) (offset_ : Z) (src : list Z) (n : Z) : list Z :=
  firstn (Z.to_nat offset_) buffer
  ++ firstn (Z.to_nat n) src
  ++ skipn (Z.to_nat (offset_ + n)) buffer.

(** [void VariableARQ::process_data_frame(const DataFrame& frame)].  The
    sum [offset + frame.data_length] is computed in 32 bits; when it wraps,
    the buffer is not grown to hold the bytes that [memcpy] then writes at
    [offset]. *)
Definition process_data_frame (fuel : nat) (frame : DataFrame) (a : arq) : outcome :=
  let seq := sequence_number frame in
  if nth (Z.to_nat seq) (m_rx_bitmap a) false then Returns a
  else
    let bitmap := <[Z.to_nat seq := true]> (m_rx_bitmap a) in
    let offset_ := msg_byte_offset frame in
    let end_ := u32 (offset_ + data_length frame) in
    let buffer :=
      if Z.of_nat (List.length (m_rx_buffer a)) <? end_
      then resize (m_rx_buffer a) end_ else m_rx_buffer a in
    if (0 <? data_length frame)
       && (Z.of_nat (List.length buffer) <? offset_ + data_length frame)
    then OutOfBounds
    else
      let buffer := store buffer offset_ (FrameFormat.data frame) (data_length frame) in
      let a := with_rx buffer bitmap (m_expected_sequence a) a in
      let all_received :=
        forallb
          (fun i => nth (Z.to_nat i) (m_rx_bitmap a) false
                    || negb (i <? m_next_tx_sequence a))
          sequence_numbers in
      if all_received then of_option (process_event fuel TRANSFER_COMPLETE a)
      else Returns a.

(** [void VariableARQ::handle_received_frame(const uint8_t* frame, int length)];
    the buffer holds exactly [length] bytes. *)
Definition handle_received_frame (fuel : nat) (frame : list Z) (a : arq) : outcome :=
  if size frame <? 1 then Returns a
  else
    let type := detect_frame_type frame in
    if type =? DATA then
      let '(parsed, df) := parse_data_frame frame DataFrame_ctor in
      if parsed then
        match process_data_frame fuel df a with
        | Returns a =>
            let a := with_stats (bump_blocks_received (m_stats a)) a in
            of_option (process_event fuel FRAME_RECEIVED a)
        | stopped => stopped
        end
      else Returns (with_stats (bump_crc_errors (m_stats a)) a)
    else if negb (type =? NO_FRAME) then
      match ControlFrame.parse_control_frame frame ControlFrame.ControlFrame_ctor with
      | None => OutOfBounds
      | Some (true, cf) =>
          let a := process_ack cf a in
          let a := with_stats (bump_acks_received (m_stats a)) a in
          of_option (process_event fuel ACK_RECEIVED a)
      | Some (false, _) => Returns a
      end
    else Returns a.

(** The bitmap loop of [send_ack]: bit [i mod 8] of byte [i / 8] is set for
    every received sequence number [i]. *)
Definition ack_bit_map (rx_bitmap : list bool) (bit_map : list Z) : list Z :=
  fold_left
    (fun bit_map i =>
       if nth (Z.to_nat i) rx_bitmap false then
         let byte_idx := i / 8 in
         let bit_idx := i mod 8 in
         <[Z.to_nat byte_idx :=
             u8 (Z.lor (ControlFrame.elem bit_map byte_idx) (Z.shiftl 1 bit_idx))]> bit_map
       else bit_map)
    sequence_numbers bit_map.

(** The frame [send_ack] builds. *)
Definition ack_frame (a : arq) : ControlFrame.ControlFrame :=
  let f := ControlFrame.ControlFrame_ctor in
  let f :=
    ControlFrame.with_header ControlFrame.PROTOCOL_VERSION ControlFrame.VARIABLE_ARQ
      (ControlFrame.neg_mode f) (ControlFrame.address_mode f) f in
  ControlFrame.with_ack ControlFrame.DATA_ACK
    (ack_bit_map (m_rx_bitmap a) (ControlFrame.bit_map f))
    (ControlFrame.flow_control f) f.

(** [void VariableARQ::send_ack()] *)
Definition send_ack (fuel : nat) (a : arq) : option arq :=
  if negb (m_tx_callback a) then Some a
  else
    match ControlFrame.format_control_frame (ack_frame a) 256 with
    | Some buffer =>
        let a := emit (TxFrame buffer) a in
        let a := with_stats (bump_acks_sent (m_stats a)) a in
        process_event fuel FRAME_SENT a
    | None => Some a
    end.

(** [void VariableARQ::check_timeouts(uint32_t current_time)] *)
Definition check_timeouts (fuel : nat) (current_time : Z) (a : arq) : option arq :=
  if m_ack_timeout a <? u32 (current_time - m_wait_start_time a) then
    let unacked :=
      map sequence (List.filter (fun block => negb (acknowledged block)) (m_tx_blocks a)) in
    let a := set_retransmit_queue (m_retransmit_queue a ++ unacked) a in
    process_event fuel TIMEOUT a
  else Some a.

(** [void VariableARQ::update(uint32_t current_time_ms)] *)
Definition update (fuel : nat) (current_time_ms : Z) (a : arq) : option arq :=
  let a := with_times current_time_ms (m_wait_start_time a) a in
  if bool_decide (m_state a = WAIT_ACK) then check_timeouts fuel current_time_ms a
  else Some a.

End VariableARQ.

(* ===================================================================== *)
(** * Properties *)
(* ===================================================================== *)

(** ** Bit-level facts about machine integers *)

Lemma lt_pow2_shiftr (n x : Z) :
  0 <= n -> 0 <= x -> (x < 2 ^ n <-> Z.shiftr x n = 0).
Proof.
  intros Hn Hx. rewrite Z.shiftr_div_pow2 by lia.
  assert (0 < 2 ^ n) by (apply Z.pow_pos_nonneg; lia).
  rewrite Z.div_small_iff by lia. lia.
Qed.

Lemma lor_range (n a b : Z) :
  0 <= n -> 0 <= a < 2 ^ n -> 0 <= b < 2 ^ n -> 0 <= Z.lor a b < 2 ^ n.
Proof.
  intros Hn Ha Hb.
  assert (H0 : 0 <= Z.lor a b) by (apply Z.lor_nonneg; lia).
  split; [exact H0|]. apply lt_pow2_shiftr; [lia..|].
  rewrite Z.shiftr_lor.
  rewrite (proj1 (lt_pow2_shiftr n a Hn (proj1 Ha)) (proj2 Ha)).
  rewrite (proj1 (lt_pow2_shiftr n b Hn (proj1 Hb)) (proj2 Hb)).
  reflexivity.
Qed.

Lemma lxor_range (n a b : Z) :
  0 <= n -> 0 <= a < 2 ^ n -> 0 <= b < 2 ^ n -> 0 <= Z.lxor a b < 2 ^ n.
Proof.
  intros Hn Ha Hb.
  assert (H0 : 0 <= Z.lxor a b) by (apply Z.lxor_nonneg; lia).
  split; [exact H0|]. apply lt_pow2_shiftr; [lia..|].
  rewrite Z.shiftr_lxor.
  rewrite (proj1 (lt_pow2_shiftr n a Hn (proj1 Ha)) (proj2 Ha)).
  rewrite (proj1 (lt_pow2_shiftr n b Hn (proj1 Hb)) (proj2 Hb)).
  reflexivity.
Qed.

Lemma land_ones_range (n x : Z) :
  0 <= n -> 0 <= x < 2 ^ n -> Z.land x (Z.ones n) = x.
Proof.
  intros Hn Hx. rewrite Z.land_ones by lia. apply Z.mod_small. exact Hx.
Qed.

(** [hi << n | lo] lays the two operands side by side. *)
Lemma lor_shiftl_add (n hi lo : Z) :
  0 <= n -> 0 <= lo < 2 ^ n -> Z.lor (Z.shiftl hi n) lo = hi * 2 ^ n + lo.
Proof.
  intros Hn Hlo.
  assert (Hz : Z.land (Z.shiftl hi n) lo = 0).
  { apply Z.bits_inj'. intros k Hk. rewrite Z.land_spec, Z.bits_0.
    destruct (Z.lt_ge_cases k n) as [Hlt | Hge].
    - rewrite Z.shiftl_spec_low by lia. reflexivity.
    - assert (Hb : Z.testbit lo k = false).
      { destruct (Z.eq_dec lo 0) as [-> | Hne]; [apply Z.bits_0|].
        apply Z.bits_above_log2; [lia|].
        apply Z.log2_lt_pow2; [lia|].
        apply Z.lt_le_trans with (2 ^ n); [lia|].
        apply Z.pow_le_mono_r; lia. }
      rewrite Hb. apply andb_false_r. }
  rewrite <- Z.lxor_lor by exact Hz.
  rewrite <- Z.add_nocarry_lxor by exact Hz.
  rewrite Z.shiftl_mul_pow2 by lia. reflexivity.
Qed.

(** ** Golay *)

Definition golay_roundtrip_at (n : nat) : bool :=
  let info := Z.of_nat n in
  (Golay.compute_syndrome (Golay.encode info) =? 0)
  && (Z.land (Z.shiftr (Golay.encode info) 12) 0xFFF =? info).

Lemma golay_roundtrip_all : forallb golay_roundtrip_at (seq 0 4096) = true.
Proof. vm_compute. reflexivity. Qed.

Lemma golay_encode_syndrome (info : Z) :
  0 <= info < 4096 ->
  Golay.compute_syndrome (Golay.encode info) = 0
  /\ Z.land (Z.shiftr (Golay.encode info) 12) 0xFFF = info.
Proof.
  intros Hr.
  pose proof (proj1 (forallb_forall _ _) golay_roundtrip_all (Z.to_nat info)) as H.
  unfold golay_roundtrip_at in H. rewrite Z2Nat.id in H by lia.
  assert (Hin : In (Z.to_nat info) (seq 0 4096)) by (apply in_seq; lia).
  specialize (H Hin). apply andb_prop in H as [H1 H2].
  split; [apply Z.eqb_eq, H1 | apply Z.eqb_eq, H2].
Qed.

(** C6.  For every 12-bit information word [info], decoding the codeword
    [Golay::encode(info)] returns [info] with an error count of 0, whatever
    the static syndrome table holds at the time of the call. *)
Theorem golay_decode_encode (st : Golay.statics) (info : Z) :
  0 <= info < 4096 ->
  exists st', Golay.decode st (Golay.encode info) = (0, info, st').
Proof.
  intros Hr. destruct (golay_encode_syndrome info Hr) as [Hs Hi].
  unfold Golay.decode. rewrite Hs. simpl (0 =? 0). cbv iota.
  rewrite Hi. eexists. reflexivity.
Qed.

Lemma golay_decode_encode_witness :
  0 <= 0x123 < 4096
  /\ exists st', Golay.decode Golay.statics_at_load (Golay.encode 0x123) = (0, 0x123, st').
Proof.
  split; [lia | apply (golay_decode_encode Golay.statics_at_load 0x123); lia].
Defined.

(** C1 (the code at the failing input).  The codeword of information word 0
    is 0; the error pattern [0x080001] has weight 2 (parity bit 0 and
    information bit 7); the syndrome of the corrupted word is 1, for which the
    syndrome table holds the weight-1 pattern [0x000001].  [Golay::decode]
    returns information word 128 with an error count of 1, not information
    word 0 with an error count of 2. *)
Theorem golay_decode_info_bit_error :
  let c := Golay.encode 0 in
  let e := 0x080001 in
  c = 0
  /\ count_bits e = 2
  /\ Golay.compute_syndrome (Z.lxor c e) = 1
  /\ Golay.table_at (Golay.syndrome_table Golay.statics_ready) 1 = 0x000001
  /\ Golay.extract_info c = 0
  /\ Golay.decode Golay.statics_at_load (Z.lxor c e) = (1, 128, Golay.statics_ready)
  /\ Golay.decode Golay.statics_ready (Z.lxor c e) = (1, 128, Golay.statics_ready).
Proof. vm_compute. repeat split; reflexivity. Qed.

(** ** Link state machine *)

Section LinkStateMachine.

Import ALEStateMachine.

Lemma transmit_word_state w m :
  current_state (transmit_word w m) = current_state m
  /\ previous_state (transmit_word w m) = previous_state m
  /\ state_entry_time_ms (transmit_word w m) = state_entry_time_ms m
  /\ current_time_ms (transmit_word w m) = current_time_ms m
  /\ state_callback (transmit_word w m) = state_callback m.
Proof. unfold transmit_word. destruct (transmit_callback m); auto. Qed.

Lemma set_channel_state i m :
  current_state (set_channel i m) = current_state m
  /\ previous_state (set_channel i m) = previous_state m
  /\ state_entry_time_ms (set_channel i m) = state_entry_time_ms m
  /\ current_time_ms (set_channel i m) = current_time_ms m
  /\ state_callback (set_channel i m) = state_callback m.
Proof.
  unfold set_channel. destruct (scan_list (scan_config m) !! Z.to_nat i); auto.
  cbn. destruct (channel_callback m); auto.
Qed.

Lemma enter_state_state s m :
  current_state (enter_state s m) = current_state m
  /\ previous_state (enter_state s m) = previous_state m
  /\ state_entry_time_ms (enter_state s m) = state_entry_time_ms m
  /\ current_time_ms (enter_state s m) = current_time_ms m
  /\ state_callback (enter_state s m) = state_callback m.
Proof.
  destruct s; cbn; auto.
  - destruct (scan_list (scan_config m)); auto.
    apply (set_channel_state 0
             (with_scan (set_channel_index 0 (scan_config m)) (current_time_ms m) m)).
  - destruct (self_address m); auto. apply transmit_word_state.
Qed.

Lemma exit_state_state s m :
  current_state (exit_state s m) = current_state m
  /\ current_time_ms (exit_state s m) = current_time_ms m.
Proof. destruct s; cbn; auto. Qed.

(** A transition to a state other than the current one is taken: the
    machine ends in the target, remembers where it came from, and stamps
    the entry time. *)
Lemma transition_to_taken s m :
  current_state m <> s ->
  fst (transition_to s m) = true
  /\ current_state (snd (transition_to s m)) = s
  /\ previous_state (snd (transition_to s m)) = current_state m
  /\ state_entry_time_ms (snd (transition_to s m)) = current_time_ms m
  /\ current_time_ms (snd (transition_to s m)) = current_time_ms m.
Proof.
  intros Hne. unfold transition_to. destruct (decide (current_state m = s)) as [|_]; [done|].
  cbn [fst snd].
  set (m1 := with_states s (current_state (exit_state (current_state m) m))
               (current_time_ms (exit_state (current_state m) m))
               (exit_state (current_state m) m)).
  destruct (enter_state_state s m1) as (E1 & E2 & E3 & E4 & E5).
  destruct (exit_state_state (current_state m) m) as [X1 X2].
  assert (Hm1 : current_state m1 = s /\ previous_state m1 = current_state m
                /\ state_entry_time_ms m1 = current_time_ms m
                /\ current_time_ms m1 = current_time_ms m).
  { subst m1. cbn. rewrite X1, X2. auto. }
  destruct Hm1 as (A1 & A2 & A3 & A4).
  destruct (state_callback (enter_state s m1)); cbn;
    rewrite ?E1, ?E2, ?E3, ?E4; auto.
Qed.

Lemma transition_to_same m :
  transition_to (current_state m) m = (false, m).
Proof. unfold transition_to. destruct (decide _); [done|congruence]. Qed.

Lemma hop_to_next_channel_state m :
  current_state (hop_to_next_channel m) = current_state m.
Proof.
  unfold hop_to_next_channel. destruct (scan_list (scan_config m)) eqn:E; [done|].
  cbn.
  match goal with
  | |- context [set_channel ?i ?x] =>
      destruct (set_channel_state i x) as (H & _); rewrite H
  end.
  done.
Qed.

Lemma handle_scanning_state m :
  current_state (handle_scanning m) = current_state m.
Proof.
  unfold handle_scanning. destruct (check_scan_dwell_timeout m); [|done].
  apply hop_to_next_channel_state.
Qed.

End LinkStateMachine.

(** C4 (counterexample).  The machine that has just entered [ERROR] leaves
    it for [IDLE] when a second [ERROR_OCCURRED] arrives. *)
Lemma error_occurred_in_error_goes_idle :
  let m := snd (ALEStateMachine.process_event ALEStateMachine.ERROR_OCCURRED
                  ALEStateMachine.ctor) in
  ALEStateMachine.current_state m = ALEStateMachine.ERROR
  /\ fst (ALEStateMachine.process_event ALEStateMachine.ERROR_OCCURRED m) = true
  /\ ALEStateMachine.current_state
       (snd (ALEStateMachine.process_event ALEStateMachine.ERROR_OCCURRED m))
     = ALEStateMachine.IDLE
  /\ ~ (forall m' : ALEStateMachine.machine,
          ALEStateMachine.current_state
            (snd (ALEStateMachine.process_event ALEStateMachine.ERROR_OCCURRED m'))
          = ALEStateMachine.ERROR).
Proof.
  cbv zeta. split; [reflexivity|]. split; [reflexivity|]. split; [reflexivity|].
  intros H.
  specialize (H (snd (ALEStateMachine.process_event ALEStateMachine.ERROR_OCCURRED
                        ALEStateMachine.ctor))).
  vm_compute in H. discriminate H.
Qed.

(** C4 (amended).  From every state other than [ERROR], processing
    [ERROR_OCCURRED] is one taken transition into [ERROR]: [process_event]
    returns [true], the machine is in [ERROR], and the state it left is the
    recorded previous state. *)
Theorem error_occurred_reaches_error (m : ALEStateMachine.machine) :
  ALEStateMachine.current_state m <> ALEStateMachine.ERROR ->
  fst (ALEStateMachine.process_event ALEStateMachine.ERROR_OCCURRED m) = true
  /\ ALEStateMachine.current_state
       (snd (ALEStateMachine.process_event ALEStateMachine.ERROR_OCCURRED m))
     = ALEStateMachine.ERROR
  /\ ALEStateMachine.previous_state
       (snd (ALEStateMachine.process_event ALEStateMachine.ERROR_OCCURRED m))
     = ALEStateMachine.current_state m.
Proof.
  intros Hne.
  destruct (transition_to_taken ALEStateMachine.ERROR m Hne) as (T1 & T2 & T3 & _).
  unfold ALEStateMachine.process_event, ALEStateMachine.dispatch.
  destruct (ALEStateMachine.current_state m) eqn:E; try congruence;
    cbn; auto.
Qed.

Lemma error_occurred_reaches_error_witness :
  ALEStateMachine.current_state ALEStateMachine.ctor <> ALEStateMachine.ERROR
  /\ ALEStateMachine.current_state
       (snd (ALEStateMachine.process_event ALEStateMachine.ERROR_OCCURRED
               ALEStateMachine.ctor))
     = ALEStateMachine.ERROR.
Proof.
  assert (H : ALEStateMachine.current_state ALEStateMachine.ctor
              <> ALEStateMachine.ERROR) by (simpl; discriminate).
  split; [exact H|].
  exact (proj1 (proj2 (error_occurred_reaches_error ALEStateMachine.ctor H))).
Defined.

(** C8 (counterexample).  A call is requested at time 0; at [now = 30000],
    where the elapsed time equals the call timeout, [update] fires no
    [LINK_TIMEOUT] and the machine stays in [CALLING]. *)
Lemma call_timeout_not_at_equality :
  let m := snd (ALEStateMachine.process_event ALEStateMachine.CALL_REQUEST
                  ALEStateMachine.ctor) in
  ALEStateMachine.current_state m = ALEStateMachine.CALLING
  /\ u32 (30000 - ALEStateMachine.state_entry_time_ms m) = 30000
  /\ ALEStateMachine.check_link_timeout
       (ALEStateMachine.with_current_time 30000 m) = false
  /\ ALEStateMachine.current_state (ALEStateMachine.update 30000 m)
     = ALEStateMachine.CALLING.
Proof. vm_compute. repeat split; reflexivity. Qed.

(** The state [LINK_TIMEOUT] leads to from [CALLING] and [HANDSHAKE]. *)
Definition after_call_timeout (s : ALEStateMachine.ALEState) : ALEStateMachine.ALEState :=
  match s with
  | ALEStateMachine.CALLING => ALEStateMachine.IDLE
  | ALEStateMachine.HANDSHAKE => ALEStateMachine.SCANNING
  | s => s
  end.

(** C8 (amended).  When [update(now)] is called in [CALLING] or
    [HANDSHAKE], the link timeout fires exactly when [now] minus the
    state-entry time (in 32-bit unsigned arithmetic) is strictly greater than
    30000 ms; it then takes [CALLING] to [IDLE] and [HANDSHAKE] to [SCANNING].
    At 30000 ms or less the state is kept. *)
Theorem call_timeout_strict (m : ALEStateMachine.machine) (now : Z) :
  ALEStateMachine.current_state m = ALEStateMachine.CALLING
  \/ ALEStateMachine.current_state m = ALEStateMachine.HANDSHAKE ->
  let elapsed := u32 (now - ALEStateMachine.state_entry_time_ms m) in
  (30000 < elapsed ->
     ALEStateMachine.check_link_timeout (ALEStateMachine.with_current_time now m) = true
     /\ ALEStateMachine.current_state (ALEStateMachine.update now m)
        = after_call_timeout (ALEStateMachine.current_state m))
  /\ (elapsed <= 30000 ->
     ALEStateMachine.check_link_timeout (ALEStateMachine.with_current_time now m) = false
     /\ ALEStateMachine.current_state (ALEStateMachine.update now m)
        = ALEStateMachine.current_state m).
Proof.
  intros Hst elapsed.
  assert (Hchk : ALEStateMachine.check_link_timeout
                   (ALEStateMachine.with_current_time now m) = (30000 <? elapsed)).
  { unfold ALEStateMachine.check_link_timeout. cbn.
    destruct Hst as [-> | ->]; reflexivity. }
  split; intros He.
  - assert (Ht : (30000 <? elapsed) = true) by (apply Z.ltb_lt; exact He).
    split; [rewrite Hchk; exact Ht|].
    unfold ALEStateMachine.update. rewrite Hchk, Ht.
    set (m0 := ALEStateMachine.with_current_time now m).
    assert (Hm0 : ALEStateMachine.current_state m0 = ALEStateMachine.current_state m)
      by reflexivity.
    destruct Hst as [Hs | Hs]; rewrite Hs in *.
    + assert (Hne : ALEStateMachine.current_state m0 <> ALEStateMachine.IDLE)
        by (rewrite Hm0; discriminate).
      destruct (transition_to_taken _ _ Hne) as (_ & T2 & _).
      unfold ALEStateMachine.process_event, ALEStateMachine.dispatch.
      rewrite Hm0. cbn [after_call_timeout]. rewrite T2. exact T2.
    + assert (Hne : ALEStateMachine.current_state m0 <> ALEStateMachine.SCANNING)
        by (rewrite Hm0; discriminate).
      destruct (transition_to_taken _ _ Hne) as (_ & T2 & _).
      unfold ALEStateMachine.process_event, ALEStateMachine.dispatch.
      rewrite Hm0. cbn [after_call_timeout]. rewrite T2. cbv iota.
      rewrite handle_scanning_state. exact T2.
  - assert (Ht : (30000 <? elapsed) = false) by (apply Z.ltb_ge; exact He).
    split; [rewrite Hchk; exact Ht|].
    unfold ALEStateMachine.update. rewrite Hchk, Ht.
    destruct Hst as [Hs | Hs]; cbn; rewrite Hs; cbn; exact Hs.
Qed.

Lemma call_timeout_strict_witness :
  let m := snd (ALEStateMachine.process_event ALEStateMachine.CALL_REQUEST
                  ALEStateMachine.ctor) in
  (ALEStateMachine.current_state m = ALEStateMachine.CALLING
   \/ ALEStateMachine.current_state m = ALEStateMachine.HANDSHAKE)
  /\ 30000 < u32 (30001 - ALEStateMachine.state_entry_time_ms m)
  /\ ALEStateMachine.current_state (ALEStateMachine.update 30001 m)
     = ALEStateMachine.IDLE.
Proof.
  cbv zeta.
  assert (H1 : ALEStateMachine.current_state
                 (snd (ALEStateMachine.process_event ALEStateMachine.CALL_REQUEST
                         ALEStateMachine.ctor)) = ALEStateMachine.CALLING
               \/ ALEStateMachine.current_state
                    (snd (ALEStateMachine.process_event ALEStateMachine.CALL_REQUEST
                            ALEStateMachine.ctor)) = ALEStateMachine.HANDSHAKE)
    by (left; reflexivity).
  assert (H2 : 30000 < u32 (30001 - ALEStateMachine.state_entry_time_ms
                 (snd (ALEStateMachine.process_event ALEStateMachine.CALL_REQUEST
                         ALEStateMachine.ctor))))
    by (vm_compute; reflexivity).
  split; [exact H1|]. split; [exact H2|].
  exact (proj2 (proj1 (call_timeout_strict _ 30001 H1) H2)).
Defined.

(** ** Word parser *)

Lemma majority_vote_bit (c0 c1 c2 : Z) :
  SymbolDecoder.majority_vote (c0, c1, c2) = 0
  \/ SymbolDecoder.majority_vote (c0, c1, c2) = 1.
Proof. unfold SymbolDecoder.majority_vote. destruct (2 <=? _); auto. Qed.

Lemma vote_step_range (symbols : list Z) (word errs : Z) (n : nat) :
  (n < 24)%nat -> 0 <= word < 2 ^ 24 ->
  0 <= fst (SymbolDecoder.vote_step symbols (word, errs) (Z.of_nat n)) < 2 ^ 24.
Proof.
  intros Hn Hw. unfold SymbolDecoder.vote_step. cbn [fst].
  apply lor_range; [lia | exact Hw |].
  set (fb := SymbolDecoder.majority_vote _).
  assert (Hfb : fb = 0 \/ fb = 1) by apply majority_vote_bit.
  assert (Hp : 0 < 2 ^ Z.of_nat n <= 2 ^ 23).
  { split; [apply Z.pow_pos_nonneg; lia | apply Z.pow_le_mono_r; lia]. }
  destruct Hfb as [-> | ->].
  - rewrite Z.shiftl_0_l. unfold u32. rewrite Z.mod_0_l by lia. lia.
  - rewrite Z.shiftl_mul_pow2 by lia. unfold u32.
    rewrite Z.mod_small; lia.
Qed.

(** The voted word fits in 24 bits. *)
Lemma decode_word_with_voting_range (symbols : list Z) :
  0 <= snd (SymbolDecoder.decode_word_with_voting symbols) < 2 ^ 24.
Proof.
  unfold SymbolDecoder.decode_word_with_voting.
  assert (H : forall (l : list nat) acc,
             Forall (fun n => (n < 24)%nat) l -> 0 <= fst acc < 2 ^ 24 ->
             0 <= fst (fold_left (SymbolDecoder.vote_step symbols)
                         (map Z.of_nat l) acc) < 2 ^ 24).
  { induction l as [|n l IH]; intros acc Hl Hacc; [exact Hacc|].
    inversion Hl; subst. cbn [map fold_left]. apply IH; [assumption|].
    destruct acc as [w e]. apply vote_step_range; assumption. }
  specialize (H (seq 0 24) (0, 0)).
  destruct (fold_left _ _ _) as [w e]. cbn [fst snd] in *.
  apply H; [|lia].
  apply Forall_forall. intros n Hin. apply elem_of_seq in Hin. lia.
Qed.

(** C9.  Whenever the majority-voted word [raw_word] of the 147 symbols
    Golay-decodes as correctable ([fec], [info]), the word [parse_word]
    produces has its preamble, payload and address taken from [raw_word]
    itself; the corrected information bits [info] appear nowhere in it, and
    the Golay result contributes [fec_errors] only. *)
Theorem parse_word_uses_voted_word
    (g g' : Golay.statics) (symbols : list Z) (output : WordParser.ALEWord)
    (fec info : Z) :
  let raw_word := snd (SymbolDecoder.decode_word_with_voting symbols) in
  Golay.decode g raw_word = (fec, info, g') ->
  fec <> 0xFF ->
  WordParser.parse_word g symbols output =
    (fst (WordParser.decode_ascii (WordParser.extract_payload raw_word)),
     {| WordParser.type := WordParser.extract_preamble raw_word;
        WordParser.address :=
          snd (WordParser.decode_ascii (WordParser.extract_payload raw_word));
        WordParser.raw_payload := WordParser.extract_payload raw_word;
        WordParser.fec_errors := fec;
        WordParser.valid :=
          fst (WordParser.decode_ascii (WordParser.extract_payload raw_word));
        WordParser.timestamp_ms := WordParser.timestamp_ms output |},
     g').
Proof.
  intros raw_word Hdec Hfec.
  pose proof (decode_word_with_voting_range symbols) as Hr. fold raw_word in Hr.
  unfold WordParser.parse_word.
  destruct (SymbolDecoder.decode_word_with_voting symbols) as [errors w] eqn:Ev.
  cbn [snd] in raw_word. subst raw_word. rewrite Hdec.
  destruct (fec =? 255) eqn:E; [apply Z.eqb_eq in E; contradiction|].
  change 16777215 with (Z.ones 24). rewrite land_ones_range by (lia || exact Hr).
  unfold WordParser.parse_from_bits.
  destruct (WordParser.decode_ascii (WordParser.extract_payload w)) as [ok addr].
  reflexivity.
Qed.

(** The 147 symbols that carry the 24-bit word [w] three times. *)
Definition symbols_of_word (w : Z) : list Z :=
  map (fun n =>
         let b := Z.of_nat n mod 49 in
         if b <? 24 then Z.shiftl (Z.land (Z.shiftr w b) 1) (b mod 3) else 0)
      (seq 0 147).

Lemma parse_word_uses_voted_word_witness :
  let symbols := symbols_of_word 0x9B1202 in
  snd (SymbolDecoder.decode_word_with_voting symbols) = 0x9B1202
  /\ Golay.decode Golay.statics_at_load 0x9B1202 = (2, 0x9B1, Golay.statics_ready)
  /\ WordParser.parse_word Golay.statics_at_load symbols WordParser.ALEWord_ctor =
       (true,
        {| WordParser.type := WordParser.TO;
           WordParser.address := "@DM";
           WordParser.raw_payload := 0x136240;
           WordParser.fec_errors := 2;
           WordParser.valid := true;
           WordParser.timestamp_ms := 0 |},
        Golay.statics_ready).
Proof.
  cbv zeta.
  assert (Hv : snd (SymbolDecoder.decode_word_with_voting (symbols_of_word 0x9B1202))
               = 0x9B1202) by (vm_compute; reflexivity).
  assert (Hd : Golay.decode Golay.statics_at_load 0x9B1202
               = (2, 0x9B1, Golay.statics_ready)) by (vm_compute; reflexivity).
  split; [exact Hv|]. split; [exact Hd|].
  assert (Hd' : Golay.decode Golay.statics_at_load
                  (snd (SymbolDecoder.decode_word_with_voting (symbols_of_word 0x9B1202)))
                = (2, 0x9B1, Golay.statics_ready)) by (rewrite Hv; exact Hd).
  rewrite (parse_word_uses_voted_word Golay.statics_at_load Golay.statics_ready
             (symbols_of_word 0x9B1202) WordParser.ALEWord_ctor 2 0x9B1 Hd'
             ltac:(discriminate)).
  rewrite Hv. vm_compute. reflexivity.
Defined.

(** ** Order facts about binary32 comparison *)

(** A key whose lexicographic order is the order [SFcompare] decides;
    NaN has none. *)
Definition sf_key (x : spec_float) : option (Z * Z * Z) :=
  match x with
  | S754_nan => None
  | S754_infinity true => Some (-2, 0, 0)
  | S754_infinity false => Some (2, 0, 0)
  | S754_zero _ => Some (0, 0, 0)
  | S754_finite true m e => Some (-1, - e, - Zpos m)
  | S754_finite false m e => Some (1, e, Zpos m)
  end.

Definition lex_lt (a b : Z * Z * Z) : Prop :=
  let '(a1, a2, a3) := a in
  let '(b1, b2, b3) := b in
  a1 < b1 \/ (a1 = b1 /\ (a2 < b2 \/ (a2 = b2 /\ a3 < b3))).

Definition lex_le (a b : Z * Z * Z) : Prop :=
  let '(a1, a2, a3) := a in
  let '(b1, b2, b3) := b in
  a1 < b1 \/ (a1 = b1 /\ (a2 < b2 \/ (a2 = b2 /\ a3 <= b3))).

Ltac sf_cases :=
  repeat match goal with
  | |- context [Z.compare ?a ?b] => destruct (Z.compare_spec a b)
  | |- context [Pos.compare_cont Eq ?a ?b] =>
      change (Pos.compare_cont Eq a b) with (Pos.compare a b);
      destruct (Pos.compare_spec a b)
  end.

Ltac sf_key_solve :=
  cbn; sf_cases; cbn;
  (split;
   [ first [ discriminate
           | intros _; eexists _, _; split; [reflexivity|]; split; [reflexivity|];
             cbn; lia ]
   | first [ reflexivity
           | intros (a & b & Ha & Hb & Hlt); try discriminate;
             injection Ha as <-; injection Hb as <-; cbn in Hlt; lia ] ]).

Lemma SFltb_key (x y : spec_float) :
  SFltb x y = true <->
  exists a b, sf_key x = Some a /\ sf_key y = Some b /\ lex_lt a b.
Proof.
  unfold SFltb, SFcompare.
  destruct x as [[]|[]| |[] m e]; destruct y as [[]|[]| |[] m' e'];
    sf_key_solve.
Qed.

Lemma SFleb_key (x y : spec_float) :
  SFleb x y = true <->
  exists a b, sf_key x = Some a /\ sf_key y = Some b /\ lex_le a b.
Proof.
  unfold SFleb, SFcompare.
  destruct x as [[]|[]| |[] m e]; destruct y as [[]|[]| |[] m' e'];
    sf_key_solve.
Qed.

Lemma SFltb_trans (x y z : spec_float) :
  SFltb x y = true -> SFltb y z = true -> SFltb x z = true.
Proof.
  rewrite !SFltb_key. intros (a & b & Ha & Hb & Hab) (b' & c & Hb' & Hc & Hbc).
  rewrite Hb in Hb'. injection Hb' as <-.
  exists a, c. split; [exact Ha|]. split; [exact Hc|].
  destruct a as [[a1 a2] a3], b as [[b1 b2] b3], c as [[c1 c2] c3].
  cbn in *. lia.
Qed.

Lemma SFltb_leb_trans (x y z : spec_float) :
  SFltb x y = true -> SFleb y z = true -> SFltb x z = true.
Proof.
  rewrite !SFltb_key, SFleb_key.
  intros (a & b & Ha & Hb & Hab) (b' & c & Hb' & Hc & Hbc).
  rewrite Hb in Hb'. injection Hb' as <-.
  exists a, c. split; [exact Ha|]. split; [exact Hc|].
  destruct a as [[a1 a2] a3], b as [[b1 b2] b3], c as [[c1 c2] c3].
  cbn in *. lia.
Qed.

Lemma SFltb_irrefl (x : spec_float) : SFltb x x = false.
Proof.
  destruct (SFltb x x) eqn:E; [|reflexivity].
  apply SFltb_key in E as (a & b & Ha & Hb & Hab).
  rewrite Ha in Hb. injection Hb as <-.
  destruct a as [[a1 a2] a3]. cbn in Hab. lia.
Qed.

Lemma SFltb_leb (x y : spec_float) : SFltb x y = true -> SFleb x y = true.
Proof.
  unfold SFltb, SFleb. destruct (SFcompare x y) as [[]|]; congruence.
Qed.

(** ** Symbol detection *)

Section DetectSymbol.

Import SymbolDecoder.

Variable magnitudes : list spec_float.

(** What the loop of [detect_symbol] has established once the bins from 6
    up to, but not including, [n] are scanned. *)
Definition scanned (n : Z) (acc : spec_float * Z) : Prop :=
  let '(peak_mag, peak_bin) := acc in
  (peak_bin = 0xFF /\ peak_mag = peak_mag_init
   /\ forall b, 6 <= b < n -> SFltb peak_mag_init (mag_at magnitudes b) = false)
  \/ (6 <= peak_bin < n /\ peak_mag = mag_at magnitudes peak_bin
      /\ SFltb peak_mag_init (mag_at magnitudes peak_bin) = true
      /\ (forall b, 6 <= b < n -> SFltb (mag_at magnitudes peak_bin) (mag_at magnitudes b) = false)
      /\ (forall b, 6 <= b < peak_bin -> SFleb (mag_at magnitudes peak_bin) (mag_at magnitudes b) = false)).

Lemma not_true_false (b : bool) : (b = true -> False) -> b = false.
Proof. destruct b; [intros H; exfalso; auto | reflexivity]. Qed.

Lemma detect_step_scanned (n : Z) (acc : spec_float * Z) :
  6 <= n < 64 -> scanned n acc -> scanned (n + 1) (detect_step magnitudes acc n).
Proof using Type.
  intros Hn Hacc. destruct acc as [pm pb]. unfold detect_step.
  assert (Hlt : (n <? FFT_SIZE) = true) by (apply Z.ltb_lt; unfold FFT_SIZE; lia).
  rewrite Hlt. cbn [andb].
  destruct (SFltb pm (mag_at magnitudes n)) eqn:Ecmp.
  - (* the new bin becomes the peak *)
    right.
    assert (Hinit : SFltb peak_mag_init (mag_at magnitudes n) = true).
    { destruct Hacc as [(_ & -> & _) | (_ & -> & Hi & _)]; [exact Ecmp|].
      eapply SFltb_trans; eassumption. }
    assert (Hprev : forall b, 6 <= b < n -> SFltb pm (mag_at magnitudes b) = false).
    { destruct Hacc as [(_ & -> & H) | (_ & -> & _ & H & _)]; exact H. }
    split; [lia|]. split; [reflexivity|]. split; [exact Hinit|]. split.
    + intros b Hb. destruct (Z.eq_dec b n) as [-> | Hne]; [apply SFltb_irrefl|].
      apply not_true_false. intros Hc.
      pose proof (SFltb_trans _ _ _ Ecmp Hc) as H.
      rewrite Hprev in H by lia. discriminate H.
    + intros b Hb. apply not_true_false. intros Hc.
      pose proof (SFltb_leb_trans _ _ _ Ecmp Hc) as H.
      rewrite Hprev in H by lia. discriminate H.
  - (* the peak is kept *)
    destruct Hacc as [(-> & -> & H) | (Hpb & -> & Hi & H & Hl)]; [left | right].
    + split; [reflexivity|]. split; [reflexivity|].
      intros b Hb. destruct (Z.eq_dec b n) as [-> | Hne]; [exact Ecmp | apply H; lia].
    + split; [lia|]. split; [reflexivity|]. split; [exact Hi|]. split; [|exact Hl].
      intros b Hb. destruct (Z.eq_dec b n) as [-> | Hne]; [exact Ecmp | apply H; lia].
Qed.

Lemma detect_fold_scanned (len start : nat) (acc : spec_float * Z) :
  (6 <= start)%nat -> (start + len <= 64)%nat ->
  scanned (Z.of_nat start) acc ->
  scanned (Z.of_nat (start + len))
    (fold_left (detect_step magnitudes) (map Z.of_nat (seq start len)) acc).
Proof using Type.
  revert start acc. induction len as [|len IH]; intros start acc H6 H64 Hacc.
  - rewrite Nat.add_0_r. exact Hacc.
  - cbn [seq map fold_left].
    replace (start + S len)%nat with (S start + len)%nat by lia.
    apply IH; [lia | lia |].
    replace (Z.of_nat (S start)) with (Z.of_nat start + 1) by lia.
    apply detect_step_scanned; [lia | exact Hacc].
Qed.

End DetectSymbol.

(** C5 (counterexample).  With all 64 magnitudes equal to 1.0 no tone bin
    strictly exceeds another, and [detect_symbol] returns symbol 0, not the
    failure marker [0xFF]. *)
Lemma detect_symbol_all_equal :
  let magnitudes := repeat (F32.of_Z 1) 64 in
  (forall b b', 6 <= b <= 13 -> 6 <= b' <= 13 ->
     SFltb (SymbolDecoder.mag_at magnitudes b) (SymbolDecoder.mag_at magnitudes b') = false)
  /\ SymbolDecoder.detect_symbol magnitudes = 0
  /\ SymbolDecoder.detect_symbol magnitudes <> 0xFF.
Proof.
  cbv zeta. split; [|split; [vm_compute; reflexivity | vm_compute; discriminate]].
  intros b b' Hb Hb'.
  assert (Hm : forall c, 6 <= c <= 13 ->
            SymbolDecoder.mag_at (repeat (F32.of_Z 1) 64) c = F32.of_Z 1).
  { intros c Hc. unfold SymbolDecoder.mag_at.
    assert (Hc' : c = 6 \/ c = 7 \/ c = 8 \/ c = 9 \/ c = 10 \/ c = 11 \/ c = 12 \/ c = 13)
      by lia.
    destruct Hc' as [-> | [-> | [-> | [-> | [-> | [-> | [-> | ->]]]]]]]; reflexivity. }
  rewrite (Hm b Hb), (Hm b' Hb'). apply SFltb_irrefl.
Qed.

(** A NaN magnitude is skipped: with NaN in bin 6 and 5.0 in bin 7, the
    other magnitudes being zero, the peak is bin 7, although no scanned bin
    compares greater than bin 6. *)
Lemma detect_symbol_skips_nan :
  let magnitudes :=
    repeat F32.zero 6 ++ [S754_nan; F32.of_Z 5] ++ repeat F32.zero 56 in
  length magnitudes = 64%nat
  /\ forallb (fun b => negb (SFltb (SymbolDecoder.mag_at magnitudes 6)
                                  (SymbolDecoder.mag_at magnitudes b)))
       SymbolDecoder.tone_bins = true
  /\ SymbolDecoder.detect_symbol magnitudes = 1.
Proof. vm_compute. repeat split; reflexivity. Qed.

(** C5 (amended).  [detect_symbol] scans bins 6 through 13.  It returns the
    failure marker [0xFF] exactly when no scanned bin has a magnitude above
    the initial peak [-1e6]; otherwise it returns [peak_bin - 6], a value in
    0..7, where [peak_bin] is a scanned bin above [-1e6] that no scanned bin
    strictly exceeds and that no lower scanned bin equals or exceeds: on a tie
    the lowest bin wins.  Above, exceeds and equals are the comparisons of
    [float], false whenever an operand is NaN: a bin that holds NaN is never
    the peak. *)
Theorem detect_symbol_argmax (magnitudes : list spec_float) :
  let s := SymbolDecoder.detect_symbol magnitudes in
  let mag := SymbolDecoder.mag_at magnitudes in
  (s = 0xFF
   /\ forall b, 6 <= b <= 13 -> SFltb SymbolDecoder.peak_mag_init (mag b) = false)
  \/ (0 <= s <= 7
      /\ SFltb SymbolDecoder.peak_mag_init (mag (s + 6)) = true
      /\ (forall b, 6 <= b <= 13 -> SFltb (mag (s + 6)) (mag b) = false)
      /\ (forall b, 6 <= b < s + 6 -> SFleb (mag (s + 6)) (mag b) = false)).
Proof.
  cbv zeta. unfold SymbolDecoder.detect_symbol.
  pose proof (detect_fold_scanned magnitudes 8 6 (SymbolDecoder.peak_mag_init, 0xFF)) as H.
  change (map Z.of_nat (seq 6 8)) with SymbolDecoder.tone_bins in H.
  destruct (fold_left _ SymbolDecoder.tone_bins _) as [pm pb].
  assert (H0 : scanned magnitudes (Z.of_nat 6) (SymbolDecoder.peak_mag_init, 0xFF)).
  { left. split; [reflexivity|]. split; [reflexivity|]. intros b Hb. lia. }
  specialize (H ltac:(lia) ltac:(lia) H0). cbn in H.
  destruct H as [(-> & _ & Hall) | (Hpb & _ & Hi & Hall & Hlow)].
  - left. split; [reflexivity|]. intros b Hb. apply Hall. lia.
  - right. assert (E : (pb =? 255) = false) by (apply Z.eqb_neq; lia). rewrite E.
    unfold u8. rewrite Z.mod_small by lia.
    replace (pb - 6 + 6) with pb by lia.
    split; [lia|]. split; [exact Hi|]. split; [|exact Hlow].
    intros b Hb. apply Hall. lia.
Qed.

(** ** LQA scores *)

(** A binary32 value in the closed interval [0, 31]. *)
Definition in_0_31 (x : spec_float) : Prop :=
  SFleb F32.zero x = true /\ SFleb x (F32.of_Z 31) = true.

(** The final clamp of [compute_score] lands in [0, 31] whatever it is
    given, NaN and the infinities included. *)
Lemma clamp_in_0_31 (s : spec_float) :
  in_0_31 (F32.min (F32.of_Z 31) (F32.max F32.zero s)).
Proof.
  unfold in_0_31, F32.min, F32.max.
  destruct (SFltb F32.zero s) eqn:E1.
  - destruct (SFltb s (F32.of_Z 31)) eqn:E2.
    + split; apply SFltb_leb; assumption.
    + split; reflexivity.
  - change (SFltb F32.zero (F32.of_Z 31)) with true. cbv iota.
    split; reflexivity.
Qed.

Lemma compute_score_in_0_31 cfg clock entry :
  in_0_31 (LQADatabase.compute_score cfg clock entry).
Proof. unfold LQADatabase.compute_score. apply clamp_in_0_31. Qed.

(** The calls that change a database: the public member functions of
    [LQADatabase] that are not [const].  [LoadFromFile] carries the content
    of the file at the path given. *)
Inductive lqa_call :=
  | SetConfig (config : LQADatabase.LQAConfig)
  | UpdateEntry (clock_now clock_score frequency : Z) (station : string)
      (snr ber_ : spec_float) (fec_errors_ total_words_ timestamp_ms : Z)
  | UpdateEntryExtended (clock_now clock_score frequency : Z) (station : string)
      (snr ber_ sinad multipath noise_floor : spec_float)
      (fec_errors_ total_words_ timestamp_ms : Z)
  | Clear
  | PruneStaleEntries (clock : Z)
  | LoadFromFile (file : option (list Byte.byte)).

(** The database after a call; [None] where [load_from_file] reads an object
    that no read has filled. *)
Definition lqa_perform (db : LQADatabase.database) (c : lqa_call)
    : option LQADatabase.database :=
  match c with
  | SetConfig config => Some (LQADatabase.set_config config db)
  | UpdateEntry cn cs f st snr b fe tw ts =>
      Some (LQADatabase.update_entry cn cs f st snr b fe tw ts db)
  | UpdateEntryExtended cn cs f st snr b si mp nf fe tw ts =>
      Some (LQADatabase.update_entry_extended cn cs f st snr b si mp nf fe tw ts db)
  | Clear => Some (LQADatabase.clear db)
  | PruneStaleEntries clock => Some (LQADatabase.prune_stale_entries clock db)
  | LoadFromFile file =>
      match LQADatabase.load_from_file file db with
      | Some (_, db) => Some db
      | None => None
      end
  end.

(** A newly constructed database after the calls [calls], in order. *)
Definition lqa_run (calls : list lqa_call) : option LQADatabase.database :=
  fold_left
    (fun db c => match db with Some db => lqa_perform db c | None => None end)
    calls (Some LQADatabase.ctor).

(** The key of the entry that [update_entry] or [update_entry_extended]
    creates or updates. *)
Definition updated_key (c : lqa_call) : option (Z * string) :=
  match c with
  | UpdateEntry _ _ frequency station _ _ _ _ _ => Some (frequency, station)
  | UpdateEntryExtended _ _ frequency station _ _ _ _ _ _ _ _ =>
      Some (frequency, station)
  | _ => None
  end.

(** [e] is the entry that a [load_from_file] call among [calls] stored under
    [key] when it returned [true], and no later call of [update_entry] or
    [update_entry_extended] was for [key]. *)
Definition loaded_not_updated (calls : list lqa_call)
    (key : Z * string) (e : LQADatabase.LQAEntry) : Prop :=
  exists before file after db0 db1,
    calls = before ++ LoadFromFile file :: after
    /\ lqa_run before = Some db0
    /\ LQADatabase.load_from_file file db0 = Some (true, db1)
    /\ LQADatabase.entries_ db1 !! key = Some e
    /\ Forall (fun c => updated_key c <> Some key) after.

Lemma lqa_run_snoc calls c :
  lqa_run (calls ++ [c]) =
  match lqa_run calls with Some db => lqa_perform db c | None => None end.
Proof. unfold lqa_run. rewrite fold_left_app. reflexivity. Qed.

Lemma loaded_not_updated_snoc calls c key e :
  loaded_not_updated calls key e ->
  updated_key c <> Some key ->
  loaded_not_updated (calls ++ [c]) key e.
Proof.
  intros (before & file & after & db0 & db1 & -> & Hrun & Hload & Hk & Hafter) Hc.
  exists before, file, (after ++ [c]), db0, db1.
  rewrite <- app_assoc. cbn [app].
  repeat split; try assumption.
  apply Forall_app. split; [exact Hafter|]. constructor; [exact Hc|constructor].
Qed.

(** [load_from_file] leaves the database as it was when it returns [false]. *)
Lemma load_from_file_false content db db' :
  LQADatabase.load_from_file content db = Some (false, db') -> db' = db.
Proof.
  unfold LQADatabase.load_from_file. intros H.
  repeat match type of H with
         | Some _ = Some _ => congruence
         | None = Some _ => discriminate H
         | (let '(_, _) := ?p in _) = _ => destruct p
         | match ?x with _ => _ end = _ => destruct x
         end.
Qed.

(** The score that [update_entry] and [update_entry_extended] store. *)
Lemma update_entry_scores cn cs f st snr b fe tw ts db key e :
  LQADatabase.entries_ (LQADatabase.update_entry cn cs f st snr b fe tw ts db) !! key
    = Some e ->
  (key = (f, st) /\ in_0_31 (LQADatabase.score e))
  \/ (key <> (f, st) /\ LQADatabase.entries_ db !! key = Some e).
Proof.
  unfold LQADatabase.update_entry.
  destruct (decide (key = (f, st))) as [->|Hne].
  - intros H. left. split; [reflexivity|].
    destruct (LQADatabase.entries_ db !! (f, st)); cbn in H;
      rewrite lookup_insert_eq in H; injection H as <-;
      apply compute_score_in_0_31.
  - intros H. right. split; [exact Hne|].
    destruct (LQADatabase.entries_ db !! (f, st)); cbn in H;
      rewrite lookup_insert_ne in H by congruence; exact H.
Qed.

Lemma update_entry_extended_scores cn cs f st snr b si mp nf fe tw ts db key e :
  LQADatabase.entries_
    (LQADatabase.update_entry_extended cn cs f st snr b si mp nf fe tw ts db) !! key
    = Some e ->
  (key = (f, st) /\ in_0_31 (LQADatabase.score e))
  \/ (key <> (f, st) /\ LQADatabase.entries_ db !! key = Some e).
Proof.
  unfold LQADatabase.update_entry_extended.
  destruct (decide (key = (f, st))) as [->|Hne].
  - intros H. left. split; [reflexivity|].
    destruct (LQADatabase.entries_ db !! (f, st)); cbn in H;
      rewrite lookup_insert_eq in H; injection H as <-;
      apply compute_score_in_0_31.
  - intros H. right. split; [exact Hne|].
    destruct (LQADatabase.entries_ db !! (f, st)); cbn in H;
      rewrite lookup_insert_ne in H by congruence; exact H.
Qed.

(** The number of binary digits of a positive number. *)
Lemma digits2_pos_bounds (p : positive) :
  2 ^ (Z.pos (digits2_pos p) - 1) <= Z.pos p < 2 ^ Z.pos (digits2_pos p).
Proof.
  induction p as [p IH|p IH|]; cbn [digits2_pos].
  - rewrite Pos2Z.inj_succ.
    replace (Z.succ (Z.pos (digits2_pos p)) - 1)
      with (Z.succ (Z.pos (digits2_pos p) - 1)) by lia.
    rewrite !Z.pow_succ_r by lia. lia.
  - rewrite Pos2Z.inj_succ.
    replace (Z.succ (Z.pos (digits2_pos p)) - 1)
      with (Z.succ (Z.pos (digits2_pos p) - 1)) by lia.
    rewrite !Z.pow_succ_r by lia. lia.
  - cbn. lia.
Qed.

(** Every bit pattern decodes to a binary32 value in canonical form, the
    form on which the comparisons [SFltb] and [SFleb] are those of
    [float]. *)
Lemma float_of_bits_valid (w : Z) :
  valid_binary F32.prec F32.emax (LQADatabase.float_of_bits w) = true.
Proof.
  unfold LQADatabase.float_of_bits. cbv zeta.
  assert (He : 0 <= Z.land (Z.shiftr w 23) 0xFF < 256).
  { change 0xFF with (Z.ones 8). rewrite Z.land_ones by lia.
    apply Z.mod_pos_bound. lia. }
  assert (Hf : 0 <= Z.land w 0x7FFFFF < 2 ^ 23).
  { change 0x7FFFFF with (Z.ones 23). rewrite Z.land_ones by lia.
    apply Z.mod_pos_bound. lia. }
  set (exponent := Z.land (Z.shiftr w 23) 0xFF) in *.
  set (fraction := Z.land w 0x7FFFFF) in *.
  destruct (Z.eqb_spec exponent 0) as [_|He0].
  - destruct (Z.eqb_spec fraction 0) as [_|Hf0]; [reflexivity|].
    cbn [valid_binary]. unfold bounded, canonical_mantissa, fexp, emin, F32.prec, F32.emax.
    pose proof (digits2_pos_bounds (Z.to_pos fraction)) as [Hlo _].
    rewrite Z2Pos.id in Hlo by lia.
    assert (Hd : Z.pos (digits2_pos (Z.to_pos fraction)) - 1 < 23).
    { apply (Z.pow_lt_mono_r_iff 2); lia. }
    apply andb_true_intro. split; [apply Z.eqb_eq|apply Z.leb_le]; lia.
  - destruct (Z.eqb_spec exponent 0xFF) as [_|He255].
    + destruct (fraction =? 0); reflexivity.
    + cbn [valid_binary]. unfold bounded, canonical_mantissa, fexp, emin, F32.prec, F32.emax.
      assert (Hm : 2 ^ 23 <= fraction + 0x800000 < 2 ^ 24) by lia.
      set (m := fraction + 0x800000) in *.
      pose proof (digits2_pos_bounds (Z.to_pos m)) as [Hlo Hhi].
      rewrite Z2Pos.id in Hlo, Hhi by lia.
      assert (Hd1 : Z.pos (digits2_pos (Z.to_pos m)) - 1 < 24).
      { apply (Z.pow_lt_mono_r_iff 2); lia. }
      assert (Hd2 : 23 < Z.pos (digits2_pos (Z.to_pos m))).
      { apply (Z.pow_lt_mono_r_iff 2); lia. }
      apply andb_true_intro. split; [apply Z.eqb_eq|apply Z.leb_le]; lia.
Qed.

(** A file as [save_to_file] lays it out: the magic with its NUL, version 1,
    the default configuration, and one entry, for station REM on 7073000 Hz,
    whose score member holds 100.0. *)
Definition sample_file : list Byte.byte :=
  list_byte_of_string "PCALE_LQA" ++ [Byte.x00]
  ++ [Byte.x01; Byte.x00; Byte.x00; Byte.x00]      (* version = 1 *)
  ++ [Byte.x00; Byte.x00; Byte.x00; Byte.x3f]      (* snr_weight = 0.5f *)
  ++ [Byte.x9a; Byte.x99; Byte.x99; Byte.x3e]      (* success_weight = 0.3f *)
  ++ [Byte.xcd; Byte.xcc; Byte.x4c; Byte.x3e]      (* recency_weight = 0.2f *)
  ++ [Byte.x80; Byte.xee; Byte.x36; Byte.x00]      (* max_age_ms = 3600000 *)
  ++ [Byte.x64; Byte.x00; Byte.x00; Byte.x00]      (* history_depth = 100 *)
  ++ [Byte.x66; Byte.x66; Byte.x66; Byte.x3f]      (* time_decay_factor = 0.9f *)
  ++ [Byte.x00; Byte.x00; Byte.xa0; Byte.x41]      (* good_snr_db = 20.0f *)
  ++ [Byte.x00; Byte.x00; Byte.xc0; Byte.x40]      (* poor_snr_db = 6.0f *)
  ++ [Byte.x6f; Byte.x12; Byte.x83; Byte.x3a]      (* good_ber = 0.001f *)
  ++ [Byte.xcd; Byte.xcc; Byte.xcc; Byte.x3d]      (* poor_ber = 0.1f *)
  ++ [Byte.x01; Byte.x00; Byte.x00; Byte.x00]      (* count = 1 *)
  ++ [Byte.xe8; Byte.xec; Byte.x6b; Byte.x00]      (* frequency_hz = 7073000 *)
  ++ [Byte.x03; Byte.x00; Byte.x00; Byte.x00]      (* name_len = 3 *)
  ++ list_byte_of_string "REM"
  ++ [Byte.x00; Byte.x00; Byte.xa0; Byte.x41]      (* snr_db = 20.0f *)
  ++ [Byte.x6f; Byte.x12; Byte.x83; Byte.x3a]      (* ber = 0.001f *)
  ++ [Byte.x00; Byte.x00; Byte.x00; Byte.x00]      (* sinad_db = 0.0f *)
  ++ [Byte.x00; Byte.x00; Byte.x00; Byte.x00]      (* fec_errors = 0 *)
  ++ [Byte.x0a; Byte.x00; Byte.x00; Byte.x00]      (* total_words = 10 *)
  ++ [Byte.x00; Byte.x00; Byte.x00; Byte.x00]      (* multipath_score = 0.0f *)
  ++ [Byte.x00; Byte.x00; Byte.xf0; Byte.xc2]      (* noise_floor_dbm = -120.0f *)
  ++ [Byte.x00; Byte.x00; Byte.x00; Byte.x00]      (* last_sounding_ms = 0 *)
  ++ [Byte.xe8; Byte.x03; Byte.x00; Byte.x00]      (* last_contact_ms = 1000 *)
  ++ [Byte.x00; Byte.x00; Byte.xc8; Byte.x42]      (* score = 100.0f *)
  ++ [Byte.x01; Byte.x00; Byte.x00; Byte.x00].     (* sample_count = 1 *)

(** The entry that [sample_file] holds. *)
Definition sample_entry : LQADatabase.LQAEntry :=
  {| LQADatabase.frequency_hz := 7073000;
     LQADatabase.remote_station := "REM";
     LQADatabase.snr_db := F32.of_Z 20;
     LQADatabase.ber := F32.literal 1 1000;
     LQADatabase.sinad_db := F32.zero;
     LQADatabase.fec_errors := 0;
     LQADatabase.total_words := 10;
     LQADatabase.multipath_score := F32.zero;
     LQADatabase.noise_floor_dbm := F32.of_Z (-120);
     LQADatabase.last_sounding_ms := 0;
     LQADatabase.last_contact_ms := 1000;
     LQADatabase.score := F32.of_Z 100;
     LQADatabase.sample_count := 1 |}.

(** The decoding of binary32 agrees with the arithmetic of [F32] on the
    encodings of some values, and the members that a short file leaves at
    their defaults decode to the values of [LQAEntry::LQAEntry()]. *)
Lemma float_of_bits_values :
  LQADatabase.float_of_bits 0x00000000 = F32.zero
  /\ LQADatabase.float_of_bits 0x80000000 = S754_zero true
  /\ LQADatabase.float_of_bits 0x3F800000 = F32.of_Z 1
  /\ LQADatabase.float_of_bits 0x41F80000 = F32.of_Z 31
  /\ LQADatabase.float_of_bits 0x42C80000 = F32.of_Z 100
  /\ LQADatabase.float_of_bits 0xC2F00000 = F32.of_Z (-120)
  /\ LQADatabase.float_of_bits 0xC9742400 = F32.of_Z (-1000000)
  /\ LQADatabase.float_of_bits 0x3E99999A = F32.literal 3 10
  /\ LQADatabase.float_of_bits 0x3A83126F = F32.literal 1 1000
  /\ LQADatabase.float_of_bits 0x00000001 = S754_finite false 1 (-149)
  /\ LQADatabase.float_of_bits 0x7F800000 = S754_infinity false
  /\ LQADatabase.float_of_bits 0xFF800000 = S754_infinity true
  /\ LQADatabase.float_of_bits 0x7FC00000 = S754_nan
  /\ LQADatabase.float_of_bytes LQADatabase.zero_bytes
     = LQADatabase.score LQADatabase.LQAEntry_ctor
  /\ LQADatabase.float_of_bytes LQADatabase.noise_floor_dbm_bytes
     = LQADatabase.noise_floor_dbm LQADatabase.LQAEntry_ctor.
Proof. vm_compute. repeat split; reflexivity. Qed.

(** [load_from_file] accepts [sample_file], takes its configuration, which is
    the default one, and stores its entry as [sample_entry]. *)
Lemma load_sample_file :
  exists db,
    LQADatabase.load_from_file (Some sample_file) LQADatabase.ctor = Some (true, db)
    /\ LQADatabase.config_ db = LQADatabase.LQAConfig_default
    /\ LQADatabase.entries_ db !! (7073000, "REM"%string) = Some sample_entry
    /\ LQADatabase.get_entry_count db = 1.
Proof.
  destruct (LQADatabase.load_from_file (Some sample_file) LQADatabase.ctor)
    as [[b db]|] eqn:Hload; [|vm_compute in Hload; discriminate Hload].
  assert (H :
    match LQADatabase.load_from_file (Some sample_file) LQADatabase.ctor with
    | Some (b, db) =>
        (b, LQADatabase.config_ db,
         LQADatabase.entries_ db !! (7073000, "REM"%string),
         LQADatabase.get_entry_count db)
    | None => (false, LQADatabase.LQAConfig_default, None, 0)
    end = (true, LQADatabase.LQAConfig_default, Some sample_entry, 1))
    by (vm_compute; reflexivity).
  rewrite Hload in H. injection H as -> H1 H2 H3.
  exists db. repeat split; assumption.
Qed.

(** [load_from_file(sample_file)], then [update_entry] for another channel
    and station. *)
Definition load_then_update : list lqa_call :=
  [ LoadFromFile (Some sample_file);
    UpdateEntry 5000 6000 14100000 "ABC" (F32.of_Z 20) (F32.literal 1 1000)
      0 10 1000 ].

(** C7 (counterexample).  [load_from_file] reads a file whose entry for REM
    on 7073000 Hz holds the score 100.0, and [update_entry] is then called
    for ABC on 14100000 Hz.  After that call the database holds two entries,
    and the one for REM still has the score 100.0, above 31. *)
Lemma lqa_loaded_score_above_31 :
  exists db e,
    lqa_run load_then_update = Some db
    /\ LQADatabase.get_entry_count db = 2
    /\ LQADatabase.get_entry 7073000 "REM" db = Some e
    /\ LQADatabase.score e = F32.of_Z 100
    /\ SFleb (LQADatabase.score e) (F32.of_Z 31) = false.
Proof.
  destruct (lqa_run load_then_update) as [db|] eqn:Hrun;
    [|vm_compute in Hrun; discriminate Hrun].
  assert (H :
    match lqa_run load_then_update with
    | Some db => (LQADatabase.get_entry_count db,
                  LQADatabase.get_entry 7073000 "REM" db)
    | None => (0, None)
    end = (2, Some sample_entry)) by (vm_compute; reflexivity).
  rewrite Hrun in H. injection H as H1 H2.
  exists db, sample_entry. repeat split; try assumption.
Qed.

(** C7 (amended).  Take a newly constructed database and any sequence of
    calls of [set_config] (any weights), [update_entry],
    [update_entry_extended], [clear], [prune_stale_entries] and
    [load_from_file], whatever their arguments, clock readings and files, in
    which no [load_from_file] reads an object that its file left unfilled
    (a [version], [count] or [name_len] cut short by the end of the file, or
    a [magic] without its NUL).
    After the last call, and so in particular after every call of
    [update_entry] or [update_entry_extended], the score of every stored
    entry lies in [0, 31], unless the entry is exactly as a [load_from_file]
    call stored it and no later [update_entry] or [update_entry_extended]
    call was made for its key: [load_from_file] stores the score that it
    reads from the file, without clamping it, and the two update functions
    recompute the score of the entry under their own key only. *)
Theorem lqa_scores_bounded (calls : list lqa_call) (db : LQADatabase.database)
    (key : Z * string) (e : LQADatabase.LQAEntry) :
  lqa_run calls = Some db ->
  LQADatabase.entries_ db !! key = Some e ->
  (SFleb F32.zero (LQADatabase.score e) = true
   /\ SFleb (LQADatabase.score e) (F32.of_Z 31) = true)
  \/ loaded_not_updated calls key e.
Proof.
  change (lqa_run calls = Some db ->
          LQADatabase.entries_ db !! key = Some e ->
          in_0_31 (LQADatabase.score e) \/ loaded_not_updated calls key e).
  revert db key e.
  induction calls as [|c calls IH] using rev_ind; intros db key e Hrun Hk.
  - injection Hrun as <-. cbn in Hk. rewrite lookup_empty in Hk. discriminate Hk.
  - rewrite lqa_run_snoc in Hrun.
    destruct (lqa_run calls) as [db0|] eqn:Hrun0; [|discriminate Hrun].
    specialize (IH db0).
    assert (Hkeep : updated_key c <> Some key ->
              LQADatabase.entries_ db0 !! key = Some e ->
              in_0_31 (LQADatabase.score e)
              \/ loaded_not_updated (calls ++ [c]) key e).
    { intros Hc Hk0. destruct (IH key e eq_refl Hk0) as [Hb|Hl]; [left; exact Hb|].
      right. apply loaded_not_updated_snoc; assumption. }
    destruct c; cbn [lqa_perform] in Hrun.
    + injection Hrun as <-. apply Hkeep; [discriminate|exact Hk].
    + injection Hrun as <-.
      apply update_entry_scores in Hk as [[_ Hb]|[Hne Hk0]]; [left; exact Hb|].
      apply Hkeep; [cbn; congruence|exact Hk0].
    + injection Hrun as <-.
      apply update_entry_extended_scores in Hk as [[_ Hb]|[Hne Hk0]]; [left; exact Hb|].
      apply Hkeep; [cbn; congruence|exact Hk0].
    + injection Hrun as <-. cbn in Hk. rewrite lookup_empty in Hk. discriminate Hk.
    + injection Hrun as <-. cbn in Hk.
      apply map_lookup_filter_Some in Hk as [Hk0 _].
      apply Hkeep; [discriminate|exact Hk0].
    + destruct (LQADatabase.load_from_file file db0) as [[[|] db1]|] eqn:Hload;
        [| |discriminate Hrun]; injection Hrun as <-.
      * right. exists calls, file, [], db0, db1.
        repeat split; try assumption. constructor.
      * apply load_from_file_false in Hload as ->.
        apply Hkeep; [discriminate|exact Hk].
Qed.

Lemma lqa_scores_bounded_witness :
  let calls :=
    [ LoadFromFile (Some sample_file);
      SetConfig
        {| LQADatabase.snr_weight := F32.of_Z 1000;
           LQADatabase.success_weight := S754_nan;
           LQADatabase.recency_weight := S754_infinity true;
           LQADatabase.max_age_ms := 0;
           LQADatabase.history_depth := 100;
           LQADatabase.time_decay_factor := F32.literal 9 10;
           LQADatabase.good_snr_db := F32.of_Z 20;
           LQADatabase.poor_snr_db := F32.of_Z 6;
           LQADatabase.good_ber := F32.literal 1 1000;
           LQADatabase.poor_ber := F32.literal 1 10 |};
      UpdateEntry 5000 6000 7073000 "REM" (F32.of_Z 20)
        (F32.literal 1 1000) 0 10 1000 ] in
  exists db e,
    lqa_run calls = Some db
    /\ LQADatabase.entries_ db !! (7073000, "REM"%string) = Some e
    /\ ((SFleb F32.zero (LQADatabase.score e) = true
         /\ SFleb (LQADatabase.score e) (F32.of_Z 31) = true)
        \/ loaded_not_updated calls (7073000, "REM"%string) e).
Proof.
  cbv zeta.
  match goal with
  | |- exists db e, lqa_run ?calls = Some db /\ _ !! ?key = Some e /\ _ =>
      destruct (lqa_run calls) as [db|] eqn:Hrun;
      [ destruct (LQADatabase.entries_ db !! key) as [e|] eqn:Hk;
        [ exists db, e; split; [reflexivity|split; [exact Hk|]];
          exact (lqa_scores_bounded calls db key e Hrun Hk)
        | exfalso ]
      | vm_compute in Hrun; discriminate Hrun ]
  end.
  assert (H :
    match lqa_run
            [ LoadFromFile (Some sample_file);
              SetConfig
                {| LQADatabase.snr_weight := F32.of_Z 1000;
                   LQADatabase.success_weight := S754_nan;
                   LQADatabase.recency_weight := S754_infinity true;
                   LQADatabase.max_age_ms := 0;
                   LQADatabase.history_depth := 100;
                   LQADatabase.time_decay_factor := F32.literal 9 10;
                   LQADatabase.good_snr_db := F32.of_Z 20;
                   LQADatabase.poor_snr_db := F32.of_Z 6;
                   LQADatabase.good_ber := F32.literal 1 1000;
                   LQADatabase.poor_ber := F32.literal 1 10 |};
              UpdateEntry 5000 6000 7073000 "REM" (F32.of_Z 20)
                (F32.literal 1 1000) 0 10 1000 ] with
    | Some db =>
        match LQADatabase.entries_ db !! (7073000, "REM"%string) with
        | Some _ => true
        | None => false
        end
    | None => false
    end = true) by (vm_compute; reflexivity).
  rewrite Hrun, Hk in H. discriminate H.
Defined.

(** ** FS-1052 data frames: CRC-32 and the round trip *)

Definition is_byte (b : Z) : Prop := 0 <= b < 256.
Definition is_u32 (c : Z) : Prop := 0 <= c < 4294967296.

Lemma land_FF (x : Z) : Z.land x 0xFF = x mod 256.
Proof. change 0xFF with (Z.ones 8). rewrite Z.land_ones by lia. reflexivity. Qed.

Lemma lor_mul_pow2_add (n k lo : Z) :
  0 <= n -> 0 <= lo < 2 ^ n -> Z.lor (k * 2 ^ n) lo = k * 2 ^ n + lo.
Proof.
  intros Hn Hlo. rewrite <- (lor_shiftl_add n k lo Hn Hlo).
  rewrite Z.shiftl_mul_pow2 by lia. reflexivity.
Qed.

(** The big-endian word read from four bytes. *)
Definition be32 (b3 b2 b1 b0 : Z) : Z :=
  Z.lor (Z.lor (Z.lor (Z.shiftl b3 24) (Z.shiftl b2 16)) (Z.shiftl b1 8)) b0.

Lemma be32_value (b3 b2 b1 b0 : Z) :
  is_byte b3 -> is_byte b2 -> is_byte b1 -> is_byte b0 ->
  be32 b3 b2 b1 b0 = b3 * 16777216 + b2 * 65536 + b1 * 256 + b0.
Proof.
  unfold is_byte, be32. intros H3 H2 H1 H0.
  rewrite !Z.shiftl_mul_pow2 by lia.
  change (2 ^ 24) with 16777216. change (2 ^ 16) with 65536. change (2 ^ 8) with 256.
  replace (b3 * 16777216) with (b3 * 2 ^ 24)
    by (change (2 ^ 24) with 16777216; lia).
  rewrite lor_mul_pow2_add by (change (2 ^ 24) with 16777216; lia).
  replace (b3 * 2 ^ 24 + b2 * 65536) with ((b3 * 256 + b2) * 2 ^ 16)
    by (change (2 ^ 24) with 16777216; change (2 ^ 16) with 65536; lia).
  rewrite lor_mul_pow2_add by (change (2 ^ 16) with 65536; lia).
  replace ((b3 * 256 + b2) * 2 ^ 16 + b1 * 256)
    with ((b3 * 65536 + b2 * 256 + b1) * 2 ^ 8)
    by (change (2 ^ 16) with 65536; change (2 ^ 8) with 256; lia).
  rewrite lor_mul_pow2_add by (change (2 ^ 8) with 256; lia).
  change (2 ^ 8) with 256. lia.
Qed.

Lemma byte_of_shiftr (c n : Z) : 0 <= n -> is_byte (Z.land (Z.shiftr c n) 0xFF).
Proof.
  intros Hn. rewrite land_FF. unfold is_byte. apply Z.mod_pos_bound. lia.
Qed.

Lemma be32_of_bytes (c : Z) :
  is_u32 c ->
  be32 (Z.land (Z.shiftr c 24) 0xFF) (Z.land (Z.shiftr c 16) 0xFF)
       (Z.land (Z.shiftr c 8) 0xFF) (Z.land c 0xFF) = c.
Proof.
  unfold is_u32. intros Hc.
  rewrite be32_value;
    try (apply byte_of_shiftr; lia);
    try (rewrite land_FF; unfold is_byte; apply Z.mod_pos_bound; lia).
  rewrite !land_FF, !Z.shiftr_div_pow2 by lia.
  change (2 ^ 24) with 16777216. change (2 ^ 16) with 65536. change (2 ^ 8) with 256.
  Z.div_mod_to_equations. lia.
Qed.

(** *** The CRC register *)

Lemma u32_range (z : Z) : is_u32 (u32 z).
Proof. unfold is_u32, u32. apply Z.mod_pos_bound. lia. Qed.

Lemma is_u32_lxor (a b : Z) : is_u32 a -> is_u32 b -> is_u32 (Z.lxor a b).
Proof.
  unfold is_u32. change 4294967296 with (2 ^ 32). intros. apply lxor_range; lia.
Qed.

Lemma lxor_cancel_r (a b c : Z) : Z.lxor a c = Z.lxor b c -> a = b.
Proof.
  intros H. apply (f_equal (fun z => Z.lxor z c)) in H.
  rewrite !Z.lxor_assoc, !Z.lxor_nilpotent, !Z.lxor_0_r in H. exact H.
Qed.

Lemma lxor_cancel_l (a b c : Z) : Z.lxor c a = Z.lxor c b -> a = b.
Proof. rewrite !(Z.lxor_comm c). apply lxor_cancel_r. Qed.

(** Testing the top bit of the register. *)
Lemma top_bit_test (c : Z) :
  is_u32 c -> (Z.land c 0x80000000 =? 0) = (c <? 2147483648).
Proof.
  unfold is_u32. intros Hc.
  assert (Hb : Z.land c 0x80000000 = if Z.testbit c 31 then 2147483648 else 0).
  { change 0x80000000 with (2 ^ 31). apply Z.bits_inj'. intros k Hk.
    rewrite Z.land_spec, Z.pow2_bits_eqb by lia.
    destruct (Z.eqb_spec 31 k) as [<- | Hne].
    - destruct (Z.testbit c 31); reflexivity.
    - rewrite andb_false_r. destruct (Z.testbit c 31).
      + change 2147483648 with (2 ^ 31). rewrite Z.pow2_bits_false; lia.
      + rewrite Z.bits_0. reflexivity. }
  rewrite Hb.
  assert (Ht : Z.testbit c 31 = negb (c <? 2147483648)).
  { destruct (Z.testbit c 31) eqn:E.
    - apply Z.testbit_true in E; [|lia]. change (2 ^ 31) with 2147483648 in E.
      symmetry. apply negb_true_iff, Z.ltb_ge. Z.div_mod_to_equations. lia.
    - apply Z.testbit_false in E; [|lia]. change (2 ^ 31) with 2147483648 in E.
      symmetry. apply negb_false_iff, Z.ltb_lt. Z.div_mod_to_equations. lia. }
  rewrite Ht. destruct (c <? 2147483648); reflexivity.
Qed.

(** One round of the register, arithmetically. *)
Lemma crc32_bit_cases (c : Z) :
  is_u32 c ->
  FrameFormat.crc32_bit c =
    if c <? 2147483648 then 2 * c
    else Z.lxor (2 * c - 4294967296) FrameFormat.CRC32_POLYNOMIAL.
Proof.
  intros Hc. unfold FrameFormat.crc32_bit. rewrite top_bit_test by exact Hc.
  unfold is_u32 in Hc. unfold u32. rewrite Z.shiftl_mul_pow2 by lia.
  change (2 ^ 1) with 2.
  destruct (Z.ltb_spec c 2147483648).
  - rewrite Z.mod_small by lia. lia.
  - f_equal. Z.div_mod_to_equations. lia.
Qed.

Lemma crc32_bit_range (c : Z) : is_u32 c -> is_u32 (FrameFormat.crc32_bit c).
Proof.
  intros Hc. unfold FrameFormat.crc32_bit.
  destruct (_ =? 0); [apply u32_range|].
  apply is_u32_lxor; [apply u32_range | unfold is_u32, FrameFormat.CRC32_POLYNOMIAL; lia].
Qed.

Lemma odd_lxor_poly (x : Z) :
  Z.odd (Z.lxor (2 * x) FrameFormat.CRC32_POLYNOMIAL) = true.
Proof.
  rewrite <- Z.bit0_odd, Z.lxor_spec, !Z.bit0_odd.
  rewrite Z.odd_mul. reflexivity.
Qed.

Lemma crc32_bit_inj (c1 c2 : Z) :
  is_u32 c1 -> is_u32 c2 ->
  FrameFormat.crc32_bit c1 = FrameFormat.crc32_bit c2 -> c1 = c2.
Proof.
  intros H1 H2. rewrite !crc32_bit_cases by assumption.
  unfold is_u32 in *.
  destruct (Z.ltb_spec c1 2147483648), (Z.ltb_spec c2 2147483648); intros E.
  - lia.
  - exfalso. apply (f_equal Z.odd) in E.
    replace (2 * c2 - 4294967296) with (2 * (c2 - 2147483648)) in E by lia.
    rewrite odd_lxor_poly, Z.odd_mul in E. discriminate E.
  - exfalso. apply (f_equal Z.odd) in E.
    replace (2 * c1 - 4294967296) with (2 * (c1 - 2147483648)) in E by lia.
    rewrite odd_lxor_poly, Z.odd_mul in E. discriminate E.
  - apply lxor_cancel_r in E. lia.
Qed.

Lemma iter_crc32_bit_range (n : nat) (c : Z) :
  is_u32 c -> is_u32 (Nat.iter n FrameFormat.crc32_bit c).
Proof. intros Hc. induction n; cbn; [exact Hc | apply crc32_bit_range, IHn]. Qed.

Lemma iter_crc32_bit_inj (n : nat) (c1 c2 : Z) :
  is_u32 c1 -> is_u32 c2 ->
  Nat.iter n FrameFormat.crc32_bit c1 = Nat.iter n FrameFormat.crc32_bit c2 ->
  c1 = c2.
Proof.
  intros H1 H2. induction n; cbn; [auto|]. intros E.
  apply crc32_bit_inj in E; [auto | apply iter_crc32_bit_range; assumption ..].
Qed.

Lemma byte_shifted (d : Z) : is_byte d -> u32 (Z.shiftl d 24) = d * 16777216.
Proof.
  unfold is_byte. intros Hd. unfold u32. rewrite Z.shiftl_mul_pow2 by lia.
  change (2 ^ 24) with 16777216. apply Z.mod_small. lia.
Qed.

Lemma crc32_byte_range (d c : Z) : is_u32 c -> is_u32 (FrameFormat.crc32_byte d c).
Proof.
  intros Hc. unfold FrameFormat.crc32_byte. apply iter_crc32_bit_range.
  apply is_u32_lxor; [exact Hc | apply u32_range].
Qed.

(** For a given data byte the register update is injective ... *)
Lemma crc32_byte_inj_crc (d c1 c2 : Z) :
  is_u32 c1 -> is_u32 c2 ->
  FrameFormat.crc32_byte d c1 = FrameFormat.crc32_byte d c2 -> c1 = c2.
Proof.
  intros H1 H2 E. unfold FrameFormat.crc32_byte in E.
  apply iter_crc32_bit_inj in E;
    [| apply is_u32_lxor; [assumption | apply u32_range] ..].
  apply lxor_cancel_r in E. exact E.
Qed.

(** ... and for a given register it is injective in the data byte. *)
Lemma crc32_byte_inj_data (d1 d2 c : Z) :
  is_byte d1 -> is_byte d2 -> is_u32 c ->
  FrameFormat.crc32_byte d1 c = FrameFormat.crc32_byte d2 c -> d1 = d2.
Proof.
  intros H1 H2 Hc E. unfold FrameFormat.crc32_byte in E.
  apply iter_crc32_bit_inj in E;
    [| apply is_u32_lxor; [assumption | apply u32_range] ..].
  apply lxor_cancel_l in E. rewrite !byte_shifted in E by assumption. lia.
Qed.

Definition crc_fold (data : list Z) (crc : Z) : Z :=
  fold_left (fun crc d => FrameFormat.crc32_byte d crc) data crc.

Lemma crc_fold_range (data : list Z) (c : Z) : is_u32 c -> is_u32 (crc_fold data c).
Proof.
  revert c. induction data as [|d data IH]; intros c Hc; [exact Hc|].
  cbn. apply IH, crc32_byte_range, Hc.
Qed.

Lemma crc_fold_inj (data : list Z) (c1 c2 : Z) :
  is_u32 c1 -> is_u32 c2 -> crc_fold data c1 = crc_fold data c2 -> c1 = c2.
Proof.
  revert c1 c2. induction data as [|d data IH]; intros c1 c2 H1 H2 E; [exact E|].
  cbn in E. apply IH in E; [| apply crc32_byte_range; assumption ..].
  apply crc32_byte_inj_crc in E; assumption.
Qed.

Lemma calculate_crc32_range (data : list Z) : is_u32 (FrameFormat.calculate_crc32 data).
Proof. unfold FrameFormat.calculate_crc32. apply u32_range. Qed.

(** Changing one byte of the message changes its CRC-32. *)
Lemma calculate_crc32_one_byte (pre post : list Z) (b b' : Z) :
  is_byte b -> is_byte b' -> b <> b' ->
  FrameFormat.calculate_crc32 (pre ++ b :: post)
  <> FrameFormat.calculate_crc32 (pre ++ b' :: post).
Proof.
  intros Hb Hb' Hne E. unfold FrameFormat.calculate_crc32 in E.
  fold (crc_fold (pre ++ b :: post) 0xFFFFFFFF) in E.
  fold (crc_fold (pre ++ b' :: post) 0xFFFFFFFF) in E.
  unfold crc_fold in E. rewrite !fold_left_app in E. cbn [fold_left] in E.
  fold (crc_fold pre 0xFFFFFFFF) in E.
  set (c := crc_fold pre 0xFFFFFFFF) in E.
  assert (Hc : is_u32 c) by (apply crc_fold_range; unfold is_u32; lia).
  fold (crc_fold post (FrameFormat.crc32_byte b c)) in E.
  fold (crc_fold post (FrameFormat.crc32_byte b' c)) in E.
  assert (Hr : forall d, is_u32 (crc_fold post (FrameFormat.crc32_byte d c)))
    by (intros d; apply crc_fold_range, crc32_byte_range, Hc).
  assert (E' : crc_fold post (FrameFormat.crc32_byte b c)
               = crc_fold post (FrameFormat.crc32_byte b' c)).
  { pose proof (Hr b) as R1. pose proof (Hr b') as R2.
    unfold is_u32 in R1, R2. unfold u32, Z.lnot in E.
    Z.div_mod_to_equations. lia. }
  apply crc_fold_inj in E'; [| apply crc32_byte_range; exact Hc ..].
  apply crc32_byte_inj_data in E'; auto.
Qed.

(** *** Frames on the wire *)

(** A [DataFrame] whose members hold values of their C++ types, with the
    data rate in 0..7, the rate format one of its two enumerators and at
    most 1023 bytes of payload. *)
Record wf_frame (F : FrameFormat.DataFrame) : Prop := {
  wf_format : FrameFormat.data_rate_format F = FrameFormat.ABSOLUTE
              \/ FrameFormat.data_rate_format F = FrameFormat.RELATIVE;
  wf_rate : 0 <= FrameFormat.data_rate F <= 7;
  wf_interleaver : is_byte (FrameFormat.interleaver_length F);
  wf_sequence : is_byte (FrameFormat.sequence_number F);
  wf_offset : is_u32 (FrameFormat.msg_byte_offset F);
  wf_length : 0 <= FrameFormat.data_length F <= 1023;
  wf_data_size : length (FrameFormat.data F) = 1023%nat;
  wf_data : Forall is_byte (FrameFormat.data F)
}.

(** The nine header bytes [format_data_frame] writes. *)
Definition header_bytes (F : FrameFormat.DataFrame) : list Z :=
  [ u8 (Z.lor (u8 (Z.lor 0x01 (Z.shiftl (FrameFormat.data_rate_format F) 7)))
          (Z.shiftl (Z.land (FrameFormat.data_rate F) 0x07) 4));
    u8 (FrameFormat.interleaver_length F);
    FrameFormat.sequence_number F;
    Z.land (Z.shiftr (FrameFormat.msg_byte_offset F) 24) 0xFF;
    Z.land (Z.shiftr (FrameFormat.msg_byte_offset F) 16) 0xFF;
    Z.land (Z.shiftr (FrameFormat.msg_byte_offset F) 8) 0xFF;
    Z.land (FrameFormat.msg_byte_offset F) 0xFF;
    Z.land (Z.shiftr (FrameFormat.data_length F) 8) 0xFF;
    Z.land (FrameFormat.data_length F) 0xFF ].

Definition payload_bytes (F : FrameFormat.DataFrame) : list Z :=
  firstn (Z.to_nat (FrameFormat.data_length F)) (FrameFormat.data F).

Definition crc_bytes (c : Z) : list Z :=
  [ Z.land (Z.shiftr c 24) 0xFF; Z.land (Z.shiftr c 16) 0xFF;
    Z.land (Z.shiftr c 8) 0xFF; Z.land c 0xFF ].

Lemma format_data_frame_shape (F : FrameFormat.DataFrame) (sz : Z) (buf : list Z) :
  FrameFormat.format_data_frame F sz = Some buf ->
  buf = (header_bytes F ++ payload_bytes F)
        ++ crc_bytes (FrameFormat.calculate_crc32 (header_bytes F ++ payload_bytes F)).
Proof.
  unfold FrameFormat.format_data_frame.
  destruct (sz <? _); [discriminate|]. intros E. injection E as <-. reflexivity.
Qed.

Lemma payload_length (F : FrameFormat.DataFrame) :
  wf_frame F -> length (payload_bytes F) = Z.to_nat (FrameFormat.data_length F).
Proof.
  intros W. unfold payload_bytes. rewrite length_take, (wf_data_size F W).
  pose proof (wf_length F W). lia.
Qed.

Lemma message_bytes (F : FrameFormat.DataFrame) :
  wf_frame F -> Forall is_byte (header_bytes F ++ payload_bytes F).
Proof.
  intros W. apply Forall_app. split.
  - unfold header_bytes.
    repeat apply List.Forall_cons;
      first [ apply List.Forall_nil
            | exact (wf_sequence F W)
            | apply byte_of_shiftr; lia
            | rewrite land_FF; unfold is_byte; apply Z.mod_pos_bound; lia
            | unfold is_byte, u8; apply Z.mod_pos_bound; lia ].
  - unfold payload_bytes. apply Forall_take, (wf_data F W).
Qed.

Lemma validate_crc32_message (msg : list Z) (c3 c2 c1 c0 : Z) :
  FrameFormat.validate_crc32 (msg ++ [c3; c2; c1; c0])
  = (FrameFormat.calculate_crc32 msg =? be32 c3 c2 c1 c0).
Proof.
  unfold FrameFormat.validate_crc32, FrameFormat.size.
  rewrite length_app. cbn [length].
  destruct (Z.ltb_spec (Z.of_nat (length msg + 4)) 4); [lia|].
  replace (Z.to_nat (Z.of_nat (length msg + 4) - 4)) with (length msg) by lia.
  rewrite take_app_length.
  unfold FrameFormat.byte_at.
  replace (Z.to_nat (Z.of_nat (length msg + 4) - 4)) with (length msg + 0)%nat by lia.
  replace (Z.to_nat (Z.of_nat (length msg + 4) - 3)) with (length msg + 1)%nat by lia.
  replace (Z.to_nat (Z.of_nat (length msg + 4) - 2)) with (length msg + 2)%nat by lia.
  replace (Z.to_nat (Z.of_nat (length msg + 4) - 1)) with (length msg + 3)%nat by lia.
  rewrite !app_nth2_plus. reflexivity.
Qed.

(** Inverting bit [k] of byte [i] of a buffer. *)
Definition flip_bit (buffer : list Z) (i : nat) (k : Z) : list Z :=
  match buffer !! i with
  | Some b => <[i := Z.lxor b (Z.shiftl 1 k)]> buffer
  | None => buffer
  end.

Lemma flipped_byte (b k : Z) :
  is_byte b -> 0 <= k < 8 ->
  is_byte (Z.lxor b (Z.shiftl 1 k)) /\ Z.lxor b (Z.shiftl 1 k) <> b.
Proof.
  unfold is_byte. intros Hb Hk.
  assert (Hp : 0 < Z.shiftl 1 k < 256).
  { rewrite Z.shiftl_mul_pow2 by lia.
    assert (0 < 2 ^ k) by (apply Z.pow_pos_nonneg; lia).
    assert (2 ^ k <= 2 ^ 7) by (apply Z.pow_le_mono_r; lia).
    change (2 ^ 7) with 128 in *. lia. }
  split.
  - change 256 with (2 ^ 8). apply lxor_range; change (2 ^ 8) with 256; lia.
  - intros E. rewrite <- (Z.lxor_0_r b) in E at 2. apply lxor_cancel_l in E. lia.
Qed.

(** Inverting a bit of a list of bytes changes exactly one byte. *)
Lemma flip_bit_split (l : list Z) (i : nat) (k : Z) :
  (i < length l)%nat -> Forall is_byte l -> 0 <= k < 8 ->
  exists pre b post b',
    l = pre ++ b :: post /\ flip_bit l i k = pre ++ b' :: post
    /\ length pre = i /\ is_byte b /\ is_byte b' /\ b' <> b.
Proof.
  intros Hi Hl Hk. unfold flip_bit.
  destruct (l !! i) as [b|] eqn:E; [|apply lookup_ge_None in E; lia].
  assert (Hb : is_byte b) by (eapply Forall_lookup_1; eassumption).
  destruct (flipped_byte b k Hb Hk) as [Hb' Hne].
  exists (take i l), b, (drop (S i) l), (Z.lxor b (Z.shiftl 1 k)).
  split; [symmetry; apply take_drop_middle, E|].
  split; [apply insert_take_drop; exact Hi|].
  split; [rewrite length_take; lia|]. auto.
Qed.

Lemma flip_bit_length (l : list Z) (i : nat) (k : Z) :
  length (flip_bit l i k) = length l.
Proof.
  unfold flip_bit. destruct (l !! i); [apply length_insert | reflexivity].
Qed.

Lemma flip_bit_app_l (l1 l2 : list Z) (i : nat) (k : Z) :
  (i < length l1)%nat ->
  flip_bit (l1 ++ l2) i k = flip_bit l1 i k ++ l2.
Proof.
  intros Hi. unfold flip_bit. rewrite lookup_app_l by exact Hi.
  destruct (l1 !! i) eqn:E; [|reflexivity].
  rewrite insert_app_l by exact Hi. reflexivity.
Qed.

Lemma flip_bit_app_r (l1 l2 : list Z) (i : nat) (k : Z) :
  (length l1 <= i)%nat ->
  flip_bit (l1 ++ l2) i k = l1 ++ flip_bit l2 (i - length l1) k.
Proof.
  intros Hi. unfold flip_bit. rewrite lookup_app_r by exact Hi.
  destruct (l2 !! (i - length l1)%nat) eqn:E; [|reflexivity].
  rewrite insert_app_r_alt by exact Hi. reflexivity.
Qed.

(** A frame with one bit inverted fails the CRC check. *)
Lemma validate_crc32_flipped (msg : list Z) (i : nat) (k : Z) :
  Forall is_byte msg -> 0 <= k < 8 ->
  (i < length msg + 4)%nat ->
  FrameFormat.validate_crc32
    (flip_bit (msg ++ crc_bytes (FrameFormat.calculate_crc32 msg)) i k)
  = false.
Proof.
  intros Hmsg Hk Hi.
  remember (FrameFormat.calculate_crc32 msg) as c eqn:Ec.
  assert (Hc : is_u32 c) by (subst c; apply calculate_crc32_range).
  pose proof (be32_of_bytes c Hc) as Hbe.
  assert (B3 : is_byte (Z.land (Z.shiftr c 24) 0xFF)) by (apply byte_of_shiftr; lia).
  assert (B2 : is_byte (Z.land (Z.shiftr c 16) 0xFF)) by (apply byte_of_shiftr; lia).
  assert (B1 : is_byte (Z.land (Z.shiftr c 8) 0xFF)) by (apply byte_of_shiftr; lia).
  assert (B0 : is_byte (Z.land c 0xFF))
    by (rewrite land_FF; unfold is_byte; apply Z.mod_pos_bound; lia).
  destruct (Nat.lt_ge_cases i (length msg)) as [Hlt | Hge].
  - (* the bit lies in the header or the payload *)
    rewrite flip_bit_app_l by exact Hlt.
    destruct (flip_bit_split msg i k Hlt Hmsg Hk)
      as (pre & b & post & b' & Em & Ef & _ & Hb & Hb' & Hne).
    rewrite Ef. unfold crc_bytes. rewrite validate_crc32_message, Hbe.
    apply Z.eqb_neq. subst c. rewrite Em.
    apply calculate_crc32_one_byte; auto.
  - (* the bit lies in the CRC field *)
    rewrite flip_bit_app_r by exact Hge.
    destruct (flipped_byte _ k B3 Hk) as [F3 N3].
    destruct (flipped_byte _ k B2 Hk) as [F2 N2].
    destruct (flipped_byte _ k B1 Hk) as [F1 N1].
    destruct (flipped_byte _ k B0 Hk) as [F0 N0].
    unfold crc_bytes, flip_bit.
    destruct (i - length msg)%nat as [|[|[|[|j]]]] eqn:Ej; [| | | | lia];
      cbn -[Z.lxor Z.shiftl Z.land Z.shiftr];
      rewrite validate_crc32_message, <- Ec; apply Z.eqb_neq;
      rewrite be32_value in Hbe |- * by assumption; unfold is_byte in *; lia.
Qed.

Lemma header_byte0 (drf rate : Z) :
  drf = 0 \/ drf = 1 -> 0 <= rate <= 7 ->
  let b0 := u8 (Z.lor (u8 (Z.lor 0x01 (Z.shiftl drf 7))) (Z.shiftl (Z.land rate 0x07) 4)) in
  Z.land (Z.shiftr b0 7) 0x01 = drf /\ Z.land (Z.shiftr b0 4) 0x07 = rate.
Proof.
  intros Hd Hr.
  assert (Hr' : rate = 0 \/ rate = 1 \/ rate = 2 \/ rate = 3 \/ rate = 4
                \/ rate = 5 \/ rate = 6 \/ rate = 7) by lia.
  destruct Hd as [-> | ->];
    destruct Hr' as [-> | [-> | [-> | [-> | [-> | [-> | [-> | ->]]]]]]];
    split; reflexivity.
Qed.

Lemma length_field (dl : Z) :
  0 <= dl <= 1023 ->
  u16 (Z.lor (Z.shiftl (Z.land (Z.shiftr dl 8) 0xFF) 8) (Z.land dl 0xFF)) = dl.
Proof.
  intros Hdl. rewrite !land_FF.
  rewrite lor_shiftl_add by (change (2 ^ 8) with 256; try apply Z.mod_pos_bound; lia).
  rewrite Z.shiftr_div_pow2 by lia. change (2 ^ 8) with 256. unfold u16.
  Z.div_mod_to_equations. lia.
Qed.

(** C2.  For every well-formed data frame [F] and every buffer [buf] that
    [format_data_frame] produces for it, [parse_data_frame] accepts [buf] and
    recovers the wire-carried fields of [F]: rate format, rate, interleaver
    length, sequence number, message byte offset, data length and the
    [data_length] payload bytes; and after inverting any single bit of [buf]
    (bit [k] of byte [i]) [parse_data_frame] rejects the buffer. *)
Theorem data_frame_roundtrip_and_bit_flip
    (F out : FrameFormat.DataFrame) (buffer_size : Z) (buf : list Z)
    (i : nat) (k : Z) :
  wf_frame F ->
  FrameFormat.format_data_frame F buffer_size = Some buf ->
  (i < length buf)%nat -> 0 <= k < 8 ->
  (exists F',
     FrameFormat.parse_data_frame buf out = (true, F')
     /\ FrameFormat.data_rate_format F' = FrameFormat.data_rate_format F
     /\ FrameFormat.data_rate F' = FrameFormat.data_rate F
     /\ FrameFormat.interleaver_length F' = FrameFormat.interleaver_length F
     /\ FrameFormat.sequence_number F' = FrameFormat.sequence_number F
     /\ FrameFormat.msg_byte_offset F' = FrameFormat.msg_byte_offset F
     /\ FrameFormat.data_length F' = FrameFormat.data_length F
     /\ firstn (Z.to_nat (FrameFormat.data_length F)) (FrameFormat.data F')
        = firstn (Z.to_nat (FrameFormat.data_length F)) (FrameFormat.data F))
  /\ fst (FrameFormat.parse_data_frame (flip_bit buf i k) out) = false.
Proof.
  intros W Hfmt Hi Hk.
  pose proof (format_data_frame_shape F buffer_size buf Hfmt) as Hshape.
  pose proof (payload_length F W) as Hpl.
  pose proof (message_bytes F W) as Hmsg.
  pose proof (wf_length F W) as Hdl.
  set (msg := header_bytes F ++ payload_bytes F) in *.
  assert (Hlen_msg : length msg = (9 + Z.to_nat (FrameFormat.data_length F))%nat).
  { subst msg. rewrite length_app, Hpl. reflexivity. }
  assert (Hlen : length buf = (length msg + 4)%nat).
  { rewrite Hshape, length_app. reflexivity. }
  assert (Hsize : FrameFormat.size buf = 9 + FrameFormat.data_length F + 4).
  { unfold FrameFormat.size. lia. }
  split.
  - (* the round trip *)
    assert (Hval : FrameFormat.validate_crc32 buf = true).
    { rewrite Hshape. unfold crc_bytes. rewrite validate_crc32_message.
      rewrite be32_of_bytes by apply calculate_crc32_range. apply Z.eqb_refl. }
    unfold FrameFormat.parse_data_frame. rewrite Hval, Hsize.
    destruct (Z.ltb_spec (9 + FrameFormat.data_length F + 4) 13) as [|_]; [lia|].
    cbn [negb].
    assert (Hb : forall j : Z, 0 <= j < 9 ->
              FrameFormat.byte_at buf j = nth (Z.to_nat j) (header_bytes F) 0).
    { intros j Hj. unfold FrameFormat.byte_at. rewrite Hshape.
      subst msg. rewrite <- !app_assoc. apply app_nth1. cbn. lia. }
    cbv zeta.
    change (0 + 1 + 1 + 1 + 4 + 2) with 9. change (0 + 1 + 1 + 1 + 4 + 1) with 8.
    change (0 + 1 + 1 + 1 + 4) with 7. change (0 + 1 + 1 + 1 + 3) with 6.
    change (0 + 1 + 1 + 1 + 2) with 5. change (0 + 1 + 1 + 1 + 1) with 4.
    change (0 + 1 + 1 + 1) with 3. change (0 + 1 + 1) with 2. change (0 + 1) with 1.
    rewrite !Hb by lia.
    change (Z.to_nat 0) with 0%nat. change (Z.to_nat 1) with 1%nat.
    change (Z.to_nat 2) with 2%nat. change (Z.to_nat 3) with 3%nat.
    change (Z.to_nat 4) with 4%nat. change (Z.to_nat 5) with 5%nat.
    change (Z.to_nat 6) with 6%nat. change (Z.to_nat 7) with 7%nat.
    change (Z.to_nat 8) with 8%nat.
    cbn [nth header_bytes].
    destruct (header_byte0 _ _ (wf_format F W) (wf_rate F W)) as [Hdrf Hrate].
    rewrite Hdrf, Hrate.
    fold (be32 (Z.land (Z.shiftr (FrameFormat.msg_byte_offset F) 24) 0xFF)
               (Z.land (Z.shiftr (FrameFormat.msg_byte_offset F) 16) 0xFF)
               (Z.land (Z.shiftr (FrameFormat.msg_byte_offset F) 8) 0xFF)
               (Z.land (FrameFormat.msg_byte_offset F) 0xFF)).
    rewrite be32_of_bytes by exact (wf_offset F W).
    rewrite length_field by exact Hdl.
    assert (Hil : u8 (FrameFormat.interleaver_length F) = FrameFormat.interleaver_length F).
    { unfold u8. apply Z.mod_small. exact (wf_interleaver F W). }
    rewrite Hil.
    destruct (Z.ltb_spec FrameFormat.MAX_DATA_BLOCK_LENGTH (FrameFormat.data_length F))
      as [Hgt|_]; [unfold FrameFormat.MAX_DATA_BLOCK_LENGTH in Hgt; lia|].
    rewrite Z.eqb_refl. cbn [orb negb].
    eexists. split; [reflexivity|]. cbn.
    repeat (split; [reflexivity|]).
    unfold FrameFormat.memcpy_into.
    assert (Hskip : skipn 9 buf = payload_bytes F
                      ++ crc_bytes (FrameFormat.calculate_crc32 msg)).
    { rewrite Hshape. subst msg. rewrite <- app_assoc. reflexivity. }
    change (Z.to_nat 9) with 9%nat. rewrite Hskip.
    rewrite <- Hpl. rewrite take_app_length, take_app_length.
    rewrite Hpl. reflexivity.
  - (* every single-bit error is detected *)
    unfold FrameFormat.parse_data_frame, FrameFormat.size.
    rewrite flip_bit_length, Hlen.
    destruct (Z.ltb_spec (Z.of_nat (length msg + 4)) 13) as [|_]; [lia|].
    rewrite Hshape, validate_crc32_flipped by (assumption || lia).
    reflexivity.
Qed.

Definition sample_frame : FrameFormat.DataFrame :=
  {| FrameFormat.data_rate_format := FrameFormat.RELATIVE;
     FrameFormat.data_rate := 5;
     FrameFormat.interleaver_length := FrameFormat.LONG;
     FrameFormat.sequence_number := 200;
     FrameFormat.msg_byte_offset := 0x12345678;
     FrameFormat.data_length := 5;
     FrameFormat.data := [72; 69; 76; 76; 79] ++ repeat 0 1018%nat;
     FrameFormat.crc32 := 0 |}.

Lemma sample_frame_wf : wf_frame sample_frame.
Proof.
  constructor.
  - right. reflexivity.
  - cbn. lia.
  - unfold is_byte. cbn. unfold FrameFormat.LONG. lia.
  - unfold is_byte. cbn. lia.
  - unfold is_u32. cbn. lia.
  - cbn. lia.
  - reflexivity.
  - unfold sample_frame. cbn [FrameFormat.data]. apply Forall_app. split.
    + repeat apply List.Forall_cons; first [apply List.Forall_nil | unfold is_byte; lia].
    + apply List.Forall_forall. intros x Hx. apply repeat_spec in Hx.
      unfold is_byte. lia.
Qed.

Lemma data_frame_roundtrip_and_bit_flip_witness :
  let buf := [209; 1; 200; 18; 52; 86; 120; 0; 5; 72; 69; 76; 76; 79; 156; 110; 31; 68] in
  FrameFormat.format_data_frame sample_frame 100 = Some buf
  /\ fst (FrameFormat.parse_data_frame buf FrameFormat.DataFrame_ctor) = true
  /\ fst (FrameFormat.parse_data_frame (flip_bit buf 3 2)
            FrameFormat.DataFrame_ctor) = false.
Proof.
  cbv zeta.
  assert (Hf : FrameFormat.format_data_frame sample_frame 100
               = Some [209; 1; 200; 18; 52; 86; 120; 0; 5; 72; 69; 76; 76; 79;
                       156; 110; 31; 68]) by (vm_compute; reflexivity).
  destruct (data_frame_roundtrip_and_bit_flip sample_frame FrameFormat.DataFrame_ctor
              100 _ 3%nat 2 sample_frame_wf Hf ltac:(cbn; lia) ltac:(lia))
    as [(F' & HF' & _) Hflip].
  split; [exact Hf|]. split; [rewrite HF'; reflexivity | exact Hflip].
Defined.

(** ** Variable ARQ: reset *)

(** C10.  After [reset] the machine is in [IDLE]; the statistics are all
    zero, the transmit block list, the retransmit queue and the reassembly
    buffer are empty, the receive bitmap is 256 cleared entries, the next
    transmit sequence and the window base are 0; [get_stats] and
    [get_received_data] return what they return on a freshly constructed
    machine. *)
Theorem reset_fresh_session (a : VariableARQ.arq) :
  let a' := VariableARQ.reset a in
  VariableARQ.get_state a' = VariableARQ.IDLE
  /\ VariableARQ.m_stats a' = VariableARQ.ARQStats_zero
  /\ VariableARQ.m_tx_blocks a' = []
  /\ VariableARQ.m_retransmit_queue a' = []
  /\ VariableARQ.m_rx_buffer a' = []
  /\ VariableARQ.m_rx_bitmap a' = repeat false 256%nat
  /\ VariableARQ.m_next_tx_sequence a' = 0
  /\ VariableARQ.m_window_base a' = 0
  /\ VariableARQ.get_stats a' = VariableARQ.get_stats VariableARQ.ctor
  /\ VariableARQ.get_received_data a' = VariableARQ.get_received_data VariableARQ.ctor.
Proof.
  cbv zeta. unfold VariableARQ.reset, VariableARQ.get_state.
  assert (Hs : VariableARQ.m_state (VariableARQ.transition_to VariableARQ.IDLE a)
               = VariableARQ.IDLE).
  { unfold VariableARQ.transition_to.
    destruct (decide (VariableARQ.IDLE = VariableARQ.m_state a)) as [e|n]; [auto|].
    cbn. destruct (VariableARQ.m_state_callback a); reflexivity. }
  cbn. rewrite Hs. repeat split; reflexivity.
Qed.

(** ** Variable ARQ: segmentation *)

Section Segmentation.

Import VariableARQ.

Variable data_ : list Z.

(** The number of bytes, as [create_blocks] receives it. *)
Definition total : Z := Z.of_nat (length data_).

(** The number of blocks: the length divided by 1023, rounded up. *)
Definition block_count : nat := Z.to_nat ((total + 1022) / 1023).

(** Block number [i] of the segmentation of [data_]. *)
Definition segment (i : nat) : DataBlock :=
  let off := 1023 * Z.of_nat i in
  let len := Z.min 1023 (total - off) in
  {| sequence := Z.of_nat i mod 256;
     offset := off;
     length_ := len;
     data := firstn (Z.to_nat len) (skipn (Z.to_nat off) data_);
     acknowledged := false;
     retransmit_count := 0;
     timestamp := 0 |}.

Hypothesis total_u32 : total < 4294967296.

Lemma create_blocks_loop_done (fuel : nat) (off seq : Z) (acc : list DataBlock) :
  total <= off ->
  create_blocks_loop fuel data_ total off seq acc = Some acc.
Proof using Type.
  intros H. destruct fuel; cbn; destruct (Z.ltb_spec off total); (lia || reflexivity).
Qed.

Lemma create_blocks_loop_segments (m : nat) :
  forall (k fuel : nat) (acc : list DataBlock),
    (k + m = block_count)%nat -> (m <= fuel)%nat ->
    create_blocks_loop fuel data_ total (1023 * Z.of_nat k) (Z.of_nat k mod 256) acc
    = Some (acc ++ map segment (seq k m)).
Proof using total_u32.
  unfold block_count.
  assert (Ht : 0 <= total) by (unfold total; lia).
  induction m as [|m IH]; intros k fuel acc Hk Hfuel.
  - cbn [seq map]. rewrite app_nil_r. apply create_blocks_loop_done.
    Z.div_mod_to_equations. lia.
  - destruct fuel as [|fuel]; [lia|].
    assert (Hlt : 1023 * Z.of_nat k < total) by (Z.div_mod_to_equations; lia).
    cbn [create_blocks_loop]. destruct (Z.ltb_spec (1023 * Z.of_nat k) total); [|lia].
    set (len := Z.min FrameFormat.MAX_DATA_BLOCK_LENGTH (u32 (total - 1023 * Z.of_nat k))).
    assert (Hlen : len = Z.min 1023 (total - 1023 * Z.of_nat k)).
    { subst len. unfold FrameFormat.MAX_DATA_BLOCK_LENGTH, u32.
      rewrite Z.mod_small by lia. reflexivity. }
    assert (Hu16 : u16 len = len) by (unfold u16; apply Z.mod_small; lia).
    cbn [length_]. rewrite Hu16.
    assert (Hseg : {| sequence := Z.of_nat k mod 256; offset := 1023 * Z.of_nat k;
                      length_ := len;
                      data := firstn (Z.to_nat len)
                                (skipn (Z.to_nat (1023 * Z.of_nat k)) data_);
                      acknowledged := false; retransmit_count := 0; timestamp := 0 |}
                   = segment k).
    { unfold segment. cbv zeta. rewrite <- Hlen. reflexivity. }
    rewrite Hseg.
    assert (Hseq : u8 (Z.of_nat k mod 256 + 1) = Z.of_nat (S k) mod 256).
    { unfold u8. rewrite Nat2Z.inj_succ, Zplus_mod_idemp_l. reflexivity. }
    rewrite Hseq.
    cbn [seq map].
    destruct (Z.eq_dec len 1023) as [E | E].
    + assert (Hoff : u32 (1023 * Z.of_nat k + len) = 1023 * Z.of_nat (S k)).
      { unfold u32. rewrite Z.mod_small by lia. lia. }
      rewrite Hoff, IH by lia. rewrite <- app_assoc. reflexivity.
    + assert (Hoff : u32 (1023 * Z.of_nat k + len) = total).
      { unfold u32. rewrite Z.mod_small by lia. lia. }
      rewrite Hoff.
      assert (m = 0%nat) by (Z.div_mod_to_equations; lia). subst m.
      cbn [seq map]. apply create_blocks_loop_done. lia.
Qed.

Lemma block_count_le : (block_count <= S (length data_))%nat.
Proof using Type.
  unfold block_count, total. Z.div_mod_to_equations. lia.
Qed.

Lemma create_blocks_segments (a : arq) :
  create_blocks data_ a
  = Some (with_tx (map segment (seq 0 block_count)) (m_retransmit_queue a) 0 0 a).
Proof using total_u32.
  unfold create_blocks. fold total.
  pose proof (create_blocks_loop_segments block_count 0 (S (length data_)) []
                ltac:(lia) block_count_le) as H.
  change (Z.of_nat 0) with 0 in H. change (1023 * 0) with 0 in H.
  change (0 mod 256) with 0 in H. rewrite H. reflexivity.
Qed.

End Segmentation.

Section Sending.

Import VariableARQ.

(** Everything of a block but the time it was last sent. *)
Definition core (b : DataBlock) : Z * Z * Z * list Z * bool * Z :=
  (sequence b, offset b, length_ b, data b, acknowledged b, retransmit_count b).

Lemma core_sequence blocks blocks' :
  map core blocks' = map core blocks -> map sequence blocks' = map sequence blocks.
Proof.
  intros H. apply (f_equal (map (fun c : Z * Z * Z * list Z * bool * Z =>
                                    fst (fst (fst (fst (fst c))))))) in H.
  rewrite !map_map in H. exact H.
Qed.

Lemma core_acknowledged blocks blocks' :
  map core blocks' = map core blocks ->
  map acknowledged blocks' = map acknowledged blocks.
Proof.
  intros H. apply (f_equal (map (fun c : Z * Z * Z * list Z * bool * Z =>
                                    snd (fst c)))) in H.
  rewrite !map_map in H. exact H.
Qed.

Lemma core_length blocks blocks' :
  map core blocks' = map core blocks -> length blocks' = length blocks.
Proof. intros H. apply (f_equal (@length _)) in H. rewrite !length_map in H. exact H. Qed.

Lemma core_insert_timestamp blocks i b t :
  blocks !! i = Some b ->
  map core (<[i := set_timestamp t b]> blocks) = map core blocks.
Proof.
  intros H. change (map core) with (fmap (M := list) core).
  rewrite list_fmap_insert. apply list_insert_id.
  rewrite list_lookup_fmap, H. reflexivity.
Qed.

(** No block is acknowledged, and every sequence number below the number
    of blocks (and below 256) is carried by some block. *)
Definition all_pending (blocks : list DataBlock) : Prop :=
  Forall (fun a => a = false) (map acknowledged blocks)
  /\ forall s, 0 <= s < Z.of_nat (length blocks) -> s < 256 ->
       In s (map sequence blocks).

Lemma all_pending_core blocks blocks' :
  map core blocks' = map core blocks -> all_pending blocks -> all_pending blocks'.
Proof.
  intros H [Ha Hs]. unfold all_pending.
  rewrite (core_acknowledged _ _ H), (core_sequence _ _ H), (core_length _ _ H).
  split; assumption.
Qed.

Lemma all_pending_segments (data_ : list Z) (n : nat) :
  all_pending (map (segment data_) (seq 0 n)).
Proof.
  split.
  - rewrite map_map. apply List.Forall_forall. intros x Hx.
    apply in_map_iff in Hx as (i & <- & _). reflexivity.
  - intros s Hs H256. rewrite length_map, length_seq in Hs.
    rewrite map_map. apply in_map_iff. exists (Z.to_nat s). split.
    + cbn. rewrite Z2Nat.id by lia. apply Z.mod_small. lia.
    + apply in_seq. lia.
Qed.

Lemma find_block_from_In (blocks : list DataBlock) (s : Z) :
  In s (map sequence blocks) ->
  forall j, exists i, find_block_from blocks s j = Some i.
Proof.
  induction blocks as [|b blocks IH]; intros Hin j; [destruct Hin|].
  cbn. destruct (sequence b =? s) eqn:E; [eauto|].
  destruct Hin as [Hb | Hin]; [apply Z.eqb_neq in E; contradiction|].
  apply IH. exact Hin.
Qed.

Lemma find_block_from_lt (blocks : list DataBlock) (s : Z) :
  forall j i, find_block_from blocks s j = Some i ->
    (j <= i < j + length blocks)%nat.
Proof.
  induction blocks as [|b blocks IH]; intros j i H; [discriminate|].
  cbn in H. destruct (sequence b =? s).
  - injection H as <-. cbn. lia.
  - apply IH in H. cbn. lia.
Qed.

Lemma block_at_lookup (s : Z) (a : arq) (i : nat) (b : DataBlock) :
  block_at s a = Some (i, b) -> m_tx_blocks a !! i = Some b.
Proof.
  unfold block_at. destruct (find_block s a); [|discriminate].
  destruct (m_tx_blocks a !! n) eqn:E; [|discriminate].
  intros H. injection H as <- <-. exact E.
Qed.

Lemma block_at_pending (s : Z) (a : arq) :
  all_pending (m_tx_blocks a) ->
  0 <= s < Z.of_nat (length (m_tx_blocks a)) -> s < 256 ->
  exists i b, block_at s a = Some (i, b) /\ acknowledged b = false.
Proof.
  intros [Ha Hs] H1 H2.
  destruct (find_block_from_In _ s (Hs s H1 H2) 0%nat) as [i Hi].
  pose proof (find_block_from_lt _ _ _ _ Hi) as Hlt.
  destruct (m_tx_blocks a !! i) as [b|] eqn:E;
    [|apply lookup_ge_None in E; lia].
  exists i, b. unfold block_at, find_block. rewrite Hi, E. split; [reflexivity|].
  rewrite List.Forall_forall in Ha. apply Ha.
  apply in_map. apply list_elem_of_In. eapply list_elem_of_lookup_2. exact E.
Qed.

(** What sending leaves alone. *)
Definition same_transfer (a a' : arq) : Prop :=
  map core (m_tx_blocks a') = map core (m_tx_blocks a)
  /\ m_state a' = m_state a
  /\ m_window_size a' = m_window_size a.

Lemma same_transfer_refl a : same_transfer a a.
Proof. repeat split. Qed.

Lemma same_transfer_trans a b c :
  same_transfer a b -> same_transfer b c -> same_transfer a c.
Proof.
  intros (H1 & H2 & H3) (K1 & K2 & K3). repeat split; congruence.
Qed.

Lemma send_block_same (s : Z) (a : arq) :
  same_transfer a (send_block s a)
  /\ m_next_tx_sequence (send_block s a) = m_next_tx_sequence a.
Proof.
  unfold send_block. destruct (block_at s a) as [[i b]|] eqn:E;
    [|split; [apply same_transfer_refl | reflexivity]].
  destruct (m_tx_callback a); cbn [negb];
    [|split; [apply same_transfer_refl | reflexivity]].
  destruct (FrameFormat.format_data_frame _ 1200);
    [|split; [apply same_transfer_refl | reflexivity]].
  split; [|reflexivity]. repeat split. cbn.
  apply core_insert_timestamp, (block_at_lookup s a), E.
Qed.

Lemma transition_to_fields (s : ARQState) (a : arq) :
  m_state (transition_to s a) = s
  /\ m_tx_blocks (transition_to s a) = m_tx_blocks a
  /\ m_window_size (transition_to s a) = m_window_size a
  /\ m_next_tx_sequence (transition_to s a) = m_next_tx_sequence a.
Proof.
  unfold transition_to. destruct (decide (s = m_state a)) as [-> | _]; [auto|].
  cbn. destruct (m_state_callback a); auto.
Qed.

(** With every block pending, each iteration of the window loop sends a
    block, so the loop ends within [m_window_size - sent] iterations. *)
Lemma send_next_blocks_loop_runs (k : nat) :
  forall (fuel : nat) (sent : Z) (a : arq),
    all_pending (m_tx_blocks a) ->
    0 <= m_next_tx_sequence a < 256 ->
    (Z.to_nat (m_window_size a - sent) <= k)%nat -> (k <= fuel)%nat ->
    exists sent' a',
      send_next_blocks_loop fuel sent a = Some (sent', a')
      /\ same_transfer a a'.
Proof.
  induction k as [|k IH]; intros fuel sent a Hp Hn Hk Hf.
  - exists sent, a. split; [|apply same_transfer_refl].
    destruct fuel; cbn [send_next_blocks_loop];
      destruct (Z.ltb_spec sent (m_window_size a)); (lia || reflexivity).
  - destruct (Z.ltb_spec sent (m_window_size a)) as [Hw | Hw];
      [destruct (Z.ltb_spec (m_next_tx_sequence a) (Z.of_nat (length (m_tx_blocks a))))
         as [Hl | Hl] |].
    + destruct fuel as [|fuel]; [lia|]. cbn [send_next_blocks_loop].
      destruct (Z.ltb_spec sent (m_window_size a)); [|lia].
      destruct (Z.ltb_spec (m_next_tx_sequence a) (Z.of_nat (length (m_tx_blocks a))));
        [|lia].
      cbn [andb].
      destruct (block_at_pending (m_next_tx_sequence a) a Hp ltac:(lia) ltac:(lia))
        as (i & b & Hb & Hack).
      rewrite Hb, Hack. cbn [negb].
      destruct (send_block_same (m_next_tx_sequence a) a) as [Hs Hseq].
      set (a1 := send_block (m_next_tx_sequence a) a) in *.
      set (a2 := set_next_tx_sequence (u8 (m_next_tx_sequence a1 + 1)) a1).
      assert (H12 : same_transfer a1 a2) by (repeat split).
      pose proof (same_transfer_trans _ _ _ Hs H12) as H02.
      destruct H02 as (C & S & W).
      destruct (IH fuel (sent + 1) a2) as (sent' & a' & Hrun & Hsame).
      * eapply all_pending_core; [exact C | exact Hp].
      * subst a2. cbn. unfold u8. apply Z.mod_pos_bound. lia.
      * rewrite W. lia.
      * lia.
      * exists sent', a'. split; [exact Hrun|].
        eapply same_transfer_trans; [|exact Hsame]. repeat split; assumption.
    + exists sent, a. split; [|apply same_transfer_refl].
      destruct fuel; cbn [send_next_blocks_loop];
        destruct (Z.ltb_spec sent (m_window_size a));
        destruct (Z.ltb_spec (m_next_tx_sequence a) (Z.of_nat (length (m_tx_blocks a))));
        (lia || reflexivity).
    + exists sent, a. split; [|apply same_transfer_refl].
      destruct fuel; cbn [send_next_blocks_loop];
        destruct (Z.ltb_spec sent (m_window_size a)); (lia || reflexivity).
Qed.

End Sending.

(** The bytes held by the blocks that precede a position. *)
Definition bytes_before (blocks : list VariableARQ.DataBlock) (i : nat) : Z :=
  fold_right (fun b acc => VariableARQ.length_ b + acc) 0 (firstn i blocks).

Lemma bytes_before_full (blocks : list VariableARQ.DataBlock) :
  forall i : nat,
    (i <= length blocks)%nat ->
    (forall j b, (j < i)%nat -> blocks !! j = Some b -> VariableARQ.length_ b = 1023) ->
    bytes_before blocks i = 1023 * Z.of_nat i.
Proof.
  unfold bytes_before.
  induction blocks as [|b blocks IH]; intros i Hi Hfull.
  - cbn in Hi. replace i with 0%nat by lia. reflexivity.
  - destruct i as [|i]; [reflexivity|].
    cbn [firstn fold_right]. rewrite IH.
    + rewrite (Hfull 0%nat b) by (lia || reflexivity). lia.
    + cbn in Hi. lia.
    + intros j c Hj Hc. apply (Hfull (S j) c); [lia | exact Hc].
Qed.

Lemma with_outputs_same (a : VariableARQ.arq) :
  VariableARQ.with_outputs (VariableARQ.outputs a) a = a.
Proof. destruct a. reflexivity. Qed.

(** C3.  In every state other than [IDLE], [start_transmission] returns
    [false] and leaves every member of the machine as it was (only the error
    callback is invoked).  In [IDLE] with a transmit callback set, it returns
    [true], and the transmit block list then holds the input cut into blocks
    of at most 1023 bytes: block [i] has sequence number [i mod 256], an
    offset equal to the number of bytes in the blocks before it, which is
    [1023 * i], between 1 and 1023 bytes, and exactly the input bytes from
    its offset on. *)
Theorem start_transmission_segments
    (fuel : nat) (data_ : list Z) (a : VariableARQ.arq) :
  Z.of_nat (length data_) < 4294967296 ->
  (VariableARQ.m_state a <> VariableARQ.IDLE ->
     exists outs,
       VariableARQ.start_transmission fuel data_ a
       = Some (false, VariableARQ.with_outputs outs a))
  /\ (VariableARQ.m_state a = VariableARQ.IDLE ->
      VariableARQ.m_tx_callback a = true ->
      (Z.to_nat (VariableARQ.m_window_size a) + 2 <= fuel)%nat ->
      exists a',
        VariableARQ.start_transmission fuel data_ a = Some (true, a')
        /\ length (VariableARQ.m_tx_blocks a') = block_count data_
        /\ forall (i : nat) (b : VariableARQ.DataBlock),
             VariableARQ.m_tx_blocks a' !! i = Some b ->
             VariableARQ.sequence b = Z.of_nat i mod 256
             /\ VariableARQ.offset b = bytes_before (VariableARQ.m_tx_blocks a') i
             /\ VariableARQ.offset b = 1023 * Z.of_nat i
             /\ 1 <= VariableARQ.length_ b <= 1023
             /\ VariableARQ.length_ b
                = Z.min 1023 (Z.of_nat (length data_) - VariableARQ.offset b)
             /\ VariableARQ.data b
                = firstn (Z.to_nat (VariableARQ.length_ b))
                    (skipn (Z.to_nat (VariableARQ.offset b)) data_)).
Proof.
  intros Hlen. split.
  - intros Hst. unfold VariableARQ.start_transmission.
    rewrite bool_decide_eq_false_2 by exact Hst. cbn [negb].
    unfold VariableARQ.report_error.
    destruct (VariableARQ.m_error_callback a).
    + eexists. reflexivity.
    + exists (VariableARQ.outputs a). rewrite with_outputs_same. reflexivity.
  - intros Hst Hcb Hfuel. unfold VariableARQ.start_transmission.
    rewrite bool_decide_eq_true_2 by exact Hst. rewrite Hcb. cbn [negb].
    rewrite (create_blocks_segments data_ Hlen a).
    set (segs := map (segment data_) (seq 0 (block_count data_))).
    set (a1 := VariableARQ.with_tx segs (VariableARQ.m_retransmit_queue a) 0 0 a).
    (* the blocks after [process_event(START_TX)] differ from the segments in
       their time stamps only *)
    assert (Hpe : exists a',
               VariableARQ.process_event fuel VariableARQ.START_TX a1 = Some a'
               /\ map core (VariableARQ.m_tx_blocks a') = map core segs).
    { destruct fuel as [|fuel]; [lia|]. cbn [VariableARQ.process_event].
      replace (VariableARQ.m_state a1) with VariableARQ.IDLE by (symmetry; exact Hst).
      unfold VariableARQ.handle_idle.
      destruct (VariableARQ.m_tx_blocks a1) as [|b0 rest] eqn:Eblocks.
      - exists a1. rewrite Eblocks. split; [reflexivity|].
        change (VariableARQ.m_tx_blocks a1) with segs in Eblocks.
        rewrite Eblocks. reflexivity.
      - destruct (transition_to_fields VariableARQ.TX_DATA a1) as (T1 & T2 & T3 & T4).
        set (a2 := VariableARQ.transition_to VariableARQ.TX_DATA a1) in *.
        assert (Hp2 : all_pending (VariableARQ.m_tx_blocks a2)).
        { rewrite T2. apply all_pending_segments. }
        destruct (send_next_blocks_loop_runs (Z.to_nat (VariableARQ.m_window_size a2))
                    fuel 0 a2 Hp2) as (sent & a3 & Hrun & C & S & W).
        { rewrite T4. cbn. lia. }
        { lia. }
        { rewrite T3. cbn. lia. }
        unfold VariableARQ.send_next_blocks. rewrite Hrun.
        rewrite T2 in C. change (VariableARQ.m_tx_blocks a1) with segs in C.
        destruct (0 <? sent); [|exists a3; split; [reflexivity | exact C]].
        destruct fuel as [|fuel]; [lia|]. cbn [VariableARQ.process_event].
        rewrite S, T1. unfold VariableARQ.handle_tx_data.
        assert (Hacked : VariableARQ.all_blocks_acked a3 = false).
        { unfold VariableARQ.all_blocks_acked.
          assert (Hp3 : all_pending (VariableARQ.m_tx_blocks a3)).
          { eapply all_pending_core; [exact C | apply all_pending_segments]. }
          destruct (VariableARQ.m_tx_blocks a3) as [|b3 rest3] eqn:E3.
          - apply core_length in C.
            change segs with (VariableARQ.m_tx_blocks a1) in C.
            rewrite Eblocks in C. discriminate C.
          - destruct Hp3 as [Ha _]. inversion Ha as [|x l Hx Hl]; subst.
            cbn. rewrite Hx. reflexivity. }
        rewrite Hacked.
        destruct (transition_to_fields VariableARQ.WAIT_ACK a3) as (_ & U2 & _).
        eexists. split; [reflexivity|]. cbn. rewrite U2. exact C. }
    destruct Hpe as (a' & Hpe & C). rewrite Hpe.
    exists a'. split; [reflexivity|].
    assert (Hcount : length (VariableARQ.m_tx_blocks a') = block_count data_).
    { rewrite (core_length _ _ C). subst segs. rewrite length_map, length_seq.
      reflexivity. }
    split; [exact Hcount|].
    assert (Hblock : forall (i : nat) (b : VariableARQ.DataBlock),
              VariableARQ.m_tx_blocks a' !! i = Some b ->
              (i < block_count data_)%nat /\ core b = core (segment data_ i)).
    { intros i b Hb.
      assert (Hi : (i < block_count data_)%nat)
        by (rewrite <- Hcount; eapply lookup_lt_Some; exact Hb).
      split; [exact Hi|].
      assert (Hc : map core (VariableARQ.m_tx_blocks a') !! i = Some (core b)).
      { change (map core) with (fmap (M := list) core).
        rewrite list_lookup_fmap, Hb. reflexivity. }
      rewrite C in Hc. subst segs.
      change (map core (map (segment data_) (seq 0 (block_count data_))))
        with (core <$> (segment data_ <$> seq 0 (block_count data_))) in Hc.
      rewrite !list_lookup_fmap in Hc. rewrite lookup_seq_lt in Hc by exact Hi.
      cbn in Hc. injection Hc as E1 E2 E3 E4 E5 E6.
      unfold core. cbn. congruence. }
    assert (Hnonlast : forall i : nat, (i < block_count data_)%nat ->
              1023 * Z.of_nat i < Z.of_nat (length data_)).
    { intros i Hi. unfold block_count, total in Hi. Z.div_mod_to_equations. lia. }
    intros i b Hb. destruct (Hblock i b Hb) as [Hi Hcore].
    unfold core in Hcore. cbn in Hcore.
    injection Hcore as E1 E2 E3 E4 E5 E6. fold (total data_) in *.
    pose proof (Hnonlast i Hi) as Hoff. fold (total data_) in Hoff.
    split; [exact E1|]. split; [|split; [exact E2|]].
    + rewrite E2. symmetry. apply bytes_before_full; [lia|].
      intros j c Hj Hc. destruct (Hblock j c Hc) as [Hj' Hcj].
      unfold core in Hcj. cbn in Hcj. injection Hcj as _ _ F3 _ _ _.
      rewrite F3. pose proof (Hnonlast i Hi). fold (total data_) in *. lia.
    + rewrite E3, E4, E2. split; [lia|]. split; reflexivity.
Qed.

Lemma start_transmission_segments_witness :
  Z.of_nat (length (repeat 7 2050%nat)) < 4294967296
  /\ (exists a',
        VariableARQ.start_transmission 20 (repeat 7 2050%nat)
          (VariableARQ.init true true true VariableARQ.ctor) = Some (true, a')
        /\ length (VariableARQ.m_tx_blocks a') = 3%nat
        /\ VariableARQ.m_state a' = VariableARQ.WAIT_ACK)
  /\ (exists outs,
        VariableARQ.start_transmission 20 (repeat 7 2050%nat)
          (VariableARQ.transition_to VariableARQ.RX_DATA
             (VariableARQ.init true true true VariableARQ.ctor))
        = Some (false,
                VariableARQ.with_outputs outs
                  (VariableARQ.transition_to VariableARQ.RX_DATA
                     (VariableARQ.init true true true VariableARQ.ctor)))).
Proof.
  assert (Hlen : Z.of_nat (length (repeat 7 2050%nat)) < 4294967296)
    by (rewrite repeat_length; lia).
  split; [exact Hlen|]. split.
  - destruct (proj2 (start_transmission_segments 20 (repeat 7 2050%nat)
                       (VariableARQ.init true true true VariableARQ.ctor) Hlen)
                eq_refl eq_refl ltac:(vm_compute; lia)) as (a' & Hrun & Hcount & _).
    exists a'. split; [exact Hrun|]. split; [rewrite Hcount; vm_compute; reflexivity|].
    vm_compute in Hrun. injection Hrun as <-. reflexivity.
  - apply (proj1 (start_transmission_segments 20 (repeat 7 2050%nat)
                    (VariableARQ.transition_to VariableARQ.RX_DATA
                       (VariableARQ.init true true true VariableARQ.ctor)) Hlen)).
    vm_compute. discriminate.
Defined.

(** ** Golay decoding: what the shipped table does correct *)

(** An entry of a syndrome table is the marker [0xFFFFFFFF] or a pattern of
    weight 1 to 3, and only syndrome 0 holds the pattern 0. *)
Definition entry_ok (tbl : list Z) (n : nat) : bool :=
  let p := Golay.table_at tbl (Z.of_nat n) in
  (p =? 0xFFFFFFFF)
  || ((0 <=? p) && (count_bits p <=? 3) && ((n =? 0)%nat || (1 <=? count_bits p))).

(** A pattern of weight at most 3 within the twelve parity bits is stored
    under its own value. *)
Definition parity_pattern_ok (tbl : list Z) (n : nat) : bool :=
  let e := Z.of_nat n in
  negb (count_bits e <=? 3) || (Golay.table_at tbl e =? e).

Section SyndromeTable.

Variable st : Golay.statics.
Hypothesis st_initialized : Golay.syndrome_table_initialized st = true.
Hypothesis st_entries :
  forallb (entry_ok (Golay.syndrome_table st)) (seq 0 4096) = true.
Hypothesis st_parity :
  forallb (parity_pattern_ok (Golay.syndrome_table st)) (seq 0 4096) = true.

Lemma table_entry (s : Z) :
  0 <= s < 4096 ->
  let p := Golay.table_at (Golay.syndrome_table st) s in
  p = 0xFFFFFFFF \/ (0 <= p /\ count_bits p <= 3 /\ (s = 0 \/ 1 <= count_bits p)).
Proof using st_entries.
  intros Hs p.
  pose proof (proj1 (forallb_forall _ _) st_entries (Z.to_nat s)) as H.
  assert (Hin : In (Z.to_nat s) (seq 0 4096)) by (apply in_seq; lia).
  specialize (H Hin). unfold entry_ok in H. rewrite Z2Nat.id in H by lia.
  fold p in H. cbv zeta in H.
  apply orb_prop in H as [H | H].
  - left. apply Z.eqb_eq, H.
  - right. apply andb_prop in H as [H H3]. apply andb_prop in H as [H1 H2].
    apply Z.leb_le in H1. apply Z.leb_le in H2.
    split; [exact H1|]. split; [exact H2|].
    apply orb_prop in H3 as [H3 | H3].
    + left. apply Nat.eqb_eq in H3. lia.
    + right. apply Z.leb_le, H3.
Qed.

Lemma parity_pattern (e : Z) :
  0 <= e < 4096 -> count_bits e <= 3 ->
  Golay.table_at (Golay.syndrome_table st) e = e.
Proof using st_parity.
  intros He Hw.
  pose proof (proj1 (forallb_forall _ _) st_parity (Z.to_nat e)) as H.
  assert (Hin : In (Z.to_nat e) (seq 0 4096)) by (apply in_seq; lia).
  specialize (H Hin). unfold parity_pattern_ok in H. rewrite Z2Nat.id in H by lia.
  cbv zeta in H. apply orb_prop in H as [H | H].
  - apply negb_true_iff, Z.leb_gt in H. lia.
  - apply Z.eqb_eq, H.
Qed.

End SyndromeTable.

(** The statics a program can observe: those at load time and those after
    the first [decode]. *)
Definition golay_statics (st : Golay.statics) : Prop :=
  st = Golay.statics_at_load \/ st = Golay.statics_ready.

Lemma statics_ready_initialized :
  Golay.syndrome_table_initialized Golay.statics_ready = true.
Proof. reflexivity. Qed.

Lemma statics_ready_entries :
  forallb (entry_ok (Golay.syndrome_table Golay.statics_ready)) (seq 0 4096) = true.
Proof. vm_compute. reflexivity. Qed.

Lemma statics_ready_parity :
  forallb (parity_pattern_ok (Golay.syndrome_table Golay.statics_ready)) (seq 0 4096) = true.
Proof. vm_compute. reflexivity. Qed.

Lemma golay_statics_ready (st : Golay.statics) :
  golay_statics st ->
  (if Golay.syndrome_table_initialized st then st else Golay.init_syndrome_table st)
  = Golay.statics_ready.
Proof.
  intros [-> | ->].
  - reflexivity.
  - rewrite statics_ready_initialized. reflexivity.
Qed.

Lemma land_FFF (x : Z) : Z.land x 0xFFF = x mod 4096.
Proof. change 0xFFF with (Z.ones 12). rewrite Z.land_ones by lia. reflexivity. Qed.

Lemma count_bits_nonneg (z : Z) : 0 <= count_bits z.
Proof.
  unfold count_bits. destruct z as [|p|p]; try lia.
  induction p; cbn; lia.
Qed.

Lemma land_lxor_distr (a b c : Z) :
  Z.land (Z.lxor a b) c = Z.lxor (Z.land a c) (Z.land b c).
Proof.
  apply Z.bits_inj'. intros n Hn.
  rewrite Z.land_spec, !Z.lxor_spec, !Z.land_spec.
  destruct (Z.testbit a n), (Z.testbit b n), (Z.testbit c n); reflexivity.
Qed.

Lemma shiftr_12_small (e : Z) : 0 <= e < 4096 -> Z.shiftr e 12 = 0.
Proof.
  intros He. rewrite Z.shiftr_div_pow2 by lia. change (2 ^ 12) with 4096.
  apply Z.div_small. lia.
Qed.

Lemma golay_encode_table_range (i : Z) :
  0 <= Golay.table_at Golay.GOLAY_ENCODE_TABLE i < 4096.
Proof.
  assert (H : forallb (fun p => (0 <=? p) && (p <? 4096)) Golay.GOLAY_ENCODE_TABLE = true)
    by (vm_compute; reflexivity).
  rewrite forallb_forall in H. unfold Golay.table_at.
  destruct (Nat.lt_ge_cases (Z.to_nat i) (length Golay.GOLAY_ENCODE_TABLE)) as [Hlt | Hge].
  - specialize (H _ (nth_In _ 0 Hlt)). apply andb_prop in H as [H1 H2].
    apply Z.leb_le in H1. apply Z.ltb_lt in H2. lia.
  - rewrite nth_overflow by exact Hge. lia.
Qed.

Lemma compute_syndrome_range (codeword : Z) :
  0 <= Golay.compute_syndrome codeword < 4096.
Proof.
  unfold Golay.compute_syndrome. cbv zeta. change 4096 with (2 ^ 12).
  apply lxor_range; change (2 ^ 12) with 4096; [lia | |].
  - rewrite land_FFF. apply Z.mod_pos_bound. lia.
  - apply golay_encode_table_range.
Qed.

(** X1.  With the table that [init_syndrome_table] builds, [Golay::decode]
    corrects every error of weight at most 3 that is confined to the twelve
    parity bits: for every 12-bit information word [info] and every such
    pattern [e], decoding [encode(info) ^ e] returns [info] and reports the
    weight of [e], whether the call is the first one or a later one. *)
Theorem golay_decode_parity_errors (st : Golay.statics) (info e : Z) :
  golay_statics st ->
  0 <= info < 4096 -> 0 <= e < 4096 -> count_bits e <= 3 ->
  Golay.decode st (Z.lxor (Golay.encode info) e)
  = (count_bits e, info, Golay.statics_ready).
Proof.
  intros Hst Hinfo He Hw.
  destruct (golay_encode_syndrome info Hinfo) as [Hs Hi].
  set (cw := Golay.encode info) in *.
  assert (Hshift : Z.shiftr (Z.lxor cw e) 12 = Z.shiftr cw 12).
  { rewrite Z.shiftr_lxor, (shiftr_12_small e He). apply Z.lxor_0_r. }
  assert (Hpar : Z.land cw 0xFFF = Golay.table_at Golay.GOLAY_ENCODE_TABLE info).
  { unfold Golay.compute_syndrome in Hs. cbv zeta in Hs. rewrite Hi in Hs.
    apply Z.lxor_eq in Hs. exact Hs. }
  assert (He' : Z.land e 0xFFF = e).
  { rewrite land_FFF. apply Z.mod_small. lia. }
  assert (Hsyn : Golay.compute_syndrome (Z.lxor cw e) = e).
  { unfold Golay.compute_syndrome. cbv zeta. rewrite Hshift, Hi.
    rewrite land_lxor_distr, Hpar, He'.
    rewrite (Z.lxor_comm _ e), Z.lxor_assoc, Z.lxor_nilpotent. apply Z.lxor_0_r. }
  unfold Golay.decode. rewrite (golay_statics_ready st Hst). cbv zeta. rewrite Hsyn.
  destruct (Z.eqb_spec e 0) as [-> | Hne].
  - rewrite Z.lxor_0_r, Hi. reflexivity.
  - rewrite (parity_pattern _ statics_ready_parity e He Hw).
    destruct (Z.eqb_spec e 0xFFFFFFFF) as [E | _]; [lia|].
    rewrite Z.lxor_assoc, Z.lxor_nilpotent, Z.lxor_0_r, Hi.
    pose proof (count_bits_nonneg e) as Hn.
    unfold u8. rewrite Z.mod_small by lia. reflexivity.
Qed.

Lemma golay_decode_parity_errors_witness :
  Golay.decode Golay.statics_at_load (Z.lxor (Golay.encode 0x5A3) 0x805)
  = (3, 0x5A3, Golay.statics_ready).
Proof.
  apply (golay_decode_parity_errors Golay.statics_at_load 0x5A3 0x805).
  - left. reflexivity.
  - lia.
  - lia.
  - vm_compute. discriminate.
Defined.

(** X2.  Whatever 32-bit word it is given, [Golay::decode] leaves the
    statics initialised, returns a 12-bit output and reports 0, 1, 2, 3 or
    the marker [0xFF]; it reports 0 exactly when the syndrome of the word is
    0, and when it reports 0 or [0xFF] the output is the information field
    of the word as received. *)
Theorem golay_decode_outcome (st : Golay.statics) (codeword : Z) :
  golay_statics st ->
  exists errors output,
    Golay.decode st codeword = (errors, output, Golay.statics_ready)
    /\ (errors = 0xFF \/ 0 <= errors <= 3)
    /\ 0 <= output < 4096
    /\ (errors = 0 <-> Golay.compute_syndrome codeword = 0)
    /\ (errors = 0 \/ errors = 0xFF -> output = Golay.extract_info codeword).
Proof.
  intros Hst. unfold Golay.decode. rewrite (golay_statics_ready st Hst). cbv zeta.
  assert (Hout : forall x, 0 <= Z.land x 0xFFF < 4096).
  { intros x. rewrite land_FFF. apply Z.mod_pos_bound. lia. }
  pose proof (compute_syndrome_range codeword) as Hsyn.
  destruct (Z.eqb_spec (Golay.compute_syndrome codeword) 0) as [E0 | N0].
  - eexists _, _. split; [reflexivity|]. repeat split; auto; try lia; apply Hout.
  - destruct (table_entry _ statics_ready_entries _ Hsyn) as [E | (Hp & Hw & Hz)];
      cbv zeta in *.
    + rewrite E. change (0xFFFFFFFF =? 0xFFFFFFFF) with true. cbv iota.
      eexists _, _. split; [reflexivity|].
      repeat split; auto; try lia; apply Hout.
    + set (p := Golay.table_at _ _) in *.
      destruct Hz as [Hz | Hz]; [contradiction|].
      destruct (Z.eqb_spec p 0xFFFFFFFF) as [E | _].
      { exfalso. rewrite E in Hw. vm_compute in Hw. apply Hw. reflexivity. }
      eexists _, _. split; [reflexivity|]. unfold u8. rewrite Z.mod_small by lia.
      repeat split; try lia; try apply Hout.
Qed.

Lemma golay_decode_outcome_witness :
  exists errors output,
    Golay.decode Golay.statics_at_load 0x123456 = (errors, output, Golay.statics_ready)
    /\ (errors = 0xFF \/ 0 <= errors <= 3)
    /\ 0 <= output < 4096
    /\ (errors = 0 <-> Golay.compute_syndrome 0x123456 = 0)
    /\ (errors = 0 \/ errors = 0xFF -> output = Golay.extract_info 0x123456).
Proof.
  apply (golay_decode_outcome Golay.statics_at_load 0x123456). left. reflexivity.
Defined.

(** ** Majority voting over the three repetitions *)

(** The bit that iteration [bit_idx] of [decode_word_with_voting] votes. *)
Definition voted_bit (symbols : list Z) (bit_idx : Z) : Z :=
  SymbolDecoder.majority_vote
    (SymbolDecoder.bit_copy symbols bit_idx 0,
     SymbolDecoder.bit_copy symbols bit_idx 1,
     SymbolDecoder.bit_copy symbols bit_idx 2).

Lemma testbit_voted_shift (fb : Z) (n : nat) (k : Z) :
  fb = 0 \/ fb = 1 -> (n < 24)%nat -> 0 <= k ->
  Z.testbit (u32 (Z.shiftl fb (Z.of_nat n))) k = (fb =? 1) && (k =? Z.of_nat n).
Proof.
  intros Hfb Hn Hk. destruct Hfb as [-> | ->].
  - rewrite Z.shiftl_0_l. unfold u32. rewrite Z.mod_0_l by lia.
    rewrite Z.bits_0. reflexivity.
  - assert (Hp : 0 < 2 ^ Z.of_nat n <= 2 ^ 23).
    { split; [apply Z.pow_pos_nonneg; lia | apply Z.pow_le_mono_r; lia]. }
    rewrite Z.shiftl_mul_pow2 by lia. unfold u32. rewrite Z.mod_small by lia.
    rewrite Z.mul_1_l. cbn [Z.eqb Pos.eqb andb].
    destruct (Z.eqb_spec k (Z.of_nat n)) as [-> | Hne].
    + apply Z.pow2_bits_true. lia.
    + apply Z.pow2_bits_false. lia.
Qed.

Lemma vote_fold_bits (symbols : list Z) (k : Z) :
  0 <= k ->
  forall (l : list nat) (word errs : Z),
    Forall (fun n => (n < 24)%nat) l ->
    Z.testbit (fst (fold_left (SymbolDecoder.vote_step symbols)
                      (map Z.of_nat l) (word, errs))) k
    = Z.testbit word k
      || existsb (fun n => (k =? Z.of_nat n) && (voted_bit symbols (Z.of_nat n) =? 1)) l.
Proof.
  intros Hk. induction l as [|n l IH]; intros word errs Hl.
  - cbn. rewrite orb_false_r. reflexivity.
  - inversion Hl as [|? ? Hn Hl']; subst. cbn [map fold_left existsb].
    unfold SymbolDecoder.vote_step at 2. fold (voted_bit symbols (Z.of_nat n)).
    rewrite IH by exact Hl'. rewrite Z.lor_spec.
    rewrite testbit_voted_shift by (try apply majority_vote_bit; assumption).
    rewrite <- orb_assoc. f_equal. f_equal. apply andb_comm.
Qed.

(** Bit [k] of the voted word is the bit voted in iteration [k]. *)
Lemma voted_word_bit (symbols : list Z) (k : Z) :
  0 <= k < 24 ->
  Z.testbit (snd (SymbolDecoder.decode_word_with_voting symbols)) k
  = (voted_bit symbols k =? 1).
Proof.
  intros Hk. unfold SymbolDecoder.decode_word_with_voting.
  pose proof (vote_fold_bits symbols k ltac:(lia) (seq 0 24) 0 0) as H.
  destruct (fold_left _ _ _) as [w e]. cbn [fst snd] in *.
  rewrite H.
  2:{ apply List.Forall_forall. intros n Hin. apply in_seq in Hin. lia. }
  rewrite Z.bits_0. cbn [orb].
  destruct (voted_bit symbols k =? 1) eqn:E.
  - apply existsb_exists. exists (Z.to_nat k). split; [apply in_seq; lia|].
    rewrite Z2Nat.id by lia. rewrite Z.eqb_refl, E. reflexivity.
  - apply not_true_is_false. intros Hex. apply existsb_exists in Hex as (n & _ & Hn).
    apply andb_prop in Hn as [Hn1 Hn2]. apply Z.eqb_eq in Hn1. subst k.
    rewrite Hn2 in E. discriminate.
Qed.

(** The copy of bit [k] in repetition [rep], as a boolean. *)
Definition carried_bit (symbols : list Z) (k rep : Z) : bool :=
  Z.testbit (SymbolDecoder.symbol_at symbols (k + rep * 49)) (k mod 3).

Lemma bit_copy_valid (symbols : list Z) (k rep : Z) :
  0 <= SymbolDecoder.symbol_at symbols (k + rep * 49) < 8 ->
  SymbolDecoder.bit_copy symbols k rep = Z.b2z (carried_bit symbols k rep).
Proof.
  intros Hs. unfold SymbolDecoder.bit_copy, carried_bit. cbv zeta.
  unfold SymbolDecoder.SYMBOLS_PER_WORD, SymbolDecoder.BITS_PER_SYMBOL.
  destruct (Z.leb_spec 8 (SymbolDecoder.symbol_at symbols (k + rep * 49))); [lia|].
  change (Z.land ?x 1) with (Z.land x (Z.ones 1)). rewrite Z.land_ones by lia.
  change (2 ^ 1) with 2. rewrite <- Z.bit0_mod. rewrite Z.shiftr_spec by lia.
  reflexivity.
Qed.

Lemma bit_copy_invalid (symbols : list Z) (k rep : Z) :
  8 <= SymbolDecoder.symbol_at symbols (k + rep * 49) ->
  SymbolDecoder.bit_copy symbols k rep = 0xFF.
Proof.
  intros Hs. unfold SymbolDecoder.bit_copy. cbv zeta.
  unfold SymbolDecoder.SYMBOLS_PER_WORD.
  destruct (Z.leb_spec 8 (SymbolDecoder.symbol_at symbols (k + rep * 49))); [reflexivity|lia].
Qed.

(** X3.  When the three symbols that carry bit [k] (at positions [k],
    [k + 49] and [k + 98]) are all valid, bit [k] of the word that
    [decode_word_with_voting] returns is the value at least two of the three
    copies have: a single wrong copy is outvoted. *)
Theorem voting_outvotes_one_copy (symbols : list Z) (k : Z) :
  0 <= k < 24 ->
  0 <= SymbolDecoder.symbol_at symbols k < 8 ->
  0 <= SymbolDecoder.symbol_at symbols (k + 49) < 8 ->
  0 <= SymbolDecoder.symbol_at symbols (k + 98) < 8 ->
  let b0 := carried_bit symbols k 0 in
  let b1 := carried_bit symbols k 1 in
  let b2 := carried_bit symbols k 2 in
  Z.testbit (snd (SymbolDecoder.decode_word_with_voting symbols)) k
  = (b0 && b1) || (b1 && b2) || (b0 && b2).
Proof.
  intros Hk H0 H1 H2 b0 b1 b2. rewrite voted_word_bit by exact Hk.
  unfold voted_bit.
  rewrite (bit_copy_valid symbols k 0) by (rewrite Z.add_0_r; exact H0).
  rewrite (bit_copy_valid symbols k 1) by exact H1.
  rewrite (bit_copy_valid symbols k 2) by exact H2.
  fold b0 b1 b2. destruct b0, b1, b2; reflexivity.
Qed.

Definition one_copy_wrong : list Z :=
  [5; 0; 0] ++ repeat 0 46 ++ [4; 0; 0] ++ repeat 0 46 ++ [5; 0; 0] ++ repeat 0 46.

Lemma voting_outvotes_one_copy_witness :
  Z.testbit (snd (SymbolDecoder.decode_word_with_voting one_copy_wrong)) 0 = true.
Proof.
  apply (voting_outvotes_one_copy one_copy_wrong 0);
    first [lia | vm_compute; split; [discriminate | reflexivity]].
Defined.

(** X4.  A symbol outside 0..7 enters the vote as the value [0xFF], and
    the three values are added in eight bits.  So when exactly one of the
    three symbols that carry bit [k] is invalid, bit [k] of the voted word is
    1 if and only if both valid copies are 0: two valid copies that agree
    on 1 are voted down to 0, two that agree on 0 are voted up to 1. *)
Theorem voting_with_one_invalid_symbol (symbols : list Z) (k r0 r1 r2 : Z) :
  0 <= k < 24 ->
  In (r0, r1, r2) [(0, 1, 2); (1, 0, 2); (2, 0, 1)] ->
  8 <= SymbolDecoder.symbol_at symbols (k + r0 * 49) < 256 ->
  0 <= SymbolDecoder.symbol_at symbols (k + r1 * 49) < 8 ->
  0 <= SymbolDecoder.symbol_at symbols (k + r2 * 49) < 8 ->
  Z.testbit (snd (SymbolDecoder.decode_word_with_voting symbols)) k
  = negb (carried_bit symbols k r1) && negb (carried_bit symbols k r2).
Proof.
  intros Hk Hr H0 H1 H2. rewrite voted_word_bit by exact Hk. unfold voted_bit.
  destruct Hr as [E | [E | [E | []]]]; injection E as <- <- <-;
    rewrite (bit_copy_invalid symbols k _ (proj1 H0)),
            (bit_copy_valid symbols k _ H1), (bit_copy_valid symbols k _ H2);
    destruct (carried_bit symbols k _), (carried_bit symbols k _); reflexivity.
Qed.

Definition one_symbol_invalid : list Z :=
  [9; 0; 0] ++ repeat 0 46 ++ [1; 0; 0] ++ repeat 0 46 ++ [1; 0; 0] ++ repeat 0 46.

Lemma voting_with_one_invalid_symbol_witness :
  Z.testbit (snd (SymbolDecoder.decode_word_with_voting one_symbol_invalid)) 0 = false.
Proof.
  apply (voting_with_one_invalid_symbol one_symbol_invalid 0 0 1 2).
  - lia.
  - left. reflexivity.
  - vm_compute. split; [discriminate | reflexivity].
  - vm_compute. split; [discriminate | reflexivity].
  - vm_compute. split; [discriminate | reflexivity].
Defined.

(** ** ALE words: the character encoding *)

(** The three characters of an address, as [decode_ascii] writes them. *)
Definition address_of (c0 c1 c2 : Z) : string :=
  String (WordParser.char_of c0)
    (String (WordParser.char_of c1) (String (WordParser.char_of c2) EmptyString)).

Definition all_valid (c0 c1 c2 : Z) : bool :=
  WordParser.is_valid_ale_char c0 && WordParser.is_valid_ale_char c1
  && WordParser.is_valid_ale_char c2.

Lemma valid_char_code (c : Z) :
  WordParser.is_valid_ale_char c = true -> 32 <= c <= 90.
Proof.
  unfold WordParser.is_valid_ale_char. intros H.
  destruct (Z.leb_spec 65 c), (Z.leb_spec c 90), (Z.leb_spec 48 c), (Z.leb_spec c 57);
    cbn in H; try lia;
    destruct (Z.eqb_spec c 32), (Z.eqb_spec c 64), (Z.eqb_spec c 63),
             (Z.eqb_spec c 46), (Z.eqb_spec c 45), (Z.eqb_spec c 47);
    cbn in H; try lia; discriminate.
Qed.

Lemma land_7F (c : Z) : 0 <= c < 128 -> Z.land c 0x7F = c.
Proof.
  intros H. change 0x7F with (Z.ones 7). rewrite Z.land_ones by lia.
  apply Z.mod_small. change (2 ^ 7) with 128. lia.
Qed.

(** Three valid characters are packed seven bits apiece, and unpacked
    again. *)
Lemma encode_decode_valid (c0 c1 c2 : Z) :
  all_valid c0 c1 c2 = true ->
  WordParser.encode_ascii (c0, c1, c2) = c0 + 128 * c1 + 16384 * c2
  /\ 0 <= WordParser.encode_ascii (c0, c1, c2) < 2 ^ 21
  /\ WordParser.decode_ascii (WordParser.encode_ascii (c0, c1, c2))
     = (true, address_of c0 c1 c2).
Proof.
  intros H. unfold all_valid in H.
  apply andb_prop in H as [H H2]. apply andb_prop in H as [H0 H1].
  pose proof (valid_char_code c0 H0) as R0.
  pose proof (valid_char_code c1 H1) as R1.
  pose proof (valid_char_code c2 H2) as R2.
  assert (E : WordParser.encode_ascii (c0, c1, c2) = c0 + 128 * c1 + 16384 * c2).
  { unfold WordParser.encode_ascii. rewrite H0, H1, H2. cbn [negb orb]. cbv zeta.
    rewrite !land_7F by lia. rewrite Z.shiftl_0_r, Z.lor_0_l.
    rewrite (Z.lor_comm c0), (lor_shiftl_add 7) by (change (2 ^ 7) with 128; lia).
    change (2 ^ 7) with 128.
    rewrite (Z.lor_comm (c1 * 128 + c0)), (lor_shiftl_add 14)
      by (change (2 ^ 14) with 16384; lia).
    change (2 ^ 14) with 16384.
    change 0x1FFFFF with (Z.ones 21). rewrite Z.land_ones by lia.
    change (2 ^ 21) with 2097152. rewrite Z.mod_small by lia. lia. }
  split; [exact E|]. split; [rewrite E; change (2 ^ 21) with 2097152; lia|].
  rewrite E. unfold WordParser.decode_ascii. cbv zeta.
  assert (D0 : Z.land (Z.shiftr (c0 + 128 * c1 + 16384 * c2) 0) 0x7F = c0).
  { rewrite Z.shiftr_0_r. change 0x7F with (Z.ones 7). rewrite Z.land_ones by lia.
    change (2 ^ 7) with 128. Z.div_mod_to_equations. lia. }
  assert (D1 : Z.land (Z.shiftr (c0 + 128 * c1 + 16384 * c2) 7) 0x7F = c1).
  { rewrite Z.shiftr_div_pow2 by lia. change 0x7F with (Z.ones 7).
    rewrite Z.land_ones by lia. change (2 ^ 7) with 128.
    Z.div_mod_to_equations. lia. }
  assert (D2 : Z.land (Z.shiftr (c0 + 128 * c1 + 16384 * c2) 14) 0x7F = c2).
  { rewrite Z.shiftr_div_pow2 by lia. change 0x7F with (Z.ones 7).
    rewrite Z.land_ones by lia. change (2 ^ 7) with 128. change (2 ^ 14) with 16384.
    Z.div_mod_to_equations. lia. }
  rewrite D0, D1, D2, H0, H1, H2. reflexivity.
Qed.

(** X5.  [encode_ascii] and [decode_ascii] are inverse on valid characters:
    three valid characters encode to the 21-bit payload
    [c0 + 128 c1 + 16384 c2], which [decode_ascii] accepts and turns back into
    the same three characters; if any character is invalid, [encode_ascii]
    returns [0xFFFFFFFF], which is no 21-bit payload. *)
Theorem encode_decode_ascii (c0 c1 c2 : Z) :
  (all_valid c0 c1 c2 = true ->
     WordParser.encode_ascii (c0, c1, c2) = c0 + 128 * c1 + 16384 * c2
     /\ 0 <= WordParser.encode_ascii (c0, c1, c2) < 2 ^ 21
     /\ WordParser.decode_ascii (WordParser.encode_ascii (c0, c1, c2))
        = (true, address_of c0 c1 c2))
  /\ (all_valid c0 c1 c2 = false ->
      WordParser.encode_ascii (c0, c1, c2) = 0xFFFFFFFF
      /\ 2 ^ 21 <= WordParser.encode_ascii (c0, c1, c2)).
Proof.
  split.
  - apply encode_decode_valid.
  - intros H. unfold all_valid in H. unfold WordParser.encode_ascii.
    assert (E : negb (WordParser.is_valid_ale_char c0)
                || negb (WordParser.is_valid_ale_char c1)
                || negb (WordParser.is_valid_ale_char c2) = true).
    { destruct (WordParser.is_valid_ale_char c0), (WordParser.is_valid_ale_char c1),
               (WordParser.is_valid_ale_char c2); cbn in *; congruence. }
    rewrite E. split; [reflexivity|]. change (2 ^ 21) with 2097152. lia.
Qed.

Lemma encode_decode_ascii_witness :
  WordParser.encode_ascii (65, 66, 67) = 1106241
  /\ WordParser.decode_ascii 1106241 = (true, "ABC"%string)
  /\ WordParser.encode_ascii (65, 97, 67) = 0xFFFFFFFF.
Proof.
  destruct (encode_decode_ascii 65 66 67) as [H _].
  destruct (H eq_refl) as (E & _ & D).
  destruct (encode_decode_ascii 65 97 67) as [_ H'].
  destruct (H' eq_refl) as (E' & _).
  split; [exact E|]. split; [|exact E'].
  rewrite E in D. exact D.
Defined.

(** X6.  A 24-bit word put together from a preamble [t] in 0..7 and the
    payload [encode_ascii] gives for three valid characters is parsed by
    [parse_from_bits] into a valid word of type [t] (never [UNKNOWN]) whose
    address is the three characters and whose raw payload is the encoded
    one; the members [fec_errors] and [timestamp_ms] of the output are
    left as they were. *)
Theorem parse_from_bits_of_encoded (t c0 c1 c2 : Z) (output : WordParser.ALEWord) :
  0 <= t <= 7 -> all_valid c0 c1 c2 = true ->
  let payload := WordParser.encode_ascii (c0, c1, c2) in
  WordParser.parse_from_bits (Z.lor t (Z.shiftl payload 3)) output
  = (true,
     {| WordParser.type := WordParser.WordType_of_Z t;
        WordParser.address := address_of c0 c1 c2;
        WordParser.raw_payload := payload;
        WordParser.fec_errors := WordParser.fec_errors output;
        WordParser.valid := true;
        WordParser.timestamp_ms := WordParser.timestamp_ms output |})
  /\ WordParser.WordType_of_Z t <> WordParser.UNKNOWN.
Proof.
  intros Ht Hv payload.
  destruct (encode_decode_valid c0 c1 c2 Hv) as (E & Hr & D).
  fold payload in E, Hr, D.
  assert (Hw : Z.lor t (Z.shiftl payload 3) = payload * 8 + t).
  { rewrite Z.lor_comm. apply (lor_shiftl_add 3); change (2 ^ 3) with 8; lia. }
  assert (Hpre : Z.land (Z.lor t (Z.shiftl payload 3)) 0x07 = t).
  { rewrite Hw. change 0x07 with (Z.ones 3). rewrite Z.land_ones by lia.
    change (2 ^ 3) with 8. Z.div_mod_to_equations. lia. }
  assert (Hpay : WordParser.extract_payload (Z.lor t (Z.shiftl payload 3)) = payload).
  { unfold WordParser.extract_payload. rewrite Hw.
    rewrite Z.shiftr_div_pow2 by lia. change (2 ^ 3) with 8.
    replace ((payload * 8 + t) / 8) with payload by (Z.div_mod_to_equations; lia).
    change 0x1FFFFF with (Z.ones 21). apply land_ones_range; [lia | exact Hr]. }
  split.
  - unfold WordParser.parse_from_bits. rewrite Hpay, D.
    unfold WordParser.extract_preamble. rewrite Hpre.
    unfold u8. rewrite Z.mod_small by lia.
    destruct (Z.ltb_spec 7 t); [lia|]. reflexivity.
  - assert (Hc : t = 0 \/ t = 1 \/ t = 2 \/ t = 3 \/ t = 4 \/ t = 5 \/ t = 6 \/ t = 7) by lia.
    destruct Hc as [-> | [-> | [-> | [-> | [-> | [-> | [-> | ->]]]]]]]; discriminate.
Qed.

Lemma parse_from_bits_of_encoded_witness :
  fst (WordParser.parse_from_bits
         (Z.lor 2 (Z.shiftl (WordParser.encode_ascii (65, 66, 67)) 3))
         WordParser.ALEWord_ctor) = true.
Proof.
  rewrite (proj1 (parse_from_bits_of_encoded 2 65 66 67 WordParser.ALEWord_ctor
                    ltac:(lia) eq_refl)).
  reflexivity.
Defined.

(** ** Address book *)

Lemma match_wildcard_loop_spec (pattern : string) :
  forall address : string,
    String.length pattern = String.length address ->
    (AddressBook.match_wildcard_loop pattern address = true
     <-> forall (i : nat) (p : ascii),
           String.get i pattern = Some p ->
           p = "@"%char \/ String.get i address = Some p).
Proof.
  induction pattern as [|p pattern IH]; intros address Hlen.
  - cbn. split; [intros _ i q Hq; destruct i; discriminate | reflexivity].
  - destruct address as [|a address]; [discriminate|].
    cbn in Hlen. injection Hlen as Hlen. cbn [AddressBook.match_wildcard_loop].
    specialize (IH address Hlen).
    destruct (Ascii.eqb_spec p "@"%char) as [-> | Hp].
    + rewrite IH. split.
      * intros H i q Hq. destruct i as [|i]; cbn in Hq |- *.
        -- injection Hq as <-. left. reflexivity.
        -- apply H, Hq.
      * intros H i q Hq. apply (H (S i) q). exact Hq.
    + destruct (Ascii.eqb_spec p a) as [-> | Hpa]; cbn [negb].
      * rewrite IH. split.
        -- intros H i q Hq. destruct i as [|i]; cbn in Hq |- *.
           ++ injection Hq as <-. right. reflexivity.
           ++ apply H, Hq.
        -- intros H i q Hq. apply (H (S i) q). exact Hq.
      * split; [discriminate|]. intros H. exfalso.
        destruct (H 0%nat p eq_refl) as [E | E]; [contradiction|].
        cbn in E. injection E as E. congruence.
Qed.

(** X7.  [match_wildcard(pattern, address)] holds exactly when the two
    strings have the same length and every character of the pattern is
    ['@'] or equals the character of the address at the same position.  In
    particular every string matches itself, and a ['@'] in the address is
    no wildcard. *)
Theorem match_wildcard_spec (pattern address : string) :
  (AddressBook.match_wildcard pattern address = true
   <-> String.length pattern = String.length address
       /\ forall (i : nat) (p : ascii),
            String.get i pattern = Some p ->
            p = "@"%char \/ String.get i address = Some p)
  /\ AddressBook.match_wildcard address address = true
  /\ AddressBook.match_wildcard "W@AW" "W1AW" = true
  /\ AddressBook.match_wildcard "W1AW" "W@AW" = false.
Proof.
  assert (H : forall p a,
             AddressBook.match_wildcard p a = true
             <-> String.length p = String.length a
                 /\ forall (i : nat) (c : ascii),
                      String.get i p = Some c ->
                      c = "@"%char \/ String.get i a = Some c).
  { intros p a. unfold AddressBook.match_wildcard.
    destruct (Nat.eqb_spec (String.length p) (String.length a)) as [E | N]; cbn [negb].
    - rewrite (match_wildcard_loop_spec p a E). tauto.
    - split; [discriminate | intros [E _]; contradiction]. }
  split; [apply H|]. split; [|split; reflexivity].
  apply H. split; [reflexivity|]. intros i p Hp. right. exact Hp.
Qed.

Lemma listed_spec (address : string) (l : list (string * string)) :
  AddressBook.listed address l = true <-> In address (map fst l).
Proof.
  unfold AddressBook.listed. rewrite existsb_exists, in_map_iff. split.
  - intros (p & Hin & E). apply String.eqb_eq in E. exists p. auto.
  - intros (p & E & Hin). exists p. split; [exact Hin | apply String.eqb_eq, E].
Qed.

Lemma listed_app (address : string) (l1 l2 : list (string * string)) :
  AddressBook.listed address (l1 ++ l2)
  = AddressBook.listed address l1 || AddressBook.listed address l2.
Proof. unfold AddressBook.listed. apply existsb_app. Qed.

(** X8.  After [add_station(address, name)] the address is a known
    station, no other address changes its status, and the self address and
    the nets are untouched.  A station that is already listed is left as it
    is, so the name given first is kept; hence no address is ever listed
    twice. *)
Theorem add_station_spec (address name : string) (b : AddressBook.book) :
  let b' := AddressBook.add_station address name b in
  AddressBook.is_known_station address b' = true
  /\ (forall other, other <> address ->
        AddressBook.is_known_station other b' = AddressBook.is_known_station other b)
  /\ (AddressBook.is_known_station address b = true -> b' = b)
  /\ (AddressBook.is_known_station address b = false ->
        AddressBook.stations b' = AddressBook.stations b ++ [(address, name)])
  /\ (NoDup (map fst (AddressBook.stations b)) ->
        NoDup (map fst (AddressBook.stations b')))
  /\ AddressBook.self_address b' = AddressBook.self_address b
  /\ AddressBook.nets b' = AddressBook.nets b.
Proof.
  cbv zeta. unfold AddressBook.add_station, AddressBook.is_known_station.
  destruct (AddressBook.listed address (AddressBook.stations b)) eqn:E.
  - repeat split; auto. discriminate.
  - cbn [AddressBook.stations AddressBook.self_address AddressBook.nets].
    split; [|split; [|split; [discriminate|split; [reflexivity|split; [|split; reflexivity]]]]].
    + rewrite listed_app, E. cbn. rewrite String.eqb_refl. reflexivity.
    + intros other Hne. rewrite listed_app. cbn.
      destruct (String.eqb_spec address other) as [<- | _]; [contradiction|].
      rewrite !orb_false_r. reflexivity.
    + intros Hnd. rewrite map_app. cbn. apply NoDup_app. split; [exact Hnd|].
      split; [|apply NoDup_singleton].
      intros x Hx Hx'. apply list_elem_of_In in Hx, Hx'. destruct Hx' as [<- | []].
      apply listed_spec in Hx. congruence.
Qed.

(** ** Link state machine: events, calls and sounding *)

Section LinkEvents.

Import ALEStateMachine.

Lemma transition_to_result s m :
  current_state m <> s ->
  exists m', transition_to s m = (true, m')
    /\ current_state m' = s
    /\ previous_state m' = current_state m
    /\ state_entry_time_ms m' = current_time_ms m.
Proof.
  intros Hne. destruct (transition_to_taken s m Hne) as (H1 & H2 & H3 & H4 & _).
  destruct (transition_to s m) as [r m'] eqn:E. cbn [fst snd] in *. subst r.
  exists m'. auto.
Qed.

(** [process_event] takes a transition, or changes nothing. *)
Lemma process_event_cases (event : ALEEvent) (m : machine) :
  process_event event m = (false, m)
  \/ exists s, current_state m <> s /\ process_event event m = transition_to s m.
Proof.
  unfold process_event, dispatch.
  destruct (current_state m) eqn:Es; destruct event; cbn;
    first [ left; reflexivity
          | right; eexists; split; [|reflexivity]; discriminate ].
Qed.

End LinkEvents.

(** X9.  The value [process_event] returns tells whether the state
    changed: it is [true] exactly when the state afterwards differs from the
    state before, and then the machine remembers the state it left and
    stamps the entry time with its current time; when it is [false] the
    machine is left exactly as it was. *)
Theorem process_event_reports_change
    (event : ALEStateMachine.ALEEvent) (m : ALEStateMachine.machine) :
  let r := ALEStateMachine.process_event event m in
  (fst r = true
   <-> ALEStateMachine.current_state (snd r) <> ALEStateMachine.current_state m)
  /\ (fst r = true ->
      ALEStateMachine.previous_state (snd r) = ALEStateMachine.current_state m
      /\ ALEStateMachine.state_entry_time_ms (snd r) = ALEStateMachine.current_time_ms m)
  /\ (fst r = false -> snd r = m).
Proof.
  cbv zeta. destruct (process_event_cases event m) as [E | (s & Hne & E)]; rewrite E.
  - cbn. repeat split; try discriminate; try congruence. 
  - destruct (transition_to_result s m Hne) as (m' & T & H1 & H2 & H3).
    rewrite T. cbn. repeat split; try congruence; discriminate.
Qed.

(** The two words [build_call_words] hands to the transmit callback. *)
Definition call_words (is_net : bool) (to_addr self : string) (now : Z)
    : list ALEStateMachine.Output :=
  [ ALEStateMachine.TransmitWord
      {| WordParser.type := if is_net then WordParser.TWS else WordParser.TO;
         WordParser.address := ALEStateMachine.strncpy3 to_addr;
         WordParser.raw_payload := 0; WordParser.fec_errors := 0;
         WordParser.valid := true; WordParser.timestamp_ms := now |};
    ALEStateMachine.TransmitWord
      {| WordParser.type := WordParser.FROM;
         WordParser.address := ALEStateMachine.strncpy3 self;
         WordParser.raw_payload := 0; WordParser.fec_errors := 0;
         WordParser.valid := true;
         WordParser.timestamp_ms := u32 (now + ALEStateMachine.WORD_DURATION_MS) |} ].

(** X10.  [initiate_call] and [initiate_net_call] are refused, changing
    nothing, in every state other than [IDLE] and [SCANNING].  In those two
    states they return [true] and leave the machine in [CALLING] with the
    call addresses recorded, the link start time and the state entry time
    set to the current time, and, after the state callback, hand the
    transmit callback two words: a [TO] word (a [TWS] word for a net call)
    with the first three characters of the destination, then a [FROM] word
    with the first three characters of the self address, time-stamped one
    word duration (392 ms) later. *)
Theorem initiate_call_spec (to_address : string) (m : ALEStateMachine.machine) :
  (ALEStateMachine.current_state m <> ALEStateMachine.IDLE ->
   ALEStateMachine.current_state m <> ALEStateMachine.SCANNING ->
   ALEStateMachine.initiate_call to_address m = (false, m)
   /\ ALEStateMachine.initiate_net_call to_address m = (false, m))
  /\ (ALEStateMachine.current_state m = ALEStateMachine.IDLE
      \/ ALEStateMachine.current_state m = ALEStateMachine.SCANNING ->
      forall is_net : bool,
        let r := if is_net then ALEStateMachine.initiate_net_call to_address m
                 else ALEStateMachine.initiate_call to_address m in
        fst r = true
        /\ ALEStateMachine.current_state (snd r) = ALEStateMachine.CALLING
        /\ ALEStateMachine.previous_state (snd r) = ALEStateMachine.current_state m
        /\ ALEStateMachine.active_call_to (snd r) = to_address
        /\ ALEStateMachine.active_call_from (snd r) = ALEStateMachine.self_address m
        /\ ALEStateMachine.link_start_time_ms (snd r) = ALEStateMachine.current_time_ms m
        /\ ALEStateMachine.state_entry_time_ms (snd r) = ALEStateMachine.current_time_ms m
        /\ ALEStateMachine.outputs (snd r)
           = ALEStateMachine.outputs m
             ++ (if ALEStateMachine.state_callback m
                 then [ALEStateMachine.StateChange (ALEStateMachine.current_state m)
                         ALEStateMachine.CALLING]
                 else [])
             ++ (if ALEStateMachine.transmit_callback m
                 then call_words is_net to_address (ALEStateMachine.self_address m)
                        (ALEStateMachine.current_time_ms m)
                 else [])).
Proof.
  split.
  - intros H1 H2. unfold ALEStateMachine.initiate_call, ALEStateMachine.initiate_net_call.
    rewrite !bool_decide_eq_false_2 by assumption. split; reflexivity.
  - intros Hs is_net. destruct m as [cur prev sc self cto cfrom ls lw se lh now scb tcb ccb outs].
    cbn in Hs |- *.
    destruct Hs as [-> | ->]; destruct is_net, scb, tcb;
      cbv -[app ALEStateMachine.strncpy3 u32 Z.add ALEStateMachine.WORD_DURATION_MS];
      cbn [app]; rewrite ?app_nil_r, <- ?app_assoc; cbn [app];
      repeat split; reflexivity.
Qed.

Lemma initiate_call_spec_witness :
  let m := ALEStateMachine.with_self_address "K6KB"
             (ALEStateMachine.with_current_time 1000 ALEStateMachine.ctor) in
  ALEStateMachine.current_state (snd (ALEStateMachine.initiate_call "W1AW" m))
  = ALEStateMachine.CALLING
  /\ ALEStateMachine.initiate_call "W1AW" (snd (ALEStateMachine.initiate_call "W1AW" m))
     = (false, snd (ALEStateMachine.initiate_call "W1AW" m)).
Proof.
  cbv zeta.
  set (m := ALEStateMachine.with_self_address "K6KB"
              (ALEStateMachine.with_current_time 1000 ALEStateMachine.ctor)).
  destruct (initiate_call_spec "W1AW" m) as [_ H].
  destruct (H (or_introl eq_refl) false) as (_ & Hc & _).
  split; [exact Hc|].
  destruct (initiate_call_spec "W1AW" (snd (ALEStateMachine.initiate_call "W1AW" m)))
    as [H' _].
  apply H'; cbn in Hc |- *; rewrite Hc; discriminate.
Defined.

(** The word [enter_state(SOUNDING)] hands to the transmit callback. *)
Definition tis_word (self : string) (now : Z) : WordParser.ALEWord :=
  {| WordParser.type := WordParser.TIS;
     WordParser.address := substring 0 3 self;
     WordParser.raw_payload := 0; WordParser.fec_errors := 0;
     WordParser.valid := true; WordParser.timestamp_ms := now |}.

(** X11.  [send_sounding] succeeds from [IDLE] only: there it returns
    [true], puts the machine in [SOUNDING] and, when a self address is set,
    hands a [TIS] word with its first three characters to the transmit
    callback before the state callback runs.  In every other state,
    [SCANNING] included (which passes the guard of [send_sounding] but has
    no transition for [SOUNDING_REQUEST]), it returns [false] and changes
    nothing. *)
Theorem send_sounding_spec (m : ALEStateMachine.machine) :
  (ALEStateMachine.current_state m = ALEStateMachine.IDLE ->
   let r := ALEStateMachine.send_sounding m in
   fst r = true
   /\ ALEStateMachine.current_state (snd r) = ALEStateMachine.SOUNDING
   /\ ALEStateMachine.state_entry_time_ms (snd r) = ALEStateMachine.current_time_ms m
   /\ ALEStateMachine.outputs (snd r)
      = ALEStateMachine.outputs m
        ++ match ALEStateMachine.self_address m with
           | EmptyString => []
           | _ =>
               if ALEStateMachine.transmit_callback m
               then [ALEStateMachine.TransmitWord
                       (tis_word (ALEStateMachine.self_address m)
                          (ALEStateMachine.current_time_ms m))]
               else []
           end
        ++ (if ALEStateMachine.state_callback m
            then [ALEStateMachine.StateChange ALEStateMachine.IDLE
                    ALEStateMachine.SOUNDING]
            else []))
  /\ (ALEStateMachine.current_state m <> ALEStateMachine.IDLE ->
      ALEStateMachine.send_sounding m = (false, m)).
Proof.
  split.
  - intros Hs. destruct m as [cur prev sc self cto cfrom ls lw se lh now scb tcb ccb outs].
    cbn in Hs. subst cur.
    destruct self as [|c self], scb, tcb;
      cbv -[app substring]; cbn [app]; rewrite ?app_nil_r, <- ?app_assoc; cbn [app];
      repeat split; reflexivity.
  - intros Hs. unfold ALEStateMachine.send_sounding.
    rewrite bool_decide_eq_false_2 by exact Hs. cbn [negb andb].
    destruct (decide (ALEStateMachine.current_state m = ALEStateMachine.SCANNING)) as [E | N].
    + rewrite bool_decide_eq_true_2 by exact E. cbn [negb].
      unfold ALEStateMachine.process_event, ALEStateMachine.dispatch. rewrite E.
      reflexivity.
    + rewrite bool_decide_eq_false_2 by exact N. reflexivity.
Qed.

Lemma send_sounding_spec_witness :
  let m := ALEStateMachine.with_self_address "K6KB" ALEStateMachine.ctor in
  fst (ALEStateMachine.send_sounding m) = true
  /\ ALEStateMachine.send_sounding
       (snd (ALEStateMachine.process_event ALEStateMachine.START_SCAN m))
     = (false, snd (ALEStateMachine.process_event ALEStateMachine.START_SCAN m)).
Proof.
  cbv zeta. split.
  - apply (proj1 (send_sounding_spec _)). reflexivity.
  - apply (proj2 (send_sounding_spec _)). vm_compute. discriminate.
Defined.

(** X12.  A sounding ends by time alone: while the machine is in
    [SOUNDING], [update(now)] leaves it there as long as at most 392 ms (one
    word) have passed since the state was entered, and moves it to
    [SCANNING], restarting the scan at channel 0 with the hop timer set to
    [now], once strictly more have passed. *)
Theorem sounding_completes (m : ALEStateMachine.machine) (now : Z) :
  ALEStateMachine.current_state m = ALEStateMachine.SOUNDING ->
  let elapsed := u32 (now - ALEStateMachine.state_entry_time_ms m) in
  (elapsed <= 392 ->
   ALEStateMachine.update now m = ALEStateMachine.with_current_time now m)
  /\ (392 < elapsed ->
      let m' := ALEStateMachine.update now m in
      ALEStateMachine.current_state m' = ALEStateMachine.SCANNING
      /\ ALEStateMachine.previous_state m' = ALEStateMachine.SOUNDING
      /\ ALEStateMachine.channel_index (ALEStateMachine.scan_config m') = 0
      /\ ALEStateMachine.last_scan_hop_time_ms m' = now
      /\ ALEStateMachine.state_entry_time_ms m' = now).
Proof.
  intros Hs elapsed.
  destruct m as [cur prev sc self cto cfrom ls lw se lh t scb tcb ccb outs].
  cbn in Hs, elapsed. subst cur.
  unfold ALEStateMachine.update, ALEStateMachine.check_link_timeout,
    ALEStateMachine.handle_sounding, ALEStateMachine.with_current_time.
  cbn -[u32 Z.sub Z.ltb ALEStateMachine.process_event].
  fold elapsed. unfold ALEStateMachine.WORD_DURATION_MS. split.
  - intros H. destruct (Z.ltb_spec 392 elapsed); [lia|]. reflexivity.
  - intros H. destruct (Z.ltb_spec 392 elapsed); [|lia].
    destruct sc as [[|c l] dwell idx en], scb, ccb;
      cbv -[u32 Z.sub]; repeat split; reflexivity.
Qed.

Lemma sounding_completes_witness :
  let m := snd (ALEStateMachine.send_sounding
                  (ALEStateMachine.with_current_time 1000 ALEStateMachine.ctor)) in
  ALEStateMachine.current_state m = ALEStateMachine.SOUNDING
  /\ ALEStateMachine.current_state (ALEStateMachine.update 1392 m)
     = ALEStateMachine.SOUNDING
  /\ ALEStateMachine.current_state (ALEStateMachine.update 1393 m)
     = ALEStateMachine.SCANNING.
Proof.
  cbv zeta.
  set (m := snd (ALEStateMachine.send_sounding
                   (ALEStateMachine.with_current_time 1000 ALEStateMachine.ctor))).
  assert (Hs : ALEStateMachine.current_state m = ALEStateMachine.SOUNDING) by reflexivity.
  split; [exact Hs|]. split.
  - rewrite (proj1 (sounding_completes m 1392 Hs)); [exact Hs | vm_compute; discriminate].
  - apply (proj2 (sounding_completes m 1393 Hs)). vm_compute. reflexivity.
Defined.

(** X13.  [respond_to_call] is refused, changing nothing, outside
    [HANDSHAKE]; in [HANDSHAKE] it returns [true] and links: the machine is
    in [LINKED] with the link start time and the time of the last word both
    set to the current time. *)
Theorem respond_to_call_spec (m : ALEStateMachine.machine) :
  (ALEStateMachine.current_state m <> ALEStateMachine.HANDSHAKE ->
   ALEStateMachine.respond_to_call m = (false, m))
  /\ (ALEStateMachine.current_state m = ALEStateMachine.HANDSHAKE ->
      let r := ALEStateMachine.respond_to_call m in
      fst r = true
      /\ ALEStateMachine.current_state (snd r) = ALEStateMachine.LINKED
      /\ ALEStateMachine.link_start_time_ms (snd r) = ALEStateMachine.current_time_ms m
      /\ ALEStateMachine.last_word_time_ms (snd r) = ALEStateMachine.current_time_ms m
      /\ ALEStateMachine.active_call_to (snd r) = ALEStateMachine.active_call_to m).
Proof.
  split.
  - intros Hs. unfold ALEStateMachine.respond_to_call.
    rewrite bool_decide_eq_false_2 by exact Hs. reflexivity.
  - intros Hs. destruct m as [cur prev sc self cto cfrom ls lw se lh t scb tcb ccb outs].
    cbn in Hs. subst cur. destruct scb; cbv; repeat split; reflexivity.
Qed.

Lemma respond_to_call_spec_witness :
  let m := snd (ALEStateMachine.process_event ALEStateMachine.CALL_DETECTED
             (snd (ALEStateMachine.process_event ALEStateMachine.START_SCAN
                     ALEStateMachine.ctor))) in
  ALEStateMachine.respond_to_call ALEStateMachine.ctor = (false, ALEStateMachine.ctor)
  /\ ALEStateMachine.current_state (snd (ALEStateMachine.respond_to_call m))
     = ALEStateMachine.LINKED.
Proof.
  cbv zeta. split.
  - apply (proj1 (respond_to_call_spec ALEStateMachine.ctor)). vm_compute. discriminate.
  - apply (proj2 (respond_to_call_spec _)). reflexivity.
Defined.

(** ** Link state machine: channels *)

Section BestChannel.

Import ALEStateMachine.

Variable l : list Channel.

(** What the loop of [select_best_channel] has established after the first
    [n] channels. *)
Definition best_so_far (acc : nat * Channel * nat) : Prop :=
  let '(best_i, best, n) := acc in
  l !! best_i = Some best
  /\ (forall (j : nat) (c : Channel),
        (j < n)%nat -> l !! j = Some c ->
        SFltb (lqa_score best) (lqa_score c) = false)
  /\ (forall (j : nat) (c : Channel),
        (j < best_i)%nat -> l !! j = Some c ->
        SFleb (lqa_score best) (lqa_score c) = false).

Lemma best_step_so_far (acc : nat * Channel * nat) (c : Channel) :
  best_so_far acc -> l !! (snd acc) = Some c -> (fst (fst acc) <= snd acc)%nat ->
  best_so_far (best_step acc c)
  /\ snd (best_step acc c) = S (snd acc)
  /\ (fst (fst (best_step acc c)) <= snd (best_step acc c))%nat.
Proof.
  destruct acc as [[bi b] n]. cbn [fst snd]. intros (Hb & Hall & Hlow) Hc Hle.
  unfold best_step. destruct (SFltb (lqa_score b) (lqa_score c)) eqn:E; cbn [fst snd].
  - split; [|split; [reflexivity | lia]]. split; [exact Hc|]. split.
    + intros j d Hj Hd. destruct (Nat.eq_dec j n) as [-> | Hne].
      * rewrite Hc in Hd. injection Hd as <-. apply SFltb_irrefl.
      * destruct (SFltb (lqa_score c) (lqa_score d)) eqn:E'; [|reflexivity].
        pose proof (SFltb_trans _ _ _ E E') as T.
        rewrite (Hall j d ltac:(lia) Hd) in T. discriminate T.
    + intros j d Hj Hd.
      destruct (SFleb (lqa_score c) (lqa_score d)) eqn:E'; [|reflexivity].
      pose proof (SFltb_leb_trans _ _ _ E E') as T.
      rewrite (Hall j d Hj Hd) in T. discriminate T.
  - split; [|split; [reflexivity | lia]]. split; [exact Hb|]. split; [|exact Hlow].
    intros j d Hj Hd. destruct (Nat.eq_dec j n) as [-> | Hne].
    + rewrite Hc in Hd. injection Hd as <-. exact E.
    + apply (Hall j d ltac:(lia) Hd).
Qed.

Lemma best_fold_so_far (rest : list Channel) :
  forall (pre : list Channel) (acc : nat * Channel * nat),
    l = pre ++ rest -> snd acc = length pre -> (fst (fst acc) <= snd acc)%nat ->
    best_so_far acc ->
    best_so_far (fold_left best_step rest acc)
    /\ snd (fold_left best_step rest acc) = length l.
Proof.
  induction rest as [|c rest IH]; intros pre acc Hl Hn Hle Hacc.
  - cbn. split; [exact Hacc|]. rewrite Hl, app_nil_r. exact Hn.
  - cbn [fold_left].
    assert (Hc : l !! (snd acc) = Some c).
    { rewrite Hl, Hn. rewrite lookup_app_r by lia. rewrite Nat.sub_diag. reflexivity. }
    destruct (best_step_so_far acc c Hacc Hc Hle) as (H1 & H2 & H3).
    apply (IH (pre ++ [c])).
    + rewrite <- app_assoc. exact Hl.
    + rewrite H2, Hn, length_app. cbn. lia.
    + exact H3.
    + exact H1.
Qed.

End BestChannel.

(** X14.  [select_best_channel] returns [nullptr] exactly when the scan
    list is empty.  Otherwise it returns a channel of the list that no
    channel of the list strictly exceeds in LQA score, and among channels of
    equal score the first one: every channel before it has a score that is
    neither greater nor equal. *)
Theorem select_best_channel_spec (m : ALEStateMachine.machine) :
  let l := ALEStateMachine.scan_list (ALEStateMachine.scan_config m) in
  (ALEStateMachine.select_best_channel m = None <-> l = [])
  /\ forall (i : nat) (best : ALEStateMachine.Channel),
       ALEStateMachine.select_best_channel m = Some (i, best) ->
       l !! i = Some best
       /\ (forall (j : nat) (c : ALEStateMachine.Channel),
             l !! j = Some c ->
             SFltb (ALEStateMachine.lqa_score best) (ALEStateMachine.lqa_score c) = false)
       /\ (forall (j : nat) (c : ALEStateMachine.Channel),
             (j < i)%nat -> l !! j = Some c ->
             SFleb (ALEStateMachine.lqa_score best) (ALEStateMachine.lqa_score c) = false).
Proof.
  cbv zeta. unfold ALEStateMachine.select_best_channel.
  destruct (ALEStateMachine.scan_list (ALEStateMachine.scan_config m)) as [|first rest] eqn:El.
  - split; [tauto|]. intros i best H. discriminate H.
  - pose proof (best_fold_so_far (first :: rest) (first :: rest) [] (0%nat, first, 0%nat)
                  eq_refl eq_refl ltac:(cbn; lia)) as H.
    destruct (fold_left _ _ _) as [[bi b] n].
    split; [split; discriminate|].
    intros i best E. injection E as <- <-.
    destruct H as [(Hb & Hall & Hlow) Hn].
    { split; [reflexivity|]. split; intros j c Hj; lia. }
    cbn [snd] in Hn. split; [exact Hb|]. split; [|exact Hlow].
    intros j c Hc. apply (Hall j c); [|exact Hc].
    rewrite Hn. eapply lookup_lt_Some. exact Hc.
Qed.

Section Hopping.

Import ALEStateMachine.


End Hopping.




(** X16.  A link ends in three ways only.  In [LINKED] the events
    [LINK_TERMINATED] and [LINK_TIMEOUT] lead to [IDLE], [ERROR_OCCURRED]
    leads to [ERROR], and every other event is ignored; whenever the state
    is left, both call addresses are cleared.  [update(now)] raises the
    timeout once strictly more than 120000 ms have passed since the link was
    entered, and changes nothing but the current time before. *)
Theorem linked_state_exits (m : ALEStateMachine.machine) :
  ALEStateMachine.current_state m = ALEStateMachine.LINKED ->
  (forall event,
     let r := ALEStateMachine.process_event event m in
     (fst r = true ->
        ALEStateMachine.active_call_to (snd r) = EmptyString
        /\ ALEStateMachine.active_call_from (snd r) = EmptyString
        /\ ALEStateMachine.current_state (snd r)
           = (if decide (event = ALEStateMachine.ERROR_OCCURRED)
              then ALEStateMachine.ERROR else ALEStateMachine.IDLE))
     /\ (fst r = true <->
           event = ALEStateMachine.LINK_TERMINATED
           \/ event = ALEStateMachine.LINK_TIMEOUT
           \/ event = ALEStateMachine.ERROR_OCCURRED))
  /\ (forall now,
        let elapsed := u32 (now - ALEStateMachine.state_entry_time_ms m) in
        (elapsed <= 120000 ->
           ALEStateMachine.update now m = ALEStateMachine.with_current_time now m)
        /\ (120000 < elapsed ->
              ALEStateMachine.current_state (ALEStateMachine.update now m)
              = ALEStateMachine.IDLE
              /\ ALEStateMachine.active_call_to (ALEStateMachine.update now m) = EmptyString
              /\ ALEStateMachine.active_call_from (ALEStateMachine.update now m)
                 = EmptyString)).
Proof.
  intros Hs. destruct m as [cur prev sc self cto cfrom ls lw se lh t scb tcb ccb outs].
  cbn in Hs. subst cur. split.
  - intros event. destruct event, scb; cbv; repeat split; intros;
      try reflexivity; try discriminate; auto;
      repeat match goal with H : _ \/ _ |- _ => destruct H end; discriminate.
  - intros now elapsed. cbn in elapsed.
    unfold ALEStateMachine.update, ALEStateMachine.check_link_timeout,
      ALEStateMachine.with_current_time.
    cbn -[u32 Z.sub Z.ltb ALEStateMachine.process_event].
    fold elapsed. unfold ALEStateMachine.LINK_TIMEOUT_MS. split.
    + intros H. destruct (Z.ltb_spec 120000 elapsed); [lia|]. reflexivity.
    + intros H. destruct (Z.ltb_spec 120000 elapsed); [|lia].
      destruct scb; cbv; repeat split; reflexivity.
Qed.

Lemma linked_state_exits_witness :
  let m := snd (ALEStateMachine.respond_to_call
             (snd (ALEStateMachine.process_event ALEStateMachine.CALL_DETECTED
                (snd (ALEStateMachine.process_event ALEStateMachine.START_SCAN
                        ALEStateMachine.ctor))))) in
  ALEStateMachine.update 120000 m = ALEStateMachine.with_current_time 120000 m
  /\ ALEStateMachine.current_state (ALEStateMachine.update 120001 m)
     = ALEStateMachine.IDLE.
Proof.
  cbv zeta.
  match goal with
  | |- ALEStateMachine.update _ ?m = _ /\ _ =>
      destruct (linked_state_exits m eq_refl) as [_ H]
  end.
  split.
  - apply (proj1 (H 120000)). vm_compute. discriminate.
  - apply (proj2 (H 120001)). vm_compute. reflexivity.
Defined.

(** ** Message assembly *)

Section Assembly.

Import WordParser MessageAssembler.

Lemma has_type_or (t1 t2 : WordType -> bool) (ws : list ALEWord) :
  has_type (fun t => t1 t || t2 t) ws = has_type t1 ws || has_type t2 ws.
Proof.
  unfold has_type. induction ws as [|w ws IH]; [reflexivity|].
  cbn. rewrite IH.
  destruct (t1 (type w)), (t2 (type w)), (existsb (fun w => t1 (type w)) ws),
           (existsb (fun w => t2 (type w)) ws); reflexivity.
Qed.

(** A complete sequence has a call type. *)
Lemma complete_sequence_detected (ws : list ALEWord) :
  is_sequence_complete ws = true ->
  detect ws = SOUNDING \/ detect ws = AMD \/ detect ws = INDIVIDUAL \/ detect ws = NET.
Proof.
  unfold is_sequence_complete, detect, is_sounding, is_amd, is_individual_call, is_net_call.
  destruct ws as [|w ws]; [discriminate|].
  rewrite has_type_or.
  destruct (has_type is_TIS (w :: ws)); [auto|].
  destruct (has_type is_TO (w :: ws)), (has_type is_TWS (w :: ws)),
           (has_type is_FROM (w :: ws)), (has_type is_DATA (w :: ws));
    cbn; auto; discriminate.
Qed.

Lemma extract_addresses_keeps (ws : list ALEWord) :
  forall msg,
    call_type (extract_addresses ws msg) = call_type msg
    /\ words (extract_addresses ws msg) = words msg
    /\ complete (extract_addresses ws msg) = complete msg
    /\ data_content (extract_addresses ws msg) = data_content msg
    /\ start_time_ms (extract_addresses ws msg) = start_time_ms msg
    /\ duration_ms (extract_addresses ws msg) = duration_ms msg.
Proof.
  unfold extract_addresses. induction ws as [|w ws IH]; intros msg; [cbn; auto 10|].
  cbn [fold_left].
  destruct (is_TO (type w) || is_TWS (type w)).
  - destruct (erase_trailing_spaces (address_chars w));
      [apply IH | destruct (IH (push_to (String a s) msg)) as (?&?&?&?&?&?); auto 10].
  - destruct (is_FROM (type w) || is_TIS (type w)); [|apply IH].
    destruct (erase_trailing_spaces (address_chars w));
      [apply IH | destruct (IH (set_from (String a s) msg)) as (?&?&?&?&?&?); auto 10].
Qed.

Lemma extract_data_keeps (ws : list ALEWord) :
  forall msg,
    call_type (extract_data ws msg) = call_type msg
    /\ words (extract_data ws msg) = words msg
    /\ complete (extract_data ws msg) = complete msg
    /\ to_addresses (extract_data ws msg) = to_addresses msg
    /\ from_address (extract_data ws msg) = from_address msg
    /\ start_time_ms (extract_data ws msg) = start_time_ms msg
    /\ duration_ms (extract_data ws msg) = duration_ms msg.
Proof.
  unfold extract_data. induction ws as [|w ws IH]; intros msg; [cbn; auto 10|].
  cbn [fold_left]. destruct (is_DATA (type w)); [|apply IH].
  destruct (erase_trailing_spaces (address_chars w));
    [apply IH | destruct (IH (push_data (String a s) msg)) as (?&?&?&?&?&?&?); auto 10].
Qed.

(** A complete sequence stays complete when a word is added. *)
Lemma complete_sequence_grows (ws : list ALEWord) (w : ALEWord) :
  is_sequence_complete ws = true -> is_sequence_complete (ws ++ [w]) = true.
Proof.
  unfold is_sequence_complete. destruct ws as [|w0 ws]; [discriminate|].
  change ((w0 :: ws) ++ [w]) with (w0 :: (ws ++ [w])).
  assert (Hg : forall t, has_type t (w0 :: ws) = true ->
                         has_type t (w0 :: ws ++ [w]) = true).
  { intros t. unfold has_type. cbn. rewrite existsb_app.
    destruct (t (type w0)), (existsb (fun w => t (type w)) ws); cbn; auto; discriminate. }
  destruct (has_type is_TIS (w0 :: ws)) eqn:E1; [rewrite (Hg _ E1); reflexivity|].
  destruct (has_type (fun t => is_TO t || is_TWS t) (w0 :: ws)) eqn:E2; [|discriminate].
  destruct (has_type is_FROM (w0 :: ws)) eqn:E3; [|discriminate].
  rewrite (Hg _ E2), (Hg _ E3). intros _.
  destruct (has_type is_TIS (w0 :: ws ++ [w])); reflexivity.
Qed.

(** The destinations a word sequence names, in order. *)
Definition destinations (ws : list ALEWord) : list string :=
  flat_map
    (fun w =>
       if is_TO (type w) || is_TWS (type w) then
         match erase_trailing_spaces (address_chars w) with
         | EmptyString => []
         | addr => [addr]
         end
       else [])
    ws.

Lemma extract_addresses_destinations (ws : list ALEWord) :
  forall msg,
    to_addresses (extract_addresses ws msg) = to_addresses msg ++ destinations ws.
Proof.
  unfold extract_addresses, destinations.
  induction ws as [|w ws IH]; intros msg; [cbn; rewrite app_nil_r; reflexivity|].
  cbn [fold_left flat_map].
  destruct (is_TO (type w) || is_TWS (type w)).
  - destruct (erase_trailing_spaces (address_chars w)) as [|a s].
    + rewrite IH. reflexivity.
    + rewrite IH. cbn [to_addresses push_to]. rewrite <- app_assoc. reflexivity.
  - destruct (is_FROM (type w) || is_TIS (type w)); [|apply IH].
    destruct (erase_trailing_spaces (address_chars w)); rewrite IH; reflexivity.
Qed.

(** What [add_word] does with a valid word. *)
Lemma add_word_valid (word : ALEWord) (s : assembler) :
  valid word = true ->
  let s0 := if active s && check_timeout (timestamp_ms word) s then reset s else s in
  let ws := current_words s0 ++ [word] in
  fst (add_word word s) = is_sequence_complete ws
  /\ current_words (snd (add_word word s)) = ws
  /\ active (snd (add_word word s)) = true
  /\ last_word_time_ms (snd (add_word word s)) = timestamp_ms word
  /\ word_timeout_ms (snd (add_word word s)) = word_timeout_ms s
  /\ (is_sequence_complete ws = true ->
      let msg := current_message (snd (add_word word s)) in
      complete msg = true
      /\ words msg = ws
      /\ call_type msg = detect ws
      /\ to_addresses msg = to_addresses (current_message s0) ++ destinations ws).
Proof.
  intros Hv. cbv zeta. unfold add_word. rewrite Hv. cbn [negb].
  set (s0 := if active s && check_timeout (timestamp_ms word) s then reset s else s).
  assert (Ht : word_timeout_ms s0 = word_timeout_ms s).
  { subst s0. destruct (active s && check_timeout (timestamp_ms word) s); reflexivity. }
  destruct (is_sequence_complete (current_words s0 ++ [word])) eqn:E; cbn [fst snd].
  - cbn [current_words active last_word_time_ms word_timeout_ms current_message].
    repeat (split; [first [reflexivity | exact Ht]|]).
    intros _.
    match goal with
    | |- context [extract_data ?ws (extract_addresses ?ws ?m)] =>
        destruct (extract_data_keeps ws (extract_addresses ws m)) as (D1 & D2 & D3 & D4 & _);
        destruct (extract_addresses_keeps ws m) as (A1 & A2 & A3 & _);
        pose proof (extract_addresses_destinations ws m) as A4
    end.
    rewrite D1, D2, D3, D4, A1, A2, A3, A4.
    cbn [call_type words complete to_addresses].
    repeat split; try reflexivity.
    destruct (negb (active s0)); reflexivity.
  - cbn [current_words active last_word_time_ms word_timeout_ms].
    repeat (split; [first [reflexivity | exact Ht]|]). discriminate.
Qed.

End Assembly.

(** X17.  When [add_word] returns [true], the assembler holds a complete
    message whose words are all the words gathered so far, the one just
    added being the last, and whose call type is one of [SOUNDING], [AMD],
    [INDIVIDUAL] and [NET], never [UNKNOWN]; [get_message] then hands it out
    and resets the assembler, so that a second [get_message] fails. *)
Theorem add_word_completes (word : WordParser.ALEWord)
    (s : MessageAssembler.assembler) (output : MessageAssembler.ALEMessage) :
  fst (MessageAssembler.add_word word s) = true ->
  let s' := snd (MessageAssembler.add_word word s) in
  let msg := MessageAssembler.current_message s' in
  MessageAssembler.complete msg = true
  /\ MessageAssembler.words msg = MessageAssembler.current_words s'
  /\ (exists before, MessageAssembler.words msg = before ++ [word])
  /\ (MessageAssembler.call_type msg = MessageAssembler.SOUNDING
      \/ MessageAssembler.call_type msg = MessageAssembler.AMD
      \/ MessageAssembler.call_type msg = MessageAssembler.INDIVIDUAL
      \/ MessageAssembler.call_type msg = MessageAssembler.NET)
  /\ MessageAssembler.get_message output s' = (true, msg, MessageAssembler.reset s')
  /\ MessageAssembler.get_message output (MessageAssembler.reset s')
     = (false, output, MessageAssembler.reset s').
Proof.
  intros Hr. cbv zeta.
  destruct (WordParser.valid word) eqn:Hv.
  2:{ unfold MessageAssembler.add_word in Hr. rewrite Hv in Hr. discriminate Hr. }
  destruct (add_word_valid word s Hv) as (H1 & H2 & _ & _ & _ & H6).
  cbv zeta in *. rewrite Hr in H1. symmetry in H1.
  destruct (H6 H1) as (C1 & C2 & C3 & _).
  split; [exact C1|]. split; [rewrite C2, H2; reflexivity|].
  split; [eexists; exact C2|].
  split; [rewrite C3; apply complete_sequence_detected, H1|].
  split.
  - unfold MessageAssembler.get_message. rewrite C1. reflexivity.
  - reflexivity.
Qed.

Definition sample_tis : WordParser.ALEWord :=
  {| WordParser.type := WordParser.TIS; WordParser.address := "K6K";
     WordParser.raw_payload := 0; WordParser.fec_errors := 0;
     WordParser.valid := true; WordParser.timestamp_ms := 100 |}.

Lemma add_word_completes_witness :
  MessageAssembler.call_type
    (MessageAssembler.current_message
       (snd (MessageAssembler.add_word sample_tis MessageAssembler.ctor)))
  = MessageAssembler.SOUNDING
  /\ MessageAssembler.complete
       (MessageAssembler.current_message
          (snd (MessageAssembler.add_word sample_tis MessageAssembler.ctor))) = true.
Proof.
  destruct (add_word_completes sample_tis MessageAssembler.ctor
              MessageAssembler.ALEMessage_ctor eq_refl) as (C & _).
  split; [reflexivity | exact C].
Defined.

(** X18.  Once a message is complete, leaving it in the assembler lets it
    grow: every further valid word that arrives before the word timeout
    completes the message again, and the destinations of all words gathered
    so far are appended to the destination list a second time, after those
    the earlier completion had put there. *)
Theorem add_word_after_completion (word next : WordParser.ALEWord)
    (s : MessageAssembler.assembler) :
  fst (MessageAssembler.add_word word s) = true ->
  let s1 := snd (MessageAssembler.add_word word s) in
  WordParser.valid next = true ->
  MessageAssembler.check_timeout (WordParser.timestamp_ms next) s1 = false ->
  let m1 := MessageAssembler.current_message s1 in
  let m2 := MessageAssembler.current_message (snd (MessageAssembler.add_word next s1)) in
  fst (MessageAssembler.add_word next s1) = true
  /\ MessageAssembler.words m2 = MessageAssembler.words m1 ++ [next]
  /\ MessageAssembler.to_addresses m2
     = MessageAssembler.to_addresses m1
       ++ destinations (MessageAssembler.words m1) ++ destinations [next]
  /\ exists earlier,
       MessageAssembler.to_addresses m1
       = earlier ++ destinations (MessageAssembler.words m1).
Proof.
  intros Hr s1 Hv Ht m1 m2.
  destruct (WordParser.valid word) eqn:Hvw.
  2:{ unfold MessageAssembler.add_word in Hr. rewrite Hvw in Hr. discriminate Hr. }
  destruct (add_word_valid word s Hvw) as (H1 & H2 & H3 & _ & _ & H6).
  cbv zeta in *. rewrite Hr in H1. symmetry in H1.
  destruct (H6 H1) as (C1 & C2 & _ & C4). fold s1 in C1, C2, C4, H2, H3. fold m1 in C1, C2, C4.
  destruct (add_word_valid next s1 Hv) as (N1 & N2 & _ & _ & _ & N6).
  cbv zeta in *. rewrite Ht, andb_false_r in N1, N2, N6.
  assert (Hc : MessageAssembler.is_sequence_complete
                 (MessageAssembler.current_words s1 ++ [next]) = true).
  { rewrite H2. apply complete_sequence_grows, H1. }
  destruct (N6 Hc) as (D1 & D2 & _ & D4). fold m2 in D1, D2, D4. fold m1 in D4.
  assert (Hw : MessageAssembler.current_words s1 = MessageAssembler.words m1)
    by (rewrite C2; exact H2).
  split; [rewrite N1; exact Hc|].
  split; [rewrite D2, Hw; reflexivity|].
  split.
  - rewrite D4, Hw. unfold destinations. rewrite flat_map_app. reflexivity.
  - eexists. rewrite C4, C2. reflexivity.
Qed.

Definition sample_to : WordParser.ALEWord :=
  {| WordParser.type := WordParser.TO; WordParser.address := "W1A";
     WordParser.raw_payload := 0; WordParser.fec_errors := 0;
     WordParser.valid := true; WordParser.timestamp_ms := 0 |}.

Definition sample_from : WordParser.ALEWord :=
  {| WordParser.type := WordParser.FROM; WordParser.address := "K6K";
     WordParser.raw_payload := 0; WordParser.fec_errors := 0;
     WordParser.valid := true; WordParser.timestamp_ms := 392 |}.

Definition sample_to_again : WordParser.ALEWord :=
  {| WordParser.type := WordParser.TO; WordParser.address := "N0C";
     WordParser.raw_payload := 0; WordParser.fec_errors := 0;
     WordParser.valid := true; WordParser.timestamp_ms := 784 |}.

Lemma add_word_after_completion_witness :
  MessageAssembler.to_addresses
    (MessageAssembler.current_message
       (snd (MessageAssembler.add_word sample_to_again
          (snd (MessageAssembler.add_word sample_from
             (snd (MessageAssembler.add_word sample_to MessageAssembler.ctor)))))))
  = ["W1A"; "W1A"; "N0C"]%string.
Proof.
  destruct (add_word_after_completion sample_from sample_to_again
              (snd (MessageAssembler.add_word sample_to MessageAssembler.ctor))
              eq_refl eq_refl eq_refl) as (_ & _ & E & _).
  rewrite E. reflexivity.
Defined.

Lemma u32_word_duration (now : Z) :
  0 <= now < 4294967296 ->
  u32 (u32 (now + ALEStateMachine.WORD_DURATION_MS) - now) = 392.
Proof.
  intros H. unfold u32, ALEStateMachine.WORD_DURATION_MS.
  rewrite Zminus_mod_idemp_l. replace (now + 392 - now) with 392 by lia. reflexivity.
Qed.

Lemma address_chars_strncpy3 (s : string) (t : WordParser.WordType) (p e ts : Z) (v : bool) :
  (3 <= String.length (ALEStateMachine.c_str s))%nat ->
  MessageAssembler.address_chars
    {| WordParser.type := t; WordParser.address := ALEStateMachine.strncpy3 s;
       WordParser.raw_payload := p; WordParser.fec_errors := e;
       WordParser.valid := v; WordParser.timestamp_ms := ts |}
  = ALEStateMachine.strncpy3 s.
Proof.
  unfold MessageAssembler.address_chars, ALEStateMachine.strncpy3. cbn [WordParser.address].
  destruct (ALEStateMachine.c_str s) as [|a [|b [|c r]]]; cbn; try lia.
  intros _. destruct r; reflexivity.
Qed.

(** X19.  The two words [build_call_words] transmits for a call assemble,
    in a fresh [MessageAssembler], into one complete message: the first word
    leaves it incomplete, the second completes it as an [INDIVIDUAL] call (a
    [NET] call for a net call) that lasted 392 ms, with no data, whose
    destination and source are the first three characters of the two
    addresses without their trailing spaces (an all-blank destination is
    left out).  Both addresses have at least three characters. *)
Theorem call_words_assemble (to_addr : string) (is_net : bool)
    (m : ALEStateMachine.machine) :
  ALEStateMachine.transmit_callback m = true ->
  0 <= ALEStateMachine.current_time_ms m < 4294967296 ->
  (3 <= String.length (ALEStateMachine.c_str to_addr))%nat ->
  (3 <= String.length (ALEStateMachine.c_str (ALEStateMachine.self_address m)))%nat ->
  exists w1 w2,
    ALEStateMachine.outputs (ALEStateMachine.build_call_words to_addr is_net m)
    = ALEStateMachine.outputs m
      ++ [ALEStateMachine.TransmitWord w1; ALEStateMachine.TransmitWord w2]
    /\ let r1 := MessageAssembler.add_word w1 MessageAssembler.ctor in
       let r2 := MessageAssembler.add_word w2 (snd r1) in
       let msg := MessageAssembler.current_message (snd r2) in
       fst r1 = false
       /\ fst r2 = true
       /\ MessageAssembler.call_type msg
          = (if is_net then MessageAssembler.NET else MessageAssembler.INDIVIDUAL)
       /\ MessageAssembler.to_addresses msg
          = match MessageAssembler.erase_trailing_spaces
                    (ALEStateMachine.strncpy3 to_addr) with
            | EmptyString => []
            | a => [a]
            end
       /\ MessageAssembler.from_address msg
          = MessageAssembler.erase_trailing_spaces
              (ALEStateMachine.strncpy3 (ALEStateMachine.self_address m))
       /\ MessageAssembler.data_content msg = []
       /\ MessageAssembler.words msg = [w1; w2]
       /\ MessageAssembler.start_time_ms msg = ALEStateMachine.current_time_ms m
       /\ MessageAssembler.duration_ms msg = 392.
Proof.
  intros Htx Hnow Hto Hself.
  destruct m as [cur prev sc self cto cfrom ls lw se lh now scb tcb ccb outs].
  cbn in Htx, Hnow, Hself. subst tcb.
  eexists _, _. split.
  - unfold ALEStateMachine.build_call_words, ALEStateMachine.transmit_word,
      ALEStateMachine.emit.
    cbn [ALEStateMachine.transmit_callback ALEStateMachine.outputs
         ALEStateMachine.current_time_ms ALEStateMachine.self_address].
    rewrite <- app_assoc. reflexivity.
  - cbv zeta.
    cbn [ALEStateMachine.self_address ALEStateMachine.current_time_ms].
    match goal with
    | |- context [MessageAssembler.add_word ?w MessageAssembler.ctor] =>
        assert (E1 : MessageAssembler.add_word w MessageAssembler.ctor
                     = (false,
                        {| MessageAssembler.current_words := [w];
                           MessageAssembler.current_message :=
                             {| MessageAssembler.call_type := MessageAssembler.UNKNOWN_CALL;
                                MessageAssembler.to_addresses := [];
                                MessageAssembler.from_address := EmptyString;
                                MessageAssembler.data_content := [];
                                MessageAssembler.words := [];
                                MessageAssembler.start_time_ms := now;
                                MessageAssembler.duration_ms := 0;
                                MessageAssembler.complete := false |};
                           MessageAssembler.active := true;
                           MessageAssembler.last_word_time_ms := now;
                           MessageAssembler.word_timeout_ms := 5000 |}))
          by (destruct is_net; reflexivity)
    end.
    rewrite E1.
    cbn [fst snd].
    unfold MessageAssembler.add_word.
    cbn [WordParser.valid negb MessageAssembler.active andb
         MessageAssembler.current_words app WordParser.timestamp_ms
         MessageAssembler.last_word_time_ms MessageAssembler.word_timeout_ms
         MessageAssembler.current_message].
    unfold MessageAssembler.check_timeout.
    cbn [MessageAssembler.last_word_time_ms MessageAssembler.word_timeout_ms].
    rewrite u32_word_duration by exact Hnow.
    replace (if u32 (now + ALEStateMachine.WORD_DURATION_MS) <? now then false
             else 5000 <? 392) with false by (destruct (_ <? now); reflexivity).
    replace (MessageAssembler.is_sequence_complete _) with true
      by (destruct is_net; reflexivity).
    cbn [fst snd MessageAssembler.current_message MessageAssembler.current_words
         MessageAssembler.active negb app].
    unfold MessageAssembler.extract_data, MessageAssembler.extract_addresses.
    cbn [fold_left WordParser.type].
    rewrite !address_chars_strncpy3 by assumption.
    replace (MessageAssembler.is_DATA (if is_net then WordParser.TWS else WordParser.TO))
      with false by (destruct is_net; reflexivity).
    replace (MessageAssembler.is_TO (if is_net then WordParser.TWS else WordParser.TO)
             || MessageAssembler.is_TWS (if is_net then WordParser.TWS else WordParser.TO))
      with true by (destruct is_net; reflexivity).
    cbn [MessageAssembler.is_DATA MessageAssembler.is_TO MessageAssembler.is_TWS
         MessageAssembler.is_FROM MessageAssembler.is_TIS orb].
    unfold MessageAssembler.determine_call_type.
    destruct (MessageAssembler.erase_trailing_spaces (ALEStateMachine.strncpy3 to_addr));
      destruct (MessageAssembler.erase_trailing_spaces (ALEStateMachine.strncpy3 self));
      cbn [MessageAssembler.call_type MessageAssembler.to_addresses
           MessageAssembler.from_address MessageAssembler.data_content
           MessageAssembler.words MessageAssembler.start_time_ms
           MessageAssembler.duration_ms MessageAssembler.push_to
           MessageAssembler.set_from MessageAssembler.ALEMessage_ctor app];
      rewrite ?u32_word_duration by exact Hnow;
      repeat split; destruct is_net; reflexivity.
Qed.

Definition calling_station : ALEStateMachine.machine :=
  {| ALEStateMachine.current_state := ALEStateMachine.IDLE;
     ALEStateMachine.previous_state := ALEStateMachine.IDLE;
     ALEStateMachine.scan_config := ALEStateMachine.ScanConfig_ctor;
     ALEStateMachine.self_address := "K6KB";
     ALEStateMachine.active_call_to := EmptyString;
     ALEStateMachine.active_call_from := EmptyString;
     ALEStateMachine.link_start_time_ms := 0;
     ALEStateMachine.last_word_time_ms := 0;
     ALEStateMachine.state_entry_time_ms := 0;
     ALEStateMachine.last_scan_hop_time_ms := 0;
     ALEStateMachine.current_time_ms := 1000;
     ALEStateMachine.state_callback := false;
     ALEStateMachine.transmit_callback := true;
     ALEStateMachine.channel_callback := false;
     ALEStateMachine.outputs := [] |}.

Lemma call_words_assemble_witness :
  exists w1 w2,
    ALEStateMachine.outputs
      (ALEStateMachine.build_call_words "W1AW" false calling_station)
    = [ALEStateMachine.TransmitWord w1; ALEStateMachine.TransmitWord w2]
    /\ MessageAssembler.to_addresses
         (MessageAssembler.current_message
            (snd (MessageAssembler.add_word w2
               (snd (MessageAssembler.add_word w1 MessageAssembler.ctor)))))
       = ["W1A"]%string
    /\ MessageAssembler.from_address
         (MessageAssembler.current_message
            (snd (MessageAssembler.add_word w2
               (snd (MessageAssembler.add_word w1 MessageAssembler.ctor)))))
       = "K6K"%string.
Proof.
  destruct (call_words_assemble "W1AW" false calling_station eq_refl
              ltac:(cbn; lia) ltac:(cbn; lia) ltac:(cbn; lia))
    as (w1 & w2 & Ho & _ & _ & _ & Hto & Hfrom & _).
  exists w1, w2. split; [exact Ho|]. split; [exact Hto | exact Hfrom].
Defined.

(** ** FS-1052 control frames *)

(** A [ControlFrame] whose header members hold values the wire format has
    room for: the protocol version in two bits and the enumerations within
    their enumerators; the addresses are at most the 18 bytes of their
    arrays and the bitmap is the 32-byte array. *)
Record wf_control (F : ControlFrame.ControlFrame) : Prop := {
  wc_version : 0 <= ControlFrame.protocol_version F <= 3;
  wc_arq : 0 <= ControlFrame.arq_mode F <= 3;
  wc_neg : 0 <= ControlFrame.neg_mode F <= 1;
  wc_link_state : is_byte (ControlFrame.link_state F);
  wc_link_timeout : 0 <= ControlFrame.link_timeout F < 65536;
  wc_ack : 0 <= ControlFrame.ack_nak_type F <= 3;
  wc_src_length : 0 <= ControlFrame.src_address_length F <= 18;
  wc_src : length (ControlFrame.src_address F) = 18%nat;
  wc_des_length : 0 <= ControlFrame.des_address_length F <= 18;
  wc_des : length (ControlFrame.des_address F) = 18%nat;
  wc_bit_map : length (ControlFrame.bit_map F) = 32%nat
}.

(** The two characters a short address keeps: the last but one and the last
    of the [len] characters of [a]; 0 where the address is too short. *)
Definition short_address (len : Z) (a : list Z) : Z * Z :=
  (if 2 <=? len then ControlFrame.elem a (len - 2) else 0,
   if 1 <=? len then ControlFrame.elem a (len - 1) else 0).

(** Whether [format_control_frame] writes the acknowledgement bitmap of a
    frame with short addresses. *)
Definition carries_bit_map (F : ControlFrame.ControlFrame) : bool :=
  ((ControlFrame.frame_type F =? FrameFormat.T2_CONTROL)
   || (ControlFrame.frame_type F =? FrameFormat.T3_CONTROL)
   || (ControlFrame.frame_type F =? FrameFormat.T4_CONTROL))
  && (ControlFrame.ack_nak_type F =? ControlFrame.DATA_ACK).

(** The bitmap as written: the flow control flag is or-ed into bit 7 of its
    last byte. *)
Definition written_bit_map (F : ControlFrame.ControlFrame) : list Z :=
  let copied := firstn 32 (ControlFrame.bit_map F) in
  if ControlFrame.flow_control F
  then <[31%nat := Z.lor (ControlFrame.elem copied 31) 0x80]> copied
  else copied.

(** The optional trailing fields [format_control_frame] writes. *)
Definition trailing_fields (F : ControlFrame.ControlFrame) : list Z :=
  (if ControlFrame.herald_present F then
     [ u8 (Z.lor (Z.shiftl (u8 (ControlFrame.data_rate_format F)) 7)
                 (Z.land (ControlFrame.data_rate F) 0x07));
       u8 (ControlFrame.interleaver_length F) ]
     ++ ControlFrame.bytes16 (ControlFrame.bytes_in_data_frames F)
     ++ [ ControlFrame.frames_in_next_series F ]
   else [])
  ++ (if ControlFrame.message_present F then
        ControlFrame.bytes32 (ControlFrame.tx_msg_size F)
        ++ ControlFrame.bytes16 (ControlFrame.tx_msg_id F)
        ++ ControlFrame.bytes16 (ControlFrame.tx_con_id F)
        ++ [ ControlFrame.tx_msg_priority F ]
        ++ ControlFrame.bytes32 (ControlFrame.tx_msg_next_byte_pos F)
        ++ ControlFrame.bytes32 (ControlFrame.rx_msg_next_byte_pos F)
      else [])
  ++ (if ControlFrame.extension_function_present F then
        ControlFrame.bytes32 (fst (ControlFrame.function_bits F))
        ++ ControlFrame.bytes32 (snd (ControlFrame.function_bits F))
      else []).

Lemma trailing_fields_length (F : ControlFrame.ControlFrame) :
  (length (trailing_fields F) <= 30)%nat.
Proof.
  unfold trailing_fields.
  destruct (ControlFrame.herald_present F), (ControlFrame.message_present F),
    (ControlFrame.extension_function_present F); cbn; lia.
Qed.

(** The header byte of a control frame with short addresses. *)
Definition control_header (version arq neg : Z) : Z :=
  u8 (Z.lor (u8 (Z.lor (u8 (Z.lor (u8 (Z.lor (u8 (Z.lor 0x01 0x02))
                                    (Z.shiftl (Z.land version 0x03) 2)))
                          (Z.shiftl (Z.land (u8 arq) 0x03) 4)))
                (Z.shiftl (Z.land (u8 neg) 0x01) 6)))
        (Z.shiftl (Z.land (u8 ControlFrame.SHORT_2_BYTE) 0x01) 7)).

Lemma control_header_fields (version arq neg : Z) :
  0 <= version <= 3 -> 0 <= arq <= 3 -> 0 <= neg <= 1 ->
  let b0 := control_header version arq neg in
  Z.land (Z.shiftr b0 2) 0x03 = version
  /\ Z.land (Z.shiftr b0 4) 0x03 = arq
  /\ Z.land (Z.shiftr b0 6) 0x01 = neg
  /\ Z.land (Z.shiftr b0 7) 0x01 = 0
  /\ Z.land b0 0x02 = 2.
Proof.
  intros Hv Ha Hn.
  assert (Hv' : version = 0 \/ version = 1 \/ version = 2 \/ version = 3) by lia.
  assert (Ha' : arq = 0 \/ arq = 1 \/ arq = 2 \/ arq = 3) by lia.
  assert (Hn' : neg = 0 \/ neg = 1) by lia.
  destruct Hv' as [-> | [-> | [-> | ->]]];
    destruct Ha' as [-> | [-> | [-> | ->]]];
    destruct Hn' as [-> | ->]; repeat split; reflexivity.
Qed.

(** The bytes [format_control_frame] writes for a frame with short
    addresses. *)
Lemma format_control_frame_short (F : ControlFrame.ControlFrame) (sz : Z) (buf : list Z) :
  ControlFrame.address_mode F = ControlFrame.SHORT_2_BYTE ->
  ControlFrame.format_control_frame F sz = Some buf ->
  256 <= sz
  /\ exists s1 s0 d1 d0,
      let body :=
        control_header (ControlFrame.protocol_version F) (ControlFrame.arq_mode F)
          (ControlFrame.neg_mode F)
        :: s1 :: s0 :: d1 :: d0
        :: u8 (ControlFrame.link_state F)
        :: Z.land (Z.shiftr (ControlFrame.link_timeout F) 8) 0xFF
        :: Z.land (ControlFrame.link_timeout F) 0xFF
        :: Z.land (u8 (ControlFrame.ack_nak_type F)) 0x03
        :: (if carries_bit_map F then written_bit_map F else [])
           ++ trailing_fields F in
      buf = body ++ crc_bytes (FrameFormat.calculate_crc32 body)
      /\ s1 = (if 1 <=? ControlFrame.src_address_length F
               then ControlFrame.elem (ControlFrame.src_address F)
                      (ControlFrame.src_address_length F - 1) else 0)
      /\ s0 = (if 2 <=? ControlFrame.src_address_length F
               then ControlFrame.elem (ControlFrame.src_address F)
                      (ControlFrame.src_address_length F - 2) else 0)
      /\ d1 = (if 1 <=? ControlFrame.des_address_length F
               then ControlFrame.elem (ControlFrame.des_address F)
                      (ControlFrame.des_address_length F - 1) else 0)
      /\ d0 = (if 2 <=? ControlFrame.des_address_length F
               then ControlFrame.elem (ControlFrame.des_address F)
                      (ControlFrame.des_address_length F - 2) else 0).
Proof.
  intros Hs. unfold ControlFrame.format_control_frame.
  destruct (Z.ltb_spec sz 256); [discriminate|].
  intros E. injection E as <-. split; [assumption|].
  rewrite Hs. cbn [Z.eqb ControlFrame.SHORT_2_BYTE]. change (0 =? 0) with true. cbv iota.
  eexists _, _, _, _. cbv zeta.
  split; [|repeat split; reflexivity].
  unfold FrameFormat.append_crc32, crc_bytes, control_header, carries_bit_map,
    written_bit_map, trailing_fields, ControlFrame.bytes16.
  cbn [app]. rewrite <- !app_assoc. reflexivity.
Qed.

(** What [parse_control_frame] reads from a buffer with a valid CRC whose
    header byte announces short addresses. *)
Lemma parse_control_frame_short
    (b0 s1 s0 d1 d0 ls th tl ack : Z) (rest : list Z) (out : ControlFrame.ControlFrame) :
  let body := b0 :: s1 :: s0 :: d1 :: d0 :: ls :: th :: tl :: ack :: rest in
  let buf := body ++ crc_bytes (FrameFormat.calculate_crc32 body) in
  Z.land (Z.shiftr b0 7) 0x01 = 0 ->
  exists F',
    ControlFrame.parse_control_frame buf out = Some (true, F')
    /\ ControlFrame.protocol_version F' = Z.land (Z.shiftr b0 2) 0x03
    /\ ControlFrame.arq_mode F' = Z.land (Z.shiftr b0 4) 0x03
    /\ ControlFrame.neg_mode F' = Z.land (Z.shiftr b0 6) 0x01
    /\ ControlFrame.address_mode F' = ControlFrame.SHORT_2_BYTE
    /\ ControlFrame.frame_type F' = ControlFrame.frame_type out
    /\ ControlFrame.src_address_length F' = 2
    /\ ControlFrame.src_address F'
       = <[0%nat := s0]> (<[1%nat := s1]> (ControlFrame.src_address out))
    /\ ControlFrame.des_address_length F' = 2
    /\ ControlFrame.des_address F'
       = <[0%nat := d0]> (<[1%nat := d1]> (ControlFrame.des_address out))
    /\ ControlFrame.link_state F' = ls
    /\ ControlFrame.link_timeout F' = u16 (Z.lor (Z.shiftl th 8) tl)
    /\ ControlFrame.ack_nak_type F' = Z.land ack 0x03
    /\ ControlFrame.bit_map F'
       = (if (32 <=? length rest)%nat then firstn 32 rest else ControlFrame.bit_map out)
    /\ ControlFrame.flow_control F'
       = (if (32 <=? length rest)%nat then negb (Z.land (nth 31 rest 0) 0x80 =? 0)
          else ControlFrame.flow_control out)
    /\ ControlFrame.herald_present F' = false
    /\ ControlFrame.message_present F' = false
    /\ ControlFrame.extension_function_present F' = false.
Proof.
  intros body buf Hshort.
  assert (Hval : FrameFormat.validate_crc32 buf = true).
  { subst buf. unfold crc_bytes. rewrite validate_crc32_message.
    rewrite be32_of_bytes by apply calculate_crc32_range. apply Z.eqb_refl. }
  assert (Hsize : FrameFormat.size buf = 13 + Z.of_nat (length rest)).
  { subst buf body. unfold FrameFormat.size, crc_bytes. rewrite length_app.
    cbn [length]. lia. }
  assert (Hbuf : buf = b0 :: s1 :: s0 :: d1 :: d0 :: ls :: th :: tl :: ack
                        :: rest ++ crc_bytes (FrameFormat.calculate_crc32 body))
    by reflexivity.
  assert (B0 : FrameFormat.byte_at buf 0 = b0) by reflexivity.
  assert (B1 : FrameFormat.byte_at buf 1 = s1) by reflexivity.
  assert (B2 : FrameFormat.byte_at buf 2 = s0) by reflexivity.
  assert (B3 : FrameFormat.byte_at buf 3 = d1) by reflexivity.
  assert (B4 : FrameFormat.byte_at buf 4 = d0) by reflexivity.
  assert (B5 : FrameFormat.byte_at buf 5 = ls) by reflexivity.
  assert (B6 : FrameFormat.byte_at buf 6 = th) by reflexivity.
  assert (B7 : FrameFormat.byte_at buf 7 = tl) by reflexivity.
  assert (B8 : FrameFormat.byte_at buf 8 = ack) by reflexivity.
  assert (Hmap : firstn 32 (skipn 9 buf) = firstn 32 (rest ++ crc_bytes (FrameFormat.calculate_crc32 body)))
    by reflexivity.
  assert (B40 : FrameFormat.byte_at buf 40
                = nth 31 (rest ++ crc_bytes (FrameFormat.calculate_crc32 body)) 0)
    by reflexivity.
  clearbody buf.
  unfold ControlFrame.parse_control_frame. rewrite Hval, Hsize. cbn [negb].
  destruct (Z.ltb_spec (13 + Z.of_nat (length rest)) 10) as [|_]; [lia|].
  cbv zeta. rewrite B0, B1, B2, B3, B4.
  cbn [ControlFrame.address_mode ControlFrame.with_header].
  rewrite Hshort. change (0 =? ControlFrame.SHORT_2_BYTE) with true. cbv iota.
  unfold ControlFrame.parse_after_addresses. rewrite Hsize. cbv zeta.
  change (5 + 3) with 8. change (5 + 1) with 6. change (5 + 2) with 7.
  change (8 + 1) with 9.
  change (9 + ControlFrame.ACK_MAP_SIZE - 1) with 40.
  change (9 + ControlFrame.ACK_MAP_SIZE) with 41.
  rewrite B5, B6, B7, B8, B40. change (Z.to_nat 9) with 9%nat. rewrite Hmap.
  destruct (Z.ltb_spec (13 + Z.of_nat (length rest) - 4) 8) as [|_]; [lia|].
  destruct (Z.leb_spec (13 + Z.of_nat (length rest) - 4) 8) as [|_]; [lia|].
  cbn [ControlFrame.address_mode ControlFrame.with_link ControlFrame.with_ack
       ControlFrame.with_addresses ControlFrame.with_header].
  change (0 =? ControlFrame.SHORT_2_BYTE) with true. cbv iota.
  destruct (Nat.leb_spec 32 (length rest)) as [Hge | Hlt].
  - destruct (Z.leb_spec 41 (13 + Z.of_nat (length rest) - 4)) as [_|]; [|lia].
    eexists. split; [reflexivity|]. cbn.
    rewrite take_app_le by lia. rewrite app_nth1 by lia.
    repeat split; reflexivity.
  - destruct (Z.leb_spec 41 (13 + Z.of_nat (length rest) - 4)) as [|_]; [lia|].
    eexists. split; [reflexivity|]. cbn. repeat split; reflexivity.
Qed.

Lemma land_lor_0x80 (e : Z) : Z.land (Z.lor e 0x80) 0x80 = 0x80.
Proof.
  apply Z.bits_inj'. intros k Hk. rewrite Z.land_spec, Z.lor_spec.
  destruct (Z.testbit e k), (Z.testbit 0x80 k); reflexivity.
Qed.

(** X20.  A control frame with short addresses that [format_control_frame]
    wrote is accepted by [parse_control_frame], which recovers the protocol
    version, the ARQ and negotiation modes, the link state and timeout and
    the acknowledgement type, and of each address its last two characters.
    The bitmap comes back only when it was written ([T2], [T3] or [T4] frame
    with [DATA_ACK]); the flow control flag shares bit 7 of the last bitmap
    byte, so it comes back set also when that bit of the bitmap was set, and
    the bitmap comes back with that bit set when the flag was.  The frame
    type is not carried, and herald, message and extension fields are
    reported absent whatever was written. *)
Theorem control_frame_roundtrip
    (F out : ControlFrame.ControlFrame) (buffer_size : Z) (buf : list Z) :
  wf_control F ->
  ControlFrame.address_mode F = ControlFrame.SHORT_2_BYTE ->
  ControlFrame.format_control_frame F buffer_size = Some buf ->
  exists F',
    ControlFrame.parse_control_frame buf out = Some (true, F')
    /\ ControlFrame.protocol_version F' = ControlFrame.protocol_version F
    /\ ControlFrame.arq_mode F' = ControlFrame.arq_mode F
    /\ ControlFrame.neg_mode F' = ControlFrame.neg_mode F
    /\ ControlFrame.address_mode F' = ControlFrame.SHORT_2_BYTE
    /\ ControlFrame.link_state F' = ControlFrame.link_state F
    /\ ControlFrame.link_timeout F' = ControlFrame.link_timeout F
    /\ ControlFrame.ack_nak_type F' = ControlFrame.ack_nak_type F
    /\ ControlFrame.src_address_length F' = 2
    /\ ControlFrame.src_address F'
       = (let p := short_address (ControlFrame.src_address_length F)
                     (ControlFrame.src_address F) in
          <[0%nat := fst p]> (<[1%nat := snd p]> (ControlFrame.src_address out)))
    /\ ControlFrame.des_address_length F' = 2
    /\ ControlFrame.des_address F'
       = (let p := short_address (ControlFrame.des_address_length F)
                     (ControlFrame.des_address F) in
          <[0%nat := fst p]> (<[1%nat := snd p]> (ControlFrame.des_address out)))
    /\ (if carries_bit_map F
        then ControlFrame.bit_map F'
             = (if ControlFrame.flow_control F
                then <[31%nat := Z.lor (ControlFrame.elem (ControlFrame.bit_map F) 31) 0x80]>
                       (ControlFrame.bit_map F)
                else ControlFrame.bit_map F)
             /\ ControlFrame.flow_control F'
                = ControlFrame.flow_control F
                  || negb (Z.land (ControlFrame.elem (ControlFrame.bit_map F) 31) 0x80 =? 0)
        else ControlFrame.bit_map F' = ControlFrame.bit_map out
             /\ ControlFrame.flow_control F' = ControlFrame.flow_control out)
    /\ ControlFrame.frame_type F' = ControlFrame.frame_type out
    /\ ControlFrame.herald_present F' = false
    /\ ControlFrame.message_present F' = false
    /\ ControlFrame.extension_function_present F' = false.
Proof.
  intros W Hshort Hfmt.
  destruct (format_control_frame_short F buffer_size buf Hshort Hfmt)
    as (_ & s1 & s0 & d1 & d0 & Hbuf & -> & -> & -> & ->).
  cbv zeta in Hbuf.
  destruct (control_header_fields _ _ _ (wc_version F W) (wc_arq F W) (wc_neg F W))
    as (Hv & Ha & Hn & Hm & _).
  cbv zeta in Hv, Ha, Hn, Hm.
  match type of Hbuf with
  | buf = (?b0 :: ?s1 :: ?s0 :: ?d1 :: ?d0 :: ?ls :: ?th :: ?tl :: ?ack :: ?rest) ++ _ =>
      destruct (parse_control_frame_short b0 s1 s0 d1 d0 ls th tl ack rest out Hm)
        as (F' & HF' & P1 & P2 & P3 & P4 & P5 & P6 & P7 & P8 & P9 & P10 & P11 & P12
            & P13 & P14 & P15 & P16 & P17);
      set (tail := rest) in *
  end.
  cbv zeta in HF'. rewrite <- Hbuf in HF'.
  pose proof (wc_link_state F W) as Hls. pose proof (wc_link_timeout F W) as Hlt.
  pose proof (wc_ack F W) as Hack. pose proof (wc_bit_map F W) as Hbm.
  pose proof (trailing_fields_length F) as Htl.
  exists F'. split; [exact HF'|].
  split; [rewrite P1; exact Hv|]. split; [rewrite P2; exact Ha|].
  split; [rewrite P3; exact Hn|]. split; [exact P4|].
  split; [rewrite P10; unfold u8; apply Z.mod_small; exact Hls|].
  split.
  { rewrite P11, !land_FF.
    rewrite lor_shiftl_add by (change (2 ^ 8) with 256; try apply Z.mod_pos_bound; lia).
    rewrite Z.shiftr_div_pow2 by lia. change (2 ^ 8) with 256. unfold u16.
    Z.div_mod_to_equations. lia. }
  split.
  { rewrite P12. unfold u8. rewrite (Z.mod_small (ControlFrame.ack_nak_type F)) by lia.
    assert (Hc : ControlFrame.ack_nak_type F = 0 \/ ControlFrame.ack_nak_type F = 1
                 \/ ControlFrame.ack_nak_type F = 2 \/ ControlFrame.ack_nak_type F = 3)
      by lia.
    destruct Hc as [-> | [-> | [-> | ->]]]; reflexivity. }
  split; [exact P6|]. split; [exact P7|]. split; [exact P8|]. split; [exact P9|].
  split; [|auto].
  rewrite P13, P14. subst tail. unfold written_bit_map.
  rewrite (firstn_all2 (ControlFrame.bit_map F)) by lia.
  destruct (carries_bit_map F).
  - assert (Hlen : length (if ControlFrame.flow_control F
                           then <[31%nat := Z.lor (ControlFrame.elem (ControlFrame.bit_map F) 31) 0x80]>
                                  (ControlFrame.bit_map F)
                           else ControlFrame.bit_map F) = 32%nat).
    { destruct (ControlFrame.flow_control F); [rewrite length_insert|]; exact Hbm. }
    rewrite length_app, Hlen.
    destruct (Nat.leb_spec 32 (32 + length (trailing_fields F))) as [_|]; [|lia].
    rewrite take_app_le by lia. rewrite firstn_all2 by lia.
    split; [reflexivity|].
    rewrite app_nth1 by lia.
    destruct (ControlFrame.flow_control F).
    + rewrite nth_lookup, list_lookup_insert_eq by lia. unfold default. cbn [from_option id orb].
      rewrite land_lor_0x80. reflexivity.
    + reflexivity.
  - cbn [app].
    destruct (Nat.leb_spec 32 (length (trailing_fields F))) as [|_]; [lia|].
    split; reflexivity.
Qed.

Definition sample_control : ControlFrame.ControlFrame :=
  {| ControlFrame.protocol_version := 0;
     ControlFrame.arq_mode := ControlFrame.VARIABLE_ARQ;
     ControlFrame.neg_mode := ControlFrame.CHANGES_ONLY;
     ControlFrame.address_mode := ControlFrame.SHORT_2_BYTE;
     ControlFrame.frame_type := FrameFormat.T2_CONTROL;
     ControlFrame.src_address_length := 4;
     ControlFrame.src_address := [75; 54; 75; 66] ++ repeat 0 14%nat;
     ControlFrame.des_address_length := 4;
     ControlFrame.des_address := [87; 49; 65; 87] ++ repeat 0 14%nat;
     ControlFrame.link_state := 2;
     ControlFrame.link_timeout := 300;
     ControlFrame.ack_nak_type := ControlFrame.DATA_ACK;
     ControlFrame.bit_map := repeat 0 31%nat ++ [0x80];
     ControlFrame.flow_control := false;
     ControlFrame.herald_present := true;
     ControlFrame.data_rate_format := FrameFormat.ABSOLUTE;
     ControlFrame.data_rate := FrameFormat.BPS_2400;
     ControlFrame.interleaver_length := FrameFormat.LONG;
     ControlFrame.bytes_in_data_frames := 1023;
     ControlFrame.frames_in_next_series := 4;
     ControlFrame.message_present := false;
     ControlFrame.tx_msg_size := 0; ControlFrame.tx_msg_id := 0;
     ControlFrame.tx_con_id := 0; ControlFrame.tx_msg_priority := 0;
     ControlFrame.tx_msg_next_byte_pos := 0;
     ControlFrame.rx_msg_next_byte_pos := 0;
     ControlFrame.extension_function_present := false;
     ControlFrame.function_bits := (0, 0);
     ControlFrame.crc32 := 0 |}.

Lemma sample_control_wf : wf_control sample_control.
Proof.
  constructor; unfold is_byte; try reflexivity;
    vm_compute; split; first [discriminate | reflexivity].
Qed.

Definition sample_control_buffer : list Z :=
  Eval vm_compute in default [] (ControlFrame.format_control_frame sample_control 256).

Lemma control_frame_roundtrip_witness :
  exists F',
    ControlFrame.parse_control_frame sample_control_buffer ControlFrame.ControlFrame_ctor
    = Some (true, F')
    /\ ControlFrame.link_timeout F' = 300
    /\ ControlFrame.flow_control F' = true
    /\ ControlFrame.herald_present F' = false.
Proof.
  assert (Hf : ControlFrame.format_control_frame sample_control 256
               = Some sample_control_buffer) by (vm_compute; reflexivity).
  destruct (control_frame_roundtrip sample_control ControlFrame.ControlFrame_ctor 256
              sample_control_buffer sample_control_wf eq_refl Hf)
    as (F' & HF' & _ & _ & _ & _ & _ & Ht & _ & _ & _ & _ & _ & Hm & _ & Hh & _).
  exists F'. split; [exact HF'|]. split; [exact Ht|].
  split; [exact (proj2 Hm) | exact Hh].
Defined.

(** X21.  [parse_control_frame] reads past the end of the buffer it is
    given exactly when the buffer has from 10 to 36 bytes, its CRC is valid
    and bit 7 of its first byte announces long addresses: the two 18-byte
    addresses are then copied without a check of the length.  In every other
    case the function returns without reading outside the buffer. *)
Theorem parse_control_frame_reads_past_end
    (buffer : list Z) (out : ControlFrame.ControlFrame) :
  ControlFrame.parse_control_frame buffer out = None
  <-> (10 <= FrameFormat.size buffer < 37
       /\ FrameFormat.validate_crc32 buffer = true
       /\ Z.land (Z.shiftr (FrameFormat.byte_at buffer 0) 7) 0x01 <> 0).
Proof.
  unfold ControlFrame.parse_control_frame. cbv zeta.
  destruct (Z.ltb_spec (FrameFormat.size buffer) 10) as [Hlt | Hge].
  { split; [discriminate | lia]. }
  destruct (FrameFormat.validate_crc32 buffer); cbn [negb].
  2:{ split; [discriminate | intros (_ & H & _); discriminate H]. }
  cbn [ControlFrame.address_mode ControlFrame.with_header].
  unfold ControlFrame.SHORT_2_BYTE.
  destruct (Z.eqb_spec (Z.land (Z.shiftr (FrameFormat.byte_at buffer 0) 7) 1) 0)
    as [E | E].
  { split; [discriminate | intros (_ & _ & H); contradiction]. }
  unfold ControlFrame.read_bytes.
  destruct (Z.leb_spec (1 + 18) (FrameFormat.size buffer)).
  - destruct (Z.leb_spec (19 + 18) (FrameFormat.size buffer)).
    + split; [discriminate | lia].
    + split; [intros _; repeat split; auto; lia | reflexivity].
  - split; [intros _; repeat split; auto; lia | reflexivity].
Qed.

Definition short_long_address_buffer : list Z :=
  Eval vm_compute in FrameFormat.append_crc32 [0x83; 0; 0; 0; 0; 0].

Lemma parse_control_frame_reads_past_end_witness :
  ControlFrame.parse_control_frame short_long_address_buffer ControlFrame.ControlFrame_ctor
  = None.
Proof.
  apply (proj2 (parse_control_frame_reads_past_end short_long_address_buffer
                  ControlFrame.ControlFrame_ctor)).
  split; [vm_compute; split; [discriminate | reflexivity]|].
  split; [vm_compute; reflexivity | vm_compute; discriminate].
Defined.

Lemma land_2_testbit (b : Z) : (Z.land b 0x02 =? 0) = negb (Z.testbit b 1).
Proof.
  assert (H : Z.land b 0x02 = if Z.testbit b 1 then 2 else 0).
  { apply Z.bits_inj'. intros k Hk. rewrite Z.land_spec.
    change 0x02 with (2 ^ 1). rewrite Z.pow2_bits_eqb by lia.
    destruct (Z.eqb_spec 1 k) as [<- | Hne].
    - destruct (Z.testbit b 1); reflexivity.
    - rewrite andb_false_r. destruct (Z.testbit b 1).
      + change 2 with (2 ^ 1). rewrite Z.pow2_bits_false; [reflexivity | lia].
      + rewrite Z.bits_0. reflexivity. }
  rewrite H. destruct (Z.testbit b 1); reflexivity.
Qed.

Lemma u8_testbit_1 (x : Z) : Z.testbit (u8 x) 1 = Z.testbit x 1.
Proof. unfold u8. change 256 with (2 ^ 8). apply Z.mod_pow2_bits_low. lia. Qed.

Lemma detect_formatted_control
    (F : ControlFrame.ControlFrame) (buffer_size : Z) (buf : list Z) :
  ControlFrame.format_control_frame F buffer_size = Some buf ->
  FrameFormat.detect_frame_type buf = FrameFormat.T1_CONTROL.
Proof.
  unfold ControlFrame.format_control_frame.
  destruct (buffer_size <? 256); [discriminate|]. cbv zeta.
  intros E. injection E as <-.
  unfold FrameFormat.detect_frame_type, FrameFormat.append_crc32.
  unfold FrameFormat.byte_at. change (Z.to_nat 0) with 0%nat. cbn [app nth].
  rewrite land_2_testbit, negb_involutive.
  repeat (rewrite u8_testbit_1 || rewrite Z.lor_spec).
  change (Z.testbit 1 1) with false. change (Z.testbit 2 1) with true.
  cbn [orb]. reflexivity.
Qed.

Lemma detect_formatted_data
    (F : FrameFormat.DataFrame) (buffer_size : Z) (buf : list Z) :
  FrameFormat.format_data_frame F buffer_size = Some buf ->
  FrameFormat.detect_frame_type buf = FrameFormat.DATA.
Proof.
  unfold FrameFormat.format_data_frame.
  destruct (buffer_size <? _); [discriminate|]. cbv zeta.
  intros E. injection E as <-.
  unfold FrameFormat.detect_frame_type, FrameFormat.append_crc32.
  unfold FrameFormat.byte_at. change (Z.to_nat 0) with 0%nat. cbn [app nth].
  rewrite land_2_testbit, negb_involutive.
  repeat (rewrite u8_testbit_1 || rewrite Z.lor_spec).
  rewrite !Z.shiftl_spec by lia.
  rewrite (Z.testbit_neg_r (FrameFormat.data_rate_format F) (1 - 7)) by lia.
  rewrite (Z.testbit_neg_r (Z.land (FrameFormat.data_rate F) 7) (1 - 4)) by lia.
  reflexivity.
Qed.

(** X23.  [bps_to_data_rate] picks the slowest of the seven rates that is
    at least the requested bit rate, and the fastest, 4800 bps, for anything
    above it; on the seven rates it inverts [data_rate_to_bps], while the
    rate [SAME], which has no bit rate, comes back as 75 bps. *)
Theorem bps_to_data_rate_rounds_up (bps : Z) :
  let r := FrameFormat.bps_to_data_rate bps in
  0 <= r <= 6
  /\ (4800 < bps -> r = 6)
  /\ (bps <= 4800 ->
      bps <= FrameFormat.data_rate_to_bps r
      /\ forall r', 0 <= r' <= 6 -> bps <= FrameFormat.data_rate_to_bps r' -> r <= r')
  /\ (forall r', 0 <= r' <= 6 ->
        FrameFormat.bps_to_data_rate (FrameFormat.data_rate_to_bps r') = r')
  /\ FrameFormat.bps_to_data_rate (FrameFormat.data_rate_to_bps 7) = 0.
Proof.
  cbv zeta.
  assert (Hinv : forall r', 0 <= r' <= 6 ->
            FrameFormat.bps_to_data_rate (FrameFormat.data_rate_to_bps r') = r').
  { intros r' Hr.
    assert (Hc : r' = 0 \/ r' = 1 \/ r' = 2 \/ r' = 3 \/ r' = 4 \/ r' = 5 \/ r' = 6) by lia.
    destruct Hc as [-> | [-> | [-> | [-> | [-> | [-> | ->]]]]]]; reflexivity. }
  refine (conj _ (conj _ (conj _ (conj Hinv eq_refl)))); clear Hinv;
    unfold FrameFormat.bps_to_data_rate;
    repeat match goal with
           | |- context [?a <=? ?b] => destruct (Z.leb_spec a b)
           end;
    try lia; intros Hb; try lia;
    (split; [cbn; lia|]); intros r' Hr' Hle;
    assert (Hc : r' = 0 \/ r' = 1 \/ r' = 2 \/ r' = 3 \/ r' = 4 \/ r' = 5 \/ r' = 6) by lia;
    destruct Hc as [-> | [-> | [-> | [-> | [-> | [-> | ->]]]]]]; cbn in Hle; lia.
Qed.

(** X24.  Neither formatter writes past the buffer size it is given: a
    control frame takes 13 to 75 bytes and is refused below 256, and a data
    frame of [data_length] at most 1023 takes [data_length + 13] bytes and
    is refused exactly when the buffer has fewer than [data_length + 20], so
    also for buffers of up to 7 bytes more than the frame needs. *)
Theorem formatted_frames_fit (buffer_size : Z) :
  (forall (F : ControlFrame.ControlFrame) (buf : list Z),
      length (ControlFrame.src_address F) = 18%nat ->
      length (ControlFrame.des_address F) = 18%nat ->
      length (ControlFrame.bit_map F) = 32%nat ->
      ControlFrame.format_control_frame F buffer_size = Some buf ->
      256 <= buffer_size /\ 13 <= FrameFormat.size buf <= 75)
  /\ (forall F : FrameFormat.DataFrame,
         0 <= FrameFormat.data_length F <= 1023 ->
         length (FrameFormat.data F) = 1023%nat ->
         (FrameFormat.format_data_frame F buffer_size = None
          <-> buffer_size < FrameFormat.data_length F + 20)
         /\ forall buf, FrameFormat.format_data_frame F buffer_size = Some buf ->
                        FrameFormat.size buf = FrameFormat.data_length F + 13
                        /\ FrameFormat.size buf + 7 <= buffer_size).
Proof.
  split.
  - intros F buf Hs Hd Hm. unfold ControlFrame.format_control_frame.
    destruct (Z.ltb_spec buffer_size 256); [discriminate|]. cbv zeta.
    intros E. injection E as <-. split; [assumption|].
    unfold FrameFormat.size, FrameFormat.append_crc32, ControlFrame.bytes32,
      ControlFrame.bytes16.
    destruct (ControlFrame.address_mode F =? ControlFrame.SHORT_2_BYTE),
      (_ && _), (ControlFrame.flow_control F), (ControlFrame.herald_present F),
      (ControlFrame.message_present F), (ControlFrame.extension_function_present F);
      cbn [app length];
      repeat first [ rewrite length_app | rewrite length_insert | rewrite length_take
                   | rewrite Hs | rewrite Hd | rewrite Hm ];
      cbn [app length]; lia.
  - intros F Hl Hdata. unfold FrameFormat.format_data_frame.
    destruct (Z.ltb_spec buffer_size (FrameFormat.data_length F + 20)).
    + split; [split; [intros _; assumption | reflexivity] | discriminate].
    + split; [split; [discriminate | lia]|].
      cbv zeta. intros buf E. injection E as <-.
      unfold FrameFormat.size, FrameFormat.append_crc32.
      rewrite length_app. cbn [length]. rewrite length_take. lia.
Qed.

Lemma formatted_frames_fit_witness :
  FrameFormat.format_data_frame sample_frame 24 = None
  /\ FrameFormat.size sample_control_buffer <= 75.
Proof.
  split.
  - apply (proj1 (proj2 (formatted_frames_fit 24) sample_frame ltac:(cbn; lia) eq_refl)).
    cbn. lia.
  - apply (proj1 (formatted_frames_fit 256) sample_control sample_control_buffer
             eq_refl eq_refl eq_refl).
    vm_compute. reflexivity.
Defined.

(** ** Variable ARQ: reception *)

(** [parse_data_frame] on what [format_data_frame] wrote. *)
Lemma parse_formatted_data_frame
    (F out : FrameFormat.DataFrame) (buffer_size : Z) (buf : list Z) :
  wf_frame F ->
  FrameFormat.format_data_frame F buffer_size = Some buf ->
  FrameFormat.parse_data_frame buf out
  = (true,
     {| FrameFormat.data_rate_format := FrameFormat.data_rate_format F;
        FrameFormat.data_rate := FrameFormat.data_rate F;
        FrameFormat.interleaver_length := FrameFormat.interleaver_length F;
        FrameFormat.sequence_number := FrameFormat.sequence_number F;
        FrameFormat.msg_byte_offset := FrameFormat.msg_byte_offset F;
        FrameFormat.data_length := FrameFormat.data_length F;
        FrameFormat.data :=
          payload_bytes F
          ++ skipn (Z.to_nat (FrameFormat.data_length F)) (FrameFormat.data out);
        FrameFormat.crc32 := FrameFormat.crc32 out |}).
Proof.
  intros W Hfmt.
  pose proof (format_data_frame_shape F buffer_size buf Hfmt) as Hshape.
  pose proof (payload_length F W) as Hpl.
  pose proof (wf_length F W) as Hdl.
  set (msg := header_bytes F ++ payload_bytes F) in *.
  assert (Hlen_msg : length msg = (9 + Z.to_nat (FrameFormat.data_length F))%nat).
  { subst msg. rewrite length_app, Hpl. reflexivity. }
  assert (Hlen : length buf = (length msg + 4)%nat).
  { rewrite Hshape, length_app. reflexivity. }
  assert (Hsize : FrameFormat.size buf = 9 + FrameFormat.data_length F + 4).
  { unfold FrameFormat.size. lia. }
  assert (Hval : FrameFormat.validate_crc32 buf = true).
  { rewrite Hshape. unfold crc_bytes. rewrite validate_crc32_message.
    rewrite be32_of_bytes by apply calculate_crc32_range. apply Z.eqb_refl. }
  unfold FrameFormat.parse_data_frame. rewrite Hval, Hsize.
  destruct (Z.ltb_spec (9 + FrameFormat.data_length F + 4) 13) as [|_]; [lia|].
  cbn [negb].
  assert (Hb : forall j : Z, 0 <= j < 9 ->
            FrameFormat.byte_at buf j = nth (Z.to_nat j) (header_bytes F) 0).
  { intros j Hj. unfold FrameFormat.byte_at. rewrite Hshape.
    subst msg. rewrite <- !app_assoc. apply app_nth1. cbn. lia. }
  cbv zeta.
  change (0 + 1 + 1 + 1 + 4 + 2) with 9. change (0 + 1 + 1 + 1 + 4 + 1) with 8.
  change (0 + 1 + 1 + 1 + 4) with 7. change (0 + 1 + 1 + 1 + 3) with 6.
  change (0 + 1 + 1 + 1 + 2) with 5. change (0 + 1 + 1 + 1 + 1) with 4.
  change (0 + 1 + 1 + 1) with 3. change (0 + 1 + 1) with 2. change (0 + 1) with 1.
  rewrite !Hb by lia.
  change (Z.to_nat 0) with 0%nat. change (Z.to_nat 1) with 1%nat.
  change (Z.to_nat 2) with 2%nat. change (Z.to_nat 3) with 3%nat.
  change (Z.to_nat 4) with 4%nat. change (Z.to_nat 5) with 5%nat.
  change (Z.to_nat 6) with 6%nat. change (Z.to_nat 7) with 7%nat.
  change (Z.to_nat 8) with 8%nat.
  cbn [nth header_bytes].
  destruct (header_byte0 _ _ (wf_format F W) (wf_rate F W)) as [Hdrf Hrate].
  rewrite Hdrf, Hrate.
  fold (be32 (Z.land (Z.shiftr (FrameFormat.msg_byte_offset F) 24) 0xFF)
             (Z.land (Z.shiftr (FrameFormat.msg_byte_offset F) 16) 0xFF)
             (Z.land (Z.shiftr (FrameFormat.msg_byte_offset F) 8) 0xFF)
             (Z.land (FrameFormat.msg_byte_offset F) 0xFF)).
  rewrite be32_of_bytes by exact (wf_offset F W).
  rewrite length_field by exact Hdl.
  assert (Hil : u8 (FrameFormat.interleaver_length F) = FrameFormat.interleaver_length F).
  { unfold u8. apply Z.mod_small. exact (wf_interleaver F W). }
  rewrite Hil.
  destruct (Z.ltb_spec FrameFormat.MAX_DATA_BLOCK_LENGTH (FrameFormat.data_length F))
    as [Hgt|_]; [unfold FrameFormat.MAX_DATA_BLOCK_LENGTH in Hgt; lia|].
  rewrite Z.eqb_refl. cbn [orb negb].
  unfold FrameFormat.memcpy_into.
  assert (Hskip : skipn 9 buf = payload_bytes F
                    ++ crc_bytes (FrameFormat.calculate_crc32 msg)).
  { rewrite Hshape. subst msg. rewrite <- app_assoc. reflexivity. }
  change (Z.to_nat 9) with 9%nat. rewrite Hskip.
  rewrite <- Hpl at 1. rewrite take_app_length. reflexivity.
Qed.

(** The frame [send_block] builds for a block and hands to
    [format_data_frame]. *)
Definition block_frame (rate : Z) (b : VariableARQ.DataBlock) : FrameFormat.DataFrame :=
  {| FrameFormat.data_rate_format := FrameFormat.ABSOLUTE;
     FrameFormat.data_rate := u8 rate;
     FrameFormat.interleaver_length := FrameFormat.SHORT;
     FrameFormat.sequence_number := VariableARQ.sequence b;
     FrameFormat.msg_byte_offset := VariableARQ.offset b;
     FrameFormat.data_length := VariableARQ.length_ b;
     FrameFormat.data :=
       FrameFormat.memcpy_into (FrameFormat.data FrameFormat.DataFrame_ctor)
         (VariableARQ.data b) (VariableARQ.length_ b);
     FrameFormat.crc32 := 0 |}.

(** The bytes [send_block] hands to the transmit callback for a block. *)
Definition sent_frame (rate : Z) (b : VariableARQ.DataBlock) : option (list Z) :=
  FrameFormat.format_data_frame (block_frame rate b) 1200.

Lemma send_block_sent_frame (s : Z) (a : VariableARQ.arq) (i : nat)
    (b : VariableARQ.DataBlock) (buf : list Z) :
  VariableARQ.block_at s a = Some (i, b) ->
  VariableARQ.m_tx_callback a = true ->
  sent_frame (VariableARQ.m_data_rate a) b = Some buf ->
  VariableARQ.outputs (VariableARQ.send_block s a)
  = VariableARQ.outputs a ++ [VariableARQ.TxFrame buf].
Proof.
  intros Hb Hcb Hf. unfold VariableARQ.send_block. rewrite Hb, Hcb. cbn [negb].
  unfold sent_frame, block_frame in Hf. rewrite Hf. reflexivity.
Qed.

(** Feeding received frames to the machine one after the other. *)
Fixpoint receive_frames (fuel : nat) (frames : list (list Z)) (a : VariableARQ.arq)
    : VariableARQ.outcome :=
  match frames with
  | [] => VariableARQ.Returns a
  | frame :: rest =>
      match VariableARQ.handle_received_frame fuel frame a with
      | VariableARQ.Returns a => receive_frames fuel rest a
      | stopped => stopped
      end
  end.

Section Reception.

Import VariableARQ.

(** The receive bitmap with the first [k] sequence numbers marked. *)
Definition first_received (k : nat) : list bool :=
  repeat true k ++ repeat false (256 - k).

Lemma first_received_nth (k i : nat) :
  nth i (first_received k) false = bool_decide (i < k)%nat.
Proof.
  unfold first_received.
  destruct (Nat.lt_ge_cases i k) as [Hlt | Hge].
  - rewrite app_nth1 by (rewrite repeat_length; lia).
    rewrite nth_repeat_lt by lia. symmetry. apply bool_decide_eq_true_2. lia.
  - rewrite app_nth2 by (rewrite repeat_length; lia). rewrite repeat_length.
    rewrite bool_decide_eq_false_2 by lia.
    destruct (Nat.lt_ge_cases (i - k) (256 - k)).
    + apply nth_repeat_lt. lia.
    + apply nth_overflow. rewrite repeat_length. lia.
Qed.

Lemma first_received_insert (k : nat) :
  (k < 256)%nat -> <[k := true]> (first_received k) = first_received (S k).
Proof.
  intros Hk. unfold first_received.
  rewrite insert_app_r_alt by (rewrite repeat_length; lia).
  rewrite repeat_length, Nat.sub_diag.
  replace (256 - k)%nat with (S (256 - S k)) by lia. cbn [repeat].
  change (<[0%nat := true]> (false :: repeat false (256 - S k)))
    with (true :: repeat false (256 - S k)).
  change (true :: repeat false (256 - S k)) with ([true] ++ repeat false (256 - S k)).
  rewrite app_assoc. f_equal. rewrite <- repeat_cons. reflexivity.
Qed.

(** With nothing transmitted, every data frame makes the scan of the
    receive bitmap succeed. *)
Lemma all_received_nothing_sent (bitmap : list bool) :
  forallb (fun i => nth (Z.to_nat i) bitmap false || negb (i <? 0)) sequence_numbers
  = true.
Proof.
  apply forallb_forall. intros i Hi. unfold sequence_numbers in Hi.
  apply in_map_iff in Hi as (j & <- & _).
  destruct (Z.ltb_spec (Z.of_nat j) 0); [lia|]. apply orb_true_r.
Qed.

Lemma transition_to_rx (s : ARQState) (a : arq) :
  m_state (transition_to s a) = s
  /\ m_rx_buffer (transition_to s a) = m_rx_buffer a
  /\ m_rx_bitmap (transition_to s a) = m_rx_bitmap a
  /\ m_next_tx_sequence (transition_to s a) = m_next_tx_sequence a.
Proof.
  unfold transition_to. destruct (decide (s = m_state a)) as [-> | _]; [auto|].
  cbn. destruct (m_state_callback a); auto.
Qed.

(** An append at the end of the reassembly buffer. *)
Lemma store_at_end (buffer src : list Z) (n : Z) :
  0 <= n -> (Z.to_nat n <= length src)%nat ->
  store (resize buffer (Z.of_nat (length buffer) + n)) (Z.of_nat (length buffer)) src n
  = buffer ++ firstn (Z.to_nat n) src.
Proof.
  intros Hn Hsrc. unfold store, resize.
  rewrite Nat2Z.id.
  rewrite take_app_length.
  rewrite skipn_all2.
  - rewrite app_nil_r. reflexivity.
  - rewrite length_app, repeat_length. lia.
Qed.

End Reception.

Section Reassembly.

Import VariableARQ.

Variable data_ : list Z.
Variable rate : Z.

Hypothesis data_bytes : Forall is_byte data_.
Hypothesis total_u32 : total data_ < 4294967296.
Hypothesis rate_range : 0 <= rate <= 7.

Lemma segment_within (k : nat) :
  (k < block_count data_)%nat ->
  1023 * Z.of_nat k < total data_
  /\ length_ (segment data_ k) = Z.min 1023 (total data_ - 1023 * Z.of_nat k)
  /\ length (data (segment data_ k)) = Z.to_nat (length_ (segment data_ k)).
Proof using Type.
  intros Hk.
  assert (Hoff : 1023 * Z.of_nat k < total data_).
  { unfold block_count in Hk. unfold total in *. Z.div_mod_to_equations. lia. }
  split; [exact Hoff|]. split; [reflexivity|].
  unfold segment. cbn [data length_]. rewrite length_take, length_drop.
  unfold total in *. lia.
Qed.

Lemma block_frame_wf (k : nat) :
  (k < block_count data_)%nat -> wf_frame (block_frame rate (segment data_ k)).
Proof using data_bytes total_u32 rate_range.
  intros Hk. destruct (segment_within k Hk) as (Hoff & Hlen & Hdata).
  assert (Ht : 0 <= total data_) by (unfold total; lia).
  constructor; cbn [block_frame FrameFormat.data_rate_format FrameFormat.data_rate
                    FrameFormat.interleaver_length FrameFormat.sequence_number
                    FrameFormat.msg_byte_offset FrameFormat.data_length
                    FrameFormat.data].
  - left. reflexivity.
  - unfold u8. rewrite Z.mod_small by lia. exact rate_range.
  - unfold is_byte, FrameFormat.SHORT. lia.
  - unfold is_byte. cbn [segment sequence]. apply Z.mod_pos_bound. lia.
  - unfold is_u32. cbn [segment offset]. lia.
  - rewrite Hlen. lia.
  - unfold FrameFormat.memcpy_into. rewrite length_app, length_take, length_drop, Hdata.
    cbn [FrameFormat.DataFrame_ctor FrameFormat.data]. rewrite repeat_length.
    rewrite Hlen. lia.
  - unfold FrameFormat.memcpy_into. apply Forall_app. split.
    + apply Forall_take. cbn [segment data]. apply Forall_take, Forall_drop, data_bytes.
    + apply Forall_drop. cbn [FrameFormat.DataFrame_ctor FrameFormat.data].
      apply List.Forall_forall. intros x Hx. apply repeat_spec in Hx.
      unfold is_byte. lia.
Qed.

(** The receiver after the first [k] blocks of the message: their bytes are
    in the reassembly buffer, their sequence numbers are marked, and the
    machine left [RX_DATA] for [IDLE] when the first of them arrived. *)
Definition received (k : nat) (a : arq) : Prop :=
  m_rx_buffer a = firstn (Z.to_nat (Z.min (1023 * Z.of_nat k) (total data_))) data_
  /\ m_rx_bitmap a = first_received k
  /\ m_next_tx_sequence a = 0
  /\ m_state a = match k with O => RX_DATA | S _ => IDLE end.

Lemma receive_segment (fuel k : nat) (a : arq) (buf : list Z) :
  (k < block_count data_)%nat -> (k < 256)%nat ->
  received k a ->
  sent_frame rate (segment data_ k) = Some buf ->
  exists a', handle_received_frame (S fuel) buf a = Returns a' /\ received (S k) a'.
Proof using data_bytes total_u32 rate_range.
  intros Hk H256 (Rbuf & Rmap & Rseq & Rstate) Hsent.
  destruct (segment_within k Hk) as (Hoff & Hlen & Hdata).
  pose proof (block_frame_wf k Hk) as W.
  unfold sent_frame in Hsent.
  pose proof (parse_formatted_data_frame _ FrameFormat.DataFrame_ctor _ _ W Hsent) as Hparse.
  pose proof (detect_formatted_data _ _ _ Hsent) as Hdetect.
  assert (Hsize : (FrameFormat.size buf <? 1) = false).
  { apply Z.ltb_ge. rewrite (format_data_frame_shape _ _ _ Hsent).
    unfold FrameFormat.size. rewrite length_app. cbn [crc_bytes length]. lia. }
  unfold handle_received_frame. rewrite Hsize, Hdetect.
  change (FrameFormat.DATA =? FrameFormat.DATA) with true. cbv iota.
  rewrite Hparse. cbv iota beta.
  set (seg := segment data_ k) in *.
  set (dl := length_ seg) in *.
  assert (Hdl : 1 <= dl <= 1023) by lia.
  assert (Hpayload : payload_bytes (block_frame rate seg) = data seg).
  { unfold payload_bytes, block_frame, FrameFormat.memcpy_into.
    cbn [FrameFormat.data FrameFormat.data_length]. fold dl.
    rewrite take_app_le by (rewrite length_take; lia).
    rewrite take_take, Nat.min_id. apply firstn_all2. lia. }
  rewrite Hpayload.
  unfold process_data_frame.
  cbn [FrameFormat.sequence_number FrameFormat.msg_byte_offset FrameFormat.data_length
       FrameFormat.data block_frame].
  assert (Eseq : sequence seg = Z.of_nat k)
    by (subst seg; cbn [segment sequence]; apply Z.mod_small; lia).
  assert (Eoff : offset seg = 1023 * Z.of_nat k) by reflexivity.
  rewrite Eseq, Eoff, Nat2Z.id. fold dl.
  rewrite Rmap, first_received_nth, bool_decide_eq_false_2 by lia.
  rewrite first_received_insert by exact H256.
  assert (Hblen : Z.of_nat (length (m_rx_buffer a)) = 1023 * Z.of_nat k).
  { rewrite Rbuf, length_take. unfold total in *. lia. }
  assert (Hend : u32 (1023 * Z.of_nat k + dl) = 1023 * Z.of_nat k + dl).
  { unfold u32. apply Z.mod_small. lia. }
  rewrite Hend, Hblen.
  destruct (Z.ltb_spec (1023 * Z.of_nat k) (1023 * Z.of_nat k + dl)) as [_|]; [|lia].
  assert (Hstore :
    store (resize (m_rx_buffer a) (1023 * Z.of_nat k + dl)) (1023 * Z.of_nat k)
      (data seg ++ skipn (Z.to_nat dl) (FrameFormat.data FrameFormat.DataFrame_ctor)) dl
    = firstn (Z.to_nat (Z.min (1023 * Z.of_nat (S k)) (total data_))) data_).
  { rewrite <- Hblen. rewrite store_at_end
      by (try rewrite length_app; lia).
    rewrite take_app_le by lia. rewrite firstn_all2 by lia.
    rewrite Rbuf. subst seg. cbn [segment data].
    fold dl. replace (Z.min 1023 (total data_ - 1023 * Z.of_nat k)) with dl by lia.
    rewrite Z.min_l by lia.
    replace (Z.to_nat (Z.min (1023 * Z.of_nat (S k)) (total data_)))
      with (Z.to_nat (1023 * Z.of_nat k) + Z.to_nat dl)%nat by lia.
    rewrite <- take_take_drop. reflexivity. }
  assert (Hrlen : Z.of_nat (length (resize (m_rx_buffer a) (1023 * Z.of_nat k + dl)))
                  = 1023 * Z.of_nat k + dl).
  { unfold resize. rewrite length_app, repeat_length. lia. }
  rewrite Hrlen.
  destruct (Z.ltb_spec 0 dl) as [_|]; [|lia].
  destruct (Z.ltb_spec (1023 * Z.of_nat k + dl) (1023 * Z.of_nat k + dl)) as [|_]; [lia|].
  cbn [andb]. rewrite Hstore.
  cbn [m_next_tx_sequence m_rx_bitmap with_rx]. rewrite Rseq.
  rewrite all_received_nothing_sent.
  set (a1 := with_rx _ _ _ a).
  assert (S1 : m_state a1 = m_state a) by reflexivity.
  destruct k as [|k'].
  - assert (E1 : process_event (S fuel) TRANSFER_COMPLETE a1
                 = Some (transition_to IDLE a1)).
    { cbn [process_event]. rewrite S1, Rstate. reflexivity. }
    rewrite E1. cbn [of_option].
    destruct (transition_to_rx IDLE a1) as (T1 & T2 & T3 & T4).
    set (a2 := transition_to IDLE a1) in *.
    set (a3 := with_stats _ a2).
    assert (E2 : process_event (S fuel) FRAME_RECEIVED a3 = Some a3).
    { cbn [process_event]. subst a3. cbn [m_state with_stats]. rewrite T1. reflexivity. }
    rewrite E2. cbn [of_option]. exists a3. split; [reflexivity|].
    subst a3. unfold received. cbn [m_rx_buffer m_rx_bitmap m_next_tx_sequence m_state
                                    with_stats].
    rewrite T1, T2, T3, T4. subst a1. cbn [m_rx_buffer m_rx_bitmap m_next_tx_sequence
                                           with_rx].
    repeat split; assumption || reflexivity.
  - assert (E1 : process_event (S fuel) TRANSFER_COMPLETE a1 = Some a1).
    { cbn [process_event]. rewrite S1, Rstate. reflexivity. }
    rewrite E1. cbn [of_option].
    set (a3 := with_stats _ a1).
    assert (E2 : process_event (S fuel) FRAME_RECEIVED a3 = Some a3).
    { cbn [process_event]. subst a3. cbn [m_state with_stats]. rewrite S1, Rstate.
      reflexivity. }
    rewrite E2. cbn [of_option]. exists a3. split; [reflexivity|].
    subst a3 a1. unfold received.
    cbn [m_rx_buffer m_rx_bitmap m_next_tx_sequence m_state with_stats with_rx].
    repeat split; assumption || reflexivity.
Qed.

Lemma receive_segments (fuel m : nat) :
  forall (k : nat) (frames : list (list Z)) (a : arq),
    (k + m <= block_count data_)%nat -> (k + m <= 256)%nat ->
    received k a ->
    Forall2 (fun i frame => sent_frame rate (segment data_ i) = Some frame)
      (seq k m) frames ->
    exists a', receive_frames (S fuel) frames a = Returns a' /\ received (k + m) a'.
Proof using data_bytes total_u32 rate_range.
  induction m as [|m IH]; intros k frames a Hk H256 Hr Hf.
  - inversion Hf; subst. exists a. rewrite Nat.add_0_r. split; [reflexivity | exact Hr].
  - cbn [seq] in Hf. inversion Hf as [|i frame is' rest Hframe Hrest]; subst.
    destruct (receive_segment fuel k a frame ltac:(lia) ltac:(lia) Hr Hframe)
      as (a1 & H1 & R1).
    destruct (IH (S k) rest a1 ltac:(lia) ltac:(lia) R1 Hrest) as (a' & H' & R').
    exists a'. cbn [receive_frames]. rewrite H1.
    replace (k + S m)%nat with (S k + m)%nat by lia. split; assumption.
Qed.

End Reassembly.

(** X25.  A receiver that has transmitted nothing and holds no received
    data reassembles a message from the data frames [send_block] writes for
    its blocks, fed in order to [handle_received_frame]: afterwards
    [get_received_data] is the message.  The message has at most 256 blocks
    (261888 bytes) of byte values and the data rate is one of the
    enumerators.  The receiver, started in [RX_DATA], takes the transfer for
    complete as soon as the first frame arrives: it is in [IDLE] from then
    on and never enters [SEND_ACK]. *)
Theorem received_data_reassembled
    (fuel : nat) (data_ : list Z) (rate : Z) (frames : list (list Z))
    (a : VariableARQ.arq) :
  Forall is_byte data_ ->
  (block_count data_ <= 256)%nat ->
  0 <= rate <= 7 ->
  Forall2 (fun i frame => sent_frame rate (segment data_ i) = Some frame)
    (seq 0 (block_count data_)) frames ->
  VariableARQ.m_state a = VariableARQ.RX_DATA ->
  VariableARQ.m_rx_buffer a = [] ->
  VariableARQ.m_rx_bitmap a = repeat false 256%nat ->
  VariableARQ.m_next_tx_sequence a = 0 ->
  (1 <= fuel)%nat ->
  exists a',
    receive_frames fuel frames a = VariableARQ.Returns a'
    /\ VariableARQ.get_received_data a' = data_
    /\ VariableARQ.m_state a'
       = match frames with [] => VariableARQ.RX_DATA | _ :: _ => VariableARQ.IDLE end.
Proof.
  intros Hbytes Hcount Hrate Hframes Hstate Hbuf Hmap Hseq Hfuel.
  assert (Htotal : total data_ < 4294967296).
  { unfold block_count in Hcount. unfold total in *. Z.div_mod_to_equations. lia. }
  destruct fuel as [|fuel]; [lia|].
  assert (Hr : received data_ 0 a).
  { unfold received. rewrite Hbuf, Hmap, Hseq, Hstate.
    change (Z.of_nat 0) with 0. rewrite Z.min_l by (unfold total; lia).
    repeat split; reflexivity. }
  destruct (receive_segments data_ rate Hbytes Htotal Hrate fuel (block_count data_)
              0%nat frames a ltac:(lia) ltac:(lia) Hr Hframes)
    as (a' & Hrun & Rbuf & _ & _ & Rstate).
  exists a'. split; [exact Hrun|]. split.
  - unfold VariableARQ.get_received_data. rewrite Rbuf. apply firstn_all2.
    cbn [Nat.add]. unfold block_count, total in *. Z.div_mod_to_equations. lia.
  - rewrite Rstate. cbn [Nat.add].
    apply Forall2_length in Hframes. rewrite length_seq in Hframes.
    destruct frames, (block_count data_); try discriminate; reflexivity.
Qed.

Definition sample_message : list Z := repeat 7 1500%nat.

Definition sample_frames : list (list Z) :=
  Eval vm_compute in
    omap (fun i => sent_frame FrameFormat.BPS_2400 (segment sample_message i)) (seq 0 2).

Definition sample_receiver : VariableARQ.arq :=
  VariableARQ.transition_to VariableARQ.RX_DATA VariableARQ.ctor.

Lemma received_data_reassembled_witness :
  exists a',
    receive_frames 1 sample_frames sample_receiver = VariableARQ.Returns a'
    /\ VariableARQ.get_received_data a' = sample_message
    /\ VariableARQ.m_state a' = VariableARQ.IDLE.
Proof.
  apply (received_data_reassembled 1 sample_message FrameFormat.BPS_2400 sample_frames
           sample_receiver).
  - apply List.Forall_forall. intros x Hx. apply repeat_spec in Hx. unfold is_byte. lia.
  - vm_compute. lia.
  - unfold FrameFormat.BPS_2400. lia.
  - change (block_count sample_message) with 2%nat.
    repeat constructor; vm_compute; reflexivity.
  - reflexivity.
  - reflexivity.
  - reflexivity.
  - reflexivity.
  - lia.
Defined.

(** ** Variable ARQ: acknowledgements *)

(** A bitmap of zero bytes acknowledges nothing. *)
Lemma process_ack_empty_bit_map (frame : ControlFrame.ControlFrame) (a : VariableARQ.arq) :
  ControlFrame.bit_map frame = repeat 0 32%nat ->
  VariableARQ.process_ack frame a = a.
Proof.
  intros Hmap. unfold VariableARQ.process_ack.
  destruct (negb _); [reflexivity|].
  rewrite Hmap. unfold ControlFrame.elem.
  generalize VariableARQ.sequence_numbers. intros l.
  induction l as [|i l IH]; [reflexivity|].
  cbn [fold_left]. rewrite nth_repeat, Z.land_0_l. exact IH.
Qed.

(** X26.  The frame [send_ack] transmits acknowledges nothing.  [send_ack]
    leaves the frame type at [NO_FRAME], for which [format_control_frame]
    writes no bitmap; a machine that receives the frame parses it with an
    all-zero bitmap, so [handle_received_frame] marks no block as
    acknowledged: it only counts the frame and raises [ACK_RECEIVED]. *)
Theorem send_ack_acknowledges_nothing (fuel : nat) (receiver sender : VariableARQ.arq) :
  exists buf,
    ControlFrame.format_control_frame (VariableARQ.ack_frame receiver) 256 = Some buf
    /\ (VariableARQ.m_tx_callback receiver = true ->
        VariableARQ.send_ack fuel receiver
        = VariableARQ.process_event fuel VariableARQ.FRAME_SENT
            (VariableARQ.with_stats
               (VariableARQ.bump_acks_sent (VariableARQ.m_stats receiver))
               (VariableARQ.emit (VariableARQ.TxFrame buf) receiver)))
    /\ (exists cf,
          ControlFrame.parse_control_frame buf ControlFrame.ControlFrame_ctor
          = Some (true, cf)
          /\ ControlFrame.ack_nak_type cf = ControlFrame.DATA_ACK
          /\ ControlFrame.bit_map cf = repeat 0 32%nat)
    /\ VariableARQ.handle_received_frame fuel buf sender
       = VariableARQ.of_option
           (VariableARQ.process_event fuel VariableARQ.ACK_RECEIVED
              (VariableARQ.with_stats
                 (VariableARQ.bump_acks_received (VariableARQ.m_stats sender)) sender)).
Proof.
  destruct (ControlFrame.format_control_frame (VariableARQ.ack_frame receiver) 256)
    as [buf|] eqn:Hfmt; [|discriminate Hfmt].
  exists buf. split; [reflexivity|]. split.
  { intros Hcb. unfold VariableARQ.send_ack. rewrite Hcb, Hfmt. reflexivity. }
  destruct (format_control_frame_short (VariableARQ.ack_frame receiver) 256 buf
              eq_refl Hfmt)
    as (_ & s1 & s0 & d1 & d0 & Hbuf & _).
  cbv zeta in Hbuf.
  match type of Hbuf with
  | buf = (?b0 :: _ :: _ :: _ :: _ :: ?ls :: ?th :: ?tl :: ?ack :: ?rest) ++ _ =>
      destruct (parse_control_frame_short b0 s1 s0 d1 d0 ls th tl ack rest
                  ControlFrame.ControlFrame_ctor eq_refl)
        as (cf & Hcf & _ & _ & _ & _ & _ & _ & _ & _ & _ & _ & _ & Hack & Hmap & _)
  end.
  cbv zeta in Hcf. rewrite <- Hbuf in Hcf.
  assert (Hack' : ControlFrame.ack_nak_type cf = ControlFrame.DATA_ACK)
    by (rewrite Hack; reflexivity).
  assert (Hmap' : ControlFrame.bit_map cf = repeat 0 32%nat)
    by (rewrite Hmap; reflexivity).
  split; [exists cf; auto|].
  unfold VariableARQ.handle_received_frame.
  assert (Hsize : (FrameFormat.size buf <? 1) = false).
  { apply Z.ltb_ge. rewrite Hbuf. unfold FrameFormat.size. rewrite length_app.
    cbn [length]. lia. }
  rewrite Hsize, (detect_formatted_control _ _ _ Hfmt), Hcf.
  change (FrameFormat.T1_CONTROL =? FrameFormat.DATA) with false.
  change (FrameFormat.T1_CONTROL =? FrameFormat.NO_FRAME) with false.
  cbn [negb]. rewrite (process_ack_empty_bit_map cf sender Hmap'). reflexivity.
Qed.

Section SharedSequenceNumbers.

Import VariableARQ.

(** [find_block] returns the first block that carries the number. *)
Lemma find_block_from_first (blocks : list DataBlock) (s : Z) :
  forall (j0 k : nat),
    find_block_from blocks s j0 = Some k ->
    (j0 <= k)%nat
    /\ (exists b, blocks !! (k - j0)%nat = Some b /\ sequence b = s)
    /\ forall (k' : nat) (b' : DataBlock),
         (k' < k - j0)%nat -> blocks !! k' = Some b' -> sequence b' <> s.
Proof.
  induction blocks as [|b blocks IH]; intros j0 k H; [discriminate|].
  cbn [find_block_from] in H. destruct (Z.eqb_spec (sequence b) s) as [E | E].
  - injection H as <-. rewrite Nat.sub_diag. split; [lia|]. split.
    + exists b. split; [reflexivity | exact E].
    + intros k' b' Hk'. lia.
  - destruct (IH (S j0) k H) as (Hle & (b1 & Hb1 & Hs1) & Hfirst).
    split; [lia|]. split.
    + exists b1. replace (k - j0)%nat with (S (k - S j0)) by lia. split; assumption.
    + intros k' b' Hk' Hb'. destruct k' as [|k'].
      * cbn in Hb'. injection Hb' as <-. exact E.
      * apply (Hfirst k' b'); [lia | exact Hb'].
Qed.

Variables (seqs : list Z) (j : nat) (flag : bool).

(** The sequence numbers of the blocks are [seqs], block [j] has
    acknowledgement flag [flag], and its number is carried by a block before
    it. *)
Definition shadowed (a : arq) : Prop :=
  map sequence (m_tx_blocks a) = seqs
  /\ (exists b, m_tx_blocks a !! j = Some b /\ acknowledged b = flag)
  /\ exists (i : nat) (s : Z), (i < j)%nat /\ seqs !! i = Some s /\ seqs !! j = Some s.

Lemma mark_block_acked_shadowed (s : Z) (a : arq) :
  shadowed a -> shadowed (mark_block_acked s a).
Proof using Type.
  intros (Hseqs & (bj & Hbj & Hflag) & (i & sj & Hij & Hi & Hj)).
  unfold mark_block_acked, block_at.
  destruct (find_block s a) as [k|] eqn:Hfind;
    [|repeat split; eauto 10].
  destruct (m_tx_blocks a !! k) as [bk|] eqn:Hbk; [|repeat split; eauto 10].
  unfold find_block in Hfind.
  destruct (find_block_from_first _ _ _ _ Hfind) as (_ & (b1 & Hb1 & Hs1) & Hfirst).
  rewrite Nat.sub_0_r in Hb1, Hfirst. rewrite Hbk in Hb1. injection Hb1 as <-.
  assert (Hkj : k <> j).
  { intros ->. rewrite Hbj in Hbk. injection Hbk as <-.
    assert (Hsj : sequence bj = sj).
    { rewrite <- Hseqs in Hj. change (map sequence) with (fmap (M := list) sequence) in Hj.
      rewrite list_lookup_fmap, Hbj in Hj. injection Hj as <-. reflexivity. }
    rewrite <- Hseqs in Hi. change (map sequence) with (fmap (M := list) sequence) in Hi.
    rewrite list_lookup_fmap in Hi.
    destruct (m_tx_blocks a !! i) as [bi|] eqn:Hbi; [|discriminate Hi].
    injection Hi as Hsi. apply (Hfirst i bi Hij Hbi). congruence. }
  unfold shadowed. cbn [m_tx_blocks set_tx_blocks with_tx].
  split; [|split; [|eauto 10]].
  - rewrite <- Hseqs. change (map sequence) with (fmap (M := list) sequence).
    rewrite list_fmap_insert. apply list_insert_id.
    rewrite list_lookup_fmap, Hbk. reflexivity.
  - exists bj. rewrite list_lookup_insert_ne by exact Hkj. split; assumption.
Qed.

Lemma process_ack_shadowed (frame : ControlFrame.ControlFrame) (a : arq) :
  shadowed a -> shadowed (process_ack frame a).
Proof using Type.
  unfold process_ack. destruct (negb _); [auto|].
  generalize sequence_numbers. intros l. revert a.
  induction l as [|s l IH]; intros a Ha; [exact Ha|].
  cbn [fold_left]. apply IH.
  destruct (negb _); [apply mark_block_acked_shadowed|]; exact Ha.
Qed.

Lemma process_acks_shadowed (acks : list ControlFrame.ControlFrame) :
  forall a, shadowed a ->
            shadowed (fold_left (fun a frame => process_ack frame a) acks a).
Proof using Type.
  induction acks as [|frame acks IH]; intros a Ha; [exact Ha|].
  cbn [fold_left]. apply IH, process_ack_shadowed, Ha.
Qed.

End SharedSequenceNumbers.

(** X27.  [process_ack] never acknowledges a block whose sequence number is
    also carried by an earlier block, since [mark_block_acked] marks the
    first block [find_block] meets.  [create_blocks] numbers the blocks
    modulo 256, so block 256 of a message shares its number with block 0: a
    message of more than 256 blocks is never acknowledged in full, and
    [is_transfer_complete] never holds for it, whatever acknowledgements
    arrive. *)
Theorem shared_sequence_never_acknowledged
    (acks : list ControlFrame.ControlFrame) (a : VariableARQ.arq)
    (i j : nat) (bi bj : VariableARQ.DataBlock) :
  VariableARQ.m_tx_blocks a !! i = Some bi ->
  VariableARQ.m_tx_blocks a !! j = Some bj ->
  (i < j)%nat ->
  VariableARQ.sequence bi = VariableARQ.sequence bj ->
  let a' := fold_left (fun a frame => VariableARQ.process_ack frame a) acks a in
  (exists bj',
      VariableARQ.m_tx_blocks a' !! j = Some bj'
      /\ VariableARQ.acknowledged bj' = VariableARQ.acknowledged bj)
  /\ (VariableARQ.acknowledged bj = false ->
      VariableARQ.all_blocks_acked a' = false
      /\ VariableARQ.is_transfer_complete a' = false).
Proof.
  intros Hi Hj Hij Hseq a'.
  assert (Ha : shadowed (map VariableARQ.sequence (VariableARQ.m_tx_blocks a)) j
                 (VariableARQ.acknowledged bj) a).
  { split; [reflexivity|]. split; [eauto|].
    exists i, (VariableARQ.sequence bj). split; [exact Hij|].
    change (map VariableARQ.sequence) with (fmap (M := list) VariableARQ.sequence).
    rewrite !list_lookup_fmap, Hi, Hj. cbn. rewrite Hseq. split; reflexivity. }
  destruct (process_acks_shadowed _ _ _ acks a Ha) as (_ & (bj' & Hbj' & Hflag) & _).
  fold a' in Hbj'. split; [eauto|].
  intros Hfalse.
  assert (Hall : VariableARQ.all_blocks_acked a' = false).
  { unfold VariableARQ.all_blocks_acked.
    apply not_true_is_false. intros Hall. rewrite forallb_forall in Hall.
    assert (Hin : In bj' (VariableARQ.m_tx_blocks a')).
    { apply list_elem_of_In. eapply list_elem_of_lookup_2. exact Hbj'. }
    apply Hall in Hin. congruence. }
  split; [exact Hall|].
  unfold VariableARQ.is_transfer_complete. rewrite Hall.
  destruct (bool_decide (VariableARQ.m_state a' = VariableARQ.IDLE)); [|reflexivity].
  destruct (bool_decide (VariableARQ.m_tx_blocks a' = [])) eqn:E; [|reflexivity].
  apply bool_decide_eq_true_1 in E. rewrite E in Hbj'. discriminate Hbj'.
Qed.

Definition long_message : list Z := repeat 0 (Z.to_nat 261889).

Lemma long_message_total : total long_message = 261889.
Proof. unfold total, long_message. rewrite repeat_length. apply Z2Nat.id. lia. Qed.

Lemma long_message_blocks : block_count long_message = 257%nat.
Proof. unfold block_count. rewrite long_message_total. reflexivity. Qed.

Definition acknowledge_all : ControlFrame.ControlFrame :=
  ControlFrame.with_ack ControlFrame.DATA_ACK (repeat 255 32%nat) false
    ControlFrame.ControlFrame_ctor.

Lemma shared_sequence_never_acknowledged_witness :
  exists a,
    VariableARQ.create_blocks long_message VariableARQ.ctor = Some a
    /\ length (VariableARQ.m_tx_blocks a) = 257%nat
    /\ VariableARQ.all_blocks_acked (VariableARQ.process_ack acknowledge_all a) = false.
Proof.
  assert (Hlen : total long_message < 4294967296) by (rewrite long_message_total; lia).
  rewrite (create_blocks_segments long_message Hlen VariableARQ.ctor).
  eexists. split; [reflexivity|].
  cbn [VariableARQ.m_tx_blocks VariableARQ.with_tx]. rewrite long_message_blocks.
  split; [rewrite length_map, length_seq; reflexivity|].
  set (a := VariableARQ.with_tx (map (segment long_message) (seq 0 257))
              (VariableARQ.m_retransmit_queue VariableARQ.ctor) 0 0 VariableARQ.ctor).
  assert (Hblock : forall i : nat, (i < 257)%nat ->
            VariableARQ.m_tx_blocks a !! i = Some (segment long_message i)).
  { intros i Hi. subst a. cbn [VariableARQ.m_tx_blocks VariableARQ.with_tx].
    change (map (segment long_message)) with (fmap (M := list) (segment long_message)).
    rewrite list_lookup_fmap, lookup_seq_lt by exact Hi. reflexivity. }
  assert (Hseq : VariableARQ.sequence (segment long_message 0)
                 = VariableARQ.sequence (segment long_message 256)).
  { unfold segment. cbn [VariableARQ.sequence]. vm_compute. reflexivity. }
  pose proof (shared_sequence_never_acknowledged [acknowledge_all] a 0 256
                (segment long_message 0) (segment long_message 256)
                (Hblock 0%nat ltac:(lia)) (Hblock 256%nat ltac:(lia))
                ltac:(lia) Hseq) as H.
  cbv zeta in H. cbn [fold_left] in H. destruct H as [_ H].
  apply H. unfold segment. cbn [VariableARQ.acknowledged]. reflexivity.
Defined.

Section Window.

Import VariableARQ.

(** Every block [find_block] reaches is acknowledged. *)
Definition reachable_acked (a : arq) : bool :=
  forallb
    (fun s => match block_at s a with
              | Some (_, block) => acknowledged block
              | None => true
              end)
    sequence_numbers.

Lemma reachable_acked_at (a : arq) (s : Z) :
  reachable_acked a = true -> 0 <= s < 256 ->
  match block_at s a with
  | Some (_, block) => acknowledged block = true
  | None => True
  end.
Proof.
  intros H Hs. unfold reachable_acked in H. rewrite forallb_forall in H.
  specialize (H s). destruct (block_at s a) as [[i b]|]; [|exact I].
  apply H. unfold sequence_numbers. apply in_map_iff. exists (Z.to_nat s).
  split; [lia | apply in_seq; lia].
Qed.

Lemma send_next_blocks_loop_spins (fuel : nat) :
  forall (sent : Z) (a : arq),
    256 <= Z.of_nat (length (m_tx_blocks a)) ->
    sent < m_window_size a ->
    0 <= m_next_tx_sequence a < 256 ->
    reachable_acked a = true ->
    send_next_blocks_loop fuel sent a = None.
Proof.
  induction fuel as [|fuel IH]; intros sent a Hlen Hsent Hseq Hacked.
  - cbn [send_next_blocks_loop].
    destruct (Z.ltb_spec sent (m_window_size a)); [|lia].
    destruct (Z.ltb_spec (m_next_tx_sequence a) (Z.of_nat (length (m_tx_blocks a))));
      [reflexivity | lia].
  - cbn [send_next_blocks_loop].
    destruct (Z.ltb_spec sent (m_window_size a)); [|lia].
    destruct (Z.ltb_spec (m_next_tx_sequence a) (Z.of_nat (length (m_tx_blocks a))));
      [|lia].
    cbn [andb].
    pose proof (reachable_acked_at a (m_next_tx_sequence a) Hacked Hseq) as Hb.
    assert (Hstep :
      (match block_at (m_next_tx_sequence a) a with
       | Some (_, block) =>
           if negb (acknowledged block)
           then (sent + 1, send_block (m_next_tx_sequence a) a)
           else (sent, a)
       | None => (sent, a)
       end) = (sent, a)).
    { destruct (block_at (m_next_tx_sequence a) a) as [[i b]|]; [|reflexivity].
      rewrite Hb. reflexivity. }
    rewrite Hstep. apply IH.
    + exact Hlen.
    + exact Hsent.
    + cbn. unfold u8. apply Z.mod_pos_bound. lia.
    + exact Hacked.
Qed.

End Window.

(** X28.  With 256 or more blocks to transmit, [send_next_blocks] does not
    return once every block [find_block] reaches is acknowledged: the 8-bit
    [m_next_tx_sequence] is always below the number of blocks, and no block
    is sent, so the window loop never ends.  A machine in [WAIT_ACK] with an
    empty retransmit queue and an unacknowledged block left (one that shares
    its number with an earlier block) enters that loop on [ACK_RECEIVED]:
    no amount of fuel lets [process_event] return. *)
Theorem ack_received_never_returns (fuel : nat) (a : VariableARQ.arq) :
  VariableARQ.m_state a = VariableARQ.WAIT_ACK ->
  VariableARQ.m_retransmit_queue a = [] ->
  VariableARQ.all_blocks_acked a = false ->
  reachable_acked a = true ->
  256 <= Z.of_nat (length (VariableARQ.m_tx_blocks a)) ->
  0 < VariableARQ.m_window_size a ->
  0 <= VariableARQ.m_next_tx_sequence a < 256 ->
  VariableARQ.process_event fuel VariableARQ.ACK_RECEIVED a = None.
Proof.
  intros Hstate Hqueue Hall Hacked Hlen Hwin Hseq.
  destruct fuel as [|fuel]; [reflexivity|].
  cbn [VariableARQ.process_event]. rewrite Hstate.
  unfold VariableARQ.handle_wait_ack. rewrite Hall, Hqueue.
  unfold VariableARQ.send_next_blocks.
  destruct (transition_to_fields VariableARQ.TX_DATA a) as (_ & T2 & T3 & T4).
  rewrite send_next_blocks_loop_spins; [reflexivity | | | |].
  - rewrite T2. exact Hlen.
  - rewrite T3. exact Hwin.
  - rewrite T4. exact Hseq.
  - unfold reachable_acked, VariableARQ.block_at, VariableARQ.find_block in *.
    rewrite T2. exact Hacked.
Qed.

(** A sender that has been told that all 256 sequence numbers of a message
    of 257 blocks arrived. *)
Definition stalled_sender : VariableARQ.arq :=
  VariableARQ.process_ack acknowledge_all
    (VariableARQ.with_tx (map (segment long_message) (seq 0 257)) [] 16 0
       (VariableARQ.transition_to VariableARQ.WAIT_ACK VariableARQ.ctor)).

Lemma ack_received_never_returns_witness :
  VariableARQ.process_event 1000 VariableARQ.ACK_RECEIVED stalled_sender = None.
Proof.
  apply (ack_received_never_returns 1000 stalled_sender).
  - vm_compute. reflexivity.
  - vm_compute. reflexivity.
  - vm_compute. reflexivity.
  - vm_compute. reflexivity.
  - vm_compute. discriminate.
  - vm_compute. reflexivity.
  - vm_compute. split; [discriminate | reflexivity].
Defined.

(** ** AQC-ALE: CRCs and slots *)

Section AQCChecks.

Import AQC.

(** Eight rounds of the CRC-8 register. *)
Definition crc8_rounds (crc : Z) : Z := Nat.iter 8 crc8_bit crc.

Definition byte_values : list Z := map Z.of_nat (seq 0 256).

Lemma byte_values_spec (x : Z) : is_byte x -> In x byte_values.
Proof.
  unfold is_byte, byte_values. intros H. apply in_map_iff. exists (Z.to_nat x).
  split; [lia | apply in_seq; lia].
Qed.

(** On bytes the eight rounds are a bijection: checked on all 256 values. *)
Lemma crc8_rounds_check :
  forallb
    (fun x =>
       (crc8_rounds x <? 256) && (0 <=? crc8_rounds x)
       && forallb (fun y => negb (crc8_rounds x =? crc8_rounds y) || (x =? y))
            byte_values)
    byte_values
  = true.
Proof. vm_compute. reflexivity. Qed.

Lemma crc8_rounds_range (x : Z) : is_byte x -> is_byte (crc8_rounds x).
Proof.
  intros Hx. pose proof crc8_rounds_check as H.
  rewrite forallb_forall in H. specialize (H x (byte_values_spec x Hx)).
  apply andb_prop in H as [H _]. apply andb_prop in H as [H1 H2].
  unfold is_byte. lia.
Qed.

Lemma crc8_rounds_inj (x y : Z) :
  is_byte x -> is_byte y -> crc8_rounds x = crc8_rounds y -> x = y.
Proof.
  intros Hx Hy E. pose proof crc8_rounds_check as H.
  rewrite forallb_forall in H. specialize (H x (byte_values_spec x Hx)).
  apply andb_prop in H as [_ H]. rewrite forallb_forall in H.
  specialize (H y (byte_values_spec y Hy)). rewrite E, Z.eqb_refl in H.
  cbn [negb orb] in H. lia.
Qed.

Lemma is_byte_lxor (a b : Z) : is_byte a -> is_byte b -> is_byte (Z.lxor a b).
Proof.
  unfold is_byte. change 256 with (2 ^ 8). intros. apply lxor_range; lia.
Qed.

Lemma crc8_byte_range (crc d : Z) : is_byte crc -> is_byte d -> is_byte (crc8_byte crc d).
Proof. intros Hc Hd. apply crc8_rounds_range, is_byte_lxor; assumption. Qed.

Definition crc8_fold (data : list Z) (crc : Z) : Z := fold_left crc8_byte data crc.

Lemma crc8_fold_range (data : list Z) :
  forall crc, Forall is_byte data -> is_byte crc -> is_byte (crc8_fold data crc).
Proof.
  induction data as [|d data IH]; intros crc Hd Hc; [exact Hc|].
  inversion Hd; subst. cbn. apply IH; [assumption|]. apply crc8_byte_range; assumption.
Qed.

Lemma crc8_fold_inj (data : list Z) :
  forall c1 c2, Forall is_byte data -> is_byte c1 -> is_byte c2 ->
                crc8_fold data c1 = crc8_fold data c2 -> c1 = c2.
Proof.
  induction data as [|d data IH]; intros c1 c2 Hd H1 H2 E; [exact E|].
  inversion Hd; subst. cbn in E.
  apply IH in E; [|assumption | apply crc8_byte_range; assumption ..].
  unfold crc8_byte in E. fold (crc8_rounds (Z.lxor c1 d)) in E.
  fold (crc8_rounds (Z.lxor c2 d)) in E.
  apply crc8_rounds_inj in E; [|apply is_byte_lxor; assumption ..].
  apply lxor_cancel_r in E. exact E.
Qed.

(** Changing one byte of the data changes its CRC-8. *)
Lemma calculate_crc8_one_byte (pre post : list Z) (b b' : Z) :
  Forall is_byte pre -> Forall is_byte post -> is_byte b -> is_byte b' -> b <> b' ->
  calculate_crc8 (pre ++ b :: post) <> calculate_crc8 (pre ++ b' :: post).
Proof.
  intros Hpre Hpost Hb Hb' Hne E. unfold calculate_crc8 in E.
  rewrite !fold_left_app in E. cbn [fold_left] in E.
  fold (crc8_fold pre 0) in E. set (c := crc8_fold pre 0) in E.
  assert (Hc : is_byte c) by (apply crc8_fold_range; [assumption | unfold is_byte; lia]).
  fold (crc8_fold post (crc8_byte c b)) in E.
  fold (crc8_fold post (crc8_byte c b')) in E.
  apply crc8_fold_inj in E; [|assumption | apply crc8_byte_range; assumption ..].
  unfold crc8_byte in E. fold (crc8_rounds (Z.lxor c b)) in E.
  fold (crc8_rounds (Z.lxor c b')) in E.
  apply crc8_rounds_inj in E; [|apply is_byte_lxor; assumption ..].
  apply lxor_cancel_l in E. contradiction.
Qed.

Lemma validate_crc8_message (msg : list Z) (c : Z) :
  validate_crc8 (msg ++ [c]) = (c =? calculate_crc8 msg).
Proof.
  unfold validate_crc8, size. rewrite length_app. cbn [length].
  destruct (Z.ltb_spec (Z.of_nat (length msg + 1)) 1); [lia|].
  replace (Z.to_nat (Z.of_nat (length msg + 1) - 1)) with (length msg) by lia.
  rewrite take_app_length. unfold byte_at.
  replace (Z.to_nat (Z.of_nat (length msg + 1) - 1)) with (length msg + 0)%nat by lia.
  rewrite app_nth2_plus. reflexivity.
Qed.

Lemma calculate_crc8_leading_zeros (n : nat) (data : list Z) :
  calculate_crc8 (repeat 0 n ++ data) = calculate_crc8 data.
Proof.
  unfold calculate_crc8. rewrite fold_left_app. f_equal.
  induction n as [|n IH]; [reflexivity|]. cbn [repeat fold_left].
  change (crc8_byte 0 0) with 0. exact IH.
Qed.

Lemma crc16_bit_range (crc : Z) : 0 <= crc16_bit crc < 65536.
Proof.
  unfold crc16_bit. destruct (negb _); unfold u16; apply Z.mod_pos_bound; lia.
Qed.

Lemma calculate_crc16_range (data : list Z) : 0 <= calculate_crc16 data < 65536.
Proof.
  unfold calculate_crc16.
  assert (H : forall crc, 0 <= crc < 65536 -> 0 <= fold_left crc16_byte data crc < 65536).
  { induction data as [|d data IH]; intros crc Hc; [exact Hc|].
    cbn [fold_left]. apply IH. unfold crc16_byte. cbn [Nat.iter]. apply crc16_bit_range. }
  apply H. lia.
Qed.

Lemma validate_crc16_message (msg : list Z) (hi lo : Z) :
  validate_crc16 (msg ++ [hi; lo])
  = (u16 (Z.lor (Z.shiftl (u16 hi) 8) lo) =? calculate_crc16 msg).
Proof.
  unfold validate_crc16, size. rewrite length_app. cbn [length].
  destruct (Z.ltb_spec (Z.of_nat (length msg + 2)) 2); [lia|].
  replace (Z.to_nat (Z.of_nat (length msg + 2) - 2)) with (length msg) by lia.
  rewrite take_app_length. unfold byte_at.
  replace (Z.to_nat (Z.of_nat (length msg + 2) - 2)) with (length msg + 0)%nat by lia.
  replace (Z.to_nat (Z.of_nat (length msg + 2) - 1)) with (length msg + 1)%nat by lia.
  rewrite !app_nth2_plus. reflexivity.
Qed.

End AQCChecks.

(** X22.  Both AQC checks accept data followed by the CRC computed over
    it (CRC-16 high byte first) and reject buffers too short to hold a CRC.
    The CRC-8 check rejects the data with any one byte changed; but its
    register starts at zero, so it accepts the data behind any number of
    added zero bytes. *)
Theorem aqc_crc_checks (data : list Z) :
  let c8 := AQC.calculate_crc8 data in
  let c16 := AQC.calculate_crc16 data in
  AQC.validate_crc8 (data ++ [c8]) = true
  /\ AQC.validate_crc16 (data ++ [Z.shiftr c16 8; Z.land c16 0xFF]) = true
  /\ (forall n : nat, AQC.validate_crc8 (repeat 0 n ++ data ++ [c8]) = true)
  /\ (forall (pre post : list Z) (b b' : Z),
         data = pre ++ b :: post -> Forall is_byte data -> is_byte b' -> b' <> b ->
         AQC.validate_crc8 (pre ++ b' :: post ++ [c8]) = false)
  /\ AQC.validate_crc8 [] = false
  /\ (forall x : Z, AQC.validate_crc16 [x] = false).
Proof.
  cbv zeta. split; [|split; [|split; [|split; [|split]]]].
  - rewrite validate_crc8_message. apply Z.eqb_refl.
  - rewrite validate_crc16_message. apply Z.eqb_eq.
    pose proof (calculate_crc16_range data) as Hc.
    set (c := AQC.calculate_crc16 data) in *.
    assert (Hhi : u16 (Z.shiftr c 8) = Z.shiftr c 8).
    { unfold u16. apply Z.mod_small. rewrite Z.shiftr_div_pow2 by lia.
      change (2 ^ 8) with 256. Z.div_mod_to_equations. lia. }
    rewrite Hhi, land_FF.
    rewrite lor_shiftl_add by (change (2 ^ 8) with 256; try apply Z.mod_pos_bound; lia).
    rewrite Z.shiftr_div_pow2 by lia. change (2 ^ 8) with 256. unfold u16.
    Z.div_mod_to_equations. lia.
  - intros n. rewrite app_assoc, validate_crc8_message, calculate_crc8_leading_zeros.
    apply Z.eqb_refl.
  - intros pre post b b' -> Hdata Hb' Hne.
    change (pre ++ b' :: post ++ [AQC.calculate_crc8 (pre ++ b :: post)])
      with (pre ++ (b' :: post) ++ [AQC.calculate_crc8 (pre ++ b :: post)]).
    rewrite app_assoc, validate_crc8_message. apply Z.eqb_neq.
    apply Forall_app in Hdata as [Hpre Hrest]. inversion Hrest; subst.
    apply calculate_crc8_one_byte; auto.
  - reflexivity.
  - intros x. reflexivity.
Qed.

Lemma aqc_crc_checks_witness :
  AQC.validate_crc8 [1; 2; 3; 72] = true
  /\ AQC.validate_crc8 [0; 0; 1; 2; 3; 72] = true
  /\ AQC.validate_crc8 [1; 7; 3; 72] = false.
Proof.
  destruct (aqc_crc_checks [1; 2; 3]) as (H1 & _ & H3 & H4 & _).
  split; [exact H1|]. split; [exact (H3 2%nat)|].
  apply (H4 [1] [3] 2 7 eq_refl).
  - repeat constructor; unfold is_byte; lia.
  - unfold is_byte; lia.
  - lia.
Defined.

(** ** AQC-ALE: slots *)

Section Slots.

Import AQC.

Lemma char_to_u32_mod8 (char_signed : bool) (c : ascii) :
  0 <= char_to_u32 char_signed c < 4294967296
  /\ char_to_u32 char_signed c mod 8 = AddressBook.char_code c mod 8.
Proof.
  unfold char_to_u32, AddressBook.char_code.
  pose proof (nat_ascii_bounded c) as Hc.
  destruct char_signed; cbn [andb].
  - destruct (Z.leb_spec 128 (Z.of_nat (nat_of_ascii c))).
    + unfold u32. split; [apply Z.mod_pos_bound; lia|].
      Z.div_mod_to_equations. lia.
    + split; [lia | reflexivity].
  - split; [lia | reflexivity].
Qed.

Definition code_sum (address : string) : Z :=
  fold_right (fun c acc => AddressBook.char_code c + acc) 0 (list_ascii_of_string address).

Lemma slot_hash_mod8 (char_signed : bool) (l : list ascii) :
  forall hash,
    0 <= hash < 4294967296 ->
    let h := fold_left (fun hash ch => u32 (hash + char_to_u32 char_signed ch)) l hash in
    0 <= h < 4294967296
    /\ h mod 8 = (hash + fold_right (fun c acc => AddressBook.char_code c + acc) 0 l) mod 8.
Proof.
  induction l as [|c l IH]; intros hash Hh; cbv zeta.
  - cbn. rewrite Z.add_0_r. split; [exact Hh | reflexivity].
  - cbn [fold_left fold_right].
    destruct (char_to_u32_mod8 char_signed c) as [Hr Hm].
    assert (Hu : 0 <= u32 (hash + char_to_u32 char_signed c) < 4294967296)
      by (unfold u32; apply Z.mod_pos_bound; lia).
    destruct (IH _ Hu) as [H1 H2]. cbv zeta in H1, H2.
    split; [exact H1|]. rewrite H2. unfold u32.
    set (s := fold_right (fun c acc => AddressBook.char_code c + acc) 0 l).
    Z.div_mod_to_equations. lia.
Qed.

Lemma code_sum_permutation (l l' : list ascii) :
  Permutation l l' ->
  fold_right (fun c acc => AddressBook.char_code c + acc) 0 l
  = fold_right (fun c acc => AddressBook.char_code c + acc) 0 l'.
Proof. induction 1; cbn [fold_right]; lia. Qed.

End Slots.

(** X29.  [assign_slot] yields the sum of the character codes of the
    address modulo 8, a slot from 0 to 7, whether [char] is signed or not:
    addresses with the same characters in another order share a slot.
    [calculate_slot_time] places slot [n] at [200 * n] ms after the base
    time (modulo 2^32), and treats every slot number above 7 as slot 7. *)
Theorem assign_slot_sum (char_signed : bool) (address : string) :
  AQC.assign_slot char_signed address = code_sum address mod 8
  /\ 0 <= AQC.assign_slot char_signed address <= 7
  /\ (forall other : string,
         Permutation (list_ascii_of_string address) (list_ascii_of_string other) ->
         AQC.assign_slot char_signed other = AQC.assign_slot char_signed address)
  /\ (forall base : Z,
         AQC.calculate_slot_time (AQC.assign_slot char_signed address) base
         = u32 (base + 200 * AQC.assign_slot char_signed address))
  /\ (forall n base : Z,
         8 <= n -> AQC.calculate_slot_time n base = AQC.calculate_slot_time 7 base).
Proof.
  assert (Hslot : forall s a, AQC.assign_slot s a = code_sum a mod 8).
  { intros s a. unfold AQC.assign_slot, code_sum. cbv zeta.
    destruct (slot_hash_mod8 s (list_ascii_of_string a) 0 ltac:(lia)) as [_ H].
    cbv zeta in H. unfold AQC.NUM_SLOTS. rewrite H, Z.add_0_l.
    unfold u8. apply Z.mod_small.
    pose proof (Z.mod_pos_bound
                  (fold_right (fun c acc => AddressBook.char_code c + acc) 0
                     (list_ascii_of_string a)) 8 ltac:(lia)). lia. }
  assert (Hrange : 0 <= code_sum address mod 8 <= 7).
  { pose proof (Z.mod_pos_bound (code_sum address) 8 ltac:(lia)). lia. }
  split; [apply Hslot|]. rewrite !Hslot.
  split; [exact Hrange|]. split; [|split].
  - intros other Hperm. rewrite Hslot. f_equal. unfold code_sum.
    symmetry. apply code_sum_permutation, Hperm.
  - intros base. unfold AQC.calculate_slot_time, AQC.NUM_SLOTS, AQC.SLOT_DURATION_MS.
    destruct (Z.leb_spec 8 (code_sum address mod 8)); [lia|].
    unfold u32. rewrite Zplus_mod_idemp_r. f_equal. lia.
  - intros n base Hn. unfold AQC.calculate_slot_time, AQC.NUM_SLOTS.
    destruct (Z.leb_spec 8 n); [|lia]. reflexivity.
Qed.

(** ** LQA database: update and lookup *)

(** X30.  After [update_entry] for a channel and station, [get_entry] finds
    an entry under that key: a new one holding the reported values with a
    sample count of 1, or the old one with its sample count raised by one
    (modulo 2^32).  Its contact time (its sounding time when the station
    name is empty) is the time stamp given, or the clock when that is 0, and
    its score lies between 0 and 31.  Entries under other keys and the
    configuration are untouched, and the number of entries grows by one
    exactly when the key was new. *)
Theorem update_entry_get_entry
    (clock_now clock_score frequency : Z) (station : string)
    (snr ber_ : spec_float) (fec_errors_ total_words_ timestamp_ms : Z)
    (db : LQADatabase.database) :
  let db' := LQADatabase.update_entry clock_now clock_score frequency station snr ber_
               fec_errors_ total_words_ timestamp_ms db in
  let now := if timestamp_ms =? 0 then u32 clock_now else timestamp_ms in
  (exists e,
      LQADatabase.get_entry frequency station db' = Some e
      /\ match LQADatabase.get_entry frequency station db with
         | Some old =>
             LQADatabase.sample_count e = u32 (LQADatabase.sample_count old + 1)
             /\ LQADatabase.frequency_hz e = LQADatabase.frequency_hz old
             /\ LQADatabase.remote_station e = LQADatabase.remote_station old
         | None =>
             LQADatabase.sample_count e = 1
             /\ LQADatabase.frequency_hz e = frequency
             /\ LQADatabase.remote_station e = station
             /\ LQADatabase.snr_db e = snr
             /\ LQADatabase.ber e = ber_
             /\ LQADatabase.fec_errors e = fec_errors_
             /\ LQADatabase.total_words e = total_words_
         end
      /\ (if String.eqb station EmptyString
          then LQADatabase.last_sounding_ms e = now
          else LQADatabase.last_contact_ms e = now)
      /\ in_0_31 (LQADatabase.score e))
  /\ (forall (f : Z) (s : string),
         (f, s) <> (frequency, station) ->
         LQADatabase.get_entry f s db' = LQADatabase.get_entry f s db)
  /\ LQADatabase.get_entry_count db'
     = LQADatabase.get_entry_count db
       + (match LQADatabase.get_entry frequency station db with
          | Some _ => 0
          | None => 1
          end)
  /\ LQADatabase.get_config db' = LQADatabase.get_config db.
Proof.
  cbv zeta. unfold LQADatabase.get_entry, LQADatabase.get_entry_count,
    LQADatabase.get_config, LQADatabase.update_entry, LQADatabase.get_current_time_ms.
  destruct (LQADatabase.entries_ db !! (frequency, station)) as [old|] eqn:E;
    cbn [LQADatabase.entries_ LQADatabase.config_].
  - split; [|split; [|split]].
    + eexists. split; [apply lookup_insert_eq|].
      cbn [LQADatabase.sample_count LQADatabase.frequency_hz LQADatabase.remote_station
           LQADatabase.set_score LQADatabase.stamp LQADatabase.score
           LQADatabase.last_sounding_ms LQADatabase.last_contact_ms].
      split; [repeat split|]. split.
      * destruct (String.eqb station EmptyString); reflexivity.
      * apply compute_score_in_0_31.
    + intros f s Hne. apply lookup_insert_ne. congruence.
    + rewrite map_size_insert_Some by (rewrite E; eauto). lia.
    + reflexivity.
  - split; [|split; [|split]].
    + eexists. split; [apply lookup_insert_eq|].
      cbn [LQADatabase.sample_count LQADatabase.frequency_hz LQADatabase.remote_station
           LQADatabase.set_score LQADatabase.stamp LQADatabase.score
           LQADatabase.last_sounding_ms LQADatabase.last_contact_ms
           LQADatabase.snr_db LQADatabase.ber LQADatabase.fec_errors
           LQADatabase.total_words].
      split; [repeat split|]. split.
      * destruct (String.eqb station EmptyString); reflexivity.
      * apply compute_score_in_0_31.
    + intros f s Hne. apply lookup_insert_ne. congruence.
    + rewrite map_size_insert_None by exact E. lia.
    + reflexivity.
Qed.
